(** * Client-management application: a shallow embedding and its properties

    The application is a set of pages over a hosted document store.  This
    development embeds the pure helpers (lookups, grouping, CSV formatting,
    invoice numbering) as functions, and the page handlers (fetch, save,
    delete) as computations in a small state-and-exception monad over the
    remote store, the page's local state and the list of notifications.

    Conventions of the embedding:
    - the numbers a document or a form holds are rationals ([Qc]); the
      figures of the dashboard and of the reports, and the invoice numbers,
      are computed on doubles ([Double.t], [JS.whole]), every operation
      giving the nearest double; the amounts and the total of an invoice
      form and the hours of a period are computed on the rationals; values
      that the code only ever uses as small integers (counts, milliseconds,
      whole minutes) are [Z] or [nat];
    - a JavaScript string is a [string] whose characters are the UTF-16 code
      units below 256 (the Latin-1 range), on which [toLowerCase], [trim] and
      [parseInt] act as the language defines; strings with other code units
      are outside the model;
    - an object used as a dictionary is an association list in insertion
      order; [Dict.ownEntries] lists it in the order of [Object.entries],
      the array indices first;
    - a field the code treats as possibly missing is an [option]. *)

From Stdlib Require Import List String Ascii Bool Arith ZArith NArith Lia.
From Stdlib Require Import QArith Qcanon Qround Permutation.
From Stdlib Require Import DecimalString DecimalN DecimalPos DecimalFacts.
From Stdlib Require Import Sorted.
Import ListNotations.

Set Implicit Arguments.

Close Scope Qc_scope.
Close Scope Q_scope.

(* ================================================================= *)
(** ** The JavaScript primitives the pages use *)

Module JS.

Definition number := Qc.

Definition ofZ (z : Z) : number := Q2Qc (inject_Z z).

(** [Math.floor] and [Math.round] (ties go towards plus infinity). *)
Definition Math_floor (x : number) : Z := Qfloor x.
Definition Math_round (x : number) : Z :=
  Qfloor (x + Q2Qc (1 # 2))%Qc.

(** [x || 0] on a possibly missing number: a missing value and [0] are
    both falsy. *)
Definition orZero (x : option number) : number :=
  match x with
  | Some v => v
  | None => 0%Qc
  end.

(** [s || d] on a possibly missing string: the empty string is falsy. *)
Definition orString (x : option string) (d : string) : string :=
  match x with
  | Some EmptyString => d
  | Some v => v
  | None => d
  end.

(** [toLowerCase] on one character of the Latin-1 range: the letters A to Z
    and the accented capitals U+00C0 to U+00DE move up by 32, the
    multiplication sign U+00D7 among them apart. *)
Definition lowerChar (c : ascii) : ascii :=
  let n := nat_of_ascii c in
  if ((65 <=? n) && (n <=? 90)
      || (192 <=? n) && (n <=? 222) && negb (n =? 215))%nat
  then ascii_of_nat (n + 32) else c.

Fixpoint toLowerCase (s : string) : string :=
  match s with
  | EmptyString => EmptyString
  | String c r => String (lowerChar c) (toLowerCase r)
  end.

(** [s.startsWith(p)] *)
Fixpoint startsWith (s p : string) : bool :=
  match p, s with
  | EmptyString, _ => true
  | String _ _, EmptyString => false
  | String a p', String b s' => Ascii.eqb a b && startsWith s' p'
  end.

(** [s.includes(sub)] *)
Fixpoint includes (s sub : string) : bool :=
  match s with
  | EmptyString => startsWith EmptyString sub
  | String _ r => startsWith s sub || includes r sub
  end.

(** [l.join(sep)] *)
Definition join (sep : string) (l : list string) : string :=
  String.concat sep l.

(** [s.split(sep)] for a one-character separator: never empty. *)
Fixpoint split (sep : ascii) (s : string) : list string :=
  match s with
  | EmptyString => [EmptyString]
  | String c r =>
      if Ascii.eqb c sep then EmptyString :: split sep r
      else match split sep r with
           | [] => [String c EmptyString]
           | w :: ws => String c w :: ws
           end
  end.

(** [s.replace(/c/g, by)] for a one-character pattern. *)
Fixpoint replaceAll (c : ascii) (by_ : string) (s : string) : string :=
  match s with
  | EmptyString => EmptyString
  | String a r =>
      if Ascii.eqb a c then String.append by_ (replaceAll c by_ r)
      else String a (replaceAll c by_ r)
  end.

Fixpoint repeat (c : ascii) (n : nat) : string :=
  match n with
  | O => EmptyString
  | S k => String c (repeat c k)
  end.

(** [s.padStart(n, c)] for a one-character filler. *)
Definition padStart (n : nat) (c : ascii) (s : string) : string :=
  String.append (repeat c (n - String.length s)) s.

(** [String(n)] for an integer. *)
Definition String_ofZ (z : Z) : string :=
  NilZero.string_of_int (Z.to_int z).

(** *** [parseInt(s)] with no radix argument *)

(** White space and line terminators, as [trim] and [parseInt] strip them:
    in the Latin-1 range the codes 9 to 13, the space and the no-break space
    U+00A0. *)
Definition isWhiteSpace (c : ascii) : bool :=
  let n := nat_of_ascii c in
  ((9 <=? n) && (n <=? 13) || (n =? 32) || (n =? 160))%nat.

Fixpoint trimStart (s : string) : string :=
  match s with
  | EmptyString => EmptyString
  | String c r => if isWhiteSpace c then trimStart r else s
  end.

Definition digitValue (radix : N) (c : ascii) : option N :=
  let n := N_of_ascii c in
  let v :=
    if ((48 <=? n) && (n <=? 57))%N then Some (n - 48)%N
    else if ((97 <=? n) && (n <=? 122))%N then Some (n - 87)%N
    else if ((65 <=? n) && (n <=? 90))%N then Some (n - 55)%N
    else None in
  match v with
  | Some d => if (d <? radix)%N then Some d else None
  | None => None
  end.

(** The longest prefix of radix digits, as a number; [acc] is [None] until
    a first digit has been read. *)
Fixpoint parseDigits (radix : N) (s : string) (acc : option N) : option N :=
  match s with
  | EmptyString => acc
  | String c r =>
      match digitValue radix c with
      | Some d =>
          parseDigits radix r
            (Some (radix * match acc with Some a => a | None => 0 end + d)%N)
      | None => acc
      end
  end.

(** A leading sign: [-] makes the result negative, [+] is dropped. *)
Definition stripSign (s : string) : Z * string :=
  match s with
  | String c r =>
      if Ascii.eqb c "-" then ((-1)%Z, r)
      else if Ascii.eqb c "+" then (1%Z, r)
      else (1%Z, s)
  | EmptyString => (1%Z, s)
  end.

(** A leading [0x] or [0X] selects radix 16, and radix 10 is used without. *)
Definition stripPrefix (s : string) : N * string :=
  match s with
  | String c1 (String c2 r) =>
      if Ascii.eqb c1 "0" && (Ascii.eqb c2 "x" || Ascii.eqb c2 "X")
      then (16%N, r)
      else (10%N, s)
  | _ => (10%N, s)
  end.

(** [None] is [NaN]. *)
Definition parseInt (s : string) : option Z :=
  let '(sign, s2) := stripSign (trimStart s) in
  let '(radix, s3) := stripPrefix s2 in
  match parseDigits radix s3 None with
  | Some n => Some (sign * Z.of_N n)%Z
  | None => None
  end.

(** [parseInt(a[i])]: an index out of range reads [undefined], which does
    not parse. *)
Definition parseIntAt (a : list string) (i : nat) : option Z :=
  match nth_error a i with
  | Some s => parseInt s
  | None => None
  end.

(** *** Property keys

    An object written [{}] inherits the properties of [Object.prototype]
    under these names, and [Object.entries] lists the keys that are array
    indices first: the decimal numerals, without leading zeros, of the
    whole numbers below 2^32 - 1. *)

Definition inheritedKeys : list string :=
  ["constructor"; "__proto__"; "hasOwnProperty"; "isPrototypeOf";
   "propertyIsEnumerable"; "toLocaleString"; "toString"; "valueOf";
   "__defineGetter__"; "__defineSetter__"; "__lookupGetter__";
   "__lookupSetter__"]%string.

Definition isInherited (k : string) : bool :=
  existsb (String.eqb k) inheritedKeys.

Definition arrayIndex (k : string) : option Z :=
  match parseInt k with
  | Some n =>
      if String.eqb (String_ofZ n) k && (0 <=? n)%Z && (n <? 2 ^ 32 - 1)%Z
      then Some n else None
  | None => None
  end.

(** *** Whole numbers held in a [number]

    A [number] is a double.  It holds every whole number up to 2^53 in size
    exactly; beyond, a whole number is rounded to the nearest double, to the
    one with the even mantissa in a tie, and from 2^1024 on to an
    infinity. *)

Inductive whole :=
| Whole (z : Z)
| Infinity (negative : bool).

Definition roundWhole (z : Z) : whole :=
  let a := Z.abs z in
  if (a <? 2 ^ 53)%Z then Whole z
  else
    let e := (Z.log2 a - 52)%Z in
    let q := (a / 2 ^ e)%Z in
    let r := (a mod 2 ^ e)%Z in
    let half := (2 ^ (e - 1))%Z in
    let up := (half <? r)%Z || ((r =? half)%Z && Z.odd q) in
    let v := ((if up then q + 1 else q) * 2 ^ e)%Z in
    if (2 ^ 1024 <=? v)%Z then Infinity (z <? 0)%Z
    else Whole (Z.sgn z * v)%Z.

(** [parseInt] as the code sees it: the double nearest to the number
    read.  (From the twenty-first digit on an engine may read zeros
    instead; such numerals are outside the model.) *)
Definition parseIntNumberAt (a : list string) (i : nat) : option whole :=
  option_map roundWhole (parseIntAt a i).

(** The place of a number among the others; the doubles that occur are all
    smaller than 2^1024 in size. *)
Definition rank (a : whole) : Z :=
  match a with
  | Whole z => z
  | Infinity false => (2 ^ 1024)%Z
  | Infinity true => (- 2 ^ 1024)%Z
  end.

(** [a > b] *)
Definition gtb (a b : whole) : bool := (rank a >? rank b)%Z.

Definition wholeEqb (a b : whole) : bool :=
  match a, b with
  | Whole x, Whole y => (x =? y)%Z
  | Infinity x, Infinity y => Bool.eqb x y
  | _, _ => false
  end.

(** [a + 1] *)
Definition succ (a : whole) : whole :=
  match a with
  | Whole z => roundWhole (z + 1)
  | Infinity negative => Infinity negative
  end.

(** [String(n)] for a whole number.  Up to 2^53 the digits are those of the
    number.  Beyond, they are the fewest digits that, followed by zeros,
    still round to the double, the nearest such numeral if there are
    several; a numeral of more than 21 digits is written with an
    exponent. *)
Definition digitCount (v : Z) : Z := Z.of_nat (String.length (String_ofZ v)).

Definition numerals (v k : Z) : list (Z * (Z * Z)) :=
  flat_map
    (fun n =>
       let scale := (10 ^ (n - k))%Z in
       map (fun s => (Z.abs (s * scale - v), (s, n)))
         (filter
            (fun s =>
               (10 ^ (k - 1) <=? s)%Z && (s <? 10 ^ k)%Z
               && wholeEqb (roundWhole (s * scale)) (Whole v))
            [(v / scale)%Z; (v / scale + 1)%Z]))
    [digitCount v; (digitCount v + 1)%Z].

Definition nearest (l : list (Z * (Z * Z))) : option (Z * Z) :=
  option_map snd
    (fold_left
       (fun best c =>
          match best with
          | None => Some c
          | Some b =>
              if (fst c <? fst b)%Z
                 || ((fst c =? fst b)%Z && Z.even (fst (snd c)))
              then Some c else Some b
          end)
       l None).

(** The digits and the length of the numeral of a whole double [v] above
    2^53: the first number of digits, from one to seventeen, that gives
    one. *)
Definition shortest (v : Z) : Z * Z :=
  match
    fold_left
      (fun found k =>
         match found with
         | Some r => Some r
         | None => nearest (numerals v k)
         end)
      (map Z.of_nat (seq 1 17)) None
  with
  | Some r => r
  | None => (v, digitCount v)
  end.

Definition zeros (n : Z) : string := repeat "0" (Z.to_nat n).

Definition String_ofLarge (v : Z) : string :=
  let (s, n) := shortest v in
  let ds := String_ofZ s in
  if (n <=? 21)%Z then String.append ds (zeros (n - digitCount s))
  else
    let mantissa :=
      match ds with
      | String d EmptyString => ds
      | String d rest => String d (String "." rest)
      | EmptyString => ds
      end in
    String.append mantissa (String.append "e+" (String_ofZ (n - 1))).

Definition String_ofNumber (a : whole) : string :=
  match a with
  | Whole z =>
      if (Z.abs z <=? 2 ^ 53)%Z then String_ofZ z
      else if (z <? 0)%Z then String "-" (String_ofLarge (Z.abs z))
      else String_ofLarge z
  | Infinity false => "Infinity"
  | Infinity true => "-Infinity"
  end.

End JS.

(* ================================================================= *)
(** ** Double arithmetic

    The sums and quotients the pages show are computed on doubles: every
    operation gives the double nearest to the exact result, the one with
    the even mantissa midway between two, an infinity from 2^1024 on.  A
    number of a document is read as the double nearest to it. *)

Module Double.

(** A double: a finite value, an infinity or NaN.  The two zeros are not
    told apart. *)
Inductive t :=
| Finite (q : JS.number)
| Infinity (negative : bool)
| NaN.

Definition zero : t := Finite 0%Qc.

Definition ofZ (z : Z) : t := Finite (JS.ofZ z).

(** [2^e] for any whole [e] *)
Definition pow2 (e : Z) : JS.number :=
  if (0 <=? e)%Z then JS.ofZ (2 ^ e) else (1 / JS.ofZ (2 ^ (- e)))%Qc.

(** The numerator and the denominator of [n/d / 2^e]. *)
Definition scaled (n d e : Z) : Z * Z :=
  if (0 <=? e)%Z then (n, d * 2 ^ e)%Z else (n * 2 ^ (- e), d)%Z.

(** The mantissa and the exponent of the double nearest to [n/d], for
    positive [n] and [d]: the exponent [e] is the one for which [n/d / 2^e]
    lies from 2^52 to 2^53, and at least -1074; the mantissa is
    [n/d / 2^e] rounded to the nearest whole number, to the even one
    midway. *)
Definition nearest (n d : Z) : Z * Z :=
  let e1 := Z.max (Z.log2 n - Z.log2 d - 53) (- 1074) in
  let e :=
    if (2 ^ 53 <=? fst (scaled n d e1) / snd (scaled n d e1))%Z
    then (e1 + 1)%Z else e1 in
  let N := fst (scaled n d e) in
  let D := snd (scaled n d e) in
  let q := (N / D)%Z in
  let r := (N mod D)%Z in
  let up := (D <? 2 * r)%Z || ((2 * r =? D)%Z && Z.odd q) in
  (if up then (q + 1)%Z else q, e).

(** The double nearest to a rational number. *)
Definition round (x : JS.number) : t :=
  let n := Qnum x in
  if (n =? 0)%Z then zero
  else
    let (m, e) := nearest (Z.abs n) (Zpos (Qden x)) in
    if (0 <=? e)%Z && (2 ^ 1024 <=? m * 2 ^ e)%Z then Infinity (n <? 0)%Z
    else Finite (JS.ofZ (Z.sgn n * m) * pow2 e)%Qc.

Definition isZero (x : JS.number) : bool := (Qnum x =? 0)%Z.
Definition isNegative (x : JS.number) : bool := (Qnum x <? 0)%Z.

(** [a + b] *)
Definition add (a b : t) : t :=
  match a, b with
  | Finite x, Finite y => round (x + y)%Qc
  | Finite _, Infinity s => Infinity s
  | Infinity s, Finite _ => Infinity s
  | Infinity s, Infinity s' => if Bool.eqb s s' then Infinity s else NaN
  | _, _ => NaN
  end.

(** [a * b] *)
Definition mul (a b : t) : t :=
  match a, b with
  | Finite x, Finite y => round (x * y)%Qc
  | Finite x, Infinity s =>
      if isZero x then NaN else Infinity (xorb (isNegative x) s)
  | Infinity s, Finite y =>
      if isZero y then NaN else Infinity (xorb s (isNegative y))
  | Infinity s, Infinity s' => Infinity (xorb s s')
  | _, _ => NaN
  end.

(** [a / b]; a zero divisor is taken as the positive zero. *)
Definition div (a b : t) : t :=
  match a, b with
  | Finite x, Finite y =>
      if isZero y
      then if isZero x then NaN else Infinity (isNegative x)
      else round (x / y)%Qc
  | Finite _, Infinity _ => zero
  | Infinity s, Finite y => Infinity (xorb s (isNegative y))
  | _, _ => NaN
  end.

(** [Math.round]: the nearest whole number, the upper one midway. *)
Definition Math_round (a : t) : t :=
  match a with
  | Finite x => Finite (JS.ofZ (JS.Math_round x))
  | other => other
  end.

(** [a || 0] on a possibly missing number: a missing value, zero and NaN
    are falsy. *)
Definition orZero (a : option t) : t :=
  match a with
  | Some (Finite x) => Finite x
  | Some (Infinity s) => Infinity s
  | Some NaN => zero
  | None => zero
  end.

(** The number a document holds in a field, when it has the field. *)
Definition read (x : option JS.number) : option t := option_map round x.

(** A field used in arithmetic: [undefined] counts as NaN. *)
Definition field (x : option JS.number) : t :=
  match x with
  | Some v => round v
  | None => NaN
  end.

Definition eqb (a b : t) : bool :=
  match a, b with
  | Finite x, Finite y => Qc_eq_bool x y
  | Infinity s, Infinity s' => Bool.eqb s s'
  | NaN, NaN => true
  | _, _ => false
  end.

End Double.

(* ================================================================= *)
(** ** Objects used as dictionaries *)

Module Dict.

Section WithValue.
Variable V : Type.

Definition t := list (string * V).

(** [o[k]] *)
Fixpoint get (k : string) (o : t) : option V :=
  match o with
  | [] => None
  | (k', v) :: r => if String.eqb k k' then Some v else get k r
  end.

(** [o[k] = f(o[k])]: an existing key keeps its place, a new key goes
    last. *)
Fixpoint upsert (k : string) (f : option V -> V) (o : t) : t :=
  match o with
  | [] => [(k, f None)]
  | (k', v) :: r =>
      if String.eqb k k' then (k', f (Some v)) :: r
      else (k', v) :: upsert k f r
  end.

(** The entries in the order the keys were added, and the keys. *)
Definition entries (o : t) : list (string * V) := o.

Definition keys (o : t) : list string := map fst o.

(** [Object.entries(o)]: the keys that are array indices in ascending
    order, then the other keys in the order they were added. *)
Definition isIndex (kv : string * V) : bool :=
  match JS.arrayIndex (fst kv) with
  | Some _ => true
  | None => false
  end.

Definition indexOf (kv : string * V) : Z :=
  match JS.arrayIndex (fst kv) with
  | Some n => n
  | None => 0%Z
  end.

Fixpoint insertByIndex (kv : string * V) (l : list (string * V))
    : list (string * V) :=
  match l with
  | [] => [kv]
  | x :: r =>
      if (indexOf kv <=? indexOf x)%Z then kv :: l
      else x :: insertByIndex kv r
  end.

Definition ownEntries (o : t) : list (string * V) :=
  fold_right insertByIndex [] (filter isIndex o)
  ++ filter (fun kv => negb (isIndex kv)) o.
End WithValue.

End Dict.

(* ================================================================= *)
(** ** The remote document store

    The store is a hosted service outside the repository.  Its collections are
    lists of typed documents, with the fields the pages read and write; time
    stamps are milliseconds since the epoch.  Queries and writes follow the
    documented behaviour of the client library the pages import. *)

Module Firestore.

Record InvoiceItem := {
  description : string;
  quantity : JS.number;
  rate : JS.number;
  amount : JS.number
}.

Record ClientDoc := {
  c_id : string;
  c_userId : string;
  c_name : option string;
  c_email : option string;
  c_createdAt : option Z
}.

Record TaskDoc := {
  t_id : string;
  t_userId : string;
  t_clientId : option string;
  t_title : option string;
  t_status : option string;
  t_progress : option JS.number;
  t_dueDate : option string;
  t_createdAt : option string
}.

(** A [timeTracking] document carries the fields the time-tracking page
    writes ([startTime], [endTime], [duration], ...) and those the
    dashboard reads ([hours], [date]); [tt_date] is the time value of
    [new Date(data.date)], [None] for an invalid date. *)
Record TimeDoc := {
  tt_id : string;
  tt_userId : option string;
  tt_taskId : string;
  tt_clientId : string;
  tt_startTime : option Z;
  tt_endTime : option Z;
  tt_duration : option Z;
  tt_notes : option string;
  tt_createdAt : option Z;
  tt_hours : option JS.number;
  tt_date : option Z
}.

Record InvoiceDoc := {
  i_id : string;
  i_userId : string;
  i_invoiceNumber : string;
  i_clientId : string;
  i_clientName : option string;
  i_items : list InvoiceItem;
  i_total : option JS.number;
  i_status : string;
  i_dueDate : Z;
  i_createdAt : Z
}.

Record ActivityDoc := {
  a_id : string;
  a_userId : string;
  a_type : option string;
  a_description : option string;
  a_timestamp : option string
}.

Record Db := {
  clients : list ClientDoc;
  tasks : list TaskDoc;
  timeTracking : list TimeDoc;
  invoices : list InvoiceDoc;
  activityLogs : list ActivityDoc
}.

Definition setInvoices (l : list InvoiceDoc) (d : Db) : Db :=
  {| clients := clients d; tasks := tasks d; timeTracking := timeTracking d;
     invoices := l; activityLogs := activityLogs d |}.

Definition setTimeTracking (l : list TimeDoc) (d : Db) : Db :=
  {| clients := clients d; tasks := tasks d; timeTracking := l;
     invoices := invoices d; activityLogs := activityLogs d |}.

(** *** Queries: [query(collection, where..., orderBy..., limit)] *)

Section Query.
Variable D : Type.

Fixpoint insertBy (le : D -> D -> bool) (x : D) (l : list D) : list D :=
  match l with
  | [] => [x]
  | y :: r => if le x y then x :: l else y :: insertBy le x r
  end.

(** A stable sort for [orderBy]. *)
Fixpoint sortBy (le : D -> D -> bool) (l : list D) : list D :=
  match l with
  | [] => []
  | x :: r => insertBy le x (sortBy le r)
  end.

Record Query := {
  wheres : list (D -> bool);
  order : option (D -> D -> bool);
  limit : option nat
}.

Definition matches (q : Query) (d : D) : bool :=
  forallb (fun w => w d) (wheres q).

(** The documents of a snapshot, in order. *)
Definition getDocs (q : Query) (coll : list D) : list D :=
  let hits := filter (matches q) coll in
  let sorted := match order q with
                | Some le => sortBy le hits
                | None => hits
                end in
  match limit q with
  | Some n => firstn n sorted
  | None => sorted
  end.

(** [getDocs(collection(db, name))]: the whole collection. *)
Definition all : Query := {| wheres := []; order := None; limit := None |}.
End Query.

Definition optStringEqb (a : option string) (b : string) : bool :=
  match a with
  | Some s => String.eqb s b
  | None => false
  end.

Definition optStringLeb (a b : option string) : bool :=
  match a, b with
  | None, _ => true
  | Some _, None => false
  | Some x, Some y => String.leb x y
  end.

(** *** Writes *)

(** [updateDoc(doc(db, 'invoices', id), data)]: fails when the document
    does not exist. *)
Fixpoint updateInvoice (id : string) (f : InvoiceDoc -> InvoiceDoc)
    (l : list InvoiceDoc) : option (list InvoiceDoc) :=
  match l with
  | [] => None
  | d :: r =>
      if String.eqb (i_id d) id then Some (f d :: r)
      else match updateInvoice id f r with
           | Some r' => Some (d :: r')
           | None => None
           end
  end.

(** [deleteDoc(doc(db, 'invoices', id))] *)
Definition deleteInvoice (id : string) (l : list InvoiceDoc)
    : list InvoiceDoc :=
  filter (fun d => negb (String.eqb (i_id d) id)) l.

End Firestore.

(* ================================================================= *)
(** ** Handlers: state, notifications and exceptions

    A handler runs against the environment outside the component (the remote
    store, the outcome of the coming remote calls, the notifications shown so
    far) and the page's local state.  A remote call consumes one scripted
    reply: it either throws or goes through. *)

Module Handler.
Import Firestore.

Inductive Toast :=
| ToastError (text : string)
| ToastSuccess (text : string)
| ToastInfo (text : string)
| ToastWarning (text : string).

Inductive Reply :=
| Rejects
| Accepts (newId : string).

(** The remote calls a handler makes, by collection (and document). *)
Inductive Call :=
| GetDocs (collection : string)
| AddDoc (collection : string)
| UpdateDoc (collection docId : string)
| DeleteDoc (collection docId : string).

Record Env := {
  store : Db;
  script : list Reply;
  toasts : list Toast;
  calls : list Call
}.

Inductive result (A : Type) :=
| Returned (a : A)
| Thrown.
Arguments Thrown {A}.

Section Monad.
Variable P : Type.

Definition M (A : Type) := Env * P -> result A * (Env * P).

Definition ret {A} (a : A) : M A := fun s => (Returned a, s).

Definition bind {A B} (c : M A) (k : A -> M B) : M B :=
  fun s =>
    match c s with
    | (Returned a, s') => k a s'
    | (Thrown, s') => (Thrown, s')
    end.

Definition throw {A} : M A := fun s => (Thrown, s).

(** [try { body } catch { handler }]: what [body] did before it threw
    stays done. *)
Definition tryCatch (body handler : M unit) : M unit :=
  fun s =>
    match body s with
    | (Returned _, s') => (Returned tt, s')
    | (Thrown, s') => handler s'
    end.

(** [try { body } catch { handler } finally { fin }] *)
Definition tryCatchFinally (body handler fin : M unit) : M unit :=
  fun s =>
    match tryCatch body handler s with
    | (Returned _, s') => fin s'
    | (Thrown, s') =>
        match fin s' with
        | (_, s'') => (Thrown, s'')
        end
    end.

Definition getState : M P := fun s => (Returned (snd s), s).

Definition setState (f : P -> P) : M unit :=
  fun s => (Returned tt, (fst s, f (snd s))).

Definition message (t : Toast) : M unit :=
  fun s =>
    let e := fst s in
    (Returned tt,
     ({| store := store e; script := script e;
         toasts := toasts e ++ [t]; calls := calls e |}, snd s)).

(** [await call]: the call is made; the next scripted reply decides
    whether it throws; [call] may itself fail (a missing document). *)
Definition await {A} (c : Call)
    (call : string -> Db -> option (A * Db)) : M A :=
  fun s =>
    let e := fst s in
    match script e with
    | [] =>
        (Thrown,
         ({| store := store e; script := []; toasts := toasts e;
             calls := calls e ++ [c] |}, snd s))
    | Rejects :: rest =>
        (Thrown,
         ({| store := store e; script := rest; toasts := toasts e;
             calls := calls e ++ [c] |}, snd s))
    | Accepts newId :: rest =>
        match call newId (store e) with
        | Some (a, db') =>
            (Returned a,
             ({| store := db'; script := rest; toasts := toasts e;
                 calls := calls e ++ [c] |}, snd s))
        | None =>
            (Thrown,
             ({| store := store e; script := rest; toasts := toasts e;
                 calls := calls e ++ [c] |}, snd s))
        end
    end.

(** A read leaves the store as it is. *)
Definition awaitRead {A} (c : Call) (read : Db -> A) : M A :=
  await c (fun _ db => Some (read db, db)).

(** A call the client library refuses before anything is sent (a field
    value that is [undefined]). *)
Definition refused {A} (c : Call) : M A :=
  fun s =>
    let e := fst s in
    (Thrown,
     ({| store := store e; script := script e; toasts := toasts e;
         calls := calls e ++ [c] |}, snd s)).
End Monad.

Arguments ret {P A} a.
Arguments throw {P A}.
Arguments getState {P}.
Arguments message {P} t.
Arguments setState {P} f.
Arguments await {P A} c call.
Arguments awaitRead {P A} c read.
Arguments refused {P A} c.
Arguments bind {P A B} c k.
Arguments tryCatch {P} body handler.
Arguments tryCatchFinally {P} body handler fin.

End Handler.

Notation "x <- c ;; k" := (Handler.bind c (fun x => k))
  (at level 61, c at next level, right associativity).
Notation "c ;;; k" := (Handler.bind c (fun _ => k))
  (at level 61, right associativity).

Module F := Firestore.

(** The signed-in user, as the authentication hook gives it. *)
Record User := { uid : string }.

(* ================================================================= *)
(** ** app/invoices/page.tsx *)

Module InvoicesPage.
Import Handler.

Record Invoice := {
  id : string;
  userId : string;
  invoiceNumber : string;
  clientId : string;
  clientName : option string;
  items : list F.InvoiceItem;
  total : option JS.number;
  status : string;
  dueDate : Z;
  createdAt : Z
}.

Record Client := {
  client_id : string;
  client_userId : string;
  client_name : option string;
  client_email : option string
}.

Record FormItem := {
  item_description : string;
  item_quantity : JS.number;
  item_rate : JS.number
}.

Record FormValues := {
  v_clientId : string;
  v_items : list FormItem;
  v_status : string;
  v_dueDate : Z
}.

Record State := {
  invoices : list Invoice;
  clients : list Client;
  filteredInvoices : list Invoice;
  isModalVisible : bool;
  editingInvoice : option Invoice;
  isLoading : bool;
  searchText : string;
  statusFilter : string;
  clientFilter : string;
  form : option FormValues
}.

Definition setInvoices (x : list Invoice) (s : State) : State :=
  {| invoices := x; clients := clients s;
     filteredInvoices := filteredInvoices s;
     isModalVisible := isModalVisible s;
     editingInvoice := editingInvoice s; isLoading := isLoading s;
     searchText := searchText s; statusFilter := statusFilter s;
     clientFilter := clientFilter s; form := form s |}.

Definition setClients (x : list Client) (s : State) : State :=
  {| invoices := invoices s; clients := x;
     filteredInvoices := filteredInvoices s;
     isModalVisible := isModalVisible s;
     editingInvoice := editingInvoice s; isLoading := isLoading s;
     searchText := searchText s; statusFilter := statusFilter s;
     clientFilter := clientFilter s; form := form s |}.

Definition setFilteredInvoices (x : list Invoice) (s : State) : State :=
  {| invoices := invoices s; clients := clients s;
     filteredInvoices := x;
     isModalVisible := isModalVisible s;
     editingInvoice := editingInvoice s; isLoading := isLoading s;
     searchText := searchText s; statusFilter := statusFilter s;
     clientFilter := clientFilter s; form := form s |}.

Definition setIsModalVisible (x : bool) (s : State) : State :=
  {| invoices := invoices s; clients := clients s;
     filteredInvoices := filteredInvoices s;
     isModalVisible := x;
     editingInvoice := editingInvoice s; isLoading := isLoading s;
     searchText := searchText s; statusFilter := statusFilter s;
     clientFilter := clientFilter s; form := form s |}.

Definition setEditingInvoice (x : option Invoice) (s : State) : State :=
  {| invoices := invoices s; clients := clients s;
     filteredInvoices := filteredInvoices s;
     isModalVisible := isModalVisible s;
     editingInvoice := x; isLoading := isLoading s;
     searchText := searchText s; statusFilter := statusFilter s;
     clientFilter := clientFilter s; form := form s |}.

Definition setIsLoading (x : bool) (s : State) : State :=
  {| invoices := invoices s; clients := clients s;
     filteredInvoices := filteredInvoices s;
     isModalVisible := isModalVisible s;
     editingInvoice := editingInvoice s; isLoading := x;
     searchText := searchText s; statusFilter := statusFilter s;
     clientFilter := clientFilter s; form := form s |}.

Definition setForm (x : option FormValues) (s : State) : State :=
  {| invoices := invoices s; clients := clients s;
     filteredInvoices := filteredInvoices s;
     isModalVisible := isModalVisible s;
     editingInvoice := editingInvoice s; isLoading := isLoading s;
     searchText := searchText s; statusFilter := statusFilter s;
     clientFilter := clientFilter s; form := x |}.

(** *** Fetching *)

Definition toInvoice (d : F.InvoiceDoc) : Invoice :=
  {| id := F.i_id d;
     userId := F.i_userId d;
     invoiceNumber := F.i_invoiceNumber d;
     clientId := F.i_clientId d;
     clientName := F.i_clientName d;
     items := F.i_items d;
     total := F.i_total d;
     status := F.i_status d;
     dueDate := F.i_dueDate d;
     createdAt := F.i_createdAt d |}.

(** [where('userId', '==', user.uid), orderBy('createdAt', 'desc')] *)
Definition invoicesQuery (u : User) : F.Query F.InvoiceDoc :=
  {| F.wheres := [fun d => String.eqb (F.i_userId d) (uid u)];
     F.order := Some (fun a b => (F.i_createdAt b <=? F.i_createdAt a)%Z);
     F.limit := None |}.

Definition fetchInvoices (user : option User) : M State unit :=
  match user with
  | None => ret tt
  | Some u =>
      tryCatchFinally
        (setState (setIsLoading true) ;;;
         docs <- awaitRead (GetDocs "invoices")
                   (fun db => F.getDocs (invoicesQuery u) (F.invoices db)) ;;
         let invoicesData := map toInvoice docs in
         setState (setInvoices invoicesData) ;;;
         setState (setFilteredInvoices invoicesData))
        (message (ToastError "Failed to fetch invoices"))
        (setState (setIsLoading false))
  end.

Definition toClient (d : F.ClientDoc) : Client :=
  {| client_id := F.c_id d;
     client_userId := F.c_userId d;
     client_name := F.c_name d;
     client_email := F.c_email d |}.

(** [where('userId', '==', user.uid)] *)
Definition clientsQuery (u : User) : F.Query F.ClientDoc :=
  {| F.wheres := [fun d => String.eqb (F.c_userId d) (uid u)];
     F.order := None;
     F.limit := None |}.

Definition fetchClients (user : option User) : M State unit :=
  match user with
  | None => ret tt
  | Some u =>
      tryCatch
        (docs <- awaitRead (GetDocs "clients")
                   (fun db => F.getDocs (clientsQuery u) (F.clients db)) ;;
         setState (setClients (map toClient docs)))
        (message (ToastError "Failed to fetch clients"))
  end.

(** *** The filter effect *)

Definition isTruthy (s : string) : bool :=
  match s with
  | EmptyString => false
  | String _ _ => true
  end.

Definition matchesSearch (search : string) (inv : Invoice) : bool :=
  JS.includes (JS.toLowerCase (invoiceNumber inv)) (JS.toLowerCase search)
  || match clientName inv with
     | Some n => JS.includes (JS.toLowerCase n) (JS.toLowerCase search)
     | None => false
     end.

Definition applyFilters (s : State) : State :=
  let filtered := invoices s in
  let filtered :=
    if negb (String.eqb (statusFilter s) "all")
    then filter (fun inv => String.eqb (status inv) (statusFilter s)) filtered
    else filtered in
  let filtered :=
    if negb (String.eqb (clientFilter s) "all")
    then filter (fun inv => String.eqb (clientId inv) (clientFilter s))
           filtered
    else filtered in
  let filtered :=
    if isTruthy (searchText s)
    then filter (matchesSearch (searchText s)) filtered
    else filtered in
  setFilteredInvoices filtered s.

(** *** Invoice numbers *)

Definition maxNumber (l : list Invoice) : JS.whole :=
  fold_left
    (fun max inv =>
       match JS.parseIntNumberAt (JS.split "-" (invoiceNumber inv)) 1 with
       | Some num => if JS.gtb num max then num else max
       | None => max
       end)
    l (JS.Whole 0).

Definition generateInvoiceNumber (l : list Invoice) : string :=
  String.append "INV-"
    (JS.padStart 4 "0" (JS.String_ofNumber (JS.succ (maxNumber l)))).

(** *** Saving *)

Definition toItem (item : FormItem) : F.InvoiceItem :=
  {| F.description := item_description item;
     F.quantity := item_quantity item;
     F.rate := item_rate item;
     F.amount := (item_quantity item * item_rate item)%Qc |}.

Definition sumAmounts (l : list F.InvoiceItem) : JS.number :=
  fold_left (fun sum item => (sum + F.amount item)%Qc) l 0%Qc.

(** The object [invoiceData], with the document id it will be stored
    under. *)
Definition invoiceData (u : User) (now : Z) (s : State)
    (values : FormValues) (docId : string) : F.InvoiceDoc :=
  let items := map toItem (v_items values) in
  let total := sumAmounts items in
  let client :=
    find (fun c => String.eqb (client_id c) (v_clientId values))
      (clients s) in
  {| F.i_id := docId;
     F.i_userId := uid u;
     F.i_invoiceNumber :=
       match editingInvoice s with
       | Some e => invoiceNumber e
       | None => generateInvoiceNumber (invoices s)
       end;
     F.i_clientId := v_clientId values;
     F.i_clientName :=
       Some (JS.orString
               (match client with
                | Some c => client_name c
                | None => None
                end) "");
     F.i_items := items;
     F.i_total := Some total;
     F.i_status := v_status values;
     F.i_dueDate := v_dueDate values;
     F.i_createdAt :=
       match editingInvoice s with
       | Some e => createdAt e
       | None => now
       end |}.

Definition addDoc (data : string -> F.InvoiceDoc)
    : string -> F.Db -> option (unit * F.Db) :=
  fun newId db =>
    Some (tt, F.setInvoices (F.invoices db ++ [data newId]) db).

Definition updateDoc (docId : string) (f : F.InvoiceDoc -> F.InvoiceDoc)
    : string -> F.Db -> option (unit * F.Db) :=
  fun _ db =>
    match F.updateInvoice docId f (F.invoices db) with
    | Some l => Some (tt, F.setInvoices l db)
    | None => None
    end.

Definition deleteDoc (docId : string)
    : string -> F.Db -> option (unit * F.Db) :=
  fun _ db =>
    Some (tt, F.setInvoices (F.deleteInvoice docId (F.invoices db)) db).

(** The refresh a handler starts with [fetchInvoices()] is not awaited in the
    source; here it runs to its end before the handler goes on, which leaves
    the same lists and the same store. *)
Definition handleSubmit (user : option User) (now : Z)
    (values : FormValues) : M State unit :=
  match user with
  | None => message (ToastError "You must be logged in")
  | Some u =>
      tryCatchFinally
        (setState (setIsLoading true) ;;;
         s <- getState ;;
         let data := invoiceData u now s values in
         let done :=
           setState (setIsModalVisible false) ;;;
           setState (setEditingInvoice None) ;;;
           setState (setForm None) ;;;
           fetchInvoices user in
         match editingInvoice s with
         | Some e =>
             if negb (String.eqb (userId e) (uid u))
             then message
                    (ToastError
                       "You do not have permission to edit this invoice")
             else
               await (UpdateDoc "invoices" (id e))
                 (updateDoc (id e) (fun _ => data (id e))) ;;;
               message (ToastSuccess "Invoice updated successfully") ;;;
               done
         | None =>
             await (AddDoc "invoices") (addDoc data) ;;;
             message (ToastSuccess "Invoice created successfully") ;;;
             done
         end)
        (message (ToastError "Failed to save invoice"))
        (setState (setIsLoading false))
  end.

Definition handleDelete (user : option User) (invoice : Invoice)
    : M State unit :=
  match user with
  | None => ret tt
  | Some u =>
      if negb (String.eqb (userId invoice) (uid u))
      then message
             (ToastError
                "You do not have permission to delete this invoice")
      else
        tryCatch
          (await (DeleteDoc "invoices" (id invoice))
             (deleteDoc (id invoice)) ;;;
           message (ToastSuccess "Invoice deleted successfully") ;;;
           fetchInvoices user)
          (message (ToastError "Failed to delete invoice"))
  end.

Definition setStatus (newStatus : string) (d : F.InvoiceDoc)
    : F.InvoiceDoc :=
  {| F.i_id := F.i_id d;
     F.i_userId := F.i_userId d;
     F.i_invoiceNumber := F.i_invoiceNumber d;
     F.i_clientId := F.i_clientId d;
     F.i_clientName := F.i_clientName d;
     F.i_items := F.i_items d;
     F.i_total := F.i_total d;
     F.i_status := newStatus;
     F.i_dueDate := F.i_dueDate d;
     F.i_createdAt := F.i_createdAt d |}.

Definition handleStatusUpdate (user : option User) (invoice : Invoice)
    (newStatus : string) : M State unit :=
  let denied :=
    message
      (ToastError "You do not have permission to update this invoice") in
  match user with
  | None => denied
  | Some u =>
      if negb (String.eqb (userId invoice) (uid u)) then denied
      else
        tryCatch
          (await (UpdateDoc "invoices" (id invoice))
             (updateDoc (id invoice) (setStatus newStatus)) ;;;
           message (ToastSuccess "Status updated successfully") ;;;
           fetchInvoices user)
          (message (ToastError "Failed to update status"))
  end.

End InvoicesPage.

(* ================================================================= *)
(** ** app/time-tracking/page.tsx *)

Module TimeTrackingPage.
Import Handler.

Record TimeEntry := {
  id : string;
  taskId : string;
  clientId : string;
  startTime : option Z;
  endTime : option Z;
  duration : option Z;
  notes : option string;
  createdAt : option Z;
  userId : option string
}.

Record Task := {
  task_id : string;
  task_title : string;
  task_clientId : option string
}.

Record Client := {
  client_id : string;
  client_name : string
}.

Record TimeEntryFormValues := {
  v_taskId : string;
  v_clientId : string;
  v_startTime : Z;
  v_endTime : Z;
  v_notes : option string
}.

Record SummaryStats := {
  today : JS.number;
  week : JS.number;
  month : JS.number
}.

(** What [dayjs()] and its [startOf] give when the handler runs. *)
Record Clock := {
  now : Z;
  todayStart : Z;
  weekStart : Z;
  monthStart : Z
}.

Record State := {
  timeEntries : list TimeEntry;
  filteredEntries : list TimeEntry;
  tasks : list Task;
  clients : list Client;
  loading : bool;
  modalVisible : bool;
  activeTimer : option TimeEntry;
  summaryStats : SummaryStats;
  form : option TimeEntryFormValues
}.

Definition setTimeEntries (x : list TimeEntry) (s : State) : State :=
  {| timeEntries := x; filteredEntries := filteredEntries s;
     tasks := tasks s; clients := clients s; loading := loading s;
     modalVisible := modalVisible s; activeTimer := activeTimer s;
     summaryStats := summaryStats s; form := form s |}.

Definition setFilteredEntries (x : list TimeEntry) (s : State) : State :=
  {| timeEntries := timeEntries s; filteredEntries := x;
     tasks := tasks s; clients := clients s; loading := loading s;
     modalVisible := modalVisible s; activeTimer := activeTimer s;
     summaryStats := summaryStats s; form := form s |}.

Definition setTasks (x : list Task) (s : State) : State :=
  {| timeEntries := timeEntries s; filteredEntries := filteredEntries s;
     tasks := x; clients := clients s; loading := loading s;
     modalVisible := modalVisible s; activeTimer := activeTimer s;
     summaryStats := summaryStats s; form := form s |}.

Definition setClients (x : list Client) (s : State) : State :=
  {| timeEntries := timeEntries s; filteredEntries := filteredEntries s;
     tasks := tasks s; clients := x; loading := loading s;
     modalVisible := modalVisible s; activeTimer := activeTimer s;
     summaryStats := summaryStats s; form := form s |}.

Definition setLoading (x : bool) (s : State) : State :=
  {| timeEntries := timeEntries s; filteredEntries := filteredEntries s;
     tasks := tasks s; clients := clients s; loading := x;
     modalVisible := modalVisible s; activeTimer := activeTimer s;
     summaryStats := summaryStats s; form := form s |}.

Definition setModalVisible (x : bool) (s : State) : State :=
  {| timeEntries := timeEntries s; filteredEntries := filteredEntries s;
     tasks := tasks s; clients := clients s; loading := loading s;
     modalVisible := x; activeTimer := activeTimer s;
     summaryStats := summaryStats s; form := form s |}.

Definition setActiveTimer (x : option TimeEntry) (s : State) : State :=
  {| timeEntries := timeEntries s; filteredEntries := filteredEntries s;
     tasks := tasks s; clients := clients s; loading := loading s;
     modalVisible := modalVisible s; activeTimer := x;
     summaryStats := summaryStats s; form := form s |}.

Definition setSummaryStats (x : SummaryStats) (s : State) : State :=
  {| timeEntries := timeEntries s; filteredEntries := filteredEntries s;
     tasks := tasks s; clients := clients s; loading := loading s;
     modalVisible := modalVisible s; activeTimer := activeTimer s;
     summaryStats := x; form := form s |}.

Definition setForm (x : option TimeEntryFormValues) (s : State) : State :=
  {| timeEntries := timeEntries s; filteredEntries := filteredEntries s;
     tasks := tasks s; clients := clients s; loading := loading s;
     modalVisible := modalVisible s; activeTimer := activeTimer s;
     summaryStats := summaryStats s; form := x |}.

(** *** Fetching *)

Definition toClient (d : F.ClientDoc) : Client :=
  {| client_id := F.c_id d;
     client_name := JS.orString (F.c_name d) "Unknown" |}.

(** [getDocs(collection(db, 'clients'))] *)
Definition fetchClients : M State unit :=
  tryCatch
    (docs <- awaitRead (GetDocs "clients")
               (fun db => F.getDocs (F.all _) (F.clients db)) ;;
     setState (setClients (map toClient docs)))
    (message (ToastError "Failed to load clients")).

Definition toTask (d : F.TaskDoc) : Task :=
  {| task_id := F.t_id d;
     task_title := JS.orString (F.t_title d) "Unknown";
     task_clientId := F.t_clientId d |}.

(** [getDocs(collection(db, 'tasks'))] *)
Definition fetchTasks : M State unit :=
  tryCatch
    (docs <- awaitRead (GetDocs "tasks")
               (fun db => F.getDocs (F.all _) (F.tasks db)) ;;
     setState (setTasks (map toTask docs)))
    (message (ToastError "Failed to load tasks")).

Definition toTimeEntry (d : F.TimeDoc) : TimeEntry :=
  {| id := F.tt_id d;
     taskId := F.tt_taskId d;
     clientId := F.tt_clientId d;
     startTime := F.tt_startTime d;
     endTime := F.tt_endTime d;
     duration := F.tt_duration d;
     notes := F.tt_notes d;
     createdAt := F.tt_createdAt d;
     userId := F.tt_userId d |}.

Definition optZgeb (a b : option Z) : bool :=
  match a, b with
  | Some x, Some y => (y <=? x)%Z
  | _, _ => true
  end.

Definition isSome {A} (o : option A) : bool :=
  match o with
  | Some _ => true
  | None => false
  end.

(** [where('userId', '==', uid), orderBy('createdAt', 'desc')]; ordering by
    a field leaves out the documents that lack it. *)
Definition entriesQuery (u : User) : F.Query F.TimeDoc :=
  {| F.wheres := [fun d => F.optStringEqb (F.tt_userId d) (uid u);
                  fun d => isSome (F.tt_createdAt d)];
     F.order := Some (fun a b => optZgeb (F.tt_createdAt a)
                                   (F.tt_createdAt b));
     F.limit := None |}.

Definition isAfter (t : option Z) (start : Z) : bool :=
  match t with
  | Some x => (start <? x)%Z
  | None => false
  end.

Definition calculateSummaryStats (clock : Clock) (entries : list TimeEntry)
    : SummaryStats :=
  let add (start : Z) (acc : Z) (entry : TimeEntry) : Z :=
    match duration entry with
    | Some d =>
        if (d =? 0)%Z then acc
        else if isAfter (startTime entry) start then (acc + d)%Z else acc
    | None => acc
    end in
  let sumFrom start := fold_left (add start) entries 0%Z in
  {| today := (JS.ofZ (sumFrom (todayStart clock)) / JS.ofZ 60)%Qc;
     week := (JS.ofZ (sumFrom (weekStart clock)) / JS.ofZ 60)%Qc;
     month := (JS.ofZ (sumFrom (monthStart clock)) / JS.ofZ 60)%Qc |}.

(** A query on [user?.uid] with nobody signed in is refused by the
    client library: the call throws. *)
Definition fetchTimeEntries (user : option User) (clock : Clock)
    : M State unit :=
  setState (setLoading true) ;;;
  tryCatchFinally
    (docs <- match user with
             | Some u =>
                 awaitRead (GetDocs "timeTracking")
                   (fun db => F.getDocs (entriesQuery u) (F.timeTracking db))
             | None => throw
             end ;;
     let entriesList := map toTimeEntry docs in
     setState (setTimeEntries entriesList) ;;;
     setState (setFilteredEntries entriesList) ;;;
     let active := find (fun entry => negb (isSome (endTime entry)))
                     entriesList in
     setState (setActiveTimer active) ;;;
     setState (setSummaryStats (calculateSummaryStats clock entriesList)))
    (message (ToastError "Failed to load time entries"))
    (setState (setLoading false)).

(** *** Manual entries *)

(** [Math.floor((end.getTime() - start.getTime()) / 60000)] *)
Definition minutesBetween (start end_ : Z) : Z :=
  JS.Math_floor (JS.ofZ (end_ - start) / JS.ofZ 60000)%Qc.

Definition newEntry (u : User) (clock : Clock)
    (values : TimeEntryFormValues) (dur : Z) (docId : string) : F.TimeDoc :=
  {| F.tt_id := docId;
     F.tt_userId := Some (uid u);
     F.tt_taskId := v_taskId values;
     F.tt_clientId := v_clientId values;
     F.tt_startTime := Some (v_startTime values);
     F.tt_endTime := Some (v_endTime values);
     F.tt_duration := Some dur;
     F.tt_notes := Some (JS.orString (v_notes values) "");
     F.tt_createdAt := Some (now clock);
     F.tt_hours := None;
     F.tt_date := None |}.

Definition addDoc (data : string -> F.TimeDoc)
    : string -> F.Db -> option (unit * F.Db) :=
  fun newId db =>
    Some (tt, F.setTimeTracking (F.timeTracking db ++ [data newId]) db).

Definition handleAddEntry (user : option User) (clock : Clock)
    (values : TimeEntryFormValues) : M State unit :=
  tryCatch
    (let dur := minutesBetween (v_startTime values) (v_endTime values) in
     if (dur <=? 0)%Z
     then message (ToastError "End time must be after start time")
     else
       match user with
       | Some u =>
           await (AddDoc "timeTracking")
             (addDoc (newEntry u clock values dur))
       | None => refused (AddDoc "timeTracking")
       end ;;;
       message (ToastSuccess "Entry added successfully") ;;;
       setState (setModalVisible false) ;;;
       setState (setForm None) ;;;
       fetchTimeEntries user clock)
    (message (ToastError "Failed to add entry")).

(** [client?.name || 'Unknown Client'] *)
Definition getClientName (s : State) (cid : string) : string :=
  match find (fun c => String.eqb (client_id c) cid) (clients s) with
  | Some c => JS.orString (Some (client_name c)) "Unknown Client"
  | None => "Unknown Client"
  end.

End TimeTrackingPage.

(* ================================================================= *)
(** ** The dashboard page *)

Module DashboardPage.
Import Handler.

Record Task := {
  id : string;
  userId : string;
  clientId : string;
  title : string;
  status : string;
  progress : JS.number;
  dueDate : string;
  createdAt : string;
  clientName : string
}.

Record Activity := {
  activity_id : string;
  activity_userId : string;
  activity_type : string;
  activity_description : string;
  activity_timestamp : string
}.

Record DashboardStats := {
  totalClients : nat;
  activeTasks : nat;
  hoursTracked : Double.t;
  pendingInvoices : nat;
  pendingInvoicesAmount : Double.t;
  clientsAddedThisMonth : nat
}.

Record State := {
  loading : bool;
  stats : DashboardStats;
  activeProjects : list Task;
  recentActivities : list Activity
}.

(** What [new Date()] gives when the handler runs: the first instant of
    the current month and the current time in ISO form. *)
Record Clock := {
  startOfMonth : Z;
  nowISO : string
}.

Definition setLoading (x : bool) (s : State) : State :=
  {| loading := x; stats := stats s; activeProjects := activeProjects s;
     recentActivities := recentActivities s |}.

Definition setStats (x : DashboardStats) (s : State) : State :=
  {| loading := loading s; stats := x; activeProjects := activeProjects s;
     recentActivities := recentActivities s |}.

Definition setActiveProjects (x : list Task) (s : State) : State :=
  {| loading := loading s; stats := stats s; activeProjects := x;
     recentActivities := recentActivities s |}.

Definition setRecentActivities (x : list Activity) (s : State) : State :=
  {| loading := loading s; stats := stats s;
     activeProjects := activeProjects s; recentActivities := x |}.

(** [date >= startOfMonth]; an invalid date compares false. *)
Definition onOrAfter (start : Z) (t : option Z) : bool :=
  match t with
  | Some x => (start <=? x)%Z
  | None => false
  end.

Definition clientsQuery (u : string) : F.Query F.ClientDoc :=
  {| F.wheres := [fun d => String.eqb (F.c_userId d) u];
     F.order := None; F.limit := None |}.

Definition activeTasksQuery (u : string) : F.Query F.TaskDoc :=
  {| F.wheres := [fun d => String.eqb (F.t_userId d) u;
                  fun d => F.optStringEqb (F.t_status d) "active"];
     F.order := None; F.limit := None |}.

Definition timeTrackingQuery (u : string) : F.Query F.TimeDoc :=
  {| F.wheres := [fun d => F.optStringEqb (F.tt_userId d) u];
     F.order := None; F.limit := None |}.

Definition pendingInvoicesQuery (u : string) : F.Query F.InvoiceDoc :=
  {| F.wheres := [fun d => String.eqb (F.i_userId d) u;
                  fun d => String.eqb (F.i_status d) "unpaid"];
     F.order := None; F.limit := None |}.

Definition isSome {A} (o : option A) : bool :=
  match o with
  | Some _ => true
  | None => false
  end.

(** [where('status', '!=', 'completed'), orderBy('status'),
    orderBy('dueDate', 'asc'), limit(4)]; an inequality and an ordering
    leave out the documents that lack the field. *)
Definition projectsQuery (u : string) : F.Query F.TaskDoc :=
  {| F.wheres := [fun d => String.eqb (F.t_userId d) u;
                  fun d => match F.t_status d with
                           | Some s => negb (String.eqb s "completed")
                           | None => false
                           end;
                  fun d => isSome (F.t_dueDate d)];
     F.order :=
       Some (fun a b =>
               if F.optStringLeb (F.t_status a) (F.t_status b)
               then if F.optStringLeb (F.t_status b) (F.t_status a)
                    then F.optStringLeb (F.t_dueDate a) (F.t_dueDate b)
                    else true
               else false);
     F.limit := Some 4 |}.

(** [orderBy('timestamp', 'desc'), limit(5)] *)
Definition activitiesQuery (u : string) : F.Query F.ActivityDoc :=
  {| F.wheres := [fun d => String.eqb (F.a_userId d) u;
                  fun d => isSome (F.a_timestamp d)];
     F.order := Some (fun a b =>
                        F.optStringLeb (F.a_timestamp b) (F.a_timestamp a));
     F.limit := Some 5 |}.

(** [clientsMap.set(doc.id, data.name || 'Unknown')] over the snapshot. *)
Definition clientsMap (docs : list F.ClientDoc) : Dict.t string :=
  fold_left
    (fun m d =>
       Dict.upsert (F.c_id d) (fun _ => JS.orString (F.c_name d) "Unknown") m)
    docs [].

Definition toProject (clock : Clock) (m : Dict.t string) (d : F.TaskDoc)
    : Task :=
  {| id := F.t_id d;
     userId := JS.orString (Some (F.t_userId d)) "";
     clientId := JS.orString (F.t_clientId d) "";
     title := JS.orString (F.t_title d) "Untitled Project";
     status := JS.orString (F.t_status d) "active";
     progress := JS.orZero (F.t_progress d);
     dueDate := JS.orString (F.t_dueDate d) (nowISO clock);
     createdAt := JS.orString (F.t_createdAt d) (nowISO clock);
     clientName :=
       JS.orString
         (match F.t_clientId d with
          | Some c => Dict.get c m
          | None => None
          end) "Unknown Client" |}.

Definition toActivity (clock : Clock) (d : F.ActivityDoc) : Activity :=
  {| activity_id := F.a_id d;
     activity_userId := JS.orString (Some (F.a_userId d)) "";
     activity_type := JS.orString (F.a_type d) "clientAdded";
     activity_description := JS.orString (F.a_description d) "";
     activity_timestamp := JS.orString (F.a_timestamp d) (nowISO clock) |}.

(** The [filter]/[reduce] over the time-tracking snapshot. *)
Definition sumHours (clock : Clock) (docs : list F.TimeDoc) : Double.t :=
  fold_left
    (fun sum d => Double.add sum (Double.orZero (Double.read (F.tt_hours d))))
    (filter (fun d => onOrAfter (startOfMonth clock) (F.tt_date d)) docs)
    Double.zero.

(** The [reduce] over the pending-invoices snapshot. *)
Definition sumTotals (docs : list F.InvoiceDoc) : Double.t :=
  fold_left
    (fun sum d => Double.add sum (Double.orZero (Double.read (F.i_total d))))
    docs Double.zero.

(** [Math.round(x * 10) / 10] *)
Definition roundTenths (x : Double.t) : Double.t :=
  Double.div (Double.Math_round (Double.mul x (Double.ofZ 10)))
    (Double.ofZ 10).

Definition fetchDashboardData (u : User) (clock : Clock) : M State unit :=
  setState (setLoading true) ;;;
  tryCatchFinally
    (let userId := uid u in
     clientsSnapshot <-
       awaitRead (GetDocs "clients")
         (fun db => F.getDocs (clientsQuery userId) (F.clients db)) ;;
     let totalClients := List.length clientsSnapshot in
     let clientsThisMonth :=
       List.length
         (filter (fun d => onOrAfter (startOfMonth clock) (F.c_createdAt d))
            clientsSnapshot) in
     let clientsMap := clientsMap clientsSnapshot in
     activeTasksSnapshot <-
       awaitRead (GetDocs "tasks")
         (fun db => F.getDocs (activeTasksQuery userId) (F.tasks db)) ;;
     let activeTasks := List.length activeTasksSnapshot in
     timeTrackingSnapshot <-
       awaitRead (GetDocs "timeTracking")
         (fun db =>
            F.getDocs (timeTrackingQuery userId) (F.timeTracking db)) ;;
     let hoursTracked := sumHours clock timeTrackingSnapshot in
     pendingInvoicesSnapshot <-
       awaitRead (GetDocs "invoices")
         (fun db =>
            F.getDocs (pendingInvoicesQuery userId) (F.invoices db)) ;;
     let pendingInvoices := List.length pendingInvoicesSnapshot in
     let pendingInvoicesAmount := sumTotals pendingInvoicesSnapshot in
     setState
       (setStats
          {| totalClients := totalClients;
             activeTasks := activeTasks;
             hoursTracked := roundTenths hoursTracked;
             pendingInvoices := pendingInvoices;
             pendingInvoicesAmount := pendingInvoicesAmount;
             clientsAddedThisMonth := clientsThisMonth |}) ;;;
     projectsSnapshot <-
       awaitRead (GetDocs "tasks")
         (fun db => F.getDocs (projectsQuery userId) (F.tasks db)) ;;
     setState
       (setActiveProjects
          (map (toProject clock clientsMap) projectsSnapshot)) ;;;
     activitiesSnapshot <-
       awaitRead (GetDocs "activityLogs")
         (fun db =>
            F.getDocs (activitiesQuery userId) (F.activityLogs db)) ;;
     setState
       (setRecentActivities (map (toActivity clock) activitiesSnapshot)))
    (ret tt)
    (setState (setLoading false)).

(** The effect that loads the dashboard: nothing happens without a user
    id. *)
Definition loadDashboard (user : option User) (clock : Clock)
    : M State unit :=
  match user with
  | Some u =>
      match uid u with
      | EmptyString => ret tt
      | String _ _ => fetchDashboardData u clock
      end
  | None => ret tt
  end.

End DashboardPage.

(* ================================================================= *)
(** ** components/reports/TimeTrackingReport.tsx *)

Module TimeTrackingReport.

Record TimeEntry := {
  id : string;
  userId : string;
  clientId : string;
  hours : JS.number;
  date : Z;
  description : string
}.

Record Client := {
  client_id : string;
  client_name : string
}.

Record HoursRow := {
  row_clientId : string;
  row_hours : JS.number
}.

Record TimeReport := {
  totalHours : JS.number;
  hoursByClient : list HoursRow
}.

(** [clientHours[entry.clientId] = (clientHours[entry.clientId] || 0)
    + entry.hours] over the entries. *)
Definition clientHours (timeEntries : list TimeEntry) : Dict.t JS.number :=
  fold_left
    (fun o entry =>
       Dict.upsert (clientId entry)
         (fun old => (JS.orZero old + hours entry)%Qc) o)
    timeEntries [].

Definition calculateReport (timeEntries : list TimeEntry) : TimeReport :=
  let totalHours :=
    fold_left (fun sum entry => (sum + hours entry)%Qc) timeEntries 0%Qc in
  let hoursByClient :=
    map (fun kv => {| row_clientId := fst kv; row_hours := snd kv |})
      (Dict.entries (clientHours timeEntries)) in
  {| totalHours := totalHours; hoursByClient := hoursByClient |}.

Definition getClientName (clients : list Client) (cid : string) : string :=
  match find (fun c => String.eqb (client_id c) cid) clients with
  | Some client => client_name client
  | None => "Unknown Client"
  end.

(** *** The report on the entries as fetched

    The reports page casts the documents of the store to [TimeEntry]
    without a check, and no page of the repository writes [hours]: here an
    entry may lack the field, the numbers are doubles and the rows come in
    the order of [Object.entries].  The lookups in [clientHours] are those
    of an object written [{}] for client ids that name no property every
    object inherits. *)

Module Fetched.

Record TimeEntry := {
  id : string;
  userId : string;
  clientId : string;
  hours : option JS.number;
  date : Z;
  description : string
}.

Record HoursRow := {
  row_clientId : string;
  row_hours : Double.t
}.

Record TimeReport := {
  totalHours : Double.t;
  hoursByClient : list HoursRow
}.

Definition clientHours (timeEntries : list TimeEntry) : Dict.t Double.t :=
  fold_left
    (fun o entry =>
       Dict.upsert (clientId entry)
         (fun old =>
            Double.add (Double.orZero old) (Double.field (hours entry))) o)
    timeEntries [].

Definition calculateReport (timeEntries : list TimeEntry) : TimeReport :=
  let totalHours :=
    fold_left
      (fun sum entry => Double.add sum (Double.field (hours entry)))
      timeEntries Double.zero in
  let hoursByClient :=
    map (fun kv => {| row_clientId := fst kv; row_hours := snd kv |})
      (Dict.ownEntries (clientHours timeEntries)) in
  {| totalHours := totalHours; hoursByClient := hoursByClient |}.

End Fetched.

End TimeTrackingReport.

(* ================================================================= *)
(** ** components/reports/TasksReport.tsx *)

Module TasksReport.

(** The interface declares [status] as pending or completed; the reports
    page casts the stored documents to it unchecked, so at run time the
    status is whatever text the document holds. *)
Record Task := {
  id : string;
  userId : string;
  clientId : string;
  title : string;
  status : string;
  dueDate : Z;
  createdAt : Z
}.

Record Client := {
  client_id : string;
  client_name : string
}.

(** The counters kept per client; the record is named after its two
    fields in the source. *)
Record Counts := {
  n_completed : nat;
  n_pending : nat
}.

Record ClientRow := {
  row_clientId : string;
  row_clientName : string;
  row_completed : nat;
  row_pending : nat;
  row_total : nat;
  row_completionRate : Double.t
}.

(** [stats[task.status]++]: a status other than completed and pending puts
    a property of its own on the counters, which nothing reads. *)
Definition increment (st : string) (c : Counts) : Counts :=
  if String.eqb st "completed"
  then {| n_completed := S (n_completed c); n_pending := n_pending c |}
  else if String.eqb st "pending"
       then {| n_completed := n_completed c; n_pending := S (n_pending c) |}
       else c.

Definition clientTasks (tasks : list Task) : Dict.t Counts :=
  fold_left
    (fun o task =>
       Dict.upsert (clientId task)
         (fun old =>
            increment (status task)
              match old with
              | Some c => c
              | None => {| n_completed := 0; n_pending := 0 |}
              end) o)
    tasks [].

Definition ofNat (n : nat) : Double.t := Double.ofZ (Z.of_nat n).

(** [total > 0 ? (completed / total) * 100 : 0] *)
Definition rate (completed total : nat) : Double.t :=
  if 0 <? total
  then Double.mul (Double.div (ofNat completed) (ofNat total))
         (Double.ofZ 100)
  else Double.zero.

Definition getTasksByClient (tasks : list Task) (clients : list Client)
    : list ClientRow :=
  map
    (fun kv =>
       let stats := snd kv in
       let client :=
         find (fun c => String.eqb (client_id c) (fst kv)) clients in
       let total := n_completed stats + n_pending stats in
       let completionRate := rate (n_completed stats) total in
       {| row_clientId := fst kv;
          row_clientName := match client with
                            | Some c => client_name c
                            | None => "Unknown Client"
                            end;
          row_completed := n_completed stats;
          row_pending := n_pending stats;
          row_total := total;
          row_completionRate := completionRate |})
    (Dict.ownEntries (clientTasks tasks)).

End TasksReport.

(* ================================================================= *)
(** ** lib/exportUtils.ts *)

Module ExportUtils.

(** The reports page casts the documents of the store to [Invoice] without
    a check; the invoices page writes [total] and no [amount], so an
    invoice may lack the field, and [status] is whatever text the document
    holds. *)
Record Invoice := {
  id : string;
  userId : string;
  clientId : string;
  amount : option JS.number;
  status : string;
  dueDate : Z;
  createdAt : Z
}.

Record Client := {
  client_id : string;
  client_name : string
}.

(** *** CSV *)

Definition comma : ascii := ","%char.
Definition dquote : ascii := "034"%char.
Definition newline : ascii := "010"%char.

Definition str (c : ascii) : string := String c EmptyString.

(** The values a record to export holds. *)
Inductive value :=
| VUndefined
| VNull
| VBoolean (b : bool)
| VNumber (n : JS.number)
| VString (s : string).

Definition record := Dict.t value.

(** What the browser hands over to the user. *)
Record Download := {
  download : string;
  content : string
}.

Section CSV.
(** [String(n)] on a number: the shortest decimal form, left abstract. *)
Variable numberToString : JS.number -> string.

(** [String(value ?? '')]; a key the row lacks reads [undefined]. *)
Definition stringValue (v : option value) : string :=
  match v with
  | None => EmptyString
  | Some VUndefined => EmptyString
  | Some VNull => EmptyString
  | Some (VBoolean true) => "true"
  | Some (VBoolean false) => "false"
  | Some (VNumber n) => numberToString n
  | Some (VString s) => s
  end.

Definition needsQuotes (s : string) : bool :=
  JS.includes s (str comma) || JS.includes s (str dquote)
  || JS.includes s (str newline).

Definition escapeField (s : string) : string :=
  if needsQuotes s
  then String dquote
         (String.append (JS.replaceAll dquote (String dquote (str dquote)) s)
            (str dquote))
  else s.

Definition csvRow (headers : list string) (row : record) : string :=
  JS.join (str comma)
    (map (fun header => escapeField (stringValue (Dict.get header row)))
       headers).

Definition csvContent (data : list record) : option string :=
  match data with
  | [] => None
  | first :: _ =>
      let headers := Dict.keys first in
      Some (JS.join (str newline)
              (JS.join (str comma) headers :: map (csvRow headers) data))
  end.

(** [today] is [new Date().toISOString().split('T')[0]]. *)
Definition exportToCSV (data : list record) (filename today : string)
    : option Download :=
  match csvContent data with
  | None => None
  | Some c =>
      Some {| download :=
                String.append filename
                  (String.append "_" (String.append today ".csv"));
              content := c |}
  end.
End CSV.

(** *** Client names in the reports *)

Definition getClientNameById (clients : list Client) (cid : string)
    : string :=
  match find (fun c => String.eqb (client_id c) cid) clients with
  | Some client => client_name client
  | None => "Unknown Client"
  end.

(** *** The figures of [generateInvoicesHTML] *)

Module GenerateInvoicesHTML.

Definition totalAmount (invoices : list Invoice) : Double.t :=
  fold_left (fun sum inv => Double.add sum (Double.field (amount inv)))
    invoices Double.zero.

Definition getClientName (clients : list Client) (cid : string)
    : string :=
  match find (fun c => String.eqb (client_id c) cid) clients with
  | Some client => client_name client
  | None => "Unknown"
  end.

Record Stats := {
  stats_total : nat;
  stats_amount : Double.t
}.

(** [if (!clientInvoices[id]) clientInvoices[id] = { total: 0, amount: 0 };
    clientInvoices[id].total++; clientInvoices[id].amount += inv.amount];
    the lookups are those of an object written [{}] for client ids that
    name no property every object inherits. *)
Definition clientInvoices (invoices : list Invoice) : Dict.t Stats :=
  fold_left
    (fun o inv =>
       Dict.upsert (clientId inv)
         (fun old =>
            let s := match old with
                     | Some s => s
                     | None => {| stats_total := 0;
                                  stats_amount := Double.zero |}
                     end in
            {| stats_total := S (stats_total s);
               stats_amount :=
                 Double.add (stats_amount s) (Double.field (amount inv)) |})
         o)
    invoices [].

(** [Object.entries(clientInvoices)] *)
Definition groups (invoices : list Invoice) : list (string * Stats) :=
  Dict.ownEntries (clientInvoices invoices).

End GenerateInvoicesHTML.

End ExportUtils.


(* ================================================================= *)
(** ** The notions the properties are stated with *)

Module Spec.

(** The sum of a list of numbers. *)
Definition sum (l : list JS.number) : JS.number :=
  fold_right Qcplus 0%Qc l.

Definition sumNat (l : list nat) : nat :=
  fold_right Nat.add 0 l.

(** How many elements satisfy a test. *)
Definition count {A} (p : A -> bool) (l : list A) : nat :=
  List.length (filter p l).

(** [pre ++ c :: post] with no match in [pre]: [c] is the first element that
    satisfies [p]. *)
Definition firstMatch {A} (p : A -> bool) (l : list A) (c : A) : Prop :=
  exists pre post,
    l = pre ++ c :: post /\ p c = true /\ forall x, In x pre -> p x = false.

(** The largest of the numbers in a list, and [0] for none. *)
Definition maxOr0 (l : list Z) : Z :=
  fold_right Z.max 0%Z l.

(** The elements of a list of options that are present. *)
Fixpoint present {A} (l : list (option A)) : list A :=
  match l with
  | [] => []
  | Some a :: r => a :: present r
  | None :: r => present r
  end.

(** The tasks of a client, and those of them with a given status. *)
Definition ofClient (k : string) (t : TasksReport.Task) : bool :=
  String.eqb k (TasksReport.clientId t).

Definition ofClientWith (k : string) (st : string)
    (t : TasksReport.Task) : bool :=
  ofClient k t && String.eqb (TasksReport.status t) st.

(** A task whose status is one of the two the interface declares. *)
Definition declaredStatus (t : TasksReport.Task) : bool :=
  String.eqb (TasksReport.status t) "completed"
  || String.eqb (TasksReport.status t) "pending".










(** The next remote call throws: the reply scripted for it is a rejection, or
    there is none (the network is gone). *)
Definition nextCallFails (e : Handler.Env) : Prop :=
  match Handler.script e with
  | Handler.Accepts _ :: _ => False
  | _ => True
  end.

(** The handlers of the invoices page that talk to the remote store. *)
Inductive Operation :=
| FetchInvoices
| FetchClients
| Submit (now : Z) (values : InvoicesPage.FormValues)
| Delete (invoice : InvoicesPage.Invoice)
| StatusUpdate (invoice : InvoicesPage.Invoice) (newStatus : string).

Definition run (op : Operation) (user : option User)
    : Handler.M InvoicesPage.State unit :=
  match op with
  | FetchInvoices => InvoicesPage.fetchInvoices user
  | FetchClients => InvoicesPage.fetchClients user
  | Submit now values => InvoicesPage.handleSubmit user now values
  | Delete invoice => InvoicesPage.handleDelete user invoice
  | StatusUpdate invoice newStatus =>
      InvoicesPage.handleStatusUpdate user invoice newStatus
  end.




(** A time-tracking document of [user] dated on or after [start]. *)
Definition loggedSince (user : string) (start : Z) (d : F.TimeDoc) : bool :=
  match F.tt_userId d, F.tt_date d with
  | Some owner, Some date => String.eqb owner user && (start <=? date)%Z
  | _, _ => false
  end.


(** What a field counts for in a sum: its number, nothing when it is
    missing. *)
Definition counted (x : option JS.number) : JS.number :=
  match x with
  | Some v => v
  | None => 0%Qc
  end.

(** The double of that number. *)
Definition countedDouble (x : option JS.number) : Double.t :=
  match x with
  | Some v => Double.round v
  | None => Double.zero
  end.

(** The numbers added one after the other from zero, each addition giving
    a double. *)
Definition addedUp (l : list Double.t) : Double.t :=
  fold_left Double.add l Double.zero.

(** The [hours] fields of the time-tracking documents of a user dated on
    or after [start], and the [total] fields of the user's unpaid invoices,
    in the order of the documents. *)
Definition loggedHours (user : string) (start : Z) (docs : list F.TimeDoc)
    : list (option JS.number) :=
  map F.tt_hours (filter (loggedSince user start) docs).





(** [z / 2^k], and [v 2^k] rounded down to a whole number. *)
Definition multiple (k : nat) (z : Z) : JS.number :=
  (JS.ofZ z / JS.ofZ (2 ^ Z.of_nat k))%Qc.

Definition scaledBy (k : nat) (v : JS.number) : Z :=
  JS.Math_floor (v * JS.ofZ (2 ^ Z.of_nat k))%Qc.

(** The numbers are whole multiples [z / 2^k] of a power of two, down to
    2^-1074, and [factor] times the sizes of the [z] add up to less than
    2^53: sums of such numbers, and [factor] times them, are doubles. *)
Definition dyadic (k : nat) (factor : Z) (l : list JS.number) : Prop :=
  k <= 1074 /\
  Forall (fun v => v = multiple k (scaledBy k v)) l /\
  (factor * fold_right Z.add 0 (map (fun v => Z.abs (scaledBy k v)) l)
   < 2 ^ 53)%Z.

(** The number after the first dash of an invoice number, when it parses. *)
Definition suffix (invoiceNumber : string) : option Z :=
  JS.parseIntAt (JS.split "-" invoiceNumber) 1.

(** The numbers that parse among the suffixes of the existing invoices. *)
Definition suffixes (l : list InvoicesPage.Invoice) : list Z :=
  present (map (fun inv => suffix (InvoicesPage.invoiceNumber inv)) l).

(** Every number that parses after the dash of an invoice of [l] is below
    [bound]. *)
Definition numbersBelow (bound : Z) (l : list InvoicesPage.Invoice) : Prop :=
  Forall (fun n => (n < bound)%Z) (suffixes l).

Definition isDigit (c : ascii) : bool :=
  ((48 <=? N_of_ascii c) && (N_of_ascii c <=? 57))%N.

Fixpoint allDigits (s : string) : bool :=
  match s with
  | EmptyString => true
  | String c r => isDigit c && allDigits r
  end.

(** The character [c] does not occur in [s]. *)
Fixpoint lacks (c : ascii) (s : string) : bool :=
  match s with
  | EmptyString => true
  | String a r => negb (Ascii.eqb a c) && lacks c r
  end.

(** The value of a decimal numeral read from the most significant digit,
    continuing from [acc]. *)
Fixpoint uintValue (d : Decimal.uint) (acc : N) : N :=
  match d with
  | Decimal.Nil => acc
  | Decimal.D0 r => uintValue r (10 * acc)%N
  | Decimal.D1 r => uintValue r (10 * acc + 1)%N
  | Decimal.D2 r => uintValue r (10 * acc + 2)%N
  | Decimal.D3 r => uintValue r (10 * acc + 3)%N
  | Decimal.D4 r => uintValue r (10 * acc + 4)%N
  | Decimal.D5 r => uintValue r (10 * acc + 5)%N
  | Decimal.D6 r => uintValue r (10 * acc + 6)%N
  | Decimal.D7 r => uintValue r (10 * acc + 7)%N
  | Decimal.D8 r => uintValue r (10 * acc + 8)%N
  | Decimal.D9 r => uintValue r (10 * acc + 9)%N
  end.

(** The character [c] occurs in [s]. *)
Definition occurs (c : ascii) (s : string) : Prop :=
  lacks c s = false.

(** [s] between double quotes, with each double quote inside written
    twice. *)
Definition quoted (s : string) : string :=
  String ExportUtils.dquote
    (String.append
       (JS.replaceAll ExportUtils.dquote
          (String ExportUtils.dquote (ExportUtils.str ExportUtils.dquote)) s)
       (ExportUtils.str ExportUtils.dquote)).

(** The text of a value in a cell: a string is its own text, a boolean
    reads true or false, a number is printed as [String] prints it, and
    [null], [undefined] and a value that is not there give the empty text. *)
Definition cellText (numberToString : JS.number -> string)
    (v : option ExportUtils.value) : string :=
  match v with
  | Some (ExportUtils.VString s) => s
  | Some (ExportUtils.VBoolean b) => if b then "true" else "false"
  | Some (ExportUtils.VNumber n) => numberToString n
  | Some ExportUtils.VNull => EmptyString
  | Some ExportUtils.VUndefined => EmptyString
  | None => EmptyString
  end.

(** The cells of a row under the given headers, as texts, before any
    quoting. *)
Definition cells (numberToString : JS.number -> string)
    (headers : list string) (row : ExportUtils.record) : list string :=
  map (fun h => cellText numberToString (Dict.get h row)) headers.

End Spec.

(* ================================================================= *)
(** ** Sample data *)

Module Sample.

Definition alice : User := {| uid := "alice" |}.

Definition aliceClient : F.ClientDoc :=
  {| F.c_id := "c1"; F.c_userId := "alice"; F.c_name := Some "Acme"%string;
     F.c_email := None; F.c_createdAt := Some 1700000000000%Z |}.

Definition bobClient : F.ClientDoc :=
  {| F.c_id := "c2"; F.c_userId := "bob"; F.c_name := Some "Globex"%string;
     F.c_email := None; F.c_createdAt := Some 1700000000000%Z |}.

Definition bobTask : F.TaskDoc :=
  {| F.t_id := "t1"; F.t_userId := "bob"; F.t_clientId := Some "c2"%string;
     F.t_title := Some "Audit"%string; F.t_status := Some "active"%string;
     F.t_progress := None; F.t_dueDate := None; F.t_createdAt := None |}.

Definition db : F.Db :=
  {| F.clients := [aliceClient; bobClient];
     F.tasks := [bobTask];
     F.timeTracking := [];
     F.invoices := [];
     F.activityLogs := [] |}.

(** The remote store is reachable and accepts the next [n] calls. *)
Definition online (n : nat) : Handler.Env :=
  {| Handler.store := db;
     Handler.script := List.repeat (Handler.Accepts "new1") n;
     Handler.toasts := [];
     Handler.calls := [] |}.


Definition invoicesPage : InvoicesPage.State :=
  {| InvoicesPage.invoices := [];
     InvoicesPage.clients := [];
     InvoicesPage.filteredInvoices := [];
     InvoicesPage.isModalVisible := false;
     InvoicesPage.editingInvoice := None;
     InvoicesPage.isLoading := false;
     InvoicesPage.searchText := EmptyString;
     InvoicesPage.statusFilter := "all";
     InvoicesPage.clientFilter := "all";
     InvoicesPage.form := None |}.

Definition timeTrackingPage : TimeTrackingPage.State :=
  {| TimeTrackingPage.timeEntries := [];
     TimeTrackingPage.filteredEntries := [];
     TimeTrackingPage.tasks := [];
     TimeTrackingPage.clients := [];
     TimeTrackingPage.loading := false;
     TimeTrackingPage.modalVisible := true;
     TimeTrackingPage.activeTimer := None;
     TimeTrackingPage.summaryStats :=
       {| TimeTrackingPage.today := 0%Qc;
          TimeTrackingPage.week := 0%Qc;
          TimeTrackingPage.month := 0%Qc |};
     TimeTrackingPage.form := None |}.

Definition clock : TimeTrackingPage.Clock :=
  {| TimeTrackingPage.now := 1700000000000%Z;
     TimeTrackingPage.todayStart := 1699920000000%Z;
     TimeTrackingPage.weekStart := 1699747200000%Z;
     TimeTrackingPage.monthStart := 1698796800000%Z |}.

Definition dashboardPage : DashboardPage.State :=
  {| DashboardPage.loading := true;
     DashboardPage.stats :=
       {| DashboardPage.totalClients := 0;
          DashboardPage.activeTasks := 0;
          DashboardPage.hoursTracked := Double.zero;
          DashboardPage.pendingInvoices := 0;
          DashboardPage.pendingInvoicesAmount := Double.zero;
          DashboardPage.clientsAddedThisMonth := 0 |};
     DashboardPage.activeProjects := [];
     DashboardPage.recentActivities := [] |}.

Definition dashboardClock : DashboardPage.Clock :=
  {| DashboardPage.startOfMonth := 1698796800000%Z;
     DashboardPage.nowISO := "2023-11-14T22:13:20.000Z" |}.

Definition formValues : InvoicesPage.FormValues :=
  {| InvoicesPage.v_clientId := "c1";
     InvoicesPage.v_items :=
       [{| InvoicesPage.item_description := "Design";
           InvoicesPage.item_quantity := Q2Qc (3 # 2);
           InvoicesPage.item_rate := Q2Qc (80 # 1) |};
        {| InvoicesPage.item_description := "Hosting";
           InvoicesPage.item_quantity := Q2Qc (12 # 1);
           InvoicesPage.item_rate := Q2Qc (5 # 1) |}];
     InvoicesPage.v_status := "Unpaid";
     InvoicesPage.v_dueDate := 1702592000000%Z |}.

(** Ninety minutes and a half of work. *)
Definition entryValues : TimeTrackingPage.TimeEntryFormValues :=
  {| TimeTrackingPage.v_taskId := "t7";
     TimeTrackingPage.v_clientId := "c1";
     TimeTrackingPage.v_startTime := 1699990000000%Z;
     TimeTrackingPage.v_endTime := 1699995430000%Z;
     TimeTrackingPage.v_notes := None |}.

(** An end time before the start time. *)
Definition backwardValues : TimeTrackingPage.TimeEntryFormValues :=
  {| TimeTrackingPage.v_taskId := "t7";
     TimeTrackingPage.v_clientId := "c1";
     TimeTrackingPage.v_startTime := 1699995430000%Z;
     TimeTrackingPage.v_endTime := 1699995400000%Z;
     TimeTrackingPage.v_notes := None |}.

(** A store with time logs and invoices of alice and of bob. *)
Definition timeLog (docId : string) (owner : string)
    (hours : option JS.number) (date : option Z) : F.TimeDoc :=
  {| F.tt_id := docId; F.tt_userId := Some owner;
     F.tt_taskId := "t7"; F.tt_clientId := "c1";
     F.tt_startTime := None; F.tt_endTime := None; F.tt_duration := None;
     F.tt_notes := None; F.tt_createdAt := None;
     F.tt_hours := hours; F.tt_date := date |}.

Definition invoiceOf (docId : string) (owner : string)
    (total : option JS.number) (status : string) : F.InvoiceDoc :=
  {| F.i_id := docId; F.i_userId := owner; F.i_invoiceNumber := "INV-0001";
     F.i_clientId := "c1"; F.i_clientName := None; F.i_items := [];
     F.i_total := total; F.i_status := status;
     F.i_dueDate := 1702592000000%Z; F.i_createdAt := 1700000000000%Z |}.

Definition busyDb : F.Db :=
  {| F.clients := [aliceClient; bobClient];
     F.tasks := [bobTask];
     F.timeTracking :=
       [timeLog "l1" "alice" (Some (Q2Qc (5 # 4))) (Some 1699000000000%Z);
        timeLog "l2" "alice" (Some (Q2Qc (5 # 2))) (Some 1690000000000%Z);
        timeLog "l3" "bob" (Some (Q2Qc (3 # 1))) (Some 1699000000000%Z);
        timeLog "l4" "alice" None (Some 1699500000000%Z);
        timeLog "l5" "alice" (Some (Q2Qc (2 # 1))) (Some 1699600000000%Z)];
     F.invoices :=
       [invoiceOf "i1" "alice" (Some (Q2Qc (100 # 1))) "unpaid";
        invoiceOf "i2" "alice" (Some (Q2Qc (50 # 1))) "paid";
        invoiceOf "i3" "bob" (Some (Q2Qc (70 # 1))) "unpaid";
        invoiceOf "i4" "alice" None "unpaid"];
     F.activityLogs := [] |}.

Definition busy (n : nat) : Handler.Env :=
  {| Handler.store := busyDb;
     Handler.script := List.repeat (Handler.Accepts "new1") n;
     Handler.toasts := [];
     Handler.calls := [] |}.

Definition numbered (n : string) : InvoicesPage.Invoice :=
  {| InvoicesPage.id := "i"; InvoicesPage.userId := "alice";
     InvoicesPage.invoiceNumber := n; InvoicesPage.clientId := "c1";
     InvoicesPage.clientName := None; InvoicesPage.items := [];
     InvoicesPage.total := None; InvoicesPage.status := "Unpaid";
     InvoicesPage.dueDate := 0%Z; InvoicesPage.createdAt := 0%Z |}.

(** Two records to export; the second lacks a key and has a cell with a
    comma and a double quote. *)
Definition exportRows : list ExportUtils.record :=
  [[("ID"%string, ExportUtils.VString "a1");
    ("Client"%string, ExportUtils.VString "Acme");
    ("Paid"%string, ExportUtils.VBoolean true)];
   [("ID"%string, ExportUtils.VString "a2");
    ("Client"%string,
     ExportUtils.VString
       (String.append "Globex, "
          (String ExportUtils.dquote
             (String.append "EU" (ExportUtils.str ExportUtils.dquote)))));
    ("Note"%string, ExportUtils.VNull)]].

Definition reportClients : list ExportUtils.Client :=
  [{| ExportUtils.client_id := "c1"; ExportUtils.client_name := "Acme" |};
   {| ExportUtils.client_id := "c2"; ExportUtils.client_name := "Globex" |}].

Definition reportTask (docId cid : string) (st : string)
    : TasksReport.Task :=
  {| TasksReport.id := docId; TasksReport.userId := "alice";
     TasksReport.clientId := cid; TasksReport.title := "Task";
     TasksReport.status := st; TasksReport.dueDate := 0%Z;
     TasksReport.createdAt := 0%Z |}.

Definition reportTasks : list TasksReport.Task :=
  [reportTask "t1" "c1" "completed";
   reportTask "t2" "c2" "pending";
   reportTask "t3" "c1" "pending";
   reportTask "t4" "c1" "completed"].

End Sample.

(* ================================================================= *)
(** ** contexts/AuthContext.tsx: the invoices report

    The report component declares the invoice type of lib/exportUtils.ts
    again, field by field; the embedding uses one record for both. *)

Module InvoicesReport.

Record InvoiceReport := {
  total : Double.t;
  paid : Double.t;
  unpaid : Double.t;
  Overdue : Double.t
}.

(** [invoices.filter(inv => inv.status === st)
      .reduce((sum, inv) => sum + inv.amount, 0)] *)
Definition amountOf (st : string) (invoices : list ExportUtils.Invoice)
    : Double.t :=
  fold_left
    (fun sum inv => Double.add sum (Double.field (ExportUtils.amount inv)))
    (filter (fun inv => String.eqb (ExportUtils.status inv) st) invoices)
    Double.zero.

Definition calculateReport (invoices : list ExportUtils.Invoice)
    : InvoiceReport :=
  {| total :=
       fold_left
         (fun sum inv =>
            Double.add sum (Double.field (ExportUtils.amount inv)))
         invoices Double.zero;
     paid := amountOf "paid" invoices;
     unpaid := amountOf "unpaid" invoices;
     Overdue := amountOf "Overdue" invoices |}.

End InvoicesReport.

(* ================================================================= *)
(** ** lib/exportUtils.ts: the figures of the printed reports

    The generators of the invoices and of the tasks report compute figures
    and put them into a page; the figures are embedded, the markup around
    them is not.  A generator that gets no data returns a fixed text
    instead: [None] here.  The tasks have the type of the report component,
    which lib/exportUtils.ts declares again.  [now] is the value of
    [new Date()], read once. *)

Module GenerateHTML.

(** *** [generateInvoicesHTML] *)

Record InvoiceSummary := {
  invoiceCount : nat;
  totalAmount : Double.t;
  paidAmount : Double.t;
  unpaidAmount : Double.t;
  OverdueAmount : Double.t;
  paidCount : nat;
  unpaidCount : nat;
  OverdueCount : nat
}.

Definition withStatus (st : string) (invoices : list ExportUtils.Invoice)
    : list ExportUtils.Invoice :=
  filter (fun i => String.eqb (ExportUtils.status i) st) invoices.

Definition amounts (invoices : list ExportUtils.Invoice) : Double.t :=
  fold_left
    (fun sum i => Double.add sum (Double.field (ExportUtils.amount i)))
    invoices Double.zero.

Definition invoiceSummary (invoices : list ExportUtils.Invoice)
    : option InvoiceSummary :=
  match invoices with
  | [] => None
  | _ :: _ =>
      Some {| invoiceCount := List.length invoices;
              totalAmount := amounts invoices;
              paidAmount := amounts (withStatus "paid" invoices);
              unpaidAmount := amounts (withStatus "unpaid" invoices);
              OverdueAmount := amounts (withStatus "Overdue" invoices);
              paidCount := List.length (withStatus "paid" invoices);
              unpaidCount := List.length (withStatus "unpaid" invoices);
              OverdueCount := List.length (withStatus "Overdue" invoices) |}
  end.

(** *** [generateTasksHTML] *)

Record TaskCounts := {
  completed : nat;
  pending : nat;
  Overdue : nat
}.

(** [task.status === 'pending' && task.dueDate.toDate() < new Date()] *)
Definition isOverdue (now : Z) (task : TasksReport.Task) : bool :=
  String.eqb (TasksReport.status task) "pending"
  && (TasksReport.dueDate task <? now)%Z.

(** The three branches of the loop: completed, else overdue, else pending,
    whatever the status is. *)
Definition countTask (now : Z) (task : TasksReport.Task) (c : TaskCounts)
    : TaskCounts :=
  if String.eqb (TasksReport.status task) "completed"
  then {| completed := S (completed c); pending := pending c;
          Overdue := Overdue c |}
  else if isOverdue now task
       then {| completed := completed c; pending := pending c;
               Overdue := S (Overdue c) |}
       else {| completed := completed c; pending := S (pending c);
               Overdue := Overdue c |}.

Definition clientTasks (now : Z) (tasks : list TasksReport.Task)
    : Dict.t TaskCounts :=
  fold_left
    (fun o task =>
       Dict.upsert (TasksReport.clientId task)
         (fun old =>
            countTask now task
              match old with
              | Some c => c
              | None => {| completed := 0; pending := 0; Overdue := 0 |}
              end) o)
    tasks [].

Record TaskSummary := {
  totalTasks : nat;
  completedTasks : nat;
  pendingTasks : nat;
  OverdueTasks : nat;
  completionRate : Double.t
}.

Definition hasStatus (st : string) (t : TasksReport.Task) : bool :=
  String.eqb (TasksReport.status t) st.

Definition taskSummary (now : Z) (tasks : list TasksReport.Task)
    : option TaskSummary :=
  match tasks with
  | [] => None
  | _ :: _ =>
      let totalTasks := List.length tasks in
      let completedTasks :=
        List.length (filter (hasStatus "completed") tasks) in
      Some {| totalTasks := totalTasks;
              completedTasks := completedTasks;
              pendingTasks :=
                List.length (filter (hasStatus "pending") tasks);
              OverdueTasks := List.length (filter (isOverdue now) tasks);
              completionRate :=
                TasksReport.rate completedTasks totalTasks |}
  end.

Record TaskRow := {
  task_clientId : string;
  task_total : nat;
  task_completed : nat;
  task_pending : nat;
  task_Overdue : nat;
  task_rate : Double.t
}.

Definition total (c : TaskCounts) : nat :=
  completed c + pending c + Overdue c.

(** [Object.entries(clientTasks).sort(...)]: the largest total first. *)
Definition taskRows (now : Z) (tasks : list TasksReport.Task)
    : list TaskRow :=
  map
    (fun kv =>
       let stats := snd kv in
       {| task_clientId := fst kv;
          task_total := total stats;
          task_completed := completed stats;
          task_pending := pending stats;
          task_Overdue := Overdue stats;
          task_rate := TasksReport.rate (completed stats) (total stats) |})
    (F.sortBy (fun a b => total (snd b) <=? total (snd a))
       (Dict.ownEntries (clientTasks now tasks))).

End GenerateHTML.

(* ================================================================= *)
(** ** components/reports/TimeTrackingReport.tsx: hours of a period *)

Module TimeReportPeriods.

Section Periods.
(** [ago days] is the time value of [dayjs().subtract(days, 'days')]. *)
Variable ago : Z -> Z.


End Periods.

End TimeReportPeriods.

(* ================================================================= *)
(** ** app/invoices/page.tsx: opening the form *)

Module InvoicesForm.
Import Handler.

(** The form shows description, quantity and rate of a line item; the
    amount is computed again when the form is submitted. *)
Definition toFormItem (item : F.InvoiceItem) : InvoicesPage.FormItem :=
  {| InvoicesPage.item_description := F.description item;
     InvoicesPage.item_quantity := F.quantity item;
     InvoicesPage.item_rate := F.rate item |}.

Definition handleEdit (user : option User) (invoice : InvoicesPage.Invoice)
    : M InvoicesPage.State unit :=
  match user with
  | None => message (ToastError "You must be logged in to edit invoices")
  | Some u =>
      if negb (String.eqb (InvoicesPage.userId invoice) (uid u))
      then message
             (ToastError "You do not have permission to edit this invoice")
      else
        setState (InvoicesPage.setEditingInvoice (Some invoice)) ;;;
        setState
          (InvoicesPage.setForm
             (Some {| InvoicesPage.v_clientId := InvoicesPage.clientId invoice;
                      InvoicesPage.v_items :=
                        map toFormItem (InvoicesPage.items invoice);
                      InvoicesPage.v_status := InvoicesPage.status invoice;
                      InvoicesPage.v_dueDate :=
                        InvoicesPage.dueDate invoice |})) ;;;
        setState (InvoicesPage.setIsModalVisible true)
  end.

(** The Create Invoice button. *)
Definition openCreate : M InvoicesPage.State unit :=
  setState (InvoicesPage.setEditingInvoice None) ;;;
  setState (InvoicesPage.setForm None) ;;;
  setState (InvoicesPage.setIsModalVisible true).

End InvoicesForm.

(* ================================================================= *)
(** ** app/time-tracking/page.tsx: the timer and the entries

    A duration that is not a number (the start time of the running entry does
    not parse) is written as a missing duration: the pages test a duration
    for truthiness only, and both are falsy. *)

Module Timer.
Import Handler.

(** [`${hours}h ${mins}m`] with [Math.floor(minutes / 60)] and
    [minutes % 60], the remainder taking the sign of [minutes]. *)
Definition formatDuration (minutes : option Z) : string :=
  match minutes with
  | Some m =>
      String.append (JS.String_ofZ (m / 60))
        (String.append "h "
           (String.append (JS.String_ofZ (Z.rem m 60)) "m"))
  | None => "NaNh NaNm"
  end.

(** [HH:MM:SS] for a whole number of seconds. *)
Definition formatElapsedTime (seconds : Z) : string :=
  let hours := (seconds / 3600)%Z in
  let minutes := (Z.rem seconds 3600 / 60)%Z in
  let secs := Z.rem seconds 60 in
  String.append (JS.padStart 2 "0" (JS.String_ofZ hours))
    (String.append ":"
       (String.append (JS.padStart 2 "0" (JS.String_ofZ minutes))
          (String.append ":" (JS.padStart 2 "0" (JS.String_ofZ secs))))).

(** The tick of the timer effect:
    [Math.floor((Date.now() - start) / 1000)]. *)
Definition elapsedSeconds (start now : Z) : Z :=
  JS.Math_floor (JS.ofZ (now - start) / JS.ofZ 1000)%Qc.

(** [handleStartTimer]: [true] when the task selection opens. *)
Definition handleStartTimer : M TimeTrackingPage.State bool :=
  s <- getState ;;
  match TimeTrackingPage.activeTimer s with
  | Some _ =>
      message
        (ToastWarning "A timer is already running. Please stop it first.") ;;;
      ret false
  | None => ret true
  end.

Definition runningEntry (u : User) (clock : TimeTrackingPage.Clock)
    (taskId clientId docId : string) : F.TimeDoc :=
  {| F.tt_id := docId;
     F.tt_userId := Some (uid u);
     F.tt_taskId := taskId;
     F.tt_clientId := clientId;
     F.tt_startTime := Some (TimeTrackingPage.now clock);
     F.tt_endTime := None;
     F.tt_duration := None;
     F.tt_notes := None;
     F.tt_createdAt := Some (TimeTrackingPage.now clock);
     F.tt_hours := None;
     F.tt_date := None |}.

(** The [onOk] of the task selection of [showTimerModal]; a field that is
    [undefined] (no user, a task without client) makes [addDoc] throw. *)
Definition showTimerModal_onOk (user : option User)
    (clock : TimeTrackingPage.Clock) (selectedTaskId : string)
    : M TimeTrackingPage.State unit :=
  match selectedTaskId with
  | EmptyString => message (ToastError "Please select a task")
  | String _ _ =>
      s <- getState ;;
      match find (fun t => String.eqb (TimeTrackingPage.task_id t)
                             selectedTaskId)
              (TimeTrackingPage.tasks s) with
      | None => ret tt
      | Some task =>
          tryCatch
            (match user, TimeTrackingPage.task_clientId task with
             | Some u, Some c =>
                 await (AddDoc "timeTracking")
                   (TimeTrackingPage.addDoc
                      (runningEntry u clock selectedTaskId c))
             | _, _ => refused (AddDoc "timeTracking")
             end ;;;
             message (ToastSuccess "Timer started successfully") ;;;
             TimeTrackingPage.fetchTimeEntries user clock)
            (message (ToastError "Failed to start timer"))
      end
  end.

(** [updateDoc(doc(db, 'timeTracking', id), fields)]: fails when the
    document does not exist. *)
Fixpoint updateEntry (docId : string) (f : F.TimeDoc -> F.TimeDoc)
    (l : list F.TimeDoc) : option (list F.TimeDoc) :=
  match l with
  | [] => None
  | d :: r =>
      if String.eqb (F.tt_id d) docId then Some (f d :: r)
      else match updateEntry docId f r with
           | Some r' => Some (d :: r')
           | None => None
           end
  end.

Definition updateDoc (docId : string) (f : F.TimeDoc -> F.TimeDoc)
    : string -> F.Db -> option (unit * F.Db) :=
  fun _ db =>
    match updateEntry docId f (F.timeTracking db) with
    | Some l => Some (tt, F.setTimeTracking l db)
    | None => None
    end.

Definition deleteDoc (docId : string)
    : string -> F.Db -> option (unit * F.Db) :=
  fun _ db =>
    Some (tt,
          F.setTimeTracking
            (filter (fun d => negb (String.eqb (F.tt_id d) docId))
               (F.timeTracking db)) db).

(** [{ endTime: endTime, duration: duration }] *)
Definition stop (endTime : Z) (duration : option Z) (d : F.TimeDoc)
    : F.TimeDoc :=
  {| F.tt_id := F.tt_id d;
     F.tt_userId := F.tt_userId d;
     F.tt_taskId := F.tt_taskId d;
     F.tt_clientId := F.tt_clientId d;
     F.tt_startTime := F.tt_startTime d;
     F.tt_endTime := Some endTime;
     F.tt_duration := duration;
     F.tt_notes := F.tt_notes d;
     F.tt_createdAt := F.tt_createdAt d;
     F.tt_hours := F.tt_hours d;
     F.tt_date := F.tt_date d |}.

Definition handleStopTimer (user : option User)
    (clock : TimeTrackingPage.Clock) : M TimeTrackingPage.State unit :=
  s <- getState ;;
  match TimeTrackingPage.activeTimer s with
  | None => ret tt
  | Some active =>
      tryCatch
        (let endTime := TimeTrackingPage.now clock in
         let duration :=
           match TimeTrackingPage.startTime active with
           | Some start =>
               Some (TimeTrackingPage.minutesBetween start endTime)
           | None => None
           end in
         await (UpdateDoc "timeTracking" (TimeTrackingPage.id active))
           (updateDoc (TimeTrackingPage.id active) (stop endTime duration)) ;;;
         message
           (ToastSuccess
              (String.append "Timer stopped. Duration: "
                 (formatDuration duration))) ;;;
         setState (TimeTrackingPage.setActiveTimer None) ;;;
         TimeTrackingPage.fetchTimeEntries user clock)
        (message (ToastError "Failed to stop timer"))
  end.

Definition handleDeleteEntry (user : option User)
    (clock : TimeTrackingPage.Clock) (entryId : string)
    : M TimeTrackingPage.State unit :=
  tryCatch
    (await (DeleteDoc "timeTracking" entryId) (deleteDoc entryId) ;;;
     message (ToastSuccess "Entry deleted successfully") ;;;
     TimeTrackingPage.fetchTimeEntries user clock)
    (message (ToastError "Failed to delete entry")).

(** [getTaskName]: [task?.title || 'Unknown Task'] *)
Definition getTaskName (s : TimeTrackingPage.State) (taskId : string)
    : string :=
  match find (fun t => String.eqb (TimeTrackingPage.task_id t) taskId)
          (TimeTrackingPage.tasks s) with
  | Some t => JS.orString (Some (TimeTrackingPage.task_title t)) "Unknown Task"
  | None => "Unknown Task"
  end.

End Timer.

(* ================================================================= *)
(** ** The time-tracking page: filters, editing and export
    ([src/app/time-tracking/page.tsx]) *)

Module TimeTrackingView.
Import Handler.

(** The state of the component that the fetch handlers leave alone. *)
Record View := {
  editingEntry : option TimeTrackingPage.TimeEntry;
  searchText : string;
  dateRange : option (Z * Z);
  filterClient : option string;
  filterTask : option string
}.

Record State := {
  page : TimeTrackingPage.State;
  view : View
}.

Definition setPage (f : TimeTrackingPage.State -> TimeTrackingPage.State)
    (s : State) : State :=
  {| page := f (page s); view := view s |}.

Definition setEditingEntry (x : option TimeTrackingPage.TimeEntry)
    (s : State) : State :=
  {| page := page s;
     view := {| editingEntry := x; searchText := searchText (view s);
                dateRange := dateRange (view s);
                filterClient := filterClient (view s);
                filterTask := filterTask (view s) |} |}.

(** A handler of the page, run inside the component. *)
Definition onPage {A} (c : M TimeTrackingPage.State A) : M State A :=
  fun s =>
    match c (fst s, page (snd s)) with
    | (r, (e', p')) => (r, (e', {| page := p'; view := view (snd s) |}))
    end.

(** *** The filter effect *)

(** [s.trimEnd()] and [s.trim()] *)
Fixpoint trimEnd (s : string) : string :=
  match s with
  | EmptyString => EmptyString
  | String c r =>
      match trimEnd r with
      | EmptyString =>
          if JS.isWhiteSpace c then EmptyString else String c EmptyString
      | String _ _ as r' => String c r'
      end
  end.

Definition trim (s : string) : string := trimEnd (JS.trimStart s).

(** The callback of the search filter; [undefined] counts as false. *)
Definition matchesSearch (s : State) (entry : TimeTrackingPage.TimeEntry)
    : bool :=
  let task :=
    find (fun t => String.eqb (TimeTrackingPage.task_id t)
                     (TimeTrackingPage.taskId entry))
      (TimeTrackingPage.tasks (page s)) in
  let client :=
    find (fun c => String.eqb (TimeTrackingPage.client_id c)
                     (TimeTrackingPage.clientId entry))
      (TimeTrackingPage.clients (page s)) in
  let searchLower := JS.toLowerCase (searchText (view s)) in
  match task with
  | Some t =>
      JS.includes (JS.toLowerCase (TimeTrackingPage.task_title t))
        searchLower
  | None => false
  end
  || match client with
     | Some c =>
         JS.includes (JS.toLowerCase (TimeTrackingPage.client_name c))
           searchLower
     | None => false
     end
  || match TimeTrackingPage.notes entry with
     | Some n => JS.includes (JS.toLowerCase n) searchLower
     | None => false
     end.

Section Days.
(** [startOf('day')] and [endOf('day')] in the time zone of the browser. *)
Variables startOfDay endOfDay : Z -> Z.

(** [entryDate.isAfter(start.startOf('day')) &&
    entryDate.isBefore(end.endOf('day'))]; a missing start time gives an
    invalid date, which is neither after nor before anything. *)
Definition inRange (range : Z * Z) (entry : TimeTrackingPage.TimeEntry)
    : bool :=
  match TimeTrackingPage.startTime entry with
  | Some t =>
      (startOfDay (fst range) <? t)%Z && (t <? endOfDay (snd range))%Z
  | None => false
  end.

Definition applyFilters (s : State) : State :=
  let filtered := TimeTrackingPage.timeEntries (page s) in
  let filtered :=
    if InvoicesPage.isTruthy (trim (searchText (view s)))
    then filter (matchesSearch s) filtered
    else filtered in
  let filtered :=
    match dateRange (view s) with
    | Some range => filter (inRange range) filtered
    | None => filtered
    end in
  let filtered :=
    match filterClient (view s) with
    | Some (String _ _ as c) =>
        filter (fun entry => String.eqb (TimeTrackingPage.clientId entry) c)
          filtered
    | _ => filtered
    end in
  let filtered :=
    match filterTask (view s) with
    | Some (String _ _ as t) =>
        filter (fun entry => String.eqb (TimeTrackingPage.taskId entry) t)
          filtered
    | _ => filtered
    end in
  setPage (TimeTrackingPage.setFilteredEntries filtered) s.
End Days.

(** *** Editing an entry *)

(** The fields [handleEditEntry] passes to [updateDoc]. *)
Definition edited (values : TimeTrackingPage.TimeEntryFormValues)
    (dur : Z) (d : F.TimeDoc) : F.TimeDoc :=
  {| F.tt_id := F.tt_id d;
     F.tt_userId := F.tt_userId d;
     F.tt_taskId := TimeTrackingPage.v_taskId values;
     F.tt_clientId := TimeTrackingPage.v_clientId values;
     F.tt_startTime := Some (TimeTrackingPage.v_startTime values);
     F.tt_endTime := Some (TimeTrackingPage.v_endTime values);
     F.tt_duration := Some dur;
     F.tt_notes := Some (JS.orString (TimeTrackingPage.v_notes values) "");
     F.tt_createdAt := F.tt_createdAt d;
     F.tt_hours := F.tt_hours d;
     F.tt_date := F.tt_date d |}.

Definition handleEditEntry (user : option User)
    (clock : TimeTrackingPage.Clock)
    (values : TimeTrackingPage.TimeEntryFormValues) : M State unit :=
  s <- getState ;;
  match editingEntry (view s) with
  | None => ret tt
  | Some editing =>
      tryCatch
        (let dur :=
           TimeTrackingPage.minutesBetween
             (TimeTrackingPage.v_startTime values)
             (TimeTrackingPage.v_endTime values) in
         if (dur <=? 0)%Z
         then message (ToastError "End time must be after start time")
         else
           await (UpdateDoc "timeTracking" (TimeTrackingPage.id editing))
             (Timer.updateDoc (TimeTrackingPage.id editing)
                (edited values dur)) ;;;
           message (ToastSuccess "Entry updated successfully") ;;;
           setState (setPage (TimeTrackingPage.setModalVisible false)) ;;;
           setState (setEditingEntry None) ;;;
           setState (setPage (TimeTrackingPage.setForm None)) ;;;
           onPage (TimeTrackingPage.fetchTimeEntries user clock))
        (message (ToastError "Failed to update entry"))
  end.

Definition openAddModal : M State unit :=
  setState (setEditingEntry None) ;;;
  setState (setPage (TimeTrackingPage.setForm None)) ;;;
  setState (setPage (TimeTrackingPage.setModalVisible true)).

(** The [onCancel] of the entry modal. *)
Definition onCancel : M State unit :=
  setState (setPage (TimeTrackingPage.setModalVisible false)) ;;;
  setState (setEditingEntry None) ;;;
  setState (setPage (TimeTrackingPage.setForm None)).

(** [handleModalSubmit], once the form has validated [values]. *)
Definition handleModalSubmit (user : option User)
    (clock : TimeTrackingPage.Clock)
    (values : TimeTrackingPage.TimeEntryFormValues) : M State unit :=
  s <- getState ;;
  match editingEntry (view s) with
  | Some _ => handleEditEntry user clock values
  | None => onPage (TimeTrackingPage.handleAddEntry user clock values)
  end.

(** *** Export *)

Section ExportFile.
(** [dayjs(t).format('YYYY-MM-DD HH:mm')] in the time zone of the browser;
    a missing time gives an invalid date. *)
Variable format : option Z -> string.

Definition header : list string :=
  ["Task"; "Client"; "Start Time"; "End Time"; "Duration"; "Notes"]%string.

Definition exportCells (p : TimeTrackingPage.State)
    (entry : TimeTrackingPage.TimeEntry) : list string :=
  [Timer.getTaskName p (TimeTrackingPage.taskId entry);
   TimeTrackingPage.getClientName p (TimeTrackingPage.clientId entry);
   format (TimeTrackingPage.startTime entry);
   match TimeTrackingPage.endTime entry with
   | Some t => format (Some t)
   | None => "Running"%string
   end;
   match TimeTrackingPage.duration entry with
   | Some d =>
       if (d =? 0)%Z then "-"%string else Timer.formatDuration (Some d)
   | None => "-"%string
   end;
   JS.orString (TimeTrackingPage.notes entry) ""].

Definition exportRow (p : TimeTrackingPage.State)
    (entry : TimeTrackingPage.TimeEntry) : string :=
  JS.join (ExportUtils.str ExportUtils.comma) (exportCells p entry).

Definition csvContent (p : TimeTrackingPage.State) : string :=
  JS.join (ExportUtils.str ExportUtils.newline)
    (JS.join (ExportUtils.str ExportUtils.comma) header
     :: map (exportRow p) (TimeTrackingPage.filteredEntries p)).

(** [today] is [dayjs().format('YYYY-MM-DD')]. *)
Definition handleExport (today : string) : M State ExportUtils.Download :=
  s <- getState ;;
  let file :=
    {| ExportUtils.download :=
         String.append "time-tracking-" (String.append today ".csv");
       ExportUtils.content := csvContent (page s) |} in
  message (ToastSuccess "Exported successfully") ;;;
  ret file.
End ExportFile.

End TimeTrackingView.

(* ================================================================= *)
(** ** Notions used to state further properties of the pages *)

Module Props.

(** The environment after one more notification, nothing else changed. *)
Definition notify (t : Handler.Toast) (e : Handler.Env) : Handler.Env :=
  {| Handler.store := Handler.store e;
     Handler.script := Handler.script e;
     Handler.toasts := Handler.toasts e ++ [t];
     Handler.calls := Handler.calls e |}.

(** A store that answers the next calls, giving these ids to new
    documents. *)
Definition accepting (db : F.Db) (ids : list string) : Handler.Env :=
  {| Handler.store := db;
     Handler.script := map Handler.Accepts ids;
     Handler.toasts := [];
     Handler.calls := [] |}.

(** The invoice documents of a user. *)
Definition ownedBy (u : User) (d : F.InvoiceDoc) : bool :=
  String.eqb (F.i_userId d) (uid u).

(** A list of invoices with the latest creation time first. *)
Definition newestFirst (l : list InvoicesPage.Invoice) : Prop :=
  StronglySorted
    (fun a b => (InvoicesPage.createdAt b <= InvoicesPage.createdAt a)%Z) l.

(** The first document with the given id, between those before it and
    those after it. *)
Definition firstWithId (docId : string) (l l1 : list F.InvoiceDoc)
    (d : F.InvoiceDoc) (l2 : list F.InvoiceDoc) : Prop :=
  l = l1 ++ d :: l2 /\ F.i_id d = docId /\
  forall x, In x l1 -> F.i_id x <> docId.

(** The time-tracking documents the page's query returns for a user: the
    user's own that carry a creation time. *)
Definition ownEntry (u : User) (d : F.TimeDoc) : bool :=
  F.optStringEqb (F.tt_userId d) (uid u)
  && TimeTrackingPage.isSome (F.tt_createdAt d).

(** Time entries with the latest creation time first. *)
Definition newestEntryFirst (l : list TimeTrackingPage.TimeEntry) : Prop :=
  StronglySorted
    (fun a b =>
       match TimeTrackingPage.createdAt a, TimeTrackingPage.createdAt b with
       | Some x, Some y => (y <= x)%Z
       | _, _ => False
       end) l.

(** An entry without end time: a running timer. *)
Definition running (entry : TimeTrackingPage.TimeEntry) : bool :=
  negb (TimeTrackingPage.isSome (TimeTrackingPage.endTime entry)).

(** The entries a successful fetch shows. *)
Definition entriesOf (u : User) (db : F.Db) : list TimeTrackingPage.TimeEntry :=
  map TimeTrackingPage.toTimeEntry
    (F.getDocs (TimeTrackingPage.entriesQuery u) (F.timeTracking db)).

(** The page after a successful fetch of the time entries. *)
Definition refreshed (u : User) (clock : TimeTrackingPage.Clock) (db : F.Db)
    (s : TimeTrackingPage.State) : TimeTrackingPage.State :=
  TimeTrackingPage.setLoading false
    (TimeTrackingPage.setSummaryStats
       (TimeTrackingPage.calculateSummaryStats clock (entriesOf u db))
       (TimeTrackingPage.setActiveTimer (find running (entriesOf u db))
          (TimeTrackingPage.setFilteredEntries (entriesOf u db)
             (TimeTrackingPage.setTimeEntries (entriesOf u db)
                (TimeTrackingPage.setLoading true s))))).

(** No document that the page would show for the user is a running
    timer. *)
Definition noneRunning (u : User) (docs : list F.TimeDoc) : Prop :=
  forall d, In d docs -> ownEntry u d = true -> F.tt_endTime d <> None.

(** No document carries the given id. *)
Definition freshId (docId : string) (docs : list F.TimeDoc) : Prop :=
  forall d, In d docs -> F.tt_id d <> docId.



(** The handlers of the time-tracking page that write time entries. *)
Inductive TimeOperation :=
| AddEntry (values : TimeTrackingPage.TimeEntryFormValues)
| StartTimer (selectedTaskId : string)
| StopTimer.

Definition runTime (op : TimeOperation) (user : option User)
    (clock : TimeTrackingPage.Clock)
    : Handler.M TimeTrackingPage.State unit :=
  match op with
  | AddEntry values => TimeTrackingPage.handleAddEntry user clock values
  | StartTimer selectedTaskId =>
      Timer.showTimerModal_onOk user clock selectedTaskId
  | StopTimer => Timer.handleStopTimer user clock
  end.

(** The statuses the invoice form and the status column offer. *)
Definition formStatuses : list string := ["Paid"; "Unpaid"; "Overdue"]%string.

(** The figures a dashboard shows for a user over a store once its queries
    have come back. *)
Definition dashboardOver (u : User) (clock : DashboardPage.Clock)
    (s : DashboardPage.State) (db : F.Db) : DashboardPage.DashboardStats :=
  DashboardPage.stats
    (snd (snd (DashboardPage.fetchDashboardData u clock
                 (accepting db ["q1"; "q2"; "q3"; "q4"; "q5"; "q6"]%string,
                  s)))).

(** The store accepts the next [n] calls and lets the following one fail. *)
Definition failsAfter (n : nat) (script : list Handler.Reply) : Prop :=
  exists ids tail,
    script = map Handler.Accepts ids ++ tail /\ List.length ids = n /\
    match tail with
    | Handler.Accepts _ :: _ => False
    | _ => True
    end.

(** A task the dashboard may list as a project of the user: the user's own,
    with a status other than completed and with a due date. *)
Definition openTaskOf (u : User) (d : F.TaskDoc) : Prop :=
  F.t_userId d = uid u /\
  (exists st, F.t_status d = Some st /\ st <> "completed"%string) /\
  F.t_dueDate d <> None.

(** [a] is no later than [b], by their time stamps. *)
Definition noLater (a b : F.ActivityDoc) : Prop :=
  match F.a_timestamp a, F.a_timestamp b with
  | Some x, Some y => String.leb x y = true
  | _, _ => False
  end.

(** What a task does to the counters of its client in the printed report;
    a client without counters starts from zero. *)
Definition taskStep (now : Z) (task : TasksReport.Task)
    (old : option GenerateHTML.TaskCounts) : GenerateHTML.TaskCounts :=
  GenerateHTML.countTask now task
    match old with
    | Some c => c
    | None => {| GenerateHTML.completed := 0; GenerateHTML.pending := 0;
                 GenerateHTML.Overdue := 0 |}
    end.

(** The statuses the reports know. *)
Definition reportStatuses : list string := ["paid"; "unpaid"; "Overdue"]%string.

Definition knownStatus (i : ExportUtils.Invoice) : bool :=
  existsb (String.eqb (ExportUtils.status i)) reportStatuses.

(** The invoices whose status the reports do not know, and their amount. *)
Definition otherInvoices (invoices : list ExportUtils.Invoice)
    : list ExportUtils.Invoice :=
  filter (fun i => negb (knownStatus i)) invoices.

(** *** A reader of CSV text

    The reader undoes what [exportToCSV] does: a record ends at a line
    feed, a field at a comma; a field that opens with a double quote runs to
    the closing double quote, and inside it a doubled double quote stands
    for one and commas and line feeds are part of the field.  A carriage
    return is a character like any other.  The result is never empty:
    its first record holds the fields read so far, the first of them being
    what is left of the field under the cursor. *)

Inductive Mode := AtStart | InBare | InQuoted | AfterQuote.

Definition pushField (f : string) (t : list (list string))
    : list (list string) :=
  match t with
  | r :: rs => (f :: r) :: rs
  | [] => [[f]]
  end.

Definition consChar (c : ascii) (t : list (list string))
    : list (list string) :=
  match t with
  | (f :: r) :: rs => (String c f :: r) :: rs
  | [] :: rs => [String c EmptyString] :: rs
  | [] => [[String c EmptyString]]
  end.

Fixpoint read (m : Mode) (s : string) : list (list string) :=
  match s with
  | EmptyString => [[EmptyString]]
  | String c r =>
      let ends :=
        if Ascii.eqb c ExportUtils.comma
        then Some (pushField EmptyString (read AtStart r))
        else if Ascii.eqb c ExportUtils.newline
             then Some ([EmptyString] :: read AtStart r)
             else None in
      match m with
      | AtStart =>
          if Ascii.eqb c ExportUtils.dquote then read InQuoted r
          else match ends with
               | Some t => t
               | None => consChar c (read InBare r)
               end
      | InBare =>
          match ends with
          | Some t => t
          | None => consChar c (read InBare r)
          end
      | InQuoted =>
          if Ascii.eqb c ExportUtils.dquote then read AfterQuote r
          else consChar c (read InQuoted r)
      | AfterQuote =>
          if Ascii.eqb c ExportUtils.dquote
          then consChar c (read InQuoted r)
          else match ends with
               | Some t => t
               | None => consChar c (read InBare r)
               end
      end
  end.

(** What may follow a field: nothing, or a comma or a newline and more
    text. *)
Inductive terminated : string -> Prop :=
| terminated_end : terminated EmptyString
| terminated_comma rest : terminated (String ExportUtils.comma rest)
| terminated_newline rest : terminated (String ExportUtils.newline rest).

Definition readCsv (content : string) : list (list string) :=
  read AtStart content.

(** A cell of the header line that needs no quoting. *)
Definition plain (s : string) : Prop :=
  ExportUtils.needsQuotes s = false.







(** How often a character occurs in a text. *)
Fixpoint occurrences (c : ascii) (s : string) : nat :=
  match s with
  | EmptyString => 0
  | String a r => (if Ascii.eqb a c then 1 else 0) + occurrences c r
  end.

(** The whole numbers a [number] can hold are below 2^1024 in size. *)
Definition isDouble (a : JS.whole) : Prop :=
  match a with
  | JS.Whole z => (Z.abs z < 2 ^ 1024)%Z
  | JS.Infinity _ => True
  end.

(** The numbers [parseInt] reads after the dash of the invoices of [l]. *)
Definition numbersRead (l : list InvoicesPage.Invoice) : list JS.whole :=
  Spec.present
    (map (fun inv =>
            JS.parseIntNumberAt
              (JS.split "-" (InvoicesPage.invoiceNumber inv)) 1) l).

End Props.

(* ================================================================= *)
(** ** Further sample data *)

Module Cases.

Definition entry (docId owner : string) (created start end_ dur : option Z)
    : F.TimeDoc :=
  {| F.tt_id := docId; F.tt_userId := Some owner;
     F.tt_taskId := "t7"; F.tt_clientId := "c1";
     F.tt_startTime := start; F.tt_endTime := end_; F.tt_duration := dur;
     F.tt_notes := None; F.tt_createdAt := created;
     F.tt_hours := None; F.tt_date := None |}.

Definition aliceTask : F.TaskDoc :=
  {| F.t_id := "t7"; F.t_userId := "alice"; F.t_clientId := Some "c1"%string;
     F.t_title := Some "Website"%string; F.t_status := Some "active"%string;
     F.t_progress := None; F.t_dueDate := None; F.t_createdAt := None |}.

(** Alice has two finished entries (one of them without creation time); bob
    has a running one. *)
Definition timeDb : F.Db :=
  {| F.clients := [Sample.aliceClient; Sample.bobClient];
     F.tasks := [aliceTask; Sample.bobTask];
     F.timeTracking :=
       [entry "e1" "alice" (Some 1699990000000%Z) (Some 1699990000000%Z)
          (Some 1699993600000%Z) (Some 60%Z);
        entry "e2" "bob" (Some 1699995000000%Z) (Some 1699995000000%Z)
          None None;
        entry "e3" "alice" None (Some 1699980000000%Z)
          (Some 1699981800000%Z) (Some 30%Z);
        entry "e4" "alice" (Some 1699996000000%Z) (Some 1699996000000%Z)
          (Some 1699998700000%Z) (Some 45%Z)];
     F.invoices := [];
     F.activityLogs := [] |}.

(** The time-tracking page once tasks and clients are loaded. *)
Definition trackingPage : TimeTrackingPage.State :=
  TimeTrackingPage.setTasks
    (map TimeTrackingPage.toTask (F.tasks timeDb))
    (TimeTrackingPage.setClients
       (map TimeTrackingPage.toClient (F.clients timeDb))
       Sample.timeTrackingPage).

(** Ten minutes and a half after the sample clock. *)
Definition later : TimeTrackingPage.Clock :=
  {| TimeTrackingPage.now := 1700000630000%Z;
     TimeTrackingPage.todayStart := 1699920000000%Z;
     TimeTrackingPage.weekStart := 1699747200000%Z;
     TimeTrackingPage.monthStart := 1698796800000%Z |}.

Definition dueTask (docId owner : string) (st due : option string)
    : F.TaskDoc :=
  {| F.t_id := docId; F.t_userId := owner; F.t_clientId := Some "c1"%string;
     F.t_title := Some "Website"%string; F.t_status := st;
     F.t_progress := None; F.t_dueDate := due; F.t_createdAt := None |}.

Definition activity (docId owner : string) (at_ : option string)
    : F.ActivityDoc :=
  {| F.a_id := docId; F.a_userId := owner; F.a_type := None;
     F.a_description := None; F.a_timestamp := at_ |}.

(** A store with open, completed and undated tasks and with seven
    activities, six of them alice's. *)
Definition portfolio : F.Db :=
  {| F.clients := [Sample.aliceClient; Sample.bobClient];
     F.tasks :=
       [dueTask "t1" "alice" (Some "active"%string)
          (Some "2023-12-01"%string);
        dueTask "t2" "alice" (Some "completed"%string)
          (Some "2023-11-20"%string);
        dueTask "t3" "bob" (Some "active"%string) (Some "2023-11-25"%string);
        dueTask "t4" "alice" (Some "Pending"%string) None;
        dueTask "t5" "alice" None (Some "2023-11-15"%string);
        dueTask "t6" "alice" (Some "In Progress"%string)
          (Some "2023-11-10"%string)];
     F.timeTracking := [];
     F.invoices := [];
     F.activityLogs :=
       [activity "a1" "alice" (Some "2023-11-01T10:00:00.000Z"%string);
        activity "a2" "alice" (Some "2023-11-07T10:00:00.000Z"%string);
        activity "a3" "bob" (Some "2023-11-09T10:00:00.000Z"%string);
        activity "a4" "alice" (Some "2023-11-03T10:00:00.000Z"%string);
        activity "a5" "alice" None;
        activity "a6" "alice" (Some "2023-11-05T10:00:00.000Z"%string);
        activity "a7" "alice" (Some "2023-11-02T10:00:00.000Z"%string);
        activity "a8" "alice" (Some "2023-11-06T10:00:00.000Z"%string)] |}.

Definition portfolioOnline : Handler.Env :=
  {| Handler.store := portfolio;
     Handler.script := List.repeat (Handler.Accepts "q") 6;
     Handler.toasts := [];
     Handler.calls := [] |}.

(** Hours logged one, five and twenty days before the sample instant, and
    one entry older than a month. *)
Definition loggedHours (docId : string) (h : Z) (date : Z)
    : TimeTrackingReport.TimeEntry :=
  {| TimeTrackingReport.id := docId; TimeTrackingReport.userId := "alice";
     TimeTrackingReport.clientId := "c1";
     TimeTrackingReport.hours := JS.ofZ h; TimeTrackingReport.date := date;
     TimeTrackingReport.description := "" |}.



(** Tasks as the reports page may hold them: the statuses of the interface
    and those the tasks page writes. *)
Definition pageTasks : list TasksReport.Task :=
  [Sample.reportTask "t1" "c1" "completed";
   Sample.reportTask "t2" "c1" "In Progress";
   Sample.reportTask "t3" "c2" "pending";
   Sample.reportTask "t4" "c1" "Pending";
   Sample.reportTask "t5" "c2" "Completed"].



(** The time-tracking page with an entry opened for editing and no filter
    set. *)
Definition editingPage (editing : TimeTrackingPage.TimeEntry)
    : TimeTrackingView.State :=
  {| TimeTrackingView.page := trackingPage;
     TimeTrackingView.view :=
       {| TimeTrackingView.editingEntry := Some editing;
          TimeTrackingView.searchText := "";
          TimeTrackingView.dateRange := None;
          TimeTrackingView.filterClient := None;
          TimeTrackingView.filterTask := None |} |}.



(** The doubles nearest to 0.1 and to 0.2. *)
Definition tenth : JS.number := Q2Qc (3602879701896397 # 36028797018963968).
Definition fifth : JS.number := Q2Qc (3602879701896397 # 18014398509481984).



(** The doubles nearest to 0.3, and time entries and invoices with such
    numbers. *)
Definition threeTenths : JS.number :=
  Q2Qc (5404319552844595 # 18014398509481984).

Definition fetchedEntry (cid : string) (h : option JS.number)
    : TimeTrackingReport.Fetched.TimeEntry :=
  {| TimeTrackingReport.Fetched.id := "e";
     TimeTrackingReport.Fetched.userId := "alice";
     TimeTrackingReport.Fetched.clientId := cid;
     TimeTrackingReport.Fetched.hours := h;
     TimeTrackingReport.Fetched.date := 1699000000000%Z;
     TimeTrackingReport.Fetched.description := "" |}.

Definition fetchedInvoice (cid : string) (a : option JS.number)
    (st : string) : ExportUtils.Invoice :=
  {| ExportUtils.id := "i"; ExportUtils.userId := "alice";
     ExportUtils.clientId := cid; ExportUtils.amount := a;
     ExportUtils.status := st; ExportUtils.dueDate := 0%Z;
     ExportUtils.createdAt := 0%Z |}.

Definition roundedEntries : list TimeTrackingReport.Fetched.TimeEntry :=
  [fetchedEntry "c1" (Some tenth); fetchedEntry "c2" (Some fifth);
   fetchedEntry "c2" (Some threeTenths)].

Definition roundedInvoices : list ExportUtils.Invoice :=
  [fetchedInvoice "c1" (Some tenth) "paid";
   fetchedInvoice "c2" (Some fifth) "unpaid";
   fetchedInvoice "c2" (Some threeTenths) "unpaid"].

Definition statusInvoices : list ExportUtils.Invoice :=
  [fetchedInvoice "c1" (Some (JS.ofZ 100)) "paid";
   fetchedInvoice "c2" (Some (Q2Qc (101 # 2))) "unpaid";
   fetchedInvoice "c1" (Some (JS.ofZ 20)) "Overdue";
   fetchedInvoice "c2" (Some (JS.ofZ 7)) "Paid"].

(** Entries with hours in quarters; the client id 7 is an array index. *)
Definition quarterEntries : list TimeTrackingReport.Fetched.TimeEntry :=
  [fetchedEntry "c1" (Some (Q2Qc (3 # 2)));
   fetchedEntry "7" (Some (Q2Qc (9 # 4)));
   fetchedEntry "c1" (Some (Q2Qc (1 # 4)))].

End Cases.

(* ================================================================= *)
(** ** Client-name lookups *)

Section Lookups.

Variable A : Type.
Variable p : A -> bool.

Lemma find_dangling (l : list A) :
  (forall x, In x l -> p x = false) -> find p l = None.
Proof.
  induction l as [|a l IH]; intros H; simpl; [reflexivity|].
  rewrite (H a (or_introl eq_refl)).
  apply IH. intros x Hx. apply H. now right.
Qed.

Lemma find_firstMatch (l : list A) (c : A) :
  Spec.firstMatch p l c -> find p l = Some c.
Proof.
  intros (pre & post & -> & Hc & Hpre).
  induction pre as [|a pre IH]; simpl.
  - now rewrite Hc.
  - rewrite (Hpre a (or_introl eq_refl)).
    apply IH. intros x Hx. apply Hpre. now right.
Qed.

Lemma find_Some_firstMatch (l : list A) (c : A) :
  find p l = Some c -> Spec.firstMatch p l c.
Proof.
  induction l as [|a l IH]; simpl; [discriminate|].
  destruct (p a) eqn:Ha.
  - intros [= ->]. exists [], l. repeat split; auto. intros x [].
  - intros H. destruct (IH H) as (pre & post & -> & Hc & Hpre).
    exists (a :: pre), post. repeat split; auto.
    intros x [<- | Hx]; auto.
Qed.

End Lookups.

Lemma getClientNameById_dangling clients cid :
  (forall c, In c clients -> ExportUtils.client_id c <> cid) ->
  ExportUtils.getClientNameById clients cid = "Unknown Client"%string.
Proof.
  intros H. unfold ExportUtils.getClientNameById.
  rewrite find_dangling; [reflexivity|].
  intros c Hc. apply String.eqb_neq. now apply H.
Qed.

Lemma report_getClientName_dangling clients cid :
  (forall c, In c clients -> TimeTrackingReport.client_id c <> cid) ->
  TimeTrackingReport.getClientName clients cid = "Unknown Client"%string.
Proof.
  intros H. unfold TimeTrackingReport.getClientName.
  rewrite find_dangling; [reflexivity|].
  intros c Hc. apply String.eqb_neq. now apply H.
Qed.

Lemma invoicesHTML_getClientName_dangling clients cid :
  (forall c, In c clients -> ExportUtils.client_id c <> cid) ->
  ExportUtils.GenerateInvoicesHTML.getClientName clients cid
  = "Unknown"%string.
Proof.
  intros H. unfold ExportUtils.GenerateInvoicesHTML.getClientName.
  rewrite find_dangling; [reflexivity|].
  intros c Hc. apply String.eqb_neq. now apply H.
Qed.

(** C2, as the claim states it, fails for the lookup of the invoices report:
    with no client loaded, the name shown for a client id is the text
    Unknown, not Unknown Client. *)
Lemma C2_counterexample :
  exists (clients : list ExportUtils.Client) (cid : string),
    (forall c, In c clients -> ExportUtils.client_id c <> cid) /\
    ExportUtils.GenerateInvoicesHTML.getClientName clients cid
    <> "Unknown Client"%string.
Proof.
  exists [], "c1"%string. split.
  - intros c [].
  - cbv. discriminate.
Qed.

(** C2 (amended): for a client id that matches no loaded client,
    [getClientNameById] and the time report's [getClientName] return the text
    Unknown Client, and the [getClientName] of the invoices report returns the
    text Unknown; for a client id that matches, each of the three returns the
    name of the first loaded client with that id. *)
Theorem C2_client_name_lookup :
  (forall (clients : list ExportUtils.Client) (cid : string),
      (forall c, In c clients -> ExportUtils.client_id c <> cid) ->
      ExportUtils.getClientNameById clients cid = "Unknown Client"%string /\
      ExportUtils.GenerateInvoicesHTML.getClientName clients cid
      = "Unknown"%string) /\
  (forall (clients : list TimeTrackingReport.Client) (cid : string),
      (forall c, In c clients -> TimeTrackingReport.client_id c <> cid) ->
      TimeTrackingReport.getClientName clients cid
      = "Unknown Client"%string) /\
  (forall (clients : list ExportUtils.Client) (cid : string) c,
      Spec.firstMatch (fun c => String.eqb (ExportUtils.client_id c) cid)
        clients c ->
      ExportUtils.getClientNameById clients cid = ExportUtils.client_name c /\
      ExportUtils.GenerateInvoicesHTML.getClientName clients cid
      = ExportUtils.client_name c) /\
  (forall (clients : list TimeTrackingReport.Client) (cid : string) c,
      Spec.firstMatch
        (fun c => String.eqb (TimeTrackingReport.client_id c) cid) clients c ->
      TimeTrackingReport.getClientName clients cid
      = TimeTrackingReport.client_name c).
Proof.
  repeat split.
  - now apply getClientNameById_dangling.
  - now apply invoicesHTML_getClientName_dangling.
  - intros. now apply report_getClientName_dangling.
  - unfold ExportUtils.getClientNameById.
    now rewrite (find_firstMatch H).
  - unfold ExportUtils.GenerateInvoicesHTML.getClientName.
    now rewrite (find_firstMatch H).
  - intros clients cid c H. unfold TimeTrackingReport.getClientName.
    now rewrite (find_firstMatch H).
Qed.

(** With client ids that are all different, any loaded client with the id
    is the one whose name is returned. *)
Lemma getClientNameById_unique clients cid c :
  NoDup (map ExportUtils.client_id clients) ->
  In c clients -> ExportUtils.client_id c = cid ->
  ExportUtils.getClientNameById clients cid = ExportUtils.client_name c.
Proof.
  intros Hnd Hin Hid. unfold ExportUtils.getClientNameById.
  destruct (find _ clients) as [c'|] eqn:Hf.
  - apply find_Some_firstMatch in Hf.
    destruct Hf as (pre & post & -> & Hc' & _).
    apply String.eqb_eq in Hc'.
    rewrite map_app in Hnd. simpl in Hnd.
    apply in_app_or in Hin. destruct Hin as [Hin|[-> | Hin]]; auto.
    + exfalso. apply NoDup_remove_2 in Hnd. apply Hnd.
      apply in_or_app. left. rewrite Hc', <- Hid. now apply in_map.
    + exfalso. apply NoDup_remove_2 in Hnd. apply Hnd.
      apply in_or_app. right. rewrite Hc', <- Hid. now apply in_map.
  - exfalso. apply (find_none _ _ Hf) in Hin.
    apply String.eqb_neq in Hin. contradiction.
Qed.

(* ================================================================= *)
(** ** Sums and dictionaries *)


Lemma sum_app l1 l2 :
  Spec.sum (l1 ++ l2) = (Spec.sum l1 + Spec.sum l2)%Qc.
Proof.
  induction l1 as [|x l1 IH]; simpl.
  - now rewrite Qcplus_0_l.
  - rewrite IH. now rewrite Qcplus_assoc.
Qed.

Section DictTotals.

Variables (V M E : Type).
Variable op : M -> M -> M.
Variable e : M.
Hypothesis op_assoc : forall a b c, op a (op b c) = op (op a b) c.
Hypothesis op_comm : forall a b, op a b = op b a.
Hypothesis op_e_l : forall a, op e a = a.

(** The measure of a value, the key and weight of an element, and the update
    an element makes to the value under its key. *)
Variable m : V -> M.
Variable key : E -> string.
Variable w : E -> M.
Variable step : E -> option V -> V.
Hypothesis step_some : forall x old, m (step x (Some old)) = op (m old) (w x).
Hypothesis step_none : forall x, m (step x None) = w x.

Lemma total_upsert x (o : Dict.t V) :
  fold_right op e (map (fun kv => m (snd kv)) (Dict.upsert (key x) (step x) o))
  = op (fold_right op e (map (fun kv => m (snd kv)) o)) (w x).
Proof.
  induction o as [|[k v] o IH]; simpl.
  - rewrite step_none. apply op_comm.
  - destruct (String.eqb (key x) k); simpl.
    + rewrite step_some.
      rewrite <- !op_assoc. f_equal. apply op_comm.
    + rewrite IH. apply op_assoc.
Qed.

Lemma total_group (l : list E) (o : Dict.t V) :
  fold_right op e
    (map (fun kv => m (snd kv))
       (fold_left (fun o x => Dict.upsert (key x) (step x) o) l o))
  = op (fold_right op e (map (fun kv => m (snd kv)) o))
       (fold_right op e (map w l)).
Proof.
  revert o. induction l as [|x l IH]; intros o; simpl.
  - rewrite (op_comm _ e). now rewrite op_e_l.
  - rewrite IH, total_upsert.
    rewrite <- op_assoc. reflexivity.
Qed.

End DictTotals.

Section DictKeys.

Variables (V E : Type).
Variable key : E -> string.
Variable step : E -> option V -> V.

Lemma get_upsert k k' (f : option V -> V) (o : Dict.t V) :
  Dict.get k (Dict.upsert k' f o)
  = if String.eqb k k' then Some (f (Dict.get k o)) else Dict.get k o.
Proof.
  induction o as [|[k0 v] o IH]; simpl.
  - destruct (String.eqb k k'); reflexivity.
  - destruct (String.eqb k' k0) eqn:E0; simpl.
    + apply String.eqb_eq in E0. subst k0.
      destruct (String.eqb k k'); reflexivity.
    + rewrite IH.
      destruct (String.eqb k k') eqn:E1; [|reflexivity].
      apply String.eqb_eq in E1. subst k'. now rewrite E0.
Qed.

Lemma get_group k (l : list E) (o : Dict.t V) :
  Dict.get k (fold_left (fun o x => Dict.upsert (key x) (step x) o) l o)
  = fold_left
      (fun acc x => if String.eqb k (key x) then Some (step x acc) else acc)
      l (Dict.get k o).
Proof.
  revert o. induction l as [|x l IH]; intros o; simpl; [reflexivity|].
  rewrite IH, get_upsert. reflexivity.
Qed.

Lemma keys_upsert_In k (f : option V -> V) (o : Dict.t V) k0 :
  In k0 (Dict.keys (Dict.upsert k f o)) <-> In k0 (Dict.keys o) \/ k0 = k.
Proof.
  unfold Dict.keys. induction o as [|[k1 v] o IH]; simpl.
  - intuition.
  - destruct (String.eqb k k1) eqn:E1; simpl.
    + apply String.eqb_eq in E1. subst k1. intuition.
    + rewrite IH. intuition.
Qed.

Lemma keys_upsert_NoDup k (f : option V -> V) (o : Dict.t V) :
  NoDup (Dict.keys o) -> NoDup (Dict.keys (Dict.upsert k f o)).
Proof.
  unfold Dict.keys. induction o as [|[k1 v] o IH]; simpl; intros H.
  - constructor; [intros []|constructor].
  - destruct (String.eqb k k1) eqn:E1; simpl; [exact H|].
    inversion H as [|? ? Hn Hd]; subst. constructor; [|now apply IH].
    intros Hin. apply (keys_upsert_In k f o k1) in Hin.
    destruct Hin as [Hin | ->]; [contradiction|].
    now rewrite String.eqb_refl in E1.
Qed.

Lemma keys_group_NoDup (l : list E) (o : Dict.t V) :
  NoDup (Dict.keys o) ->
  NoDup (Dict.keys (fold_left (fun o x => Dict.upsert (key x) (step x) o) l o)).
Proof.
  revert o. induction l as [|x l IH]; intros o H; simpl; [exact H|].
  apply IH. now apply keys_upsert_NoDup.
Qed.

Lemma keys_group_In (l : list E) (o : Dict.t V) k :
  In k (Dict.keys (fold_left (fun o x => Dict.upsert (key x) (step x) o) l o))
  <-> In k (Dict.keys o) \/ In k (map key l).
Proof.
  revert o. induction l as [|x l IH]; intros o; simpl.
  - intuition.
  - rewrite IH, keys_upsert_In. intuition.
Qed.

Lemma get_In k v (o : Dict.t V) :
  NoDup (Dict.keys o) -> In (k, v) o -> Dict.get k o = Some v.
Proof.
  unfold Dict.keys. induction o as [|[k1 v1] o IH]; simpl; intros Hnd Hin.
  - destruct Hin.
  - inversion Hnd as [|? ? Hn Hd]; subst.
    destruct Hin as [Heq|Hin].
    + injection Heq as -> ->. now rewrite String.eqb_refl.
    + destruct (String.eqb k k1) eqn:E1.
      * apply String.eqb_eq in E1. subst k1. exfalso. apply Hn.
        change k with (fst (k, v)). now apply in_map.
      * now apply IH.
Qed.

End DictKeys.

(* ================================================================= *)
(** ** Doubles *)

Lemma ofZ_add a b : JS.ofZ (a + b) = (JS.ofZ a + JS.ofZ b)%Qc.
Proof.
  apply Qc_is_canon. unfold JS.ofZ, Qcplus, Q2Qc. cbn [this].
  rewrite !Qred_correct, inject_Z_plus. reflexivity.
Qed.

Lemma ofZ_mul a b : JS.ofZ (a * b) = (JS.ofZ a * JS.ofZ b)%Qc.
Proof.
  apply Qc_is_canon. unfold JS.ofZ, Qcmult, Q2Qc. cbn [this].
  rewrite !Qred_correct, inject_Z_mult. reflexivity.
Qed.

Lemma ofZ_inj a b : JS.ofZ a = JS.ofZ b -> a = b.
Proof.
  intros H.
  assert (Hq : (this (JS.ofZ a) == this (JS.ofZ b))%Q) by now rewrite H.
  unfold JS.ofZ, Q2Qc in Hq. cbn [this] in Hq.
  rewrite !Qred_correct in Hq. unfold Qeq, inject_Z in Hq.
  cbn [Qnum Qden] in Hq. lia.
Qed.

Lemma ofZ_nonzero a : a <> 0%Z -> JS.ofZ a <> 0%Qc.
Proof.
  intros Ha H. apply Ha. now apply ofZ_inj.
Qed.

Lemma ofZ_pow2_nonzero k : (0 <= k)%Z -> JS.ofZ (2 ^ k) <> 0%Qc.
Proof.
  intros Hk. apply ofZ_nonzero.
  assert ((0 < 2 ^ k)%Z) by (apply Z.pow_pos_nonneg; lia). lia.
Qed.

(** A number is its numerator over its denominator. *)
Lemma number_fraction (x : JS.number) :
  x = (JS.ofZ (Qnum x) / JS.ofZ (Zpos (Qden x)))%Qc.
Proof.
  apply Qc_is_canon. unfold JS.ofZ, Qcdiv, Qcmult, Qcinv, Q2Qc. cbn [this].
  rewrite !Qred_correct. destruct x as [[n d] Hc]. cbn [this Qnum Qden].
  apply Qmake_Qdiv.
Qed.

Lemma number_zero (x : JS.number) : Qnum x = 0%Z -> x = 0%Qc.
Proof.
  intros H. apply Qc_is_canon. unfold Qeq. cbn. rewrite H. reflexivity.
Qed.

(** The positive divisors of a power of two are powers of two. *)
Lemma divide_pow2 (k : nat) (d : Z) :
  (0 < d)%Z -> (d | 2 ^ Z.of_nat k)%Z ->
  exists j : nat, j <= k /\ d = (2 ^ Z.of_nat j)%Z.
Proof.
  revert d. induction k as [|k IH]; intros d Hd Hdiv.
  - exists 0. split; [lia|]. cbn in *.
    apply Z.divide_1_r_nonneg in Hdiv; lia.
  - rewrite Nat2Z.inj_succ, Z.pow_succ_r in Hdiv by lia.
    destruct (Z.even d) eqn:Heven.
    + apply Z.even_spec in Heven. destruct Heven as [h ->].
      assert (Hh : (h | 2 ^ Z.of_nat k)%Z).
      { destruct Hdiv as [c Hc]. exists c. lia. }
      destruct (IH h ltac:(lia) Hh) as (j & Hj & ->).
      exists (S j). split; [lia|].
      rewrite Nat2Z.inj_succ, Z.pow_succ_r by lia. reflexivity.
    + assert (Hodd : Z.odd d = true) by (now rewrite <- Z.negb_even, Heven).
      assert (Hg : Z.gcd d 2 = 1%Z).
      { apply Z.odd_spec in Hodd. destruct Hodd as [h ->].
        rewrite Z.add_comm, Z.gcd_comm, Z.mul_comm, Z.gcd_add_mult_diag_r.
        reflexivity. }
      destruct (IH d Hd) as (j & Hj & ->).
      { apply (Z.gauss d 2); assumption. }
      exists j. split; [lia|reflexivity].
Qed.

(** The canonical form of a multiple of a power of two. *)
Lemma dyadic_canonical (z : Z) (k : nat) :
  let x := (JS.ofZ z / JS.ofZ (2 ^ Z.of_nat k))%Qc in
  exists j : nat,
    j <= k /\ Zpos (Qden x) = (2 ^ Z.of_nat j)%Z /\
    (Z.abs (Qnum x) <= Z.abs z)%Z.
Proof.
  intros x.
  assert (Hp : (0 < 2 ^ Z.of_nat k)%Z) by (apply Z.pow_pos_nonneg; lia).
  assert (Hx : (x * JS.ofZ (2 ^ Z.of_nat k) = JS.ofZ z)%Qc).
  { unfold x. field. apply ofZ_nonzero. lia. }
  rewrite (number_fraction x) in Hx.
  assert (Hd : JS.ofZ (Z.pos (Qden x)) <> 0%Qc) by (apply ofZ_nonzero; lia).
  assert (Heq : (JS.ofZ (Qnum x) * JS.ofZ (2 ^ Z.of_nat k)
                 = JS.ofZ z * JS.ofZ (Z.pos (Qden x)))%Qc).
  { rewrite <- Hx. field. exact Hd. }
  rewrite <- !ofZ_mul in Heq.
  assert (Hz : (Qnum x * 2 ^ Z.of_nat k = z * Z.pos (Qden x))%Z).
  { now apply ofZ_inj. }
  assert (Hg : Z.gcd (Qnum x) (Z.pos (Qden x)) = 1%Z).
  { apply Qred_identity2. apply (canon x). }
  assert (Hdiv : (Z.pos (Qden x) | 2 ^ Z.of_nat k)%Z).
  { apply (Z.gauss _ (Qnum x)).
    - exists z. lia.
    - now rewrite Z.gcd_comm. }
  destruct (@divide_pow2 k _ (Pos2Z.is_pos _) Hdiv) as (j & Hj & Hden).
  exists j. split; [exact Hj|]. split; [exact Hden|].
  rewrite Hden in Hz.
  assert (Hk : (2 ^ Z.of_nat k = 2 ^ Z.of_nat j * 2 ^ (Z.of_nat k - Z.of_nat j))%Z).
  { rewrite <- Z.pow_add_r by lia. f_equal. lia. }
  assert (Hj0 : (0 < 2 ^ Z.of_nat j)%Z) by (apply Z.pow_pos_nonneg; lia).
  assert (Hr : (0 < 2 ^ (Z.of_nat k - Z.of_nat j))%Z)
    by (apply Z.pow_pos_nonneg; lia).
  rewrite Hk in Hz.
  assert (Hz' : (Qnum x * 2 ^ (Z.of_nat k - Z.of_nat j) = z)%Z) by nia.
  rewrite <- Hz', Z.abs_mul.
  assert ((1 <= Z.abs (2 ^ (Z.of_nat k - Z.of_nat j)))%Z) by lia.
  assert ((0 <= Z.abs (Qnum x))%Z) by apply Z.abs_nonneg.
  nia.
Qed.

Lemma scaled_exact a j s :
  (0 <= j)%Z -> (0 <= s)%Z ->
  let N := fst (Double.scaled a (2 ^ j) (- j - s)) in
  let D := snd (Double.scaled a (2 ^ j) (- j - s)) in
  (0 < D)%Z /\ (N / D = a * 2 ^ s)%Z /\ (N mod D = 0)%Z.
Proof.
  intros Hj Hs. unfold Double.scaled.
  assert (Hpj : (0 < 2 ^ j)%Z) by (apply Z.pow_pos_nonneg; lia).
  destruct (Z.leb_spec 0 (- j - s)) as [H0 | Hneg]; cbn [fst snd].
  - assert (j = 0%Z) by lia. assert (s = 0%Z) by lia. subst j s.
    cbn. rewrite Z.div_1_r, Z.mod_1_r. lia.
  - replace (- (- j - s))%Z with (s + j)%Z by lia.
    rewrite Z.pow_add_r, Z.mul_assoc by lia.
    rewrite Z.div_mul, Z.mod_mul by lia. lia.
Qed.

Lemma nearest_exact a j :
  (0 < a < 2 ^ 53)%Z -> (0 <= j <= 1074)%Z ->
  exists s, (0 <= s)%Z /\ Double.nearest a (2 ^ j) = ((a * 2 ^ s)%Z, (- j - s)%Z).
Proof.
  intros Ha Hj. unfold Double.nearest.
  rewrite Z.log2_pow2 by lia.
  assert (Hlog : (Z.log2 a < 53)%Z) by (apply Z.log2_lt_pow2; lia).
  set (e1 := Z.max (Z.log2 a - j - 53) (- 1074)).
  set (s1 := (- j - e1)%Z).
  assert (Hs1 : (0 <= s1)%Z) by (unfold s1, e1; lia).
  assert (He1 : e1 = (- j - s1)%Z) by (unfold s1; lia).
  destruct (scaled_exact a (proj1 Hj) Hs1) as (HD1 & Hq1 & _).
  rewrite <- He1 in HD1, Hq1. rewrite Hq1.
  set (e := if (2 ^ 53 <=? a * 2 ^ s1)%Z then (e1 + 1)%Z else e1).
  assert (He : exists s, (0 <= s)%Z /\ e = (- j - s)%Z).
  { unfold e. destruct (Z.leb_spec (2 ^ 53) (a * 2 ^ s1)) as [Hbig | Hsmall].
    - exists (s1 - 1)%Z. split; [|lia].
      destruct (Z.eq_dec s1 0) as [H0 | H0]; [|lia].
      rewrite H0 in Hbig. cbn in Hbig. lia.
    - exists s1. split; [exact Hs1|exact He1]. }
  destruct He as (s & Hs & ->). exists s. split; [exact Hs|].
  destruct (scaled_exact a (proj1 Hj) Hs) as (HD & Hq & Hr).
  cbv zeta in HD, Hq, Hr. rewrite Hq, Hr.
  set (D := snd (Double.scaled a (2 ^ j) (- j - s))) in *.
  replace (D <? 2 * 0)%Z with false by (symmetry; apply Z.ltb_ge; lia).
  replace (2 * 0 =? D)%Z with false by (symmetry; apply Z.eqb_neq; lia).
  reflexivity.
Qed.

(** A number with at most 53 bits over a power of two down to 2^-1074 is a
    double. *)
Lemma round_canonical (x : JS.number) (j : nat) :
  j <= 1074 ->
  Zpos (Qden x) = (2 ^ Z.of_nat j)%Z ->
  (Z.abs (Qnum x) < 2 ^ 53)%Z ->
  Double.round x = Double.Finite x.
Proof.
  intros Hj Hden Hnum. unfold Double.round.
  destruct (Z.eqb_spec (Qnum x) 0) as [H0 | Hn0].
  - unfold Double.zero. f_equal. symmetry. now apply number_zero.
  - rewrite Hden.
    destruct (@nearest_exact (Z.abs (Qnum x)) (Z.of_nat j)) as (s & Hs & ->);
      [lia|lia|].
    assert (Hsgn : (Z.sgn (Qnum x) * (Z.abs (Qnum x) * 2 ^ s)
                    = Qnum x * 2 ^ s)%Z).
    { rewrite Z.mul_assoc. f_equal. lia. }
    rewrite Hsgn.
    assert (Hps : (0 < 2 ^ s)%Z) by (apply Z.pow_pos_nonneg; lia).
    rewrite (number_fraction x) at 4. rewrite Hden.
    unfold Double.pow2.
    destruct (Z.leb_spec 0 (- Z.of_nat j - s)) as [He | He]; cbn [andb].
    + assert (Hj0 : Z.of_nat j = 0%Z) by lia. assert (s = 0%Z) by lia.
      subst s. rewrite Hj0.
      change (- 0 - 0)%Z with 0%Z. change (2 ^ 0)%Z with 1%Z.
      rewrite !Z.mul_1_r.
      destruct (Z.leb_spec (2 ^ 1024) (Z.abs (Qnum x))) as [Hbig | _].
      * exfalso.
        assert ((2 ^ 53 < 2 ^ 1024)%Z) by (apply Z.pow_lt_mono_r; lia). lia.
      * f_equal; try field.
    + f_equal.
      replace (- (- Z.of_nat j - s))%Z with (Z.of_nat j + s)%Z by lia.
      rewrite Z.pow_add_r by lia. rewrite !ofZ_mul.
      field. split; apply ofZ_pow2_nonzero; lia.
Qed.

Lemma round_dyadic (z : Z) (k : nat) :
  k <= 1074 -> (Z.abs z < 2 ^ 53)%Z ->
  Double.round (JS.ofZ z / JS.ofZ (2 ^ Z.of_nat k))%Qc
  = Double.Finite (JS.ofZ z / JS.ofZ (2 ^ Z.of_nat k))%Qc.
Proof.
  intros Hk Hz.
  destruct (dyadic_canonical z k) as (j & Hj & Hden & Hnum).
  apply (@round_canonical _ j); [lia|exact Hden|lia].
Qed.

Lemma Double_eqb_eq a b : Double.eqb a b = true -> a = b.
Proof.
  destruct a as [x|s|], b as [y|s'|]; cbn; try discriminate.
  - intros H. f_equal. now apply Qc_eq_bool_correct.
  - intros H. f_equal. now apply Bool.eqb_prop.
  - reflexivity.
Qed.

Lemma Double_eqb_neq a b : Double.eqb a b = false -> a <> b.
Proof.
  intros H ->. destruct b as [y|s|]; cbn in H; try discriminate.
  - unfold Qc_eq_bool in H. destruct (Qc_eq_dec y y); congruence.
  - now rewrite Bool.eqb_reflx in H.
Qed.

Lemma numbers_eq (l l' : list JS.number) :
  map this l = map this l' -> l = l'.
Proof.
  revert l'. induction l as [|x l IH]; intros [|y l'] H;
    try discriminate; [reflexivity|].
  cbn [map] in H. injection H as Hx Hl. f_equal; [|now apply IH].
  apply Qc_is_canon. now rewrite Hx.
Qed.


Lemma sum_dyadic (k : nat) zs :
  Spec.sum (map (fun z => (JS.ofZ z / JS.ofZ (2 ^ Z.of_nat k))%Qc) zs)
  = (JS.ofZ (fold_right Z.add 0%Z zs) / JS.ofZ (2 ^ Z.of_nat k))%Qc.
Proof.
  assert (Hk : JS.ofZ (2 ^ Z.of_nat k) <> 0%Qc)
    by (apply ofZ_pow2_nonzero; lia).
  induction zs as [|z zs IH]; cbn [map fold_right Spec.sum].
  - change (JS.ofZ 0) with 0%Qc. (unfold JS.number in *; field). exact Hk.
  - fold (Spec.sum (map (fun z => (JS.ofZ z / JS.ofZ (2 ^ Z.of_nat k))%Qc)
                      zs)).
    rewrite IH, ofZ_add. (unfold JS.number in *; field). exact Hk.
Qed.

Lemma addedUp_from (k : nat) zs a0 :
  k <= 1074 ->
  (Z.abs a0 + fold_right Z.add 0%Z (map Z.abs zs) < 2 ^ 53)%Z ->
  fold_left Double.add
    (map Double.round
       (map (fun z => (JS.ofZ z / JS.ofZ (2 ^ Z.of_nat k))%Qc) zs))
    (Double.Finite (JS.ofZ a0 / JS.ofZ (2 ^ Z.of_nat k))%Qc)
  = Double.Finite
      (JS.ofZ (a0 + fold_right Z.add 0%Z zs) / JS.ofZ (2 ^ Z.of_nat k))%Qc.
Proof.
  intros Hk.
  assert (Hp : JS.ofZ (2 ^ Z.of_nat k) <> 0%Qc)
    by (apply ofZ_pow2_nonzero; lia).
  revert a0. induction zs as [|z zs IH]; intros a0 H;
    cbn [map fold_left fold_right] in *.
  - now rewrite Z.add_0_r.
  - assert (Hz := Z.abs_nonneg z).
    assert (Hs : (0 <= fold_right Z.add 0%Z (map Z.abs zs))%Z).
    { clear. induction zs; cbn [map fold_right]; lia. }
    rewrite round_dyadic by lia. cbn [Double.add].
    replace (JS.ofZ a0 / JS.ofZ (2 ^ Z.of_nat k)
             + JS.ofZ z / JS.ofZ (2 ^ Z.of_nat k))%Qc
      with (JS.ofZ (a0 + z) / JS.ofZ (2 ^ Z.of_nat k))%Qc
      by (rewrite ofZ_add; (unfold JS.number in *; field); exact Hp).
    rewrite round_dyadic by lia.
    rewrite IH by lia. now rewrite Z.add_assoc.
Qed.

Lemma dyadic_numerators (k : nat) factor l :
  Spec.dyadic k factor l ->
  exists zs : list Z,
    l = map (fun z => (JS.ofZ z / JS.ofZ (2 ^ Z.of_nat k))%Qc) zs /\
    zs = map (Spec.scaledBy k) l /\
    (factor * fold_right Z.add 0 (map Z.abs zs) < 2 ^ 53)%Z.
Proof.
  intros (Hk & Hall & Hb). exists (map (Spec.scaledBy k) l).
  split; [|split; [reflexivity|now rewrite map_map]].
  rewrite map_map. clear Hb.
  induction Hall as [|v l Hv _ IH]; [reflexivity|].
  cbn [map]. unfold Spec.multiple in Hv. now rewrite <- Hv, <- IH.
Qed.

(** A check of [dyadic] by computation. *)
Lemma dyadic_check (k : nat) factor l :
  (k <=? 1074) = true ->
  forallb
    (fun v =>
       Qc_eq_bool v
         (JS.ofZ (Spec.scaledBy k v) / JS.ofZ (2 ^ Z.of_nat k))%Qc) l
  = true ->
  (factor * fold_right Z.add 0 (map (fun v => Z.abs (Spec.scaledBy k v)) l)
   <? 2 ^ 53)%Z = true ->
  Spec.dyadic k factor l.
Proof.
  intros Hk Hall Hb. split; [now apply Nat.leb_le|]. split.
  - apply Forall_forall. intros v Hv.
    rewrite forallb_forall in Hall. unfold Spec.multiple.
    now apply Qc_eq_bool_correct, Hall.
  - now apply Z.ltb_lt.
Qed.

(** Numbers that are multiples of one power of two and small enough add up
    without rounding. *)
Lemma addedUp_exact (k : nat) factor l :
  (1 <= factor)%Z -> Spec.dyadic k factor l ->
  Spec.addedUp (map Double.round l) = Double.Finite (Spec.sum l).
Proof.
  intros Hf Hd. assert (Hk : k <= 1074) by apply Hd.
  destruct (dyadic_numerators Hd) as (zs & -> & _ & Hb).
  assert (Hs : (0 <= fold_right Z.add 0%Z (map Z.abs zs))%Z).
  { clear. induction zs; cbn [map fold_right]; lia. }
  unfold Spec.addedUp, Double.zero.
  replace 0%Qc with (JS.ofZ 0 / JS.ofZ (2 ^ Z.of_nat k))%Qc.
  - rewrite addedUp_from by (cbn [Z.abs]; nia || lia).
    now rewrite sum_dyadic.
  - change (JS.ofZ 0) with 0%Qc. (unfold JS.number in *; field). apply ofZ_pow2_nonzero. lia.
Qed.


Lemma fold_left_add (E : Type) (g : E -> Double.t) (l : list E) a :
  fold_left (fun sum d => Double.add sum (g d)) l a
  = fold_left Double.add (map g l) a.
Proof.
  revert a. induction l as [|x l IH]; intros a; [reflexivity|].
  cbn [fold_left map]. apply IH.
Qed.

(* ================================================================= *)
(** ** Report grouping *)

Lemma sumNat_ones (E : Type) (l : list E) :
  fold_right Nat.add 0 (map (fun _ => 1) l) = List.length l.
Proof.
  induction l as [|x l IH]; simpl; [reflexivity|]. now rewrite IH.
Qed.

Lemma sumNat_perm l l' :
  Permutation l l' -> Spec.sumNat l = Spec.sumNat l'.
Proof.
  unfold Spec.sumNat. induction 1; simpl; lia.
Qed.

Lemma sumZ_perm (l l' : list Z) :
  Permutation l l' -> fold_right Z.add 0%Z l = fold_right Z.add 0%Z l'.
Proof.
  induction 1; simpl; lia.
Qed.

(** *** The order of [Object.entries] *)

Lemma insertByIndex_perm (V : Type) (kv : string * V) l :
  Permutation (Dict.insertByIndex kv l) (kv :: l).
Proof.
  induction l as [|x l IH]; cbn [Dict.insertByIndex]; [reflexivity|].
  destruct (_ <=? _)%Z; [reflexivity|].
  rewrite IH. apply perm_swap.
Qed.

Lemma filter_split_perm (E : Type) (p : E -> bool) l :
  Permutation (filter p l ++ filter (fun x => negb (p x)) l) l.
Proof.
  induction l as [|x l IH]; cbn [filter]; [reflexivity|].
  destruct (p x); cbn [negb app].
  - now constructor.
  - rewrite <- Permutation_middle. now constructor.
Qed.

Lemma ownEntries_perm (V : Type) (o : Dict.t V) :
  Permutation (Dict.ownEntries o) o.
Proof.
  unfold Dict.ownEntries.
  transitivity (filter (@Dict.isIndex V) o
                ++ filter (fun kv => negb (Dict.isIndex kv)) o);
    [|apply filter_split_perm].
  apply Permutation_app_tail.
  induction (filter (@Dict.isIndex V) o) as [|x l IH]; cbn [fold_right];
    [reflexivity|].
  rewrite insertByIndex_perm. now constructor.
Qed.

Lemma ownEntries_In (V : Type) (o : Dict.t V) kv :
  In kv (Dict.ownEntries o) <-> In kv o.
Proof.
  split; apply Permutation_in;
    [apply ownEntries_perm|symmetry; apply ownEntries_perm].
Qed.

(** *** Sums that are exact *)

Lemma multiple_zero k : Spec.multiple k 0 = 0%Qc.
Proof.
  unfold Spec.multiple. change (JS.ofZ 0) with 0%Qc.
  unfold JS.number in *. field. apply ofZ_pow2_nonzero. lia.
Qed.

Lemma add_dyadic (k : nat) g z :
  k <= 1074 -> (Z.abs z < 2 ^ 53)%Z -> (Z.abs (g + z) < 2 ^ 53)%Z ->
  Double.add (Double.Finite (Spec.multiple k g))
    (Double.field (Some (Spec.multiple k z)))
  = Double.Finite (Spec.multiple k (g + z)).
Proof.
  intros Hk Hz Hg. cbn [Double.field]. unfold Spec.multiple.
  rewrite round_dyadic by lia. cbn [Double.add].
  replace (JS.ofZ g / JS.ofZ (2 ^ Z.of_nat k)
           + JS.ofZ z / JS.ofZ (2 ^ Z.of_nat k))%Qc
    with (JS.ofZ (g + z) / JS.ofZ (2 ^ Z.of_nat k))%Qc.
  - apply round_dyadic; lia.
  - rewrite ofZ_add. unfold JS.number in *. field.
    apply ofZ_pow2_nonzero. lia.
Qed.

Lemma sumAbs_nonneg (E : Type) (num : E -> Z) l :
  (0 <= fold_right Z.add 0 (map (fun x => Z.abs (num x)) l))%Z.
Proof.
  induction l as [|x l IH]; cbn [map fold_right]; lia.
Qed.

Section GroupDyadic.

Variables (E V : Type).
Variable key : E -> string.
Variable k : nat.
Hypothesis k_small : k <= 1074.

(** The update an element makes to the value under its key, the double a
    value holds, and the numerator of an element that is in order. *)
Variable step : E -> option V -> V.
Variable value : V -> Double.t.
Variable num : E -> Z.
Variable ok : E -> Prop.
Hypothesis step_some :
  forall x v g,
    ok x -> value v = Double.Finite (Spec.multiple k g) ->
    (Z.abs (num x) < 2 ^ 53)%Z -> (Z.abs (g + num x) < 2 ^ 53)%Z ->
    value (step x (Some v)) = Double.Finite (Spec.multiple k (g + num x)).
Hypothesis step_none :
  forall x,
    ok x -> (Z.abs (num x) < 2 ^ 53)%Z ->
    value (step x None) = Double.Finite (Spec.multiple k (num x)).

Lemma upsert_dyadic x (R : Z) (o : Dict.t V) gs :
  ok x -> (0 <= R)%Z ->
  map (fun kv => value (snd kv)) o
  = map (fun g => Double.Finite (Spec.multiple k g)) gs ->
  Forall (fun g => (Z.abs g + Z.abs (num x) + R < 2 ^ 53)%Z) gs ->
  (Z.abs (num x) + R < 2 ^ 53)%Z ->
  exists gs',
    map (fun kv => value (snd kv)) (Dict.upsert (key x) (step x) o)
    = map (fun g => Double.Finite (Spec.multiple k g)) gs' /\
    fold_right Z.add 0%Z gs' = (fold_right Z.add 0 gs + num x)%Z /\
    Forall (fun g => (Z.abs g + R < 2 ^ 53)%Z) gs'.
Proof.
  intros Hx HR. revert gs.
  induction o as [|[k0 v0] o IH]; intros gs Hal Hgs Hn.
  - destruct gs; [|discriminate]. exists [num x]. cbn [Dict.upsert map snd].
    rewrite step_none by (assumption || lia).
    split; [reflexivity|]. split; [cbn [fold_right]; lia|].
    constructor; [lia|constructor].
  - destruct gs as [|g gs]; [discriminate|].
    cbn [map snd] in Hal. injection Hal as Hv Hal.
    inversion Hgs as [|? ? Hg Hgs']; subst.
    cbn [Dict.upsert]. destruct (String.eqb (key x) k0).
    + exists ((g + num x)%Z :: gs). cbn [map snd].
      rewrite (step_some Hx Hv) by lia.
      split; [now rewrite Hal|]. split; [cbn [fold_right]; lia|].
      constructor; [lia|].
      eapply Forall_impl; [|exact Hgs']. intros a Ha. cbv beta in *. lia.
    + destruct (IH gs Hal Hgs' Hn) as (gs' & H1 & H2 & H3).
      exists (g :: gs'). cbn [map snd]. rewrite H1.
      split; [now rewrite Hv|]. split; [cbn [fold_right]; lia|].
      constructor; [lia|exact H3].
Qed.

Lemma group_dyadic l (o : Dict.t V) gs :
  Forall ok l ->
  map (fun kv => value (snd kv)) o
  = map (fun g => Double.Finite (Spec.multiple k g)) gs ->
  Forall
    (fun g =>
       (Z.abs g + fold_right Z.add 0 (map (fun x => Z.abs (num x)) l)
        < 2 ^ 53)%Z) gs ->
  (fold_right Z.add 0 (map (fun x => Z.abs (num x)) l) < 2 ^ 53)%Z ->
  exists gs',
    map (fun kv => value (snd kv))
      (fold_left (fun o x => Dict.upsert (key x) (step x) o) l o)
    = map (fun g => Double.Finite (Spec.multiple k g)) gs' /\
    fold_right Z.add 0%Z gs'
    = (fold_right Z.add 0 gs + fold_right Z.add 0 (map num l))%Z.
Proof.
  revert o gs. induction l as [|x l IH]; intros o gs Hok Hal Hgs HW.
  - exists gs. split; [exact Hal|]. cbn [map fold_right]. lia.
  - inversion Hok as [|? ? Hx Hok']; subst.
    cbn [fold_left map fold_right] in *.
    assert (HR := sumAbs_nonneg num l).
    destruct (@upsert_dyadic x _ o gs Hx HR Hal) as (gs1 & H1 & H2 & H3).
    { eapply Forall_impl; [|exact Hgs]. intros a Ha. cbv beta in *. lia. }
    { lia. }
    destruct (IH _ gs1 Hok' H1 H3) as (gs' & H4 & H5); [lia|].
    exists gs'. split; [exact H4|]. rewrite H5, H2. lia.
Qed.

(** The values that [Object.entries] lists hold numbers that add up to the
    sum of the elements'. *)
Lemma group_exact l :
  Forall ok l ->
  (fold_right Z.add 0 (map (fun x => Z.abs (num x)) l) < 2 ^ 53)%Z ->
  exists hs,
    map (fun kv => value (snd kv))
      (Dict.ownEntries
         (fold_left (fun o x => Dict.upsert (key x) (step x) o) l []))
    = map Double.Finite hs /\
    Spec.sum hs = Spec.sum (map (fun x => Spec.multiple k (num x)) l).
Proof.
  intros Hok HW.
  destruct (@group_dyadic l [] [] Hok eq_refl (Forall_nil _) HW)
    as (gs & Hal & Hsum).
  assert (Hp : Permutation
                 (map (fun kv => value (snd kv))
                    (Dict.ownEntries
                       (fold_left
                          (fun o x => Dict.upsert (key x) (step x) o) l [])))
                 (map (fun g => Double.Finite (Spec.multiple k g)) gs)).
  { rewrite <- Hal. apply Permutation_map, ownEntries_perm. }
  apply Permutation_map_inv in Hp. destruct Hp as (hs0 & Heq & Hperm).
  exists (map (Spec.multiple k) hs0). split.
  - rewrite Heq, map_map. reflexivity.
  - unfold Spec.multiple at 1.
    rewrite sum_dyadic, <- (sumZ_perm Hperm), Hsum.
    cbn [fold_right]. rewrite Z.add_0_l.
    rewrite <- (map_map num (Spec.multiple k)).
    unfold Spec.multiple. now rewrite sum_dyadic.
Qed.

End GroupDyadic.

Lemma dyadic_fields (E : Type) (w : E -> option JS.number) (k : nat) l :
  Forall (fun x => x <> None) (map w l) ->
  Spec.dyadic k 1 (map Spec.counted (map w l)) ->
  Forall
    (fun x => w x = Some (Spec.multiple k (Spec.scaledBy k (Spec.counted (w x)))))
    l /\
  (fold_right Z.add 0
     (map (fun x => Z.abs (Spec.scaledBy k (Spec.counted (w x)))) l)
   < 2 ^ 53)%Z /\
  map (fun x => Double.field (w x)) l
  = map Double.round (map Spec.counted (map w l)) /\
  map Spec.counted (map w l)
  = map (fun x => Spec.multiple k (Spec.scaledBy k (Spec.counted (w x)))) l.
Proof.
  intros Hsome (Hk & Hall & Hb).
  rewrite !map_map in *. rewrite Z.mul_1_l in Hb.
  split; [|split; [exact Hb|split]].
  - rewrite Forall_map in Hsome, Hall.
    apply Forall_forall. intros x Hx.
    rewrite Forall_forall in Hsome, Hall.
    specialize (Hsome x Hx). specialize (Hall x Hx). cbv beta in *.
    destruct (w x) as [v|]; [|congruence].
    cbn [Spec.counted] in *. now rewrite <- Hall.
  - apply map_ext_in. intros x Hx.
    rewrite Forall_map, Forall_forall in Hsome. specialize (Hsome x Hx).
    destruct (w x) as [v|]; [reflexivity|congruence].
  - apply map_ext_in. intros x Hx.
    rewrite Forall_map, Forall_forall in Hall. exact (Hall x Hx).
Qed.

Lemma add_NaN_r a : Double.add a Double.NaN = Double.NaN.
Proof.
  destruct a; reflexivity.
Qed.

Lemma fold_add_NaN (E : Type) (w : E -> option JS.number) l :
  fold_left (fun sum x => Double.add sum (Double.field (w x))) l Double.NaN
  = Double.NaN.
Proof.
  induction l as [|x l IH]; [reflexivity|]. exact IH.
Qed.

(** One missing number makes the sum NaN. *)
Lemma fold_add_missing (E : Type) (w : E -> option JS.number) l a :
  Exists (fun x => w x = None) l ->
  fold_left (fun sum x => Double.add sum (Double.field (w x))) l a
  = Double.NaN.
Proof.
  intros H. revert a. induction H as [x l Hx|x l _ IH]; intros a;
    cbn [fold_left].
  - rewrite Hx. cbn [Double.field]. rewrite add_NaN_r. apply fold_add_NaN.
  - apply IH.
Qed.

Lemma total_exact (E : Type) (w : E -> option JS.number) (k : nat) l :
  Forall (fun x => x <> None) (map w l) ->
  Spec.dyadic k 1 (map Spec.counted (map w l)) ->
  fold_left (fun sum x => Double.add sum (Double.field (w x))) l Double.zero
  = Double.Finite (Spec.sum (map Spec.counted (map w l))).
Proof.
  intros Hsome Hd.
  destruct (@dyadic_fields _ w k l Hsome Hd) as (_ & _ & Hfield & _).
  rewrite fold_left_add, Hfield.
  apply (@addedUp_exact k 1); [lia|exact Hd].
Qed.

Lemma calculateReport_exact (k : nat) timeEntries :
  let hours := map TimeTrackingReport.Fetched.hours timeEntries in
  let report := TimeTrackingReport.Fetched.calculateReport timeEntries in
  Forall (fun x => x <> None) hours ->
  Spec.dyadic k 1 (map Spec.counted hours) ->
  TimeTrackingReport.Fetched.totalHours report
  = Double.Finite (Spec.sum (map Spec.counted hours)) /\
  exists hs,
    map TimeTrackingReport.Fetched.row_hours
      (TimeTrackingReport.Fetched.hoursByClient report)
    = map Double.Finite hs /\
    Spec.sum hs = Spec.sum (map Spec.counted hours).
Proof.
  intros hours report Hsome Hd.
  assert (Hk : k <= 1074) by apply Hd.
  destruct (@dyadic_fields _ TimeTrackingReport.Fetched.hours k _ Hsome Hd)
    as (Hok & Hb & _ & Hnum).
  split; [now apply (@total_exact _ _ k)|].
  set (step := fun (entry : TimeTrackingReport.Fetched.TimeEntry) old =>
                 Double.add (Double.orZero old)
                   (Double.field (TimeTrackingReport.Fetched.hours entry))).
  set (num := fun e =>
                Spec.scaledBy k
                  (Spec.counted (TimeTrackingReport.Fetched.hours e))).
  set (ok := fun e =>
               TimeTrackingReport.Fetched.hours e
               = Some (Spec.multiple k (num e))).
  assert (Hss : forall x v g,
             ok x -> v = Double.Finite (Spec.multiple k g) ->
             (Z.abs (num x) < 2 ^ 53)%Z -> (Z.abs (g + num x) < 2 ^ 53)%Z ->
             step x (Some v) = Double.Finite (Spec.multiple k (g + num x))).
  { intros x v g Hx Hv Hn Hg. unfold step, ok in *. rewrite Hv, Hx.
    cbn [Double.orZero]. now apply add_dyadic. }
  assert (Hsn : forall x,
             ok x -> (Z.abs (num x) < 2 ^ 53)%Z ->
             step x None = Double.Finite (Spec.multiple k (num x))).
  { intros x Hx Hn. unfold step, ok in *. rewrite Hx. cbn [Double.orZero].
    unfold Double.zero. rewrite <- (multiple_zero k).
    rewrite add_dyadic by (assumption || (rewrite Z.add_0_l; assumption)).
    now rewrite Z.add_0_l. }
  destruct (@group_exact _ _ TimeTrackingReport.Fetched.clientId k Hk step
              (fun v => v) num ok Hss Hsn timeEntries Hok Hb)
    as (hs & Hrows & Hsum).
  exists hs. split.
  - unfold report, TimeTrackingReport.Fetched.calculateReport.
    cbn [TimeTrackingReport.Fetched.hoursByClient].
    rewrite map_map. cbn [TimeTrackingReport.Fetched.row_hours].
    exact Hrows.
  - unfold hours. rewrite Hsum, Hnum. reflexivity.
Qed.

Lemma clientInvoices_count invoices :
  Spec.sumNat
    (map (fun kv => ExportUtils.GenerateInvoicesHTML.stats_total (snd kv))
       (ExportUtils.GenerateInvoicesHTML.groups invoices))
  = List.length invoices.
Proof.
  unfold ExportUtils.GenerateInvoicesHTML.groups.
  rewrite (sumNat_perm
             (Permutation_map _
                (ownEntries_perm
                   (ExportUtils.GenerateInvoicesHTML.clientInvoices
                      invoices)))).
  unfold ExportUtils.GenerateInvoicesHTML.clientInvoices, Spec.sumNat.
  rewrite (total_group Nat.add 0 Nat.add_assoc Nat.add_comm Nat.add_0_l
             ExportUtils.GenerateInvoicesHTML.stats_total
             ExportUtils.clientId (fun _ => 1)).
  - simpl. apply sumNat_ones.
  - intros x old. simpl. lia.
  - reflexivity.
Qed.

Lemma clientInvoices_exact (k : nat) invoices :
  let amounts := map ExportUtils.amount invoices in
  Forall (fun x => x <> None) amounts ->
  Spec.dyadic k 1 (map Spec.counted amounts) ->
  ExportUtils.GenerateInvoicesHTML.totalAmount invoices
  = Double.Finite (Spec.sum (map Spec.counted amounts)) /\
  exists hs,
    map (fun kv => ExportUtils.GenerateInvoicesHTML.stats_amount (snd kv))
      (ExportUtils.GenerateInvoicesHTML.groups invoices)
    = map Double.Finite hs /\
    Spec.sum hs = Spec.sum (map Spec.counted amounts).
Proof.
  intros amounts Hsome Hd.
  assert (Hk : k <= 1074) by apply Hd.
  destruct (@dyadic_fields _ ExportUtils.amount k _ Hsome Hd)
    as (Hok & Hb & _ & Hnum).
  split; [now apply (@total_exact _ _ k)|].
  set (step := fun (inv : ExportUtils.Invoice) old =>
                 let s :=
                   match old with
                   | Some s => s
                   | None =>
                       {| ExportUtils.GenerateInvoicesHTML.stats_total := 0;
                          ExportUtils.GenerateInvoicesHTML.stats_amount :=
                            Double.zero |}
                   end in
                 {| ExportUtils.GenerateInvoicesHTML.stats_total :=
                      S (ExportUtils.GenerateInvoicesHTML.stats_total s);
                    ExportUtils.GenerateInvoicesHTML.stats_amount :=
                      Double.add
                        (ExportUtils.GenerateInvoicesHTML.stats_amount s)
                        (Double.field (ExportUtils.amount inv)) |}).
  set (num := fun i => Spec.scaledBy k (Spec.counted (ExportUtils.amount i))).
  set (ok := fun i => ExportUtils.amount i = Some (Spec.multiple k (num i))).
  assert (Hss : forall x v g,
             ok x ->
             ExportUtils.GenerateInvoicesHTML.stats_amount v
             = Double.Finite (Spec.multiple k g) ->
             (Z.abs (num x) < 2 ^ 53)%Z -> (Z.abs (g + num x) < 2 ^ 53)%Z ->
             ExportUtils.GenerateInvoicesHTML.stats_amount (step x (Some v))
             = Double.Finite (Spec.multiple k (g + num x))).
  { intros x v g Hx Hv Hn Hg. unfold step, ok in *.
    cbn [ExportUtils.GenerateInvoicesHTML.stats_amount].
    rewrite Hv, Hx. now apply add_dyadic. }
  assert (Hsn : forall x,
             ok x -> (Z.abs (num x) < 2 ^ 53)%Z ->
             ExportUtils.GenerateInvoicesHTML.stats_amount (step x None)
             = Double.Finite (Spec.multiple k (num x))).
  { intros x Hx Hn. unfold step, ok in *.
    cbn [ExportUtils.GenerateInvoicesHTML.stats_amount].
    rewrite Hx. unfold Double.zero. rewrite <- (multiple_zero k).
    rewrite add_dyadic by (assumption || (rewrite Z.add_0_l; assumption)).
    now rewrite Z.add_0_l. }
  destruct (@group_exact _ _ ExportUtils.clientId k Hk step
              ExportUtils.GenerateInvoicesHTML.stats_amount num ok Hss Hsn
              invoices Hok Hb)
    as (hs & Hrows & Hsum).
  exists hs. split; [exact Hrows|].
  unfold amounts. rewrite Hsum, Hnum. reflexivity.
Qed.

Lemma count_cons (E : Type) (p : E -> bool) x l :
  Spec.count p (x :: l) = (if p x then 1 else 0) + Spec.count p l.
Proof.
  unfold Spec.count. simpl. now destruct (p x).
Qed.

Lemma count_with_le k st tasks :
  Spec.count (Spec.ofClientWith k st) tasks
  <= Spec.count (Spec.ofClient k) tasks.
Proof.
  induction tasks as [|t l IH]; [reflexivity|].
  rewrite !count_cons. unfold Spec.ofClientWith in *.
  destruct (Spec.ofClient k t), (String.eqb (TasksReport.status t) st);
    cbn [andb]; lia.
Qed.

Lemma count_by_status k tasks :
  Spec.count (fun t => Spec.ofClient k t && Spec.declaredStatus t) tasks
  = Spec.count (Spec.ofClientWith k "completed") tasks
    + Spec.count (Spec.ofClientWith k "pending") tasks.
Proof.
  induction tasks as [|t l IH]; [reflexivity|].
  rewrite !count_cons, IH. unfold Spec.ofClientWith, Spec.declaredStatus.
  destruct (Spec.ofClient k t); [|cbn [andb]; lia].
  destruct (String.eqb (TasksReport.status t) "completed") eqn:Ec,
    (String.eqb (TasksReport.status t) "pending") eqn:Ep;
    cbn [andb orb]; try lia.
  apply String.eqb_eq in Ec, Ep. congruence.
Qed.

Lemma count_declared k tasks :
  Forall (fun t => Spec.declaredStatus t = true) tasks ->
  Spec.count (fun t => Spec.ofClient k t && Spec.declaredStatus t) tasks
  = Spec.count (Spec.ofClient k) tasks.
Proof.
  induction 1 as [|t l Ht _ IH]; [reflexivity|].
  rewrite !count_cons, IH, Ht. now rewrite andb_true_r.
Qed.

(** What the loop leaves under one key, starting from [acc]. *)
Lemma clientTasks_step k (l : list TasksReport.Task) acc :
  fold_left
    (fun acc task =>
       if String.eqb k (TasksReport.clientId task)
       then Some (TasksReport.increment (TasksReport.status task)
                    match acc with
                    | Some c => c
                    | None => {| TasksReport.n_completed := 0;
                                 TasksReport.n_pending := 0 |}
                    end)
       else acc)
    l acc
  = if Spec.count (Spec.ofClient k) l =? 0 then acc
    else
      let c0 := match acc with
                | Some c => c
                | None => {| TasksReport.n_completed := 0;
                             TasksReport.n_pending := 0 |}
                end in
      Some {| TasksReport.n_completed :=
                TasksReport.n_completed c0
                + Spec.count (Spec.ofClientWith k "completed") l;
              TasksReport.n_pending :=
                TasksReport.n_pending c0
                + Spec.count (Spec.ofClientWith k "pending") l |}.
Proof.
  revert acc. induction l as [|t l IH]; intros acc; [reflexivity|].
  cbn [fold_left]. rewrite IH. rewrite !count_cons.
  assert (Hc := count_with_le k "completed" l).
  assert (Hp := count_with_le k "pending" l).
  set (n := Spec.count (Spec.ofClient k) l) in *.
  set (nc := Spec.count (Spec.ofClientWith k "completed") l) in *.
  set (np := Spec.count (Spec.ofClientWith k "pending") l) in *.
  clearbody n nc np.
  unfold Spec.ofClientWith, Spec.ofClient, TasksReport.increment.
  destruct (String.eqb k (TasksReport.clientId t)); simpl; [|reflexivity].
  destruct (String.eqb (TasksReport.status t) "completed") eqn:Ec.
  - apply String.eqb_eq in Ec. rewrite Ec. simpl.
    destruct (n =? 0) eqn:E0; [apply Nat.eqb_eq in E0|];
      destruct acc as [[a b]|]; simpl; f_equal; f_equal; lia.
  - destruct (String.eqb (TasksReport.status t) "pending") eqn:Ep.
    + destruct (n =? 0) eqn:E0; [apply Nat.eqb_eq in E0|];
        destruct acc as [[a b]|]; simpl; f_equal; f_equal; lia.
    + destruct (n =? 0) eqn:E0; [apply Nat.eqb_eq in E0|];
        destruct acc as [[a b]|]; simpl; f_equal; f_equal; lia.
Qed.

Lemma clientTasks_get k tasks :
  Dict.get k (TasksReport.clientTasks tasks)
  = if Spec.count (Spec.ofClient k) tasks =? 0 then None
    else Some {| TasksReport.n_completed :=
                   Spec.count (Spec.ofClientWith k "completed") tasks;
                 TasksReport.n_pending :=
                   Spec.count (Spec.ofClientWith k "pending") tasks |}.
Proof.
  unfold TasksReport.clientTasks.
  rewrite (get_group TasksReport.clientId
             (fun task old =>
                TasksReport.increment (TasksReport.status task)
                  match old with
                  | Some c => c
                  | None => {| TasksReport.n_completed := 0;
                               TasksReport.n_pending := 0 |}
                  end)).
  simpl Dict.get. rewrite clientTasks_step. reflexivity.
Qed.

Lemma clientTasks_NoDup tasks :
  NoDup (Dict.keys (TasksReport.clientTasks tasks)).
Proof.
  apply keys_group_NoDup. constructor.
Qed.

Lemma getTasksByClient_row tasks clients row :
  In row (TasksReport.getTasksByClient tasks clients) ->
  TasksReport.row_completed row
  = Spec.count (Spec.ofClientWith (TasksReport.row_clientId row) "completed")
      tasks /\
  TasksReport.row_pending row
  = Spec.count (Spec.ofClientWith (TasksReport.row_clientId row) "pending")
      tasks /\
  TasksReport.row_total row
  = TasksReport.row_completed row + TasksReport.row_pending row /\
  1 <= Spec.count (Spec.ofClient (TasksReport.row_clientId row)) tasks.
Proof.
  unfold TasksReport.getTasksByClient. intros H.
  apply in_map_iff in H. destruct H as ([k v] & <- & Hin). simpl.
  apply (proj1 (ownEntries_In _ _)) in Hin.
  apply (@get_In _ _ _ _ (clientTasks_NoDup tasks)) in Hin.
  rewrite clientTasks_get in Hin.
  destruct (Spec.count (Spec.ofClient k) tasks =? 0) eqn:E; [discriminate|].
  apply Nat.eqb_neq in E.
  injection Hin as <-. simpl. repeat split. lia.
Qed.

(** The hours 0.1 of one client and 0.2 and 0.3 of another, each the
    nearest double: the total is 0.6000000000000001 and the rows are 0.1 and
    0.5, which add up to less, as numbers and as doubles.  Three invoices
    with these amounts give the same figures. *)
Lemma C4_counterexample :
  Forall (fun x => Double.field x = Double.Finite (Spec.counted x))
    (map TimeTrackingReport.Fetched.hours Cases.roundedEntries) /\
  TimeTrackingReport.Fetched.totalHours
    (TimeTrackingReport.Fetched.calculateReport Cases.roundedEntries)
  = Double.Finite (Q2Qc (1351079888211149 # 2251799813685248)) /\
  map TimeTrackingReport.Fetched.row_hours
    (TimeTrackingReport.Fetched.hoursByClient
       (TimeTrackingReport.Fetched.calculateReport Cases.roundedEntries))
  = [Double.Finite Cases.tenth; Double.Finite (Q2Qc (1 # 2))] /\
  Spec.sum [Cases.tenth; Q2Qc (1 # 2)]
  <> Q2Qc (1351079888211149 # 2251799813685248) /\
  Spec.addedUp [Double.Finite Cases.tenth; Double.Finite (Q2Qc (1 # 2))]
  <> TimeTrackingReport.Fetched.totalHours
       (TimeTrackingReport.Fetched.calculateReport Cases.roundedEntries) /\
  ExportUtils.GenerateInvoicesHTML.totalAmount Cases.roundedInvoices
  = Double.Finite (Q2Qc (1351079888211149 # 2251799813685248)) /\
  map (fun kv => ExportUtils.GenerateInvoicesHTML.stats_amount (snd kv))
    (ExportUtils.GenerateInvoicesHTML.groups Cases.roundedInvoices)
  = [Double.Finite Cases.tenth; Double.Finite (Q2Qc (1 # 2))].
Proof.
  assert (Hlist : forall l l' : list Double.t,
             forallb (fun p => Double.eqb (fst p) (snd p)) (combine l l')
             = true ->
             List.length l = List.length l' -> l = l').
  { induction l as [|x l IH]; intros [|y l'] H Hlen; try discriminate;
      [reflexivity|].
    cbn in H. apply andb_true_iff in H. destruct H as [H1 H2].
    f_equal; [now apply Double_eqb_eq|]. apply IH; [exact H2|].
    now injection Hlen. }
  split.
  { repeat constructor; apply Double_eqb_eq; vm_compute; reflexivity. }
  split; [apply Double_eqb_eq; vm_compute; reflexivity|].
  split; [apply Hlist; vm_compute; reflexivity|].
  split.
  { intros H. apply (f_equal (fun x : Qc => Qnum x)) in H.
    vm_compute in H. discriminate. }
  split; [apply Double_eqb_neq; vm_compute; reflexivity|].
  split; [apply Double_eqb_eq; vm_compute; reflexivity|].
  apply Hlist; vm_compute; reflexivity.
Qed.

(** C4 (amended): grouping by client in the reports.  When every time
    entry carries its hours, and the hours are multiples of one power of two
    whose sizes add up to less than 2^53, the total hours of the time report
    are their sum and the hours per client add up to it; the same holds of
    the amounts of the invoices, of the total billed and of the amounts per
    client of the invoices report.  The invoice counts per client add up to
    the number of invoices.  Each row of the tasks report has a total that is
    its completed count plus its pending count, which is the number of tasks
    of that client with one of these two statuses.  One entry without hours,
    or one invoice without amount, makes the total NaN.  The client ids name
    no property that every object inherits. *)
Theorem C4_grouping_preserves_totals :
  (forall (timeEntries : list TimeTrackingReport.Fetched.TimeEntry)
          (k : nat),
      let hours := map TimeTrackingReport.Fetched.hours timeEntries in
      let report := TimeTrackingReport.Fetched.calculateReport timeEntries in
      Forall
        (fun e =>
           JS.isInherited (TimeTrackingReport.Fetched.clientId e) = false)
        timeEntries ->
      Forall (fun x => x <> None) hours ->
      Spec.dyadic k 1 (map Spec.counted hours) ->
      TimeTrackingReport.Fetched.totalHours report
      = Double.Finite (Spec.sum (map Spec.counted hours)) /\
      exists hs,
        map TimeTrackingReport.Fetched.row_hours
          (TimeTrackingReport.Fetched.hoursByClient report)
        = map Double.Finite hs /\
        Spec.sum hs = Spec.sum (map Spec.counted hours)) /\
  (forall invoices : list ExportUtils.Invoice,
      let amounts := map ExportUtils.amount invoices in
      let groups := ExportUtils.GenerateInvoicesHTML.groups invoices in
      Forall (fun i => JS.isInherited (ExportUtils.clientId i) = false)
        invoices ->
      Spec.sumNat
        (map (fun kv => ExportUtils.GenerateInvoicesHTML.stats_total (snd kv))
           groups)
      = List.length invoices /\
      forall k,
        Forall (fun x => x <> None) amounts ->
        Spec.dyadic k 1 (map Spec.counted amounts) ->
        ExportUtils.GenerateInvoicesHTML.totalAmount invoices
        = Double.Finite (Spec.sum (map Spec.counted amounts)) /\
        exists hs,
          map
            (fun kv => ExportUtils.GenerateInvoicesHTML.stats_amount (snd kv))
            groups
          = map Double.Finite hs /\
          Spec.sum hs = Spec.sum (map Spec.counted amounts)) /\
  (forall (tasks : list TasksReport.Task) (clients : list TasksReport.Client)
          (row : TasksReport.ClientRow),
      Forall (fun t => JS.isInherited (TasksReport.clientId t) = false)
        tasks ->
      In row (TasksReport.getTasksByClient tasks clients) ->
      TasksReport.row_completed row + TasksReport.row_pending row
      = TasksReport.row_total row /\
      TasksReport.row_completed row
      = Spec.count
          (Spec.ofClientWith (TasksReport.row_clientId row) "completed")
          tasks /\
      TasksReport.row_pending row
      = Spec.count
          (Spec.ofClientWith (TasksReport.row_clientId row) "pending") tasks /\
      TasksReport.row_total row
      = Spec.count
          (fun t => Spec.ofClient (TasksReport.row_clientId row) t
                    && Spec.declaredStatus t) tasks /\
      (Forall (fun t => Spec.declaredStatus t = true) tasks ->
       TasksReport.row_total row
       = Spec.count (Spec.ofClient (TasksReport.row_clientId row)) tasks)) /\
  (forall timeEntries : list TimeTrackingReport.Fetched.TimeEntry,
      Exists (fun e => TimeTrackingReport.Fetched.hours e = None)
        timeEntries ->
      TimeTrackingReport.Fetched.totalHours
        (TimeTrackingReport.Fetched.calculateReport timeEntries)
      = Double.NaN) /\
  (forall invoices : list ExportUtils.Invoice,
      Exists (fun i => ExportUtils.amount i = None) invoices ->
      ExportUtils.GenerateInvoicesHTML.totalAmount invoices = Double.NaN).
Proof.
  split; [|split; [|split; [|split]]].
  - intros timeEntries k hours report _. apply calculateReport_exact.
  - intros invoices amounts groups _. split.
    + apply clientInvoices_count.
    + intros k. apply clientInvoices_exact.
  - intros tasks clients row _ H.
    destruct (getTasksByClient_row _ _ _ H) as (Hc & Hp & Ht & _).
    assert (Htotal : TasksReport.row_total row
                     = Spec.count
                         (fun t =>
                            Spec.ofClient (TasksReport.row_clientId row) t
                            && Spec.declaredStatus t) tasks).
    { rewrite Ht, Hc, Hp. symmetry. apply count_by_status. }
    split; [now rewrite Ht|]. split; [exact Hc|]. split; [exact Hp|].
    split; [exact Htotal|].
    intros Hall. rewrite Htotal. now apply count_declared.
  - intros timeEntries H.
    unfold TimeTrackingReport.Fetched.calculateReport.
    cbn [TimeTrackingReport.Fetched.totalHours].
    now apply fold_add_missing.
  - intros invoices H. unfold ExportUtils.GenerateInvoicesHTML.totalAmount.
    now apply fold_add_missing.
Qed.

(* ================================================================= *)
(** ** Substrings *)

Lemma startsWith_iff s p :
  JS.startsWith s p = true <-> exists t, s = String.append p t.
Proof.
  revert s. induction p as [|a p IH]; intros s.
  - split; [intros _; exists s; reflexivity|].
    intros _. destruct s; reflexivity.
  - destruct s as [|b s]; cbn [JS.startsWith String.append].
    + split; [discriminate|]. intros [t H]. discriminate.
    + rewrite andb_true_iff, IH, Ascii.eqb_eq. split.
      * intros [-> [t ->]]. eauto.
      * intros [t H]. injection H as -> ->. eauto.
Qed.

(** [includes] is the substring test. *)
Lemma includes_iff s sub :
  JS.includes s sub = true
  <-> exists pre post, s = String.append pre (String.append sub post).
Proof.
  induction s as [|a s IH].
  - cbn [JS.includes]. rewrite startsWith_iff. split.
    + intros [t H]. exists EmptyString, t. exact H.
    + intros (pre & post & H). destruct pre; [eauto|discriminate].
  - cbn [JS.includes]. rewrite orb_true_iff, IH, startsWith_iff. split.
    + intros [[t H] | (pre & post & ->)].
      * exists EmptyString, t. exact H.
      * exists (String a pre), post. reflexivity.
    + intros (pre & post & H). destruct pre as [|b pre].
      * left. eauto.
      * right. simpl in H. injection H as -> ->. eauto.
Qed.

(** *** Letter case *)







(* ================================================================= *)
(** ** The filter effect of the invoices page *)

Lemma filter_filter (E : Type) (p q : E -> bool) (l : list E) :
  filter q (filter p l) = filter (fun x => p x && q x) l.
Proof.
  induction l as [|x l IH]; simpl; [reflexivity|].
  destruct (p x); simpl; [|exact IH].
  destruct (q x); now rewrite IH.
Qed.







(* ================================================================= *)
(** ** Failing remote calls on the invoices page *)

Ltac run_handler :=
  cbv [Handler.tryCatchFinally Handler.tryCatch Handler.bind Handler.awaitRead
       Handler.await Handler.refused Handler.setState Handler.getState
       Handler.message Handler.ret Handler.throw];
  cbn [fst snd Handler.store Handler.script Handler.toasts Handler.calls].









(* ================================================================= *)
(** ** What a fetch puts into the page *)

Section QueryFacts.

Variable D : Type.

Lemma insertBy_perm (le : D -> D -> bool) x l :
  Permutation (F.insertBy le x l) (x :: l).
Proof.
  induction l as [|y l IH]; simpl; [reflexivity|].
  destruct (le x y); [reflexivity|].
  rewrite IH. apply perm_swap.
Qed.

Lemma sortBy_perm (le : D -> D -> bool) l :
  Permutation (F.sortBy le l) l.
Proof.
  induction l as [|x l IH]; simpl; [reflexivity|].
  rewrite insertBy_perm. now constructor.
Qed.

(** Without a limit, a snapshot holds the documents of the collection that
    satisfy every [where], and no other. *)
Lemma getDocs_In (q : F.Query D) (coll : list D) d :
  F.limit q = None ->
  In d (F.getDocs q coll) <-> In d coll /\ F.matches q d = true.
Proof.
  intros Hl. unfold F.getDocs. rewrite Hl.
  destruct (F.order q) as [le|].
  - rewrite <- filter_In. split; apply Permutation_in.
    + apply sortBy_perm.
    + symmetry. apply sortBy_perm.
  - apply filter_In.
Qed.

(** With a limit, it holds some of them. *)
Lemma getDocs_incl (q : F.Query D) (coll : list D) d :
  In d (F.getDocs q coll) -> In d coll /\ F.matches q d = true.
Proof.
  unfold F.getDocs. intros H.
  assert (In d match F.order q with
               | Some le => F.sortBy le (filter (F.matches q) coll)
               | None => filter (F.matches q) coll
               end) as H'.
  { destruct (F.limit q) as [n|]; [|exact H].
    rewrite <- (firstn_skipn n). apply in_or_app. now left. }
  clear H. rewrite <- filter_In.
  destruct (F.order q) as [le|]; [|exact H'].
  revert H'. apply Permutation_in, sortBy_perm.
Qed.

(** A snapshot depends on the matching documents only. *)
Lemma getDocs_filter (q : F.Query D) (coll1 coll2 : list D) :
  filter (F.matches q) coll1 = filter (F.matches q) coll2 ->
  F.getDocs q coll1 = F.getDocs q coll2.
Proof.
  unfold F.getDocs. now intros ->.
Qed.

End QueryFacts.

Ltac accept_case e H :=
  let db := fresh "db" in
  let sc := fresh "sc" in
  let ts := fresh "ts" in
  let cs := fresh "cs" in
  destruct e as [db sc ts cs];
  cbn [Handler.script] in H; subst sc.

Lemma fetchInvoices_accepted u e s newId rest :
  Handler.script e = Handler.Accepts newId :: rest ->
  let r := InvoicesPage.fetchInvoices (Some u) (e, s) in
  let data :=
    map InvoicesPage.toInvoice
      (F.getDocs (InvoicesPage.invoicesQuery u) (F.invoices (Handler.store e)))
  in
  fst r = Handler.Returned tt /\
  Handler.store (fst (snd r)) = Handler.store e /\
  Handler.toasts (fst (snd r)) = Handler.toasts e /\
  InvoicesPage.invoices (snd (snd r)) = data /\
  InvoicesPage.filteredInvoices (snd (snd r)) = data /\
  InvoicesPage.clients (snd (snd r)) = InvoicesPage.clients s.
Proof.
  intros H. accept_case e H.
  unfold InvoicesPage.fetchInvoices. run_handler. cbn. repeat split.
Qed.

Lemma fetchClients_accepted u e s newId rest :
  Handler.script e = Handler.Accepts newId :: rest ->
  let r := InvoicesPage.fetchClients (Some u) (e, s) in
  fst r = Handler.Returned tt /\
  Handler.store (fst (snd r)) = Handler.store e /\
  Handler.toasts (fst (snd r)) = Handler.toasts e /\
  InvoicesPage.clients (snd (snd r))
  = map InvoicesPage.toClient
      (F.getDocs (InvoicesPage.clientsQuery u) (F.clients (Handler.store e))) /\
  InvoicesPage.invoices (snd (snd r)) = InvoicesPage.invoices s.
Proof.
  intros H. accept_case e H.
  unfold InvoicesPage.fetchClients. run_handler. cbn. repeat split.
Qed.

Lemma invoicesQuery_matches u d :
  F.matches (InvoicesPage.invoicesQuery u) d = true <-> F.i_userId d = uid u.
Proof.
  unfold F.matches. simpl. rewrite andb_true_r. apply String.eqb_eq.
Qed.

(** On the invoices page, the invoices fetched are those of the user. *)
Lemma fetchInvoices_isolated u e s newId rest inv :
  Handler.script e = Handler.Accepts newId :: rest ->
  In inv (InvoicesPage.invoices
            (snd (snd (InvoicesPage.fetchInvoices (Some u) (e, s)))))
  <-> exists d, In d (F.invoices (Handler.store e)) /\
                F.i_userId d = uid u /\ InvoicesPage.toInvoice d = inv.
Proof.
  intros H.
  destruct (fetchInvoices_accepted u e s H) as (_ & _ & _ & -> & _).
  rewrite in_map_iff. split.
  - intros (d & <- & Hd). exists d.
    apply getDocs_In in Hd; [|reflexivity].
    destruct Hd as [Hd Hm]. apply invoicesQuery_matches in Hm. auto.
  - intros (d & Hd & Hu & <-). exists d. split; [reflexivity|].
    apply getDocs_In; [reflexivity|]. split; [exact Hd|].
    now apply invoicesQuery_matches.
Qed.

(** Two stores that hold the same invoices for the user give the same page,
    whatever they hold for other users. *)
Lemma fetchInvoices_two_runs u e1 e2 s id1 rest1 id2 rest2 :
  Handler.script e1 = Handler.Accepts id1 :: rest1 ->
  Handler.script e2 = Handler.Accepts id2 :: rest2 ->
  filter (fun d => String.eqb (F.i_userId d) (uid u))
    (F.invoices (Handler.store e1))
  = filter (fun d => String.eqb (F.i_userId d) (uid u))
      (F.invoices (Handler.store e2)) ->
  snd (snd (InvoicesPage.fetchInvoices (Some u) (e1, s)))
  = snd (snd (InvoicesPage.fetchInvoices (Some u) (e2, s))).
Proof.
  intros H1 H2 Hf. accept_case e1 H1. accept_case e2 H2.
  cbn [Handler.store] in Hf.
  unfold InvoicesPage.fetchInvoices. run_handler. cbn [fst snd].
  rewrite (@getDocs_filter _ (InvoicesPage.invoicesQuery u) (F.invoices db)
             (F.invoices db0)); [reflexivity|].
  assert (Hm : forall d,
             F.matches (InvoicesPage.invoicesQuery u) d
             = String.eqb (F.i_userId d) (uid u)).
  { intros d. unfold F.matches. simpl. apply andb_true_r. }
  rewrite !(filter_ext _ _ Hm). exact Hf.
Qed.

(** On the time-tracking page, the clients and the tasks fetched are the
    whole collections. *)
Lemma timeTracking_fetchClients_accepted e s newId rest :
  Handler.script e = Handler.Accepts newId :: rest ->
  TimeTrackingPage.clients
    (snd (snd (TimeTrackingPage.fetchClients (e, s))))
  = map TimeTrackingPage.toClient (F.clients (Handler.store e)).
Proof.
  intros H. accept_case e H.
  unfold TimeTrackingPage.fetchClients. run_handler. cbn.
  unfold F.getDocs. simpl. now rewrite filter_true.
Qed.

Lemma timeTracking_fetchTasks_accepted e s newId rest :
  Handler.script e = Handler.Accepts newId :: rest ->
  TimeTrackingPage.tasks
    (snd (snd (TimeTrackingPage.fetchTasks (e, s))))
  = map TimeTrackingPage.toTask (F.tasks (Handler.store e)).
Proof.
  intros H. accept_case e H.
  unfold TimeTrackingPage.fetchTasks. run_handler. cbn.
  unfold F.getDocs. simpl. now rewrite filter_true.
Qed.

(** C1 at a failing input.  The store holds a client of alice and a client
    and a task of bob.  With alice signed in, the time-tracking page fetches
    clients and tasks: bob's client and bob's task are put into her page. *)
Theorem C1_time_tracking_fetch_not_scoped :
  let afterClients :=
    snd (snd (TimeTrackingPage.fetchClients
                (Sample.online 1, Sample.timeTrackingPage))) in
  let afterTasks :=
    snd (snd (TimeTrackingPage.fetchTasks
                (Sample.online 1, Sample.timeTrackingPage))) in
  F.c_userId Sample.bobClient <> uid Sample.alice /\
  F.t_userId Sample.bobTask <> uid Sample.alice /\
  In (TimeTrackingPage.toClient Sample.bobClient)
    (TimeTrackingPage.clients afterClients) /\
  In (TimeTrackingPage.toTask Sample.bobTask)
    (TimeTrackingPage.tasks afterTasks).
Proof.
  cbv zeta. repeat split.
  - discriminate.
  - discriminate.
  - erewrite timeTracking_fetchClients_accepted by reflexivity.
    simpl. auto.
  - erewrite timeTracking_fetchTasks_accepted by reflexivity.
    simpl. auto.
Qed.


(* ================================================================= *)
(** ** Saving an invoice *)


Lemma updateInvoice_In id f l l' d :
  F.updateInvoice id f l = Some l' ->
  In d l' -> In d l \/ exists d0, In d0 l /\ d = f d0.
Proof.
  revert l'. induction l as [|x l IH]; simpl; intros l' H Hd; [discriminate|].
  destruct (String.eqb (F.i_id x) id).
  - injection H as <-. destruct Hd as [<- | Hd]; eauto.
  - destruct (F.updateInvoice id f l) as [r|]; [|discriminate].
    injection H as <-. destruct Hd as [<- | Hd]; auto.
    destruct (IH _ eq_refl Hd) as [Hin | (d0 & Hin & ->)]; eauto.
Qed.

Lemma fetchInvoices_store user e s :
  Handler.store (fst (snd (InvoicesPage.fetchInvoices user (e, s))))
  = Handler.store e.
Proof.
  destruct user as [u|]; [|reflexivity].
  destruct e as [db sc ts cs]. destruct sc as [|[|newId] rest];
    unfold InvoicesPage.fetchInvoices; run_handler; reflexivity.
Qed.

Ltac after_fetch :=
  match goal with
  | |- context [InvoicesPage.fetchInvoices ?u (?e, ?s)] =>
      let H := fresh "Hstore" in
      pose proof (fetchInvoices_store u e s) as H;
      destruct (InvoicesPage.fetchInvoices u (e, s)) as [[[]|] [? ?]];
      cbn in H |- *; rewrite H
  end.

(** Whatever [handleSubmit] leaves in the invoices collection was there
    before, or is the [invoiceData] object it built. *)
Lemma handleSubmit_store user now values e s d :
  let r := InvoicesPage.handleSubmit user now values (e, s) in
  In d (F.invoices (Handler.store (fst (snd r)))) ->
  In d (F.invoices (Handler.store e)) \/
  exists u docId,
    user = Some u /\
    d = InvoicesPage.invoiceData u now s values docId.
Proof.
  destruct user as [u|]; [|cbn; auto].
  unfold InvoicesPage.handleSubmit. run_handler.
  cbn [InvoicesPage.editingInvoice InvoicesPage.setIsLoading].
  destruct (InvoicesPage.editingInvoice s) as [inv|] eqn:He.
  - destruct (negb (String.eqb (InvoicesPage.userId inv) (uid u))).
    + cbn. auto.
    + destruct e as [db sc ts cs]. destruct sc as [|[|newId] rest]; run_handler.
      * cbn. auto.
      * cbn. auto.
      * unfold InvoicesPage.updateDoc.
        destruct (F.updateInvoice _ _ _) as [l|] eqn:Hu.
        -- run_handler. after_fetch; cbn; intros Hd;
             (destruct (@updateInvoice_In _ _ _ _ _ Hu Hd)
                as [Hin | (d0 & _ & ->)];
              [now left
              |right; exists u, (InvoicesPage.id inv); split; reflexivity]).
        -- cbn. auto.
  - destruct e as [db sc ts cs]. destruct sc as [|[|newId] rest]; run_handler.
    + cbn. auto.
    + cbn. auto.
    + unfold InvoicesPage.addDoc. run_handler.
      after_fetch; cbn; intros Hd;
        (apply in_app_or in Hd; destruct Hd as [Hin | [<- | []]];
         [now left|right; exists u, newId; split; reflexivity]).
Qed.

(** A new invoice the store accepts is stored as [invoiceData] built it. *)
Lemma handleSubmit_adds u now values e s newId rest :
  InvoicesPage.editingInvoice s = None ->
  Handler.script e = Handler.Accepts newId :: rest ->
  let r := InvoicesPage.handleSubmit (Some u) now values (e, s) in
  F.invoices (Handler.store (fst (snd r)))
  = F.invoices (Handler.store e)
    ++ [InvoicesPage.invoiceData u now s values newId].
Proof.
  intros He H. accept_case e H.
  unfold InvoicesPage.handleSubmit. run_handler.
  cbn [InvoicesPage.editingInvoice InvoicesPage.setIsLoading].
  rewrite He. unfold InvoicesPage.addDoc. run_handler.
  after_fetch; reflexivity.
Qed.



(* ================================================================= *)
(** ** Manual time entries *)

Lemma minutesBetween_div start end_ :
  TimeTrackingPage.minutesBetween start end_ = ((end_ - start) / 60000)%Z.
Proof.
  unfold TimeTrackingPage.minutesBetween, JS.Math_floor, JS.ofZ.
  unfold Qcdiv, Qcmult, Qcinv, Q2Qc. cbn [this].
  rewrite !Qred_correct.
  set (a := (end_ - start)%Z).
  assert (H : (inject_Z a * / inject_Z 60000 == a # 60000)%Q).
  { unfold Qeq, inject_Z, Qinv, Qmult. simpl. lia. }
  rewrite H. reflexivity.
Qed.

Lemma fetchTimeEntries_effect user clock e s :
  let r := TimeTrackingPage.fetchTimeEntries user clock (e, s) in
  Handler.store (fst (snd r)) = Handler.store e /\
  exists more, Handler.calls (fst (snd r)) = Handler.calls e ++ more.
Proof.
  destruct e as [db sc ts cs].
  unfold TimeTrackingPage.fetchTimeEntries.
  destruct user as [u|]; [destruct sc as [|[|newId] rest]|];
    run_handler; cbn; (split; [reflexivity|]).
  - eexists; reflexivity.
  - eexists; reflexivity.
  - eexists; reflexivity.
  - exists (@nil Handler.Call). now rewrite List.app_nil_r.
Qed.

Lemma handleAddEntry_rejects user clock values e s :
  (TimeTrackingPage.minutesBetween (TimeTrackingPage.v_startTime values)
     (TimeTrackingPage.v_endTime values) <= 0)%Z ->
  TimeTrackingPage.handleAddEntry user clock values (e, s)
  = (Handler.Returned tt,
     ({| Handler.store := Handler.store e;
         Handler.script := Handler.script e;
         Handler.toasts :=
           Handler.toasts e
           ++ [Handler.ToastError "End time must be after start time"];
         Handler.calls := Handler.calls e |}, s)).
Proof.
  intros H. apply Z.leb_le in H.
  unfold TimeTrackingPage.handleAddEntry. run_handler.
  rewrite H. reflexivity.
Qed.

Ltac after_fetch_entries :=
  match goal with
  | |- context [TimeTrackingPage.fetchTimeEntries ?u ?c (?e, ?s)] =>
      let H := fresh "Heff" in
      pose proof (fetchTimeEntries_effect u c e s) as H;
      destruct (TimeTrackingPage.fetchTimeEntries u c (e, s))
        as [[[]|] [? ?]];
      cbn in H |- *;
      let Hs := fresh "Hs" in
      let Hc := fresh "Hc" in
      destruct H as [Hs [? Hc]]; rewrite ?Hs, ?Hc
  end.

Lemma handleAddEntry_calls user clock values e s :
  (0 < TimeTrackingPage.minutesBetween (TimeTrackingPage.v_startTime values)
         (TimeTrackingPage.v_endTime values))%Z ->
  let r := TimeTrackingPage.handleAddEntry user clock values (e, s) in
  exists more,
    Handler.calls (fst (snd r))
    = Handler.calls e ++ Handler.AddDoc "timeTracking" :: more.
Proof.
  intros H. apply Z.leb_gt in H.
  unfold TimeTrackingPage.handleAddEntry. run_handler.
  rewrite H. destruct e as [db sc ts cs].
  destruct user as [u|]; [destruct sc as [|[|newId] rest]|];
    run_handler; unfold TimeTrackingPage.addDoc; run_handler;
    try after_fetch_entries; cbn; rewrite <- ?List.app_assoc;
    eexists; reflexivity.
Qed.

Lemma handleAddEntry_stores u clock values e s newId rest :
  (0 < TimeTrackingPage.minutesBetween (TimeTrackingPage.v_startTime values)
         (TimeTrackingPage.v_endTime values))%Z ->
  Handler.script e = Handler.Accepts newId :: rest ->
  let r := TimeTrackingPage.handleAddEntry (Some u) clock values (e, s) in
  F.timeTracking (Handler.store (fst (snd r)))
  = F.timeTracking (Handler.store e)
    ++ [TimeTrackingPage.newEntry u clock values
          (TimeTrackingPage.minutesBetween
             (TimeTrackingPage.v_startTime values)
             (TimeTrackingPage.v_endTime values)) newId].
Proof.
  intros H Hs. apply Z.leb_gt in H. accept_case e Hs.
  unfold TimeTrackingPage.handleAddEntry. run_handler.
  rewrite H. run_handler. unfold TimeTrackingPage.addDoc. run_handler.
  after_fetch_entries; reflexivity.
Qed.

Lemma handleAddEntry_store user clock values e s d :
  let r := TimeTrackingPage.handleAddEntry user clock values (e, s) in
  In d (F.timeTracking (Handler.store (fst (snd r)))) ->
  In d (F.timeTracking (Handler.store e)) \/
  (0 < TimeTrackingPage.minutesBetween (TimeTrackingPage.v_startTime values)
         (TimeTrackingPage.v_endTime values))%Z /\
  exists u newId,
    user = Some u /\
    d = TimeTrackingPage.newEntry u clock values
          (TimeTrackingPage.minutesBetween
             (TimeTrackingPage.v_startTime values)
             (TimeTrackingPage.v_endTime values)) newId.
Proof.
  unfold TimeTrackingPage.handleAddEntry. run_handler.
  destruct (Z.leb_spec
              (TimeTrackingPage.minutesBetween
                 (TimeTrackingPage.v_startTime values)
                 (TimeTrackingPage.v_endTime values)) 0) as [Hle|Hlt].
  - cbn. auto.
  - destruct e as [db sc ts cs].
    destruct user as [u|]; [destruct sc as [|[|newId] rest]|];
      run_handler; unfold TimeTrackingPage.addDoc; run_handler;
      try after_fetch_entries; cbn; auto.
    + intros Hd. apply in_app_or in Hd. destruct Hd as [Hd | [<- | []]]; auto.
      right. split; [exact Hlt|]. now exists u, newId.
    + intros Hd. apply in_app_or in Hd. destruct Hd as [Hd | [<- | []]]; auto.
      right. split; [exact Hlt|]. now exists u, newId.
Qed.


(** C10: the duration [handleAddEntry] computes is the whole number of minutes
    from start to end, rounded down.  When it is zero or negative the handler
    shows the error End time must be after start time, makes no remote call
    and stores nothing.  When it is positive the handler calls [addDoc] on the
    time-tracking collection, and the document the store accepts carries that
    duration.  Every document the handler adds was added with a positive
    duration. *)
Theorem C10_manual_entry_validation (user : option User)
    (clock : TimeTrackingPage.Clock)
    (values : TimeTrackingPage.TimeEntryFormValues)
    (e : Handler.Env) (s : TimeTrackingPage.State) :
  let dur :=
    ((TimeTrackingPage.v_endTime values - TimeTrackingPage.v_startTime values)
     / 60000)%Z in
  let r := TimeTrackingPage.handleAddEntry user clock values (e, s) in
  TimeTrackingPage.minutesBetween (TimeTrackingPage.v_startTime values)
    (TimeTrackingPage.v_endTime values) = dur /\
  ((dur <= 0)%Z ->
   fst r = Handler.Returned tt /\
   Handler.toasts (fst (snd r))
   = Handler.toasts e
     ++ [Handler.ToastError "End time must be after start time"] /\
   Handler.store (fst (snd r)) = Handler.store e /\
   Handler.calls (fst (snd r)) = Handler.calls e) /\
  ((0 < dur)%Z ->
   exists more,
     Handler.calls (fst (snd r))
     = Handler.calls e ++ Handler.AddDoc "timeTracking" :: more) /\
  (forall u newId rest,
      (0 < dur)%Z -> user = Some u ->
      Handler.script e = Handler.Accepts newId :: rest ->
      exists d,
        F.timeTracking (Handler.store (fst (snd r)))
        = F.timeTracking (Handler.store e) ++ [d] /\
        F.tt_id d = newId /\
        F.tt_duration d = Some dur /\
        F.tt_startTime d = Some (TimeTrackingPage.v_startTime values) /\
        F.tt_endTime d = Some (TimeTrackingPage.v_endTime values)) /\
  (forall d,
      In d (F.timeTracking (Handler.store (fst (snd r)))) ->
      ~ In d (F.timeTracking (Handler.store e)) ->
      (0 < dur)%Z /\ F.tt_duration d = Some dur).
Proof.
  intros dur r.
  assert (Hm := minutesBetween_div (TimeTrackingPage.v_startTime values)
                  (TimeTrackingPage.v_endTime values)).
  fold dur in Hm. split; [exact Hm|]. split; [|split; [|split]].
  - intros Hle. rewrite <- Hm in Hle. unfold r.
    rewrite (handleAddEntry_rejects user clock values e s Hle).
    cbn. repeat split.
  - intros Hlt. rewrite <- Hm in Hlt.
    exact (handleAddEntry_calls user clock values e s Hlt).
  - intros u newId rest Hlt -> Hs. rewrite <- Hm in Hlt.
    eexists. split.
    + unfold r. rewrite (handleAddEntry_stores u clock values e s Hlt Hs).
      reflexivity.
    + cbn. rewrite Hm. repeat split.
  - intros d Hd Hnew.
    destruct (handleAddEntry_store user clock values e s d Hd)
      as [Hold | (Hlt & u & newId & _ & ->)]; [contradiction|].
    rewrite Hm in Hlt. split; [exact Hlt|]. cbn. now rewrite Hm.
Qed.

(** C10 at two inputs: ninety minutes and a half are stored as ninety
    minutes; an end before the start is refused. *)
Lemma C10_witness :
  (exists d,
      F.timeTracking
        (Handler.store
           (fst (snd (TimeTrackingPage.handleAddEntry (Some Sample.alice)
                        Sample.clock Sample.entryValues
                        (Sample.online 2, Sample.timeTrackingPage)))))
      = F.timeTracking (Handler.store (Sample.online 2)) ++ [d] /\
      F.tt_id d = "new1"%string /\
      F.tt_duration d = Some 90%Z /\
      F.tt_startTime d
      = Some (TimeTrackingPage.v_startTime Sample.entryValues) /\
      F.tt_endTime d = Some (TimeTrackingPage.v_endTime Sample.entryValues)) /\
  Handler.toasts
    (fst (snd (TimeTrackingPage.handleAddEntry (Some Sample.alice)
                 Sample.clock Sample.backwardValues
                 (Sample.online 2, Sample.timeTrackingPage))))
  = [Handler.ToastError "End time must be after start time"].
Proof.
  split.
  - refine (proj1 (proj2 (proj2 (proj2
              (C10_manual_entry_validation (Some Sample.alice) Sample.clock
                 Sample.entryValues (Sample.online 2)
                 Sample.timeTrackingPage))))
              Sample.alice "new1"%string [Handler.Accepts "new1"] _ _ _);
      [reflexivity | reflexivity | reflexivity].
  - refine (proj1 (proj2 (proj1 (proj2
              (C10_manual_entry_validation (Some Sample.alice) Sample.clock
                 Sample.backwardValues (Sample.online 2)
                 Sample.timeTrackingPage)) _)));
      vm_compute; discriminate.
Defined.

(* ================================================================= *)
(** ** The dashboard *)

(** *** The figures *)

Lemma orZero_read x :
  Double.orZero (Double.read x) = Spec.countedDouble x.
Proof.
  destruct x as [v|]; [|reflexivity].
  cbn [Double.read option_map Spec.countedDouble].
  destruct (Double.round v) as [q|s|] eqn:E; try reflexivity.
  exfalso. unfold Double.round in E.
  destruct (Qnum v =? 0)%Z; [discriminate|].
  destruct (Double.nearest _ _) as [m e].
  destruct (_ && _); discriminate.
Qed.





Lemma loggedSince_matches u clock d :
  F.matches (DashboardPage.timeTrackingQuery u) d
  && DashboardPage.onOrAfter (DashboardPage.startOfMonth clock) (F.tt_date d)
  = Spec.loggedSince u (DashboardPage.startOfMonth clock) d.
Proof.
  unfold F.matches, Spec.loggedSince. cbn.
  destruct (F.tt_userId d) as [owner|], (F.tt_date d) as [date|]; cbn;
    rewrite ?andb_true_r, ?andb_false_r; reflexivity.
Qed.

Lemma sumHours_spec u clock docs :
  DashboardPage.sumHours clock
    (F.getDocs (DashboardPage.timeTrackingQuery u) docs)
  = Spec.addedUp
      (map Spec.countedDouble
         (Spec.loggedHours u (DashboardPage.startOfMonth clock) docs)).
Proof.
  unfold DashboardPage.sumHours, Spec.addedUp, Spec.loggedHours, F.getDocs.
  cbn [DashboardPage.timeTrackingQuery F.order F.limit].
  fold (DashboardPage.timeTrackingQuery u).
  rewrite fold_left_add, filter_filter, map_map. f_equal.
  rewrite (filter_ext _ _ (loggedSince_matches u clock)).
  apply map_ext. intros d. apply orZero_read.
Qed.



Lemma fetchDashboardData_stats u clock e s a b c d rest :
  Handler.script e
  = Handler.Accepts a :: Handler.Accepts b :: Handler.Accepts c
    :: Handler.Accepts d :: rest ->
  let db := Handler.store e in
  DashboardPage.stats
    (snd (snd (DashboardPage.fetchDashboardData u clock (e, s))))
  = {| DashboardPage.totalClients :=
         List.length
           (F.getDocs (DashboardPage.clientsQuery (uid u)) (F.clients db));
       DashboardPage.activeTasks :=
         List.length
           (F.getDocs (DashboardPage.activeTasksQuery (uid u)) (F.tasks db));
       DashboardPage.hoursTracked :=
         DashboardPage.roundTenths
           (DashboardPage.sumHours clock
              (F.getDocs (DashboardPage.timeTrackingQuery (uid u))
                 (F.timeTracking db)));
       DashboardPage.pendingInvoices :=
         List.length
           (F.getDocs (DashboardPage.pendingInvoicesQuery (uid u))
              (F.invoices db));
       DashboardPage.pendingInvoicesAmount :=
         DashboardPage.sumTotals
           (F.getDocs (DashboardPage.pendingInvoicesQuery (uid u))
              (F.invoices db));
       DashboardPage.clientsAddedThisMonth :=
         List.length
           (filter
              (fun d =>
                 DashboardPage.onOrAfter (DashboardPage.startOfMonth clock)
                   (F.c_createdAt d))
              (F.getDocs (DashboardPage.clientsQuery (uid u))
                 (F.clients db))) |}.
Proof.
  intros H. accept_case e H.
  unfold DashboardPage.fetchDashboardData. run_handler.
  destruct rest as [|[|id5] [|[|id6] rest6]]; reflexivity.
Qed.




Example dashboard_figures :
  let st :=
    DashboardPage.stats
      (snd (snd (DashboardPage.fetchDashboardData Sample.alice
                   Sample.dashboardClock
                   (Sample.busy 6, Sample.dashboardPage)))) in
  DashboardPage.hoursTracked st = Double.round (Q2Qc (33 # 10)) /\
  DashboardPage.pendingInvoicesAmount st = Double.Finite (Q2Qc (100 # 1)) /\
  DashboardPage.totalClients st = 1 /\
  DashboardPage.pendingInvoices st = 2.
Proof.
  cbv zeta. repeat split; try (apply Double_eqb_eq; vm_compute; reflexivity).
Qed.

(* ================================================================= *)
(** ** Invoice numbers *)

Lemma fold_max_init a n xs :
  fold_right Z.max (Z.max a n) xs = Z.max n (fold_right Z.max a xs).
Proof.
  induction xs as [|x xs IH]; simpl; lia.
Qed.

Lemma maxOr0_ge xs n : In n xs -> (n <= Spec.maxOr0 xs)%Z.
Proof.
  unfold Spec.maxOr0. induction xs as [|x xs IH]; simpl; [intros []|].
  intros [-> | H]; [lia|]. specialize (IH H). lia.
Qed.

Lemma maxOr0_nonneg xs : (0 <= Spec.maxOr0 xs)%Z.
Proof.
  unfold Spec.maxOr0. induction xs as [|x xs IH]; simpl; lia.
Qed.

Lemma maxOr0_attained xs :
  Spec.maxOr0 xs = 0%Z \/ In (Spec.maxOr0 xs) xs.
Proof.
  unfold Spec.maxOr0. induction xs as [|x xs IH]; simpl; [now left|].
  destruct (Z.max_spec x (fold_right Z.max 0%Z xs)) as [[_ ->] | [_ ->]];
    intuition.
Qed.

Lemma present_In (A : Type) (l : list (option A)) a :
  In a (Spec.present l) <-> In (Some a) l.
Proof.
  induction l as [|[x|] l IH]; simpl.
  - reflexivity.
  - rewrite IH. split; intros [H | H]; auto; left; congruence.
  - rewrite IH. split; [auto|]. intros [H | H]; [discriminate|auto].
Qed.

(** *** Printing a number and reading it back *)

Lemma isDigit_cases c :
  Spec.isDigit c = true ->
  JS.isWhiteSpace c = false /\
  Ascii.eqb c "-" = false /\ Ascii.eqb c "+" = false /\
  Ascii.eqb c "x" = false /\ Ascii.eqb c "X" = false /\
  exists k, JS.digitValue 10 c = Some k.
Proof.
  destruct c as [[|] [|] [|] [|] [|] [|] [|] [|]];
    intros H; try discriminate H; repeat split; eexists; reflexivity.
Qed.

Lemma allDigits_app s t :
  Spec.allDigits (String.append s t) = Spec.allDigits s && Spec.allDigits t.
Proof.
  induction s as [|c s IH]; simpl; [reflexivity|].
  rewrite IH. now rewrite andb_assoc.
Qed.

Lemma allDigits_zeros k : Spec.allDigits (JS.repeat "0" k) = true.
Proof.
  induction k; simpl; auto.
Qed.

Lemma allDigits_uint d : Spec.allDigits (NilEmpty.string_of_uint d) = true.
Proof.
  induction d; simpl; auto.
Qed.

Lemma allDigits_lacks_dash s :
  Spec.allDigits s = true -> Spec.lacks "-" s = true.
Proof.
  induction s as [|c s IH]; simpl; [reflexivity|].
  intros H. apply andb_true_iff in H. destruct H as [Hc Hs].
  destruct (isDigit_cases c Hc) as (_ & -> & _). simpl. auto.
Qed.

Lemma parseInt_digits s :
  Spec.allDigits s = true ->
  JS.parseInt s = option_map Z.of_N (JS.parseDigits 10 s None).
Proof.
  intros H. unfold JS.parseInt.
  destruct s as [|c s]; [reflexivity|].
  simpl in H. apply andb_true_iff in H. destruct H as [Hc Hs].
  destruct (isDigit_cases c Hc) as (Hw & Hm & Hp & Hx & HX & _).
  cbn [JS.trimStart]. rewrite Hw. unfold JS.stripSign. rewrite Hm, Hp.
  assert (JS.stripPrefix (String c s) = (10%N, String c s)) as ->.
  { unfold JS.stripPrefix. destruct s as [|c2 s]; [reflexivity|].
    simpl in Hs. apply andb_true_iff in Hs. destruct Hs as [Hc2 _].
    destruct (isDigit_cases c2 Hc2) as (_ & _ & _ & -> & -> & _).
    now rewrite andb_false_r. }
  destruct (JS.parseDigits 10 (String c s) None) as [n|]; simpl; [|reflexivity].
  f_equal. destruct (Z.of_N n); reflexivity.
Qed.

Lemma parseDigits_zeros k s :
  JS.parseDigits 10 (String.append (JS.repeat "0" k) s) (Some 0%N)
  = JS.parseDigits 10 s (Some 0%N).
Proof.
  induction k as [|k IH]; [reflexivity|].
  cbn [JS.repeat String.append JS.parseDigits].
  change (JS.digitValue 10 "0") with (Some 0%N). cbn iota. exact IH.
Qed.

Lemma parseDigits_padded k s :
  s <> EmptyString -> Spec.allDigits s = true ->
  JS.parseDigits 10 (String.append (JS.repeat "0" k) s) None
  = JS.parseDigits 10 s (Some 0%N).
Proof.
  intros Hne Hd. destruct k as [|k].
  - destruct s as [|c s]; [contradiction|]. cbn [JS.repeat String.append].
    simpl in Hd. apply andb_true_iff in Hd. destruct Hd as [Hc _].
    destruct (isDigit_cases c Hc) as (_ & _ & _ & _ & _ & v & Hv).
    cbn [JS.parseDigits]. rewrite Hv. reflexivity.
  - cbn [JS.repeat String.append JS.parseDigits].
    change (JS.digitValue 10 "0") with (Some 0%N). cbn iota.
    apply parseDigits_zeros.
Qed.

Lemma parseDigits_uint d a :
  JS.parseDigits 10 (NilEmpty.string_of_uint d) (Some a)
  = Some (Spec.uintValue d a).
Proof.
  revert a. induction d; intros a; cbn [NilEmpty.string_of_uint JS.parseDigits];
    [reflexivity| |  | | | | | | | |];
    match goal with
    | |- context [JS.digitValue 10 ?c] =>
        let v := eval vm_compute in (JS.digitValue 10 c) in
        change (JS.digitValue 10 c) with v
    end; cbn iota; rewrite IHd; cbn [Spec.uintValue];
    rewrite ?N.add_0_r; reflexivity.
Qed.

Lemma uintValue_acc d p :
  Spec.uintValue d (Npos p) = Npos (Pos.of_uint_acc d p).
Proof.
  revert p. induction d; intros p; cbn [Spec.uintValue Pos.of_uint_acc];
    [reflexivity| | | | | | | | | |];
    rewrite <- IHd; f_equal; lia.
Qed.

Lemma uintValue_of_uint d : Spec.uintValue d 0 = N.of_uint d.
Proof.
  unfold N.of_uint.
  induction d; cbn [Spec.uintValue Pos.of_uint]; [reflexivity|exact IHd| ..];
    cbn [N.mul N.add]; apply uintValue_acc.
Qed.

Lemma String_ofZ_pos p :
  JS.String_ofZ (Zpos p) = NilEmpty.string_of_uint (Pos.to_uint p).
Proof.
  unfold JS.String_ofZ. cbn [Z.to_int NilZero.string_of_int].
  unfold NilZero.string_of_uint.
  destruct (Pos.to_uint p) eqn:E; try reflexivity.
  now apply DecimalPos.Unsigned.to_uint_nonnil in E.
Qed.

Lemma string_of_uint_nonempty d :
  d <> Decimal.Nil -> NilEmpty.string_of_uint d <> EmptyString.
Proof.
  destruct d; simpl; congruence.
Qed.

Lemma parseInt_padded k p :
  JS.parseInt (JS.padStart k "0" (JS.String_ofZ (Zpos p))) = Some (Zpos p).
Proof.
  unfold JS.padStart. rewrite String_ofZ_pos.
  set (ds := NilEmpty.string_of_uint (Pos.to_uint p)).
  assert (Hd : Spec.allDigits ds = true) by apply allDigits_uint.
  assert (Hne : ds <> EmptyString).
  { apply string_of_uint_nonempty, DecimalPos.Unsigned.to_uint_nonnil. }
  rewrite parseInt_digits.
  - rewrite parseDigits_padded by assumption.
    unfold ds. rewrite parseDigits_uint, uintValue_of_uint.
    unfold N.of_uint. rewrite DecimalPos.Unsigned.of_to. reflexivity.
  - rewrite allDigits_app, allDigits_zeros. exact Hd.
Qed.

Lemma split_lacks sep s :
  Spec.lacks sep s = true -> JS.split sep s = [s].
Proof.
  induction s as [|c s IH]; simpl; [reflexivity|].
  intros H. apply andb_true_iff in H. destruct H as [Hc Hs].
  apply negb_true_iff in Hc. rewrite Hc, (IH Hs). reflexivity.
Qed.

Lemma split_parts_lack sep s w :
  In w (JS.split sep s) -> Spec.lacks sep w = true.
Proof.
  revert w. induction s as [|c s IH]; simpl; intros w.
  - intros [<- | []]. reflexivity.
  - destruct (Ascii.eqb c sep) eqn:E.
    + intros [<- | H]; [reflexivity|now apply IH].
    + destruct (JS.split sep s) as [|w0 ws].
      * intros [<- | []]. simpl. now rewrite E.
      * intros [<- | H].
        -- simpl. rewrite E. simpl. apply IH. now left.
        -- apply IH. now right.
Qed.

Lemma trimStart_lacks c s :
  Spec.lacks c s = true -> Spec.lacks c (JS.trimStart s) = true.
Proof.
  induction s as [|a s IH]; simpl; [reflexivity|].
  intros H. destruct (JS.isWhiteSpace a); [|exact H].
  apply andb_true_iff in H. now apply IH.
Qed.

Lemma parseInt_nonneg s n :
  Spec.lacks "-" s = true -> JS.parseInt s = Some n -> (0 <= n)%Z.
Proof.
  intros H. apply trimStart_lacks in H. unfold JS.parseInt.
  assert (Hs : exists t, JS.stripSign (JS.trimStart s) = (1%Z, t)).
  { unfold JS.stripSign. destruct (JS.trimStart s) as [|c r]; [eauto|].
    simpl in H. apply andb_true_iff in H. destruct H as [Hc _].
    apply negb_true_iff in Hc. rewrite Hc.
    destruct (Ascii.eqb c "+"); eauto. }
  destruct Hs as [t ->]. destruct (JS.stripPrefix t) as [radix s3].
  destruct (JS.parseDigits radix s3 None) as [m|]; [|discriminate].
  intros Heq. injection Heq as <-.
  destruct m; simpl; lia.
Qed.

Lemma suffix_nonneg invoiceNumber n :
  Spec.suffix invoiceNumber = Some n -> (0 <= n)%Z.
Proof.
  unfold Spec.suffix, JS.parseIntAt.
  destruct (nth_error _ 1) as [w|] eqn:E; [|discriminate].
  apply nth_error_In in E. apply split_parts_lack in E.
  now apply parseInt_nonneg.
Qed.

Lemma suffix_generated p :
  Spec.suffix
    (String.append "INV-" (JS.padStart 4 "0" (JS.String_ofZ (Zpos p))))
  = Some (Zpos p).
Proof.
  unfold Spec.suffix. cbn [String.append].
  set (ds := JS.padStart 4 "0" (JS.String_ofZ (Z.pos p))).
  assert (Hl : Spec.lacks "-" ds = true).
  { apply allDigits_lacks_dash. unfold ds, JS.padStart.
    rewrite allDigits_app, allDigits_zeros, String_ofZ_pos.
    apply allDigits_uint. }
  cbn [JS.split Ascii.eqb Bool.eqb]. rewrite (split_lacks _ _ Hl).
  cbn [JS.parseIntAt nth_error]. apply parseInt_padded.
Qed.

Lemma padStart_length n c s :
  String.length (JS.padStart n c s) = Nat.max n (String.length s).
Proof.
  unfold JS.padStart.
  assert (H : forall a b, String.length (String.append a b)
                          = String.length a + String.length b).
  { induction a as [|x a IH]; simpl; auto. }
  rewrite H.
  assert (Hr : forall k, String.length (JS.repeat c k) = k).
  { induction k; simpl; auto. }
  rewrite Hr. lia.
Qed.

Lemma String_ofZ_short n :
  (0 < n < 10000)%Z -> String.length (JS.String_ofZ n) <= 4.
Proof.
  intros H.
  assert (Hall : forallb
                   (fun k => String.length (JS.String_ofZ (Z.of_nat k)) <=? 4)
                   (seq 1 (Z.to_nat 9999)) = true)
    by (vm_compute; reflexivity).
  rewrite forallb_forall in Hall.
  specialize (Hall (Z.to_nat n)). rewrite Z2Nat.id in Hall by lia.
  apply Nat.leb_le, Hall, in_seq. lia.
Qed.

(** Whole numbers up to 2^53 in size are doubles. *)
Lemma roundWhole_exact z :
  (Z.abs z <= 2 ^ 53)%Z -> JS.roundWhole z = JS.Whole z.
Proof.
  intros H. unfold JS.roundWhole.
  destruct (Z.ltb_spec (Z.abs z) (2 ^ 53)) as [Hlt | Hge]; [reflexivity|].
  assert (Hz : z = (2 ^ 53)%Z \/ z = (- 2 ^ 53)%Z) by lia.
  destruct Hz as [-> | ->]; vm_compute; reflexivity.
Qed.

Lemma numbersBelow_cons b inv l :
  Spec.numbersBelow b (inv :: l)
  <-> (forall n, Spec.suffix (InvoicesPage.invoiceNumber inv) = Some n ->
                 (n < b)%Z)
      /\ Spec.numbersBelow b l.
Proof.
  unfold Spec.numbersBelow, Spec.suffixes. cbn [map].
  destruct (Spec.suffix (InvoicesPage.invoiceNumber inv)) as [n|];
    cbn [Spec.present].
  - rewrite Forall_cons_iff. split; intros [H1 H2]; split; auto.
    intros k [= <-]. exact H1.
  - split; [intros H; split; [discriminate|exact H]|intros [_ H]; exact H].
Qed.

Lemma numbersBelow_In b l :
  Spec.numbersBelow b l
  <-> forall inv n,
        In inv l -> Spec.suffix (InvoicesPage.invoiceNumber inv) = Some n ->
        (n < b)%Z.
Proof.
  unfold Spec.numbersBelow, Spec.suffixes. rewrite Forall_forall. split.
  - intros H inv n Hin Hs. apply H. rewrite present_In, in_map_iff. eauto.
  - intros H n Hn. rewrite present_In, in_map_iff in Hn.
    destruct Hn as (inv & Hs & Hin). eauto.
Qed.

Lemma maxNumber_from a l :
  (0 <= a < 2 ^ 53)%Z ->
  Spec.numbersBelow (2 ^ 53) l ->
  fold_left
    (fun max inv =>
       match
         JS.parseIntNumberAt (JS.split "-" (InvoicesPage.invoiceNumber inv)) 1
       with
       | Some num => if JS.gtb num max then num else max
       | None => max
       end) l (JS.Whole a)
  = JS.Whole (fold_right Z.max a (Spec.suffixes l)).
Proof.
  revert a. induction l as [|inv l IH]; intros a Ha Hl; [reflexivity|].
  apply numbersBelow_cons in Hl. destruct Hl as [Hinv Hl].
  cbn [fold_left]. unfold Spec.suffixes. cbn [map].
  change (JS.parseIntNumberAt
            (JS.split "-" (InvoicesPage.invoiceNumber inv)) 1)
    with (option_map JS.roundWhole
            (Spec.suffix (InvoicesPage.invoiceNumber inv))).
  destruct (Spec.suffix (InvoicesPage.invoiceNumber inv)) as [n|] eqn:E;
    cbn [option_map Spec.present fold_right].
  - assert (Hn : (0 <= n < 2 ^ 53)%Z)
      by (split; [now apply suffix_nonneg in E|now apply Hinv]).
    rewrite roundWhole_exact by lia.
    change (JS.gtb (JS.Whole n) (JS.Whole a)) with (n >? a)%Z.
    rewrite <- fold_max_init.
    destruct (Z.gtb_spec n a) as [Hgt | Hle].
    + rewrite (IH n Hn Hl). unfold Spec.suffixes.
      do 2 f_equal. lia.
    + rewrite (IH a Ha Hl). unfold Spec.suffixes.
      do 2 f_equal. lia.
  - now rewrite (IH a Ha Hl).
Qed.

(** While every number that parses is below 2^53, the largest number held
    by the code is the largest that parses, and the number returned is
    printed from its successor without rounding. *)
Lemma maxNumber_spec l :
  Spec.numbersBelow (2 ^ 53) l ->
  InvoicesPage.maxNumber l = JS.Whole (Spec.maxOr0 (Spec.suffixes l)).
Proof.
  intros H. apply maxNumber_from; [lia|exact H].
Qed.

Lemma maxOr0_below b xs :
  (0 < b)%Z -> Forall (fun n => (n < b)%Z) xs -> (Spec.maxOr0 xs < b)%Z.
Proof.
  intros Hb. unfold Spec.maxOr0. induction 1 as [|x xs Hx _ IH]; simpl; lia.
Qed.

Lemma generateInvoiceNumber_exact l :
  Spec.numbersBelow (2 ^ 53) l ->
  InvoicesPage.generateInvoiceNumber l
  = String.append "INV-"
      (JS.padStart 4 "0"
         (JS.String_ofZ (Spec.maxOr0 (Spec.suffixes l) + 1))).
Proof.
  intros H. unfold InvoicesPage.generateInvoiceNumber.
  rewrite (maxNumber_spec H). cbn [JS.succ].
  assert (H0 := maxOr0_nonneg (Spec.suffixes l)).
  assert (H1 : (Spec.maxOr0 (Spec.suffixes l) < 2 ^ 53)%Z)
    by (apply maxOr0_below; [lia|exact H]).
  rewrite roundWhole_exact by lia.
  unfold JS.String_ofNumber.
  destruct (Z.leb_spec (Z.abs (Spec.maxOr0 (Spec.suffixes l) + 1)) (2 ^ 53));
    [reflexivity|lia].
Qed.

(** The invoice number 2^53 is followed by itself: 2^53 + 1 is no double. *)
Lemma C9_counterexample :
  Spec.suffix "INV-9007199254740992" = Some 9007199254740992%Z /\
  InvoicesPage.generateInvoiceNumber [Sample.numbered "INV-9007199254740992"]
  = "INV-9007199254740992"%string /\
  Spec.suffix
    (InvoicesPage.generateInvoiceNumber
       [Sample.numbered "INV-9007199254740992"])
  = Some 9007199254740992%Z /\
  InvoicesPage.generateInvoiceNumber [Sample.numbered "INV-9007199254740992"]
  <> String.append "INV-"
       (JS.padStart 4 "0"
          (JS.String_ofZ
             (Spec.maxOr0
                (Spec.suffixes [Sample.numbered "INV-9007199254740992"])
              + 1))).
Proof.
  repeat split; try (vm_compute; reflexivity).
  vm_compute. discriminate.
Qed.

(** C9 (amended): while every number that parses after the first dash of an
    existing invoice number is below 2^53, [generateInvoiceNumber] returns
    INV- followed by the successor of the largest of them (0 when none
    parses), padded with zeros to four digits.  The number after the dash of
    the result reads back as that successor, so it is above every existing
    number that parses; the existing numbers that parse are not negative, so
    the largest is one of them when there is one.  The padded number has
    exactly four digits while the successor is below 10000.  With no invoice
    the result is INV-0001. *)
Theorem C9_generateInvoiceNumber (l : list InvoicesPage.Invoice)
    (Hsafe : Spec.numbersBelow (2 ^ 53) l) :
  let m := Spec.maxOr0 (Spec.suffixes l) in
  let digits := JS.padStart 4 "0" (JS.String_ofZ (m + 1)) in
  InvoicesPage.generateInvoiceNumber l = String.append "INV-" digits /\
  Spec.suffix (InvoicesPage.generateInvoiceNumber l) = Some (m + 1)%Z /\
  (forall inv n,
      In inv l -> Spec.suffix (InvoicesPage.invoiceNumber inv) = Some n ->
      (0 <= n < m + 1)%Z) /\
  (m = 0%Z \/
   exists inv,
     In inv l /\ Spec.suffix (InvoicesPage.invoiceNumber inv) = Some m) /\
  4 <= String.length digits /\
  ((m + 1 < 10000)%Z -> String.length digits = 4) /\
  InvoicesPage.generateInvoiceNumber [] = "INV-0001"%string.
Proof.
  intros m digits.
  assert (Hgen : InvoicesPage.generateInvoiceNumber l
                 = String.append "INV-" digits).
  { now apply generateInvoiceNumber_exact. }
  assert (Hm : (0 <= m)%Z) by apply maxOr0_nonneg.
  assert (Hin : forall n, In n (Spec.suffixes l)
                          <-> exists inv, In inv l /\
                                Spec.suffix (InvoicesPage.invoiceNumber inv)
                                = Some n).
  { intros n. unfold Spec.suffixes. rewrite present_In, in_map_iff.
    split; intros (inv & H1 & H2); exists inv; auto. }
  split; [exact Hgen|]. split; [|split; [|split; [|split; [|split]]]].
  - rewrite Hgen. unfold digits.
    destruct (m + 1)%Z as [|p|p] eqn:E; try lia. apply suffix_generated.
  - intros inv n Hi Hs. split; [now apply suffix_nonneg in Hs|].
    assert (n <= m)%Z; [|lia].
    apply maxOr0_ge, Hin. eauto.
  - destruct (maxOr0_attained (Spec.suffixes l)) as [H0 | H1]; [now left|].
    right. now apply Hin.
  - unfold digits. rewrite padStart_length. lia.
  - intros Hlt. unfold digits. rewrite padStart_length.
    assert (String.length (JS.String_ofZ (m + 1)) <= 4)
      by (apply String_ofZ_short; lia).
    lia.
  - reflexivity.
Qed.

Example generateInvoiceNumber_skips_unparseable :
  InvoicesPage.generateInvoiceNumber
    [Sample.numbered "INV-0007"; Sample.numbered "draft";
     Sample.numbered "INV-0041"; Sample.numbered "INV-x"]
  = "INV-0042"%string.
Proof. reflexivity. Qed.

Example generateInvoiceNumber_past_four_digits :
  InvoicesPage.generateInvoiceNumber [Sample.numbered "INV-9999"]
  = "INV-10000"%string.
Proof. reflexivity. Qed.

(** Beyond 2^53 the number printed is the double's shortest numeral, from
    21 digits on with an exponent, which reads back as its first digits. *)
Example generateInvoiceNumber_rounds :
  InvoicesPage.generateInvoiceNumber [Sample.numbered "INV-9007199254740993"]
  = "INV-9007199254740992"%string /\
  InvoicesPage.generateInvoiceNumber [Sample.numbered "INV-18014398509481985"]
  = "INV-18014398509481984"%string /\
  InvoicesPage.generateInvoiceNumber
    [Sample.numbered "INV-123456789012345678901"]
  = "INV-123456789012345680000"%string /\
  InvoicesPage.generateInvoiceNumber
    [Sample.numbered "INV-1000000000000000000000"]
  = "INV-1e+21"%string /\
  Spec.suffix "INV-1e+21" = Some 1%Z.
Proof. repeat split; vm_compute; reflexivity. Qed.

(* ================================================================= *)
(** ** CSV export *)

Lemma includes_char s c :
  JS.includes s (String c EmptyString) = negb (Spec.lacks c s).
Proof.
  induction s as [|a s IH]; [reflexivity|].
  cbn [JS.includes JS.startsWith Spec.lacks]. rewrite IH.
  rewrite (Ascii.eqb_sym c a).
  destruct s; destruct (Ascii.eqb a c); reflexivity.
Qed.

Lemma needsQuotes_lacks s :
  ExportUtils.needsQuotes s
  = negb (Spec.lacks ExportUtils.comma s
          && Spec.lacks ExportUtils.dquote s
          && Spec.lacks ExportUtils.newline s).
Proof.
  unfold ExportUtils.needsQuotes, ExportUtils.str.
  rewrite !includes_char, !negb_andb. reflexivity.
Qed.

Lemma needsQuotes_iff s :
  ExportUtils.needsQuotes s = true
  <-> Spec.occurs ExportUtils.comma s \/ Spec.occurs ExportUtils.dquote s
      \/ Spec.occurs ExportUtils.newline s.
Proof.
  rewrite needsQuotes_lacks. unfold Spec.occurs.
  destruct (Spec.lacks ExportUtils.comma s),
    (Spec.lacks ExportUtils.dquote s),
    (Spec.lacks ExportUtils.newline s); simpl; intuition discriminate.
Qed.

Lemma escapeField_cases s :
  (ExportUtils.needsQuotes s = true ->
   ExportUtils.escapeField s = Spec.quoted s) /\
  (ExportUtils.needsQuotes s = false -> ExportUtils.escapeField s = s).
Proof.
  unfold ExportUtils.escapeField, Spec.quoted.
  destruct (ExportUtils.needsQuotes s); split; intros H;
    try discriminate; reflexivity.
Qed.

(** *** Lines *)

Lemma lacks_app c s t :
  Spec.lacks c (String.append s t) = Spec.lacks c s && Spec.lacks c t.
Proof.
  induction s as [|a s IH]; simpl; [reflexivity|].
  rewrite IH. now rewrite andb_assoc.
Qed.

Lemma split_app sep s t :
  Spec.lacks sep s = true ->
  JS.split sep (String.append s (String sep t)) = s :: JS.split sep t.
Proof.
  induction s as [|a s IH]; simpl.
  - intros _. now rewrite Ascii.eqb_refl.
  - intros H. apply andb_true_iff in H. destruct H as [Ha Hs].
    apply negb_true_iff in Ha. rewrite Ha, (IH Hs). reflexivity.
Qed.

(** Joining lines that hold no newline and splitting again gives the lines
    back. *)
Lemma split_join sep l :
  l <> [] -> Forall (fun s => Spec.lacks sep s = true) l ->
  JS.split sep (JS.join (String sep EmptyString) l) = l.
Proof.
  unfold JS.join. induction l as [|x l IH]; [congruence|].
  intros _ H. inversion H as [|? ? Hx Hl]; subst.
  destruct l as [|y l].
  - simpl. now apply split_lacks.
  - assert (E : String.concat (String sep EmptyString) (x :: y :: l)
                = String.append x
                    (String sep
                       (String.concat (String sep EmptyString) (y :: l))))
      by reflexivity.
    rewrite E, split_app by exact Hx.
    f_equal. apply IH; [discriminate|exact Hl].
Qed.

(** The first line, whatever the rows hold. *)
Lemma split_join_head sep x l :
  Spec.lacks sep x = true ->
  hd EmptyString (JS.split sep (JS.join (String sep EmptyString) (x :: l)))
  = x.
Proof.
  intros Hx. unfold JS.join. destruct l as [|y l].
  - simpl. now rewrite split_lacks.
  - assert (E : String.concat (String sep EmptyString) (x :: y :: l)
                = String.append x
                    (String sep
                       (String.concat (String sep EmptyString) (y :: l))))
      by reflexivity.
    now rewrite E, split_app.
Qed.

Lemma lacks_join c sep l :
  Spec.lacks c sep = true ->
  Forall (fun s => Spec.lacks c s = true) l ->
  Spec.lacks c (JS.join sep l) = true.
Proof.
  intros Hsep. unfold JS.join. induction l as [|x l IH]; [reflexivity|].
  intros H. inversion H as [|? ? Hx Hl]; subst.
  destruct l as [|y l]; [exact Hx|].
  cbn [String.concat]. rewrite !lacks_app, Hx, Hsep. simpl. now apply IH.
Qed.

Lemma lacks_replaceAll c a by_ s :
  Spec.lacks c by_ = true -> Spec.lacks c s = true ->
  Spec.lacks c (JS.replaceAll a by_ s) = true.
Proof.
  intros Hb. induction s as [|x s IH]; simpl; [reflexivity|].
  intros H. apply andb_true_iff in H. destruct H as [Hx Hs].
  destruct (Ascii.eqb x a).
  - rewrite lacks_app, Hb. simpl. now apply IH.
  - simpl. rewrite Hx. simpl. now apply IH.
Qed.

Lemma escapeField_lacks_newline s :
  Spec.lacks ExportUtils.newline s = true ->
  Spec.lacks ExportUtils.newline (ExportUtils.escapeField s) = true.
Proof.
  intros H. unfold ExportUtils.escapeField.
  destruct (ExportUtils.needsQuotes s); [|exact H].
  cbn [Spec.lacks]. rewrite lacks_app, lacks_replaceAll; auto.
Qed.

Lemma append_length s t :
  String.length (String.append s t) = String.length s + String.length t.
Proof.
  induction s as [|a s IH]; simpl; auto.
Qed.

Lemma replaceAll_length c by_ s :
  1 <= String.length by_ ->
  String.length s <= String.length (JS.replaceAll c by_ s).
Proof.
  intros Hb. induction s as [|a s IH]; simpl; [lia|].
  destruct (Ascii.eqb a c); [rewrite append_length|simpl]; lia.
Qed.

Lemma quoted_longer s : String.length (Spec.quoted s) >= String.length s + 2.
Proof.
  unfold Spec.quoted. cbn [String.length]. rewrite append_length.
  assert (H := replaceAll_length ExportUtils.dquote
                 (String ExportUtils.dquote
                    (ExportUtils.str ExportUtils.dquote)) s).
  simpl in *. lia.
Qed.

Lemma escapeField_quoted_iff s :
  ExportUtils.escapeField s = Spec.quoted s
  <-> ExportUtils.needsQuotes s = true.
Proof.
  destruct (escapeField_cases s) as [Hq Hn].
  destruct (ExportUtils.needsQuotes s); split; auto.
  intros H. rewrite Hn in H by reflexivity.
  assert (Hl := quoted_longer s). rewrite <- H in Hl. lia.
Qed.

Lemma stringValue_cellText numberToString v :
  ExportUtils.stringValue numberToString v = Spec.cellText numberToString v.
Proof.
  destruct v as [[| |[|]| |]|]; reflexivity.
Qed.

Lemma csvRow_cells numberToString headers row :
  ExportUtils.csvRow numberToString headers row
  = JS.join (ExportUtils.str ExportUtils.comma)
      (map ExportUtils.escapeField (Spec.cells numberToString headers row)).
Proof.
  unfold ExportUtils.csvRow, Spec.cells. rewrite map_map.
  apply (f_equal (JS.join (ExportUtils.str ExportUtils.comma))).
  apply map_ext. intros h. now rewrite stringValue_cellText.
Qed.

Lemma csvRow_lacks_newline numberToString headers row :
  Forall (fun s => Spec.lacks ExportUtils.newline s = true)
    (Spec.cells numberToString headers row) ->
  Spec.lacks ExportUtils.newline
    (ExportUtils.csvRow numberToString headers row) = true.
Proof.
  intros H. rewrite csvRow_cells. apply lacks_join; [reflexivity|].
  apply Forall_forall. intros f Hf. apply in_map_iff in Hf.
  destruct Hf as (v & <- & Hv). apply escapeField_lacks_newline.
  rewrite Forall_forall in H. now apply H.
Qed.

(** C6: for no record [exportToCSV] produces nothing.  For at least one
    record, the content is the lines joined by newlines, where the first line
    is the keys of the first record joined by commas and each record gives one
    line, its cells under these keys joined by commas.  The text of a cell is
    the string itself for a string, true or false for a boolean, the printed
    number for a number, and empty for [null], [undefined] and a key the
    record lacks.  A cell is put between double quotes, with its double
    quotes doubled, exactly when it holds a comma, a double quote or a
    newline, and is left as it is otherwise.  When no key holds a newline the
    first line of the content is the line of keys, and when no cell holds one
    either, the lines of the content are the line of keys followed by one
    line per record. *)
Theorem C6_exportToCSV (numberToString : JS.number -> string) :
  (forall filename today,
      ExportUtils.exportToCSV numberToString [] filename today = None) /\
  (forall first rest filename today,
      let data := first :: rest in
      let headers := Dict.keys first in
      let header := JS.join (ExportUtils.str ExportUtils.comma) headers in
      let line row :=
        JS.join (ExportUtils.str ExportUtils.comma)
          (map ExportUtils.escapeField
             (Spec.cells numberToString headers row)) in
      exists file,
        ExportUtils.exportToCSV numberToString data filename today
        = Some file /\
        ExportUtils.content file
        = JS.join (ExportUtils.str ExportUtils.newline)
            (header :: map line data) /\
        (Forall (fun h => Spec.lacks ExportUtils.newline h = true) headers ->
         hd EmptyString
           (JS.split ExportUtils.newline (ExportUtils.content file))
         = header) /\
        (Forall (fun h => Spec.lacks ExportUtils.newline h = true) headers ->
         Forall
           (fun row =>
              Forall (fun s => Spec.lacks ExportUtils.newline s = true)
                (Spec.cells numberToString headers row)) data ->
         JS.split ExportUtils.newline (ExportUtils.content file)
         = header :: map line data)) /\
  (forall s,
      (ExportUtils.escapeField s = Spec.quoted s
       <-> Spec.occurs ExportUtils.comma s \/ Spec.occurs ExportUtils.dquote s
           \/ Spec.occurs ExportUtils.newline s) /\
      (ExportUtils.escapeField s = s
       \/ ExportUtils.escapeField s = Spec.quoted s) /\
      (Spec.lacks ExportUtils.comma s = true ->
       Spec.lacks ExportUtils.dquote s = true ->
       Spec.lacks ExportUtils.newline s = true ->
       ExportUtils.escapeField s = s)) /\
  ExportUtils.stringValue numberToString None = EmptyString /\
  ExportUtils.stringValue numberToString (Some ExportUtils.VNull)
  = EmptyString /\
  ExportUtils.stringValue numberToString (Some ExportUtils.VUndefined)
  = EmptyString /\
  (forall text,
      ExportUtils.stringValue numberToString
        (Some (ExportUtils.VString text)) = text) /\
  ExportUtils.stringValue numberToString (Some (ExportUtils.VBoolean true))
  = "true"%string /\
  ExportUtils.stringValue numberToString (Some (ExportUtils.VBoolean false))
  = "false"%string /\
  (forall n,
      ExportUtils.stringValue numberToString (Some (ExportUtils.VNumber n))
      = numberToString n).
Proof.
  split; [reflexivity|]. split; [|split; [|repeat split]].
  - intros first rest filename today data headers header line.
    assert (Hrows : map (ExportUtils.csvRow numberToString headers) data
                    = map line data).
    { apply map_ext. intros row. apply csvRow_cells. }
    eexists. split; [reflexivity|].
    cbn [ExportUtils.content]. fold headers. rewrite Hrows.
    split; [reflexivity|]. split.
    + intros Hh. apply split_join_head.
      apply lacks_join; [reflexivity|exact Hh].
    + intros Hh Hc. apply split_join; [discriminate|].
      constructor.
      * apply lacks_join; [reflexivity|exact Hh].
      * apply Forall_forall. intros l Hl. apply in_map_iff in Hl.
        destruct Hl as (row & <- & Hrow).
        unfold line. rewrite <- csvRow_cells.
        apply csvRow_lacks_newline.
        rewrite Forall_forall in Hc. now apply Hc.
  - intros s. split; [|split].
    + rewrite escapeField_quoted_iff. apply needsQuotes_iff.
    + destruct (escapeField_cases s) as [Hq Hn].
      destruct (ExportUtils.needsQuotes s); auto.
    + intros H1 H2 H3. apply escapeField_cases.
      rewrite needsQuotes_lacks, H1, H2, H3. reflexivity.
Qed.

Example exportToCSV_sample :
  let q := ExportUtils.str ExportUtils.dquote in
  option_map ExportUtils.content
    (ExportUtils.exportToCSV (fun _ => EmptyString) Sample.exportRows
       "clients" "2023-11-14")
  = Some
      (JS.join (ExportUtils.str ExportUtils.newline)
         ["ID,Client,Paid"%string;
          "a1,Acme,true"%string;
          String.concat EmptyString
            ["a2,"%string; q; "Globex, "%string; q; q; "EU"%string; q; q; q;
             ","%string]]).
Proof. reflexivity. Qed.

(* ================================================================= *)
(** ** The properties at sample inputs *)

(** C2 at an input: with Acme and Globex loaded, the id c9 is dangling and
    the id c2 is Globex. *)
Lemma C2_witness :
  (ExportUtils.getClientNameById Sample.reportClients "c9"
   = "Unknown Client"%string /\
   ExportUtils.GenerateInvoicesHTML.getClientName Sample.reportClients "c9"
   = "Unknown"%string) /\
  (ExportUtils.getClientNameById Sample.reportClients "c2"
   = "Globex"%string /\
   ExportUtils.GenerateInvoicesHTML.getClientName Sample.reportClients "c2"
   = "Globex"%string).
Proof.
  split.
  - apply (proj1 C2_client_name_lookup Sample.reportClients "c9"%string).
    intros c [<- | [<- | []]]; discriminate.
  - apply (proj1 (proj2 (proj2 C2_client_name_lookup))
             Sample.reportClients "c2"%string
             {| ExportUtils.client_id := "c2";
                ExportUtils.client_name := "Globex" |}).
    exists [{| ExportUtils.client_id := "c1";
               ExportUtils.client_name := "Acme" |}], [].
    repeat split. intros x [<- | []]. reflexivity.
Defined.

(** C4 at an input: the row of client c1 among four tasks, and the time
    report of 1.5 and 0.25 hours for client c1 and 2.25 hours for client 7,
    whose row comes first. *)
Lemma C4_witness :
  let row :=
    {| TasksReport.row_clientId := "c1";
       TasksReport.row_clientName := "Unknown Client";
       TasksReport.row_completed := 2;
       TasksReport.row_pending := 1;
       TasksReport.row_total := 3;
       TasksReport.row_completionRate := TasksReport.rate 2 3 |} in
  (TasksReport.row_completed row + TasksReport.row_pending row
   = TasksReport.row_total row /\
   TasksReport.row_total row
   = Spec.count (Spec.ofClient (TasksReport.row_clientId row))
       Sample.reportTasks) /\
  TimeTrackingReport.Fetched.totalHours
    (TimeTrackingReport.Fetched.calculateReport Cases.quarterEntries)
  = Double.Finite (JS.ofZ 4) /\
  map TimeTrackingReport.Fetched.row_clientId
    (TimeTrackingReport.Fetched.hoursByClient
       (TimeTrackingReport.Fetched.calculateReport Cases.quarterEntries))
  = ["7"; "c1"]%string.
Proof.
  intros row. split; [|split].
  - destruct (proj1 (proj2 (proj2 C4_grouping_preserves_totals))
                Sample.reportTasks [] row) as (Hsum & _ & _ & _ & Hall).
    + repeat constructor.
    + simpl. left. reflexivity.
    + split; [exact Hsum|]. apply Hall. repeat constructor.
  - destruct (proj1 C4_grouping_preserves_totals Cases.quarterEntries 2)
      as (Htotal & _).
    + repeat constructor.
    + repeat constructor; discriminate.
    + apply dyadic_check; vm_compute; reflexivity.
    + rewrite Htotal. f_equal. apply Qc_is_canon. vm_compute. reflexivity.
  - vm_compute. reflexivity.
Defined.

(** C6 at an input: two records whose keys and cells hold no newline; the
    second lacks the third key and has a cell with a comma and two double
    quotes. *)
Lemma C6_witness :
  let q := ExportUtils.str ExportUtils.dquote in
  exists file,
    ExportUtils.exportToCSV (fun _ => EmptyString) Sample.exportRows
      "clients" "2023-11-14"
    = Some file /\
    JS.split ExportUtils.newline (ExportUtils.content file)
    = ["ID,Client,Paid"%string;
       "a1,Acme,true"%string;
       String.concat EmptyString
         ["a2,"%string; q; "Globex, "%string; q; q; "EU"%string; q; q; q;
          ","%string]].
Proof.
  intros q.
  destruct (proj1 (proj2 (C6_exportToCSV (fun _ => EmptyString)))
              (hd [] Sample.exportRows) (tl Sample.exportRows)
              "clients"%string "2023-11-14"%string)
    as (file & Hf & _ & _ & Hlines).
  exists file. split; [exact Hf|].
  rewrite Hlines.
  - reflexivity.
  - repeat constructor.
  - repeat constructor.
Defined.

(** C9 at an input: after INV-0007 and an invoice number that does not
    parse comes INV-0008, with four digits. *)
Lemma C9_witness :
  let l := [Sample.numbered "INV-0007"; Sample.numbered "draft"] in
  Spec.numbersBelow (2 ^ 53) l /\
  InvoicesPage.generateInvoiceNumber l = "INV-0008"%string /\
  String.length
    (JS.padStart 4 "0" (JS.String_ofZ (Spec.maxOr0 (Spec.suffixes l) + 1)))
  = 4.
Proof.
  intros l.
  assert (Hsafe : Spec.numbersBelow (2 ^ 53) l)
    by (repeat constructor).
  split; [exact Hsafe|]. split.
  - exact (proj1 (C9_generateInvoiceNumber Hsafe)).
  - apply (proj1 (proj2 (proj2 (proj2 (proj2 (proj2
             (C9_generateInvoiceNumber Hsafe))))))).
    reflexivity.
Defined.

(* ================================================================= *)
(** ** The order of a snapshot *)

Section SortFacts.

Variable D : Type.
Variable le : D -> D -> bool.
Variable P : D -> Prop.
Hypothesis le_total : forall x y, P x -> P y -> le x y = false -> le y x = true.
Hypothesis le_trans :
  forall x y z, P x -> P y -> P z ->
                le x y = true -> le y z = true -> le x z = true.

Lemma insertBy_strongly_sorted x l :
  P x -> Forall P l ->
  StronglySorted (fun a b => le a b = true) l ->
  StronglySorted (fun a b => le a b = true) (F.insertBy le x l).
Proof.
  intros Hx. induction l as [|y l IH]; simpl; intros HP H.
  - constructor; constructor.
  - inversion HP as [|? ? Hy HPl]; subst.
    apply StronglySorted_inv in H. destruct H as [Hs Hf].
    destruct (le x y) eqn:E.
    + constructor; [now constructor|].
      constructor; [exact E|].
      rewrite Forall_forall in Hf, HPl |- *. intros z Hz.
      apply (le_trans Hx Hy (HPl z Hz) E). now apply Hf.
    + constructor; [now apply IH|].
      apply Forall_forall. intros z Hz.
      apply (Permutation_in _ (insertBy_perm le x l)) in Hz.
      destruct Hz as [<- | Hz]; [now apply le_total|].
      rewrite Forall_forall in Hf. now apply Hf.
Qed.

Lemma sortBy_strongly_sorted l :
  Forall P l -> StronglySorted (fun a b => le a b = true) (F.sortBy le l).
Proof.
  induction l as [|x l IH]; simpl; intros HP; [constructor|].
  inversion HP as [|? ? Hx HPl]; subst.
  apply insertBy_strongly_sorted; [exact Hx| |now apply IH].
  apply Forall_forall. intros z Hz.
  apply (Permutation_in _ (sortBy_perm le l)) in Hz.
  rewrite Forall_forall in HPl. now apply HPl.
Qed.

End SortFacts.

Lemma StronglySorted_map (A B : Type) (f : A -> B) (R : B -> B -> Prop) l :
  StronglySorted (fun a b => R (f a) (f b)) l -> StronglySorted R (map f l).
Proof.
  induction 1 as [|a l Hs IH Hf]; simpl; constructor; [exact IH|].
  apply Forall_forall. intros b Hb. apply in_map_iff in Hb.
  destruct Hb as (x & <- & Hx). rewrite Forall_forall in Hf. now apply Hf.
Qed.

Lemma StronglySorted_weaken (A : Type) (R R' : A -> A -> Prop) l :
  (forall a b, R a b -> R' a b) -> StronglySorted R l -> StronglySorted R' l.
Proof.
  intros H. induction 1 as [|a l Hs IH Hf]; constructor; [exact IH|].
  revert Hf. apply Forall_impl. apply H.
Qed.

Lemma invoicesQuery_newest_first u coll :
  StronglySorted (fun a b => (F.i_createdAt b <= F.i_createdAt a)%Z)
    (F.getDocs (InvoicesPage.invoicesQuery u) coll).
Proof.
  unfold F.getDocs. cbn [InvoicesPage.invoicesQuery F.order F.limit].
  eapply StronglySorted_weaken;
    [|apply (@sortBy_strongly_sorted _ _ (fun _ => True))].
  - intros a b H. cbv beta in H. now apply Z.leb_le in H.
  - intros x y _ _ H. apply Z.leb_gt in H. apply Z.leb_le. lia.
  - intros x y z _ _ _ H1 H2. apply Z.leb_le in H1, H2. apply Z.leb_le. lia.
  - apply Forall_forall. auto.
Qed.

Lemma invoicesQuery_perm u coll :
  Permutation (F.getDocs (InvoicesPage.invoicesQuery u) coll)
    (filter (Props.ownedBy u) coll).
Proof.
  unfold F.getDocs. cbn [InvoicesPage.invoicesQuery F.order F.limit].
  rewrite sortBy_perm.
  erewrite filter_ext; [reflexivity|].
  intros d. unfold F.matches. simpl. apply andb_true_r.
Qed.

(* ================================================================= *)
(** ** The invoices page: fetching, guards and writes *)

(** X1: when the store answers, [fetchInvoices] puts into the page exactly
    the invoice documents whose [userId] is the user's (each once, whatever
    other users hold), with the latest [createdAt] first; the filtered list
    is set to the same list and the loading flag is cleared. *)
Theorem fetchInvoices_own_newest_first (u : User) (e : Handler.Env)
    (s : InvoicesPage.State) (newId : string) (rest : list Handler.Reply) :
  Handler.script e = Handler.Accepts newId :: rest ->
  let s' := snd (snd (InvoicesPage.fetchInvoices (Some u) (e, s))) in
  Permutation (InvoicesPage.invoices s')
    (map InvoicesPage.toInvoice
       (filter (Props.ownedBy u) (F.invoices (Handler.store e)))) /\
  (forall inv,
      In inv (InvoicesPage.invoices s') -> InvoicesPage.userId inv = uid u) /\
  Props.newestFirst (InvoicesPage.invoices s') /\
  InvoicesPage.filteredInvoices s' = InvoicesPage.invoices s' /\
  InvoicesPage.isLoading s' = false.
Proof.
  intros H s'.
  destruct (fetchInvoices_accepted u e s H) as (_ & _ & _ & Hi & Hf & _).
  fold s' in Hi, Hf. rewrite Hf, Hi.
  split; [|split; [|split; [|split]]].
  - apply Permutation_map, invoicesQuery_perm.
  - intros inv Hin. apply in_map_iff in Hin. destruct Hin as (d & <- & Hd).
    apply getDocs_In in Hd; [|reflexivity].
    now apply invoicesQuery_matches.
  - apply StronglySorted_map. apply invoicesQuery_newest_first.
  - reflexivity.
  - unfold s'. accept_case e H.
    unfold InvoicesPage.fetchInvoices. run_handler. reflexivity.
Qed.

(** X1 at an input: alice's page over a store with invoices of alice and
    of bob. *)
Lemma fetchInvoices_own_newest_first_witness :
  let s' := snd (snd (InvoicesPage.fetchInvoices (Some Sample.alice)
                        (Sample.busy 1, Sample.invoicesPage))) in
  Permutation (InvoicesPage.invoices s')
    (map InvoicesPage.toInvoice
       (filter (Props.ownedBy Sample.alice) (F.invoices Sample.busyDb))) /\
  (forall inv,
      In inv (InvoicesPage.invoices s') ->
      InvoicesPage.userId inv = "alice"%string) /\
  Props.newestFirst (InvoicesPage.invoices s') /\
  InvoicesPage.filteredInvoices s' = InvoicesPage.invoices s' /\
  InvoicesPage.isLoading s' = false.
Proof.
  exact (@fetchInvoices_own_newest_first Sample.alice (Sample.busy 1)
           Sample.invoicesPage "new1" [] eq_refl).
Defined.

(** X2: an invoice of another user is never touched from the invoices page.
    Changing its status, deleting it, opening it for editing, or submitting
    the form while it is the invoice being edited only shows a permission
    error: no remote call is made, the store and the page's lists are what
    they were (the submit also clears the loading flag). *)
Theorem invoices_foreign_invoice_untouched (u : User)
    (invoice : InvoicesPage.Invoice) (e : Handler.Env)
    (s : InvoicesPage.State) :
  InvoicesPage.userId invoice <> uid u ->
  (forall newStatus,
      InvoicesPage.handleStatusUpdate (Some u) invoice newStatus (e, s)
      = (Handler.Returned tt,
         (Props.notify
            (Handler.ToastError
               "You do not have permission to update this invoice") e, s))) /\
  InvoicesPage.handleDelete (Some u) invoice (e, s)
  = (Handler.Returned tt,
     (Props.notify
        (Handler.ToastError
           "You do not have permission to delete this invoice") e, s)) /\
  InvoicesForm.handleEdit (Some u) invoice (e, s)
  = (Handler.Returned tt,
     (Props.notify
        (Handler.ToastError
           "You do not have permission to edit this invoice") e, s)) /\
  (forall now values,
      InvoicesPage.editingInvoice s = Some invoice ->
      InvoicesPage.handleSubmit (Some u) now values (e, s)
      = (Handler.Returned tt,
         (Props.notify
            (Handler.ToastError
               "You do not have permission to edit this invoice") e,
          InvoicesPage.setIsLoading false s))).
Proof.
  intros H. apply String.eqb_neq in H.
  split; [|split; [|split]].
  - intros newStatus. unfold InvoicesPage.handleStatusUpdate.
    rewrite H. reflexivity.
  - unfold InvoicesPage.handleDelete. rewrite H. reflexivity.
  - unfold InvoicesForm.handleEdit. rewrite H. reflexivity.
  - intros now values He. unfold InvoicesPage.handleSubmit. run_handler.
    cbn [InvoicesPage.editingInvoice InvoicesPage.setIsLoading].
    rewrite He, H. reflexivity.
Qed.

(** X2 at an input: alice's page and an invoice of bob. *)
Lemma invoices_foreign_invoice_untouched_witness :
  InvoicesPage.handleDelete (Some Sample.alice)
    (InvoicesPage.toInvoice
       (Sample.invoiceOf "i3" "bob" (Some (Q2Qc (70 # 1))) "unpaid"))
    (Sample.busy 2, Sample.invoicesPage)
  = (Handler.Returned tt,
     (Props.notify
        (Handler.ToastError
           "You do not have permission to delete this invoice")
        (Sample.busy 2), Sample.invoicesPage)).
Proof.
  refine (proj1 (proj2
            (@invoices_foreign_invoice_untouched Sample.alice
               (InvoicesPage.toInvoice
                  (Sample.invoiceOf "i3" "bob" (Some (Q2Qc (70 # 1)))
                     "unpaid"))
               (Sample.busy 2) Sample.invoicesPage _))).
  simpl. discriminate.
Defined.

Lemma deleteInvoice_In docId l d :
  In d (F.deleteInvoice docId l) <-> In d l /\ F.i_id d <> docId.
Proof.
  unfold F.deleteInvoice. rewrite filter_In, negb_true_iff, String.eqb_neq.
  reflexivity.
Qed.

(** X3: when the owner deletes an invoice and the store accepts, the
    invoices collection loses the documents with that id and keeps every
    other document, in order; a success notification is shown; and once the
    refresh has come back, no invoice with that id is on the page. *)
Theorem handleDelete_removes_the_invoice (u : User)
    (invoice : InvoicesPage.Invoice) (e : Handler.Env)
    (s : InvoicesPage.State) (a : string) (rest : list Handler.Reply) :
  InvoicesPage.userId invoice = uid u ->
  Handler.script e = Handler.Accepts a :: rest ->
  let r := InvoicesPage.handleDelete (Some u) invoice (e, s) in
  let before := F.invoices (Handler.store e) in
  let after := F.invoices (Handler.store (fst (snd r))) in
  after = F.deleteInvoice (InvoicesPage.id invoice) before /\
  (forall d, In d after <-> In d before /\ F.i_id d <> InvoicesPage.id invoice) /\
  (exists more,
      Handler.toasts (fst (snd r))
      = Handler.toasts e
        ++ Handler.ToastSuccess "Invoice deleted successfully" :: more) /\
  (forall b rest',
      rest = Handler.Accepts b :: rest' ->
      InvoicesPage.invoices (snd (snd r))
      = map InvoicesPage.toInvoice
          (F.getDocs (InvoicesPage.invoicesQuery u) after) /\
      forall inv,
        In inv (InvoicesPage.invoices (snd (snd r))) ->
        InvoicesPage.id inv <> InvoicesPage.id invoice).
Proof.
  intros Hown H r before after.
  assert (Hafter : after
                   = F.deleteInvoice (InvoicesPage.id invoice) before).
  { unfold after, before, r. accept_case e H.
    unfold InvoicesPage.handleDelete.
    rewrite Hown, String.eqb_refl. cbn [negb]. run_handler.
    unfold InvoicesPage.deleteDoc. run_handler.
    after_fetch; reflexivity. }
  split; [exact Hafter|]. split; [|split].
  - intros d. rewrite Hafter. apply deleteInvoice_In.
  - unfold r. accept_case e H.
    unfold InvoicesPage.handleDelete.
    rewrite Hown, String.eqb_refl. cbn [negb]. run_handler.
    unfold InvoicesPage.deleteDoc. run_handler.
    destruct rest as [|[|b] rest']; unfold InvoicesPage.fetchInvoices;
      run_handler; cbn; eexists; rewrite <- ?List.app_assoc; reflexivity.
  - intros b rest' ->.
    assert (Hpage : InvoicesPage.invoices (snd (snd r))
                    = map InvoicesPage.toInvoice
                        (F.getDocs (InvoicesPage.invoicesQuery u) after)).
    { unfold after, r. accept_case e H.
      unfold InvoicesPage.handleDelete.
      rewrite Hown, String.eqb_refl. cbn [negb]. run_handler.
      unfold InvoicesPage.deleteDoc. run_handler.
      unfold InvoicesPage.fetchInvoices. run_handler. reflexivity. }
    split; [exact Hpage|].
    intros inv Hin. rewrite Hpage in Hin.
    apply in_map_iff in Hin. destruct Hin as (d & <- & Hd).
    apply getDocs_In in Hd; [|reflexivity]. destruct Hd as [Hd _].
    rewrite Hafter in Hd. apply deleteInvoice_In in Hd. apply Hd.
Qed.

(** X3 at an input: alice deletes her invoice i2. *)
Lemma handleDelete_removes_the_invoice_witness :
  let r := InvoicesPage.handleDelete (Some Sample.alice)
             (InvoicesPage.toInvoice
                (Sample.invoiceOf "i2" "alice" (Some (Q2Qc (50 # 1))) "paid"))
             (Sample.busy 2, Sample.invoicesPage) in
  F.invoices (Handler.store (fst (snd r)))
  = F.deleteInvoice "i2" (F.invoices Sample.busyDb).
Proof.
  exact (proj1
           (@handleDelete_removes_the_invoice Sample.alice
              (InvoicesPage.toInvoice
                 (Sample.invoiceOf "i2" "alice" (Some (Q2Qc (50 # 1)))
                    "paid"))
              (Sample.busy 2) Sample.invoicesPage "new1"
              [Handler.Accepts "new1"] eq_refl eq_refl)).
Defined.

Lemma updateInvoice_first docId f l l1 d l2 :
  Props.firstWithId docId l l1 d l2 ->
  F.updateInvoice docId f l = Some (l1 ++ f d :: l2).
Proof.
  intros (-> & Hd & Hl1).
  induction l1 as [|x l1 IH]; simpl.
  - now rewrite (proj2 (String.eqb_eq _ _) Hd).
  - rewrite (proj2 (String.eqb_neq _ _) (Hl1 x (or_introl eq_refl))).
    rewrite IH; [reflexivity|]. intros y Hy. apply Hl1. now right.
Qed.

Lemma updateInvoice_missing docId f l :
  (forall d, In d l -> F.i_id d <> docId) -> F.updateInvoice docId f l = None.
Proof.
  induction l as [|x l IH]; simpl; intros H; [reflexivity|].
  rewrite (proj2 (String.eqb_neq _ _) (H x (or_introl eq_refl))).
  rewrite IH; [reflexivity|]. intros y Hy. apply H. now right.
Qed.

(** X4: when the owner changes the status of an invoice and the store
    accepts, the first document with that id gets the new status and keeps
    every other field, and every other document stays as it is and where it
    is.  When no document has that id any more, the handler shows Failed to
    update status and changes neither the store nor the page. *)
Theorem handleStatusUpdate_changes_status_only (u : User)
    (invoice : InvoicesPage.Invoice) (newStatus : string) (e : Handler.Env)
    (s : InvoicesPage.State) (a : string) (rest : list Handler.Reply) :
  InvoicesPage.userId invoice = uid u ->
  Handler.script e = Handler.Accepts a :: rest ->
  let r := InvoicesPage.handleStatusUpdate (Some u) invoice newStatus (e, s) in
  (forall l1 d l2,
      Props.firstWithId (InvoicesPage.id invoice)
        (F.invoices (Handler.store e)) l1 d l2 ->
      exists d',
        F.invoices (Handler.store (fst (snd r))) = l1 ++ d' :: l2 /\
        F.i_status d' = newStatus /\
        F.i_id d' = F.i_id d /\ F.i_userId d' = F.i_userId d /\
        F.i_invoiceNumber d' = F.i_invoiceNumber d /\
        F.i_clientId d' = F.i_clientId d /\
        F.i_clientName d' = F.i_clientName d /\
        F.i_items d' = F.i_items d /\ F.i_total d' = F.i_total d /\
        F.i_dueDate d' = F.i_dueDate d /\
        F.i_createdAt d' = F.i_createdAt d) /\
  ((forall d, In d (F.invoices (Handler.store e)) ->
              F.i_id d <> InvoicesPage.id invoice) ->
   Handler.store (fst (snd r)) = Handler.store e /\
   Handler.toasts (fst (snd r))
   = Handler.toasts e ++ [Handler.ToastError "Failed to update status"] /\
   snd (snd r) = s).
Proof.
  intros Hown H r. split.
  - intros l1 d l2 Hfirst.
    exists (InvoicesPage.setStatus newStatus d).
    split; [|cbn; repeat split].
    unfold r. accept_case e H.
    unfold InvoicesPage.handleStatusUpdate.
    rewrite Hown, String.eqb_refl. cbn [negb]. run_handler.
    unfold InvoicesPage.updateDoc.
    cbn [Handler.store] in Hfirst.
    rewrite (updateInvoice_first (InvoicesPage.setStatus newStatus) Hfirst).
    run_handler. after_fetch; reflexivity.
  - intros Hmiss. unfold r. accept_case e H.
    unfold InvoicesPage.handleStatusUpdate.
    rewrite Hown, String.eqb_refl. cbn [negb]. run_handler.
    unfold InvoicesPage.updateDoc.
    cbn [Handler.store] in Hmiss.
    rewrite (@updateInvoice_missing _ (InvoicesPage.setStatus newStatus) _ Hmiss). run_handler.
    cbn. repeat split.
Qed.

(** X4 at an input: alice marks her invoice i1 as paid. *)
Lemma handleStatusUpdate_changes_status_only_witness :
  let r := InvoicesPage.handleStatusUpdate (Some Sample.alice)
             (InvoicesPage.toInvoice
                (Sample.invoiceOf "i1" "alice" (Some (Q2Qc (100 # 1)))
                   "unpaid"))
             "Paid" (Sample.busy 2, Sample.invoicesPage) in
  exists d',
    F.invoices (Handler.store (fst (snd r)))
    = [] ++ d' :: tl (F.invoices Sample.busyDb) /\
    F.i_status d' = "Paid"%string /\
    F.i_id d' = "i1"%string /\ F.i_userId d' = "alice"%string /\
    F.i_invoiceNumber d' = "INV-0001"%string /\
    F.i_clientId d' = "c1"%string /\
    F.i_clientName d' = None /\
    F.i_items d' = [] /\ F.i_total d' = Some (Q2Qc (100 # 1)) /\
    F.i_dueDate d' = 1702592000000%Z /\
    F.i_createdAt d' = 1700000000000%Z.
Proof.
  refine (proj1
            (@handleStatusUpdate_changes_status_only Sample.alice
               (InvoicesPage.toInvoice
                  (Sample.invoiceOf "i1" "alice" (Some (Q2Qc (100 # 1)))
                     "unpaid"))
               "Paid" (Sample.busy 2) Sample.invoicesPage "new1"
               [Handler.Accepts "new1"] eq_refl eq_refl)
            [] (Sample.invoiceOf "i1" "alice" (Some (Q2Qc (100 # 1)))
                  "unpaid")
            (tl (F.invoices Sample.busyDb)) _).
  split; [reflexivity|]. split; [reflexivity|]. intros x [].
Defined.

(* ================================================================= *)
(** ** Invoice numbers across saves *)

Lemma maxOr0_perm l l' :
  Permutation l l' -> Spec.maxOr0 l = Spec.maxOr0 l'.
Proof.
  unfold Spec.maxOr0. induction 1; simpl; lia.
Qed.

Lemma present_perm (A : Type) (l l' : list (option A)) :
  Permutation l l' -> Permutation (Spec.present l) (Spec.present l').
Proof.
  induction 1 as [|[x|] l l' Hp IH|[x|] [y|] l|l l' l'' H1 IH1 H2 IH2]; simpl;
    try reflexivity; auto.
  - apply perm_swap.
  - now transitivity (Spec.present l').
Qed.

Lemma roundWhole_isDouble z : Props.isDouble (JS.roundWhole z).
Proof.
  unfold JS.roundWhole.
  destruct (Z.ltb_spec (Z.abs z) (2 ^ 53)) as [Hlt | Hge].
  - cbn [Props.isDouble].
    assert ((2 ^ 53 < 2 ^ 1024)%Z) by (apply Z.pow_lt_mono_r; lia).
    lia.
  - cbv zeta.
    set (e := (Z.log2 (Z.abs z) - 52)%Z).
    set (q := (Z.abs z / 2 ^ e)%Z).
    set (up := _ || _).
    set (v := ((if up then q + 1 else q) * 2 ^ e)%Z).
    destruct (Z.leb_spec (2 ^ 1024) v) as [Hbig | Hsmall]; [exact I|].
    cbn [Props.isDouble].
    assert (H2 : (0 <= 2 ^ e)%Z) by (apply Z.pow_nonneg; lia).
    assert (Hq : (0 <= q)%Z).
    { unfold q. destruct (Z.eq_dec (2 ^ e) 0) as [-> | Hne].
      - now rewrite Z.div_0_r.
      - apply Z.div_pos; lia. }
    assert (Hv : (0 <= v)%Z) by (unfold v; destruct up; nia).
    rewrite Z.abs_mul.
    assert (Hs : (Z.abs (Z.sgn z) <= 1)%Z) by (destruct z; simpl; lia).
    assert (Hs0 : (0 <= Z.abs (Z.sgn z))%Z) by apply Z.abs_nonneg.
    rewrite (Z.abs_eq v Hv).
    set (B := (2 ^ 1024)%Z) in *. clearbody B. nia.
Qed.

Lemma rank_inj a b :
  Props.isDouble a -> Props.isDouble b -> JS.rank a = JS.rank b -> a = b.
Proof.
  unfold Props.isDouble, JS.rank.
  set (B := (2 ^ 1024)%Z).
  assert (HB : (0 < B)%Z) by (apply Z.pow_pos_nonneg; lia).
  clearbody B.
  destruct a as [x | [|]], b as [y | [|]]; intros Ha Hb H;
    try reflexivity; try (f_equal; exact H); exfalso; lia.
Qed.

Lemma maxNumber_rank l a :
  Props.isDouble a ->
  let r :=
    fold_left
      (fun max inv =>
         match
           JS.parseIntNumberAt
             (JS.split "-" (InvoicesPage.invoiceNumber inv)) 1
         with
         | Some num => if JS.gtb num max then num else max
         | None => max
         end) l a in
  Props.isDouble r /\
  JS.rank r = fold_right Z.max (JS.rank a) (map JS.rank (Props.numbersRead l)).
Proof.
  revert a. induction l as [|inv l IH]; intros a Ha;
    [split; [exact Ha|reflexivity]|].
  cbv zeta in *. cbn [fold_left]. unfold Props.numbersRead. cbn [map].
  destruct (JS.parseIntNumberAt _ 1) as [num|] eqn:E; cbn [Spec.present map].
  - assert (Hnum : Props.isDouble num).
    { unfold JS.parseIntNumberAt in E.
      destruct (JS.parseIntAt _ 1); [|discriminate].
      injection E as <-. apply roundWhole_isDouble. }
    cbn [fold_right]. rewrite <- fold_max_init.
    change (JS.gtb num a) with (JS.rank num >? JS.rank a)%Z.
    destruct (Z.gtb_spec (JS.rank num) (JS.rank a)) as [Hgt | Hle].
    + destruct (IH num Hnum) as [H1 H2]. split; [exact H1|].
      rewrite H2. unfold Props.numbersRead. f_equal. lia.
    + destruct (IH a Ha) as [H1 H2]. split; [exact H1|].
      rewrite H2. unfold Props.numbersRead. f_equal. lia.
  - apply (IH a Ha).
Qed.

Lemma fold_max_perm a (xs ys : list Z) :
  Permutation xs ys -> fold_right Z.max a xs = fold_right Z.max a ys.
Proof.
  induction 1; simpl; lia.
Qed.

(** The largest number the code finds does not depend on the order of the
    invoices. *)
Lemma maxNumber_perm l l' :
  Permutation l l' -> InvoicesPage.maxNumber l = InvoicesPage.maxNumber l'.
Proof.
  intros H.
  assert (H0 : Props.isDouble (JS.Whole 0)) by reflexivity.
  destruct (@maxNumber_rank l _ H0) as [Hl1 Hl2].
  destruct (@maxNumber_rank l' _ H0) as [Hr1 Hr2].
  apply rank_inj; [exact Hl1|exact Hr1|].
  unfold InvoicesPage.maxNumber. rewrite Hl2, Hr2.
  apply fold_max_perm, Permutation_map.
  unfold Props.numbersRead. apply present_perm. now apply Permutation_map.
Qed.

Lemma suffixes_perm l l' :
  Permutation l l' -> Permutation (Spec.suffixes l) (Spec.suffixes l').
Proof.
  intros H. unfold Spec.suffixes. apply present_perm.
  now apply Permutation_map.
Qed.

Lemma numbersBelow_perm b l l' :
  Permutation l l' -> Spec.numbersBelow b l -> Spec.numbersBelow b l'.
Proof.
  intros Hp H. unfold Spec.numbersBelow in *.
  rewrite Forall_forall in *. intros n Hn. apply H.
  apply (Permutation_in n (Permutation_sym (suffixes_perm Hp))). exact Hn.
Qed.

Lemma numbersBelow_weaken b b' l :
  (b <= b')%Z -> Spec.numbersBelow b l -> Spec.numbersBelow b' l.
Proof.
  intros Hb H. unfold Spec.numbersBelow in *.
  rewrite Forall_forall in *. intros n Hn. specialize (H n Hn). lia.
Qed.

Lemma suffix_generateInvoiceNumber l :
  Spec.numbersBelow (2 ^ 53) l ->
  Spec.suffix (InvoicesPage.generateInvoiceNumber l)
  = Some (Spec.maxOr0 (Spec.suffixes l) + 1)%Z.
Proof.
  intros Hl. rewrite (generateInvoiceNumber_exact Hl).
  assert (H := maxOr0_nonneg (Spec.suffixes l)).
  destruct (Spec.maxOr0 (Spec.suffixes l) + 1)%Z as [|p|p] eqn:E; try lia.
  apply suffix_generated.
Qed.

Lemma suffix_le_maxNumber l inv n :
  In inv l -> Spec.suffix (InvoicesPage.invoiceNumber inv) = Some n ->
  (n <= Spec.maxOr0 (Spec.suffixes l))%Z.
Proof.
  intros Hin Hs. apply maxOr0_ge.
  unfold Spec.suffixes. rewrite present_In, in_map_iff. eauto.
Qed.

Lemma generateInvoiceNumber_fresh l inv :
  Spec.numbersBelow (2 ^ 53) l ->
  In inv l ->
  InvoicesPage.invoiceNumber inv <> InvoicesPage.generateInvoiceNumber l.
Proof.
  intros Hl Hin Heq.
  assert (Hs := suffix_generateInvoiceNumber Hl). rewrite <- Heq in Hs.
  apply (suffix_le_maxNumber l inv Hin) in Hs. lia.
Qed.

Lemma maxNumber_cons_generated l inv :
  Spec.numbersBelow (2 ^ 53) l ->
  InvoicesPage.invoiceNumber inv = InvoicesPage.generateInvoiceNumber l ->
  Spec.maxOr0 (Spec.suffixes (inv :: l))
  = (Spec.maxOr0 (Spec.suffixes l) + 1)%Z.
Proof.
  intros Hl Heq.
  assert (Hs := suffix_generateInvoiceNumber Hl). rewrite <- Heq in Hs.
  unfold Spec.suffixes at 1. cbn [map]. rewrite Hs. cbn [Spec.present].
  fold (Spec.suffixes l). unfold Spec.maxOr0. cbn [fold_right]. lia.
Qed.

Lemma numbersBelow_generated l inv :
  Spec.numbersBelow (2 ^ 53 - 1) l ->
  InvoicesPage.invoiceNumber inv = InvoicesPage.generateInvoiceNumber l ->
  Spec.numbersBelow (2 ^ 53) (inv :: l).
Proof.
  intros Hl Heq.
  assert (Hl' : Spec.numbersBelow (2 ^ 53) l)
    by (apply (numbersBelow_weaken (b := 2 ^ 53 - 1)); [lia|exact Hl]).
  apply numbersBelow_cons. split; [|exact Hl'].
  intros n Hn. rewrite Heq, (suffix_generateInvoiceNumber Hl') in Hn.
  injection Hn as <-.
  assert ((Spec.maxOr0 (Spec.suffixes l) < 2 ^ 53 - 1)%Z)
    by (apply maxOr0_below; [lia|exact Hl]).
  lia.
Qed.

(** After an invoice with the generated number has joined the list, the
    next number is the following one. *)
Lemma generateInvoiceNumber_next l inv l' :
  Spec.numbersBelow (2 ^ 53 - 1) l ->
  InvoicesPage.invoiceNumber inv = InvoicesPage.generateInvoiceNumber l ->
  Permutation l' (inv :: l) ->
  Spec.suffix (InvoicesPage.generateInvoiceNumber l')
  = option_map Z.succ (Spec.suffix (InvoicesPage.generateInvoiceNumber l))
  /\
  InvoicesPage.generateInvoiceNumber l'
  <> InvoicesPage.generateInvoiceNumber l.
Proof.
  intros Hl Heq Hp.
  assert (Hl0 : Spec.numbersBelow (2 ^ 53) l)
    by (apply (numbersBelow_weaken (b := 2 ^ 53 - 1)); [lia|exact Hl]).
  assert (Hl' : Spec.numbersBelow (2 ^ 53) l').
  { apply (numbersBelow_perm (Permutation_sym Hp)).
    now apply numbersBelow_generated. }
  assert (Hm : Spec.maxOr0 (Spec.suffixes l')
               = (Spec.maxOr0 (Spec.suffixes l) + 1)%Z).
  { rewrite (maxOr0_perm (suffixes_perm Hp)).
    now apply maxNumber_cons_generated. }
  rewrite (suffix_generateInvoiceNumber Hl'),
    (suffix_generateInvoiceNumber Hl0), Hm.
  split; [reflexivity|].
  intros Hg.
  assert (H1 := suffix_generateInvoiceNumber Hl').
  rewrite Hg, (suffix_generateInvoiceNumber Hl0), Hm in H1.
  injection H1 as H1. lia.
Qed.

(** X5: the number [generateInvoiceNumber] returns does not depend on the
    order of the list.  While the numbers that parse in the list are below
    2^53, it is carried by none of the invoices it was computed from; while
    they are below 2^53 - 1, once an invoice with that number has joined the
    list, at any position, the next number is the following one.  After the
    number 2^53 - 1 the page gives the number 2^53 twice. *)
Theorem generateInvoiceNumber_fresh_and_consecutive
    (l : list InvoicesPage.Invoice) :
  (Spec.numbersBelow (2 ^ 53) l ->
   forall inv,
     In inv l ->
     InvoicesPage.invoiceNumber inv
     <> InvoicesPage.generateInvoiceNumber l) /\
  (forall l',
      Permutation l l' ->
      InvoicesPage.generateInvoiceNumber l'
      = InvoicesPage.generateInvoiceNumber l) /\
  (Spec.numbersBelow (2 ^ 53 - 1) l ->
   forall inv l',
     InvoicesPage.invoiceNumber inv = InvoicesPage.generateInvoiceNumber l ->
     Permutation l' (inv :: l) ->
     Spec.suffix (InvoicesPage.generateInvoiceNumber l')
     = option_map Z.succ (Spec.suffix (InvoicesPage.generateInvoiceNumber l))
     /\
     InvoicesPage.generateInvoiceNumber l'
     <> InvoicesPage.generateInvoiceNumber l) /\
  (InvoicesPage.generateInvoiceNumber
     [Sample.numbered "INV-9007199254740991"]
   = "INV-9007199254740992"%string /\
   InvoicesPage.generateInvoiceNumber
     [Sample.numbered "INV-9007199254740992";
      Sample.numbered "INV-9007199254740991"]
   = "INV-9007199254740992"%string).
Proof.
  split; [|split; [|split]].
  - intros Hl inv. now apply generateInvoiceNumber_fresh.
  - intros l' Hp. unfold InvoicesPage.generateInvoiceNumber.
    now rewrite (maxNumber_perm Hp).
  - intros Hl inv l'. now apply generateInvoiceNumber_next.
  - split; vm_compute; reflexivity.
Qed.

(** X5 at an input: after INV-0007 and INV-0041 comes INV-0042, in either
    order of the two, and after it INV-0043. *)
Lemma generateInvoiceNumber_fresh_and_consecutive_witness :
  Spec.numbersBelow (2 ^ 53 - 1)
    [Sample.numbered "INV-0007"; Sample.numbered "INV-0041"] /\
  InvoicesPage.generateInvoiceNumber
    [Sample.numbered "INV-0041"; Sample.numbered "INV-0007"]
  = InvoicesPage.generateInvoiceNumber
      [Sample.numbered "INV-0007"; Sample.numbered "INV-0041"] /\
  Spec.suffix
    (InvoicesPage.generateInvoiceNumber
       [Sample.numbered "INV-0007"; Sample.numbered "INV-0042";
        Sample.numbered "INV-0041"])
  = option_map Z.succ
      (Spec.suffix
         (InvoicesPage.generateInvoiceNumber
            [Sample.numbered "INV-0007"; Sample.numbered "INV-0041"])).
Proof.
  assert (Hsafe : Spec.numbersBelow (2 ^ 53 - 1)
                    [Sample.numbered "INV-0007"; Sample.numbered "INV-0041"])
    by (repeat constructor).
  split; [exact Hsafe|]. split.
  - apply (proj1 (proj2 (generateInvoiceNumber_fresh_and_consecutive _))).
    apply perm_swap.
  - apply (proj1
             (proj1 (proj2 (proj2
                (generateInvoiceNumber_fresh_and_consecutive _)))
                Hsafe (Sample.numbered "INV-0042") _ eq_refl
                (Permutation_sym
                   (Permutation_middle [Sample.numbered "INV-0007"]
                      [Sample.numbered "INV-0041"]
                      (Sample.numbered "INV-0042"))))).
Defined.

Lemma invoicesQuery_snoc u coll d :
  F.i_userId d = uid u ->
  Permutation (F.getDocs (InvoicesPage.invoicesQuery u) (coll ++ [d]))
    (d :: F.getDocs (InvoicesPage.invoicesQuery u) coll).
Proof.
  intros Hu. rewrite !invoicesQuery_perm, filter_app. cbn [filter].
  unfold Props.ownedBy at 2. rewrite Hu, String.eqb_refl.
  rewrite <- Permutation_cons_append. reflexivity.
Qed.

Lemma handleSubmit_creates u now values e s newId rest :
  InvoicesPage.editingInvoice s = None ->
  Handler.script e = Handler.Accepts newId :: rest ->
  InvoicesPage.handleSubmit (Some u) now values (e, s)
  = Handler.tryCatchFinally
      (Handler.message (Handler.ToastSuccess "Invoice created successfully") ;;;
       Handler.setState (InvoicesPage.setIsModalVisible false) ;;;
       Handler.setState (InvoicesPage.setEditingInvoice None) ;;;
       Handler.setState (InvoicesPage.setForm None) ;;;
       InvoicesPage.fetchInvoices (Some u))
      (Handler.message (Handler.ToastError "Failed to save invoice"))
      (Handler.setState (InvoicesPage.setIsLoading false))
      ({| Handler.store :=
            F.setInvoices
              (F.invoices (Handler.store e)
               ++ [InvoicesPage.invoiceData u now s values newId])
              (Handler.store e);
          Handler.script := rest;
          Handler.toasts := Handler.toasts e;
          Handler.calls := Handler.calls e ++ [Handler.AddDoc "invoices"] |},
       InvoicesPage.setIsLoading true s).
Proof.
  intros He H. accept_case e H.
  unfold InvoicesPage.handleSubmit. run_handler.
  cbn [InvoicesPage.editingInvoice InvoicesPage.setIsLoading].
  rewrite He. unfold InvoicesPage.addDoc. run_handler. reflexivity.
Qed.

(** X6: two invoices created one after the other.  When the refresh after
    the first save comes back, the page showed the user's invoices of the
    store and their numbers that parse are below 2^53 - 1, the second
    invoice gets the number after the first one's.  When
    that refresh fails, the page keeps its old list, and the second invoice
    is stored under the same number as the first. *)
Theorem numbers_of_two_saves (u : User) (now1 now2 : Z)
    (values1 values2 : InvoicesPage.FormValues) (e : Handler.Env)
    (s : InvoicesPage.State) (id1 id2 : string) (rest : list Handler.Reply) :
  InvoicesPage.editingInvoice s = None ->
  let first reply :=
    InvoicesPage.handleSubmit (Some u) now1 values1
      ({| Handler.store := Handler.store e;
          Handler.script :=
            Handler.Accepts id1 :: reply :: Handler.Accepts id2 :: rest;
          Handler.toasts := Handler.toasts e;
          Handler.calls := Handler.calls e |}, s) in
  let second reply :=
    InvoicesPage.handleSubmit (Some u) now2 values2 (snd (first reply)) in
  let stored reply :=
    F.invoices (Handler.store (fst (snd (second reply)))) in
  (forall b,
      InvoicesPage.invoices s
      = map InvoicesPage.toInvoice
          (F.getDocs (InvoicesPage.invoicesQuery u)
             (F.invoices (Handler.store e))) ->
      Spec.numbersBelow (2 ^ 53 - 1) (InvoicesPage.invoices s) ->
      exists d1 d2,
        stored (Handler.Accepts b)
        = F.invoices (Handler.store e) ++ [d1; d2] /\
        F.i_id d1 = id1 /\ F.i_id d2 = id2 /\
        F.i_invoiceNumber d1
        = InvoicesPage.generateInvoiceNumber (InvoicesPage.invoices s) /\
        Spec.suffix (F.i_invoiceNumber d2)
        = option_map Z.succ (Spec.suffix (F.i_invoiceNumber d1)) /\
        F.i_invoiceNumber d2 <> F.i_invoiceNumber d1) /\
  (exists d1 d2,
      stored Handler.Rejects = F.invoices (Handler.store e) ++ [d1; d2] /\
      F.i_id d1 = id1 /\ F.i_id d2 = id2 /\
      F.i_invoiceNumber d1
      = InvoicesPage.generateInvoiceNumber (InvoicesPage.invoices s) /\
      F.i_invoiceNumber d2 = F.i_invoiceNumber d1 /\
      Handler.toasts (fst (snd (first Handler.Rejects)))
      = Handler.toasts e
        ++ [Handler.ToastSuccess "Invoice created successfully";
            Handler.ToastError "Failed to fetch invoices"]).
Proof.
  intros He first second stored. split.
  - intros b Hsync Hsafe.
    set (d1 := InvoicesPage.invoiceData u now1 s values1 id1).
    assert (H1 : first (Handler.Accepts b)
                 = (Handler.Returned tt,
                    ({| Handler.store :=
                          F.setInvoices (F.invoices (Handler.store e) ++ [d1])
                            (Handler.store e);
                        Handler.script := Handler.Accepts id2 :: rest;
                        Handler.toasts :=
                          Handler.toasts e
                          ++ [Handler.ToastSuccess
                                "Invoice created successfully"];
                        Handler.calls :=
                          (Handler.calls e ++ [Handler.AddDoc "invoices"])
                          ++ [Handler.GetDocs "invoices"] |},
                     InvoicesPage.setIsLoading false
                       (InvoicesPage.setFilteredInvoices
                          (map InvoicesPage.toInvoice
                             (F.getDocs (InvoicesPage.invoicesQuery u)
                                (F.invoices (Handler.store e) ++ [d1])))
                          (InvoicesPage.setInvoices
                             (map InvoicesPage.toInvoice
                                (F.getDocs (InvoicesPage.invoicesQuery u)
                                   (F.invoices (Handler.store e) ++ [d1])))
                             (InvoicesPage.setForm None
                                (InvoicesPage.setEditingInvoice None
                                   (InvoicesPage.setIsModalVisible false
                                      s)))))))).
    { unfold first. erewrite handleSubmit_creates by (exact He || reflexivity).
      unfold InvoicesPage.fetchInvoices. run_handler. reflexivity. }
    set (s1 := snd (snd (first (Handler.Accepts b)))).
    set (d2 := InvoicesPage.invoiceData u now2 s1 values2 id2).
    exists d1, d2.
    assert (Hpage : InvoicesPage.invoices s1
                    = map InvoicesPage.toInvoice
                        (F.getDocs (InvoicesPage.invoicesQuery u)
                           (F.invoices (Handler.store e) ++ [d1]))).
    { unfold s1. rewrite H1. reflexivity. }
    assert (Hperm : Permutation (InvoicesPage.invoices s1)
                      (InvoicesPage.toInvoice d1 :: InvoicesPage.invoices s)).
    { rewrite Hpage, Hsync. rewrite <- map_cons. apply Permutation_map.
      apply invoicesQuery_snoc. reflexivity. }
    assert (Hn1 : F.i_invoiceNumber d1
                  = InvoicesPage.generateInvoiceNumber
                      (InvoicesPage.invoices s)).
    { unfold d1, InvoicesPage.invoiceData. cbn. now rewrite He. }
    assert (Hn2 : F.i_invoiceNumber d2
                  = InvoicesPage.generateInvoiceNumber
                      (InvoicesPage.invoices s1)).
    { unfold d2, InvoicesPage.invoiceData. cbn.
      unfold s1. rewrite H1. reflexivity. }
    assert (Hnext := @generateInvoiceNumber_next _ (InvoicesPage.toInvoice d1)
                       _ Hsafe Hn1 Hperm).
    split; [|split; [reflexivity|split; [reflexivity|split; [exact Hn1|]]]].
    + unfold stored, second.
      assert (Hsnd : snd (first (Handler.Accepts b))
                     = (fst (snd (first (Handler.Accepts b))), s1))
        by (unfold s1; now destruct (first (Handler.Accepts b)) as [? [? ?]]).
      rewrite Hsnd.
      rewrite (@handleSubmit_adds u now2 values2 _ s1 id2 rest).
      * rewrite H1. cbn [fst snd Handler.store F.invoices F.setInvoices].
        rewrite <- List.app_assoc. reflexivity.
      * unfold s1. rewrite H1. reflexivity.
      * rewrite H1. reflexivity.
    + rewrite Hn1, Hn2. exact Hnext.
  - set (d1 := InvoicesPage.invoiceData u now1 s values1 id1).
    assert (H1 : first Handler.Rejects
                 = (Handler.Returned tt,
                    ({| Handler.store :=
                          F.setInvoices (F.invoices (Handler.store e) ++ [d1])
                            (Handler.store e);
                        Handler.script := Handler.Accepts id2 :: rest;
                        Handler.toasts :=
                          (Handler.toasts e
                           ++ [Handler.ToastSuccess
                                 "Invoice created successfully"])
                          ++ [Handler.ToastError "Failed to fetch invoices"];
                        Handler.calls :=
                          (Handler.calls e ++ [Handler.AddDoc "invoices"])
                          ++ [Handler.GetDocs "invoices"] |},
                     InvoicesPage.setIsLoading false
                       (InvoicesPage.setForm None
                          (InvoicesPage.setEditingInvoice None
                             (InvoicesPage.setIsModalVisible false s)))))).
    { unfold first. erewrite handleSubmit_creates by (exact He || reflexivity).
      unfold InvoicesPage.fetchInvoices. run_handler. reflexivity. }
    set (s1 := snd (snd (first Handler.Rejects))).
    set (d2 := InvoicesPage.invoiceData u now2 s1 values2 id2).
    exists d1, d2.
    split; [|split; [reflexivity|split; [reflexivity|split; [|split]]]].
    + unfold stored, second.
      assert (Hsnd : snd (first Handler.Rejects)
                     = (fst (snd (first Handler.Rejects)), s1))
        by (unfold s1; now destruct (first Handler.Rejects) as [? [? ?]]).
      rewrite Hsnd.
      rewrite (@handleSubmit_adds u now2 values2 _ s1 id2 rest).
      * rewrite H1. cbn [fst snd Handler.store F.invoices F.setInvoices].
        rewrite <- List.app_assoc. reflexivity.
      * unfold s1. rewrite H1. reflexivity.
      * rewrite H1. reflexivity.
    + unfold d1, InvoicesPage.invoiceData. cbn. now rewrite He.
    + unfold d2, d1, InvoicesPage.invoiceData. cbn.
      unfold s1. rewrite H1. cbn. now rewrite He.
    + rewrite H1. cbn. rewrite <- List.app_assoc. reflexivity.
Qed.

(** X6 at an input: alice saves two invoices from an empty page over the
    sample store. *)
Lemma numbers_of_two_saves_witness :
  exists d1 d2,
    F.invoices
      (Handler.store
         (fst (snd (InvoicesPage.handleSubmit (Some Sample.alice)
                      1700000001000 Sample.formValues
                      (snd (InvoicesPage.handleSubmit (Some Sample.alice)
                              1700000000000 Sample.formValues
                              ({| Handler.store := Sample.db;
                                  Handler.script :=
                                    [Handler.Accepts "n1"; Handler.Rejects;
                                     Handler.Accepts "n2"];
                                  Handler.toasts := [];
                                  Handler.calls := [] |},
                               Sample.invoicesPage)))))))
    = [] ++ [d1; d2] /\
    F.i_id d1 = "n1"%string /\ F.i_id d2 = "n2"%string /\
    F.i_invoiceNumber d1 = "INV-0001"%string /\
    F.i_invoiceNumber d2 = F.i_invoiceNumber d1 /\
    Handler.toasts
      (fst (snd (InvoicesPage.handleSubmit (Some Sample.alice)
                   1700000000000 Sample.formValues
                   ({| Handler.store := Sample.db;
                       Handler.script :=
                         [Handler.Accepts "n1"; Handler.Rejects;
                          Handler.Accepts "n2"];
                       Handler.toasts := [];
                       Handler.calls := [] |},
                    Sample.invoicesPage))))
    = [] ++ [Handler.ToastSuccess "Invoice created successfully";
             Handler.ToastError "Failed to fetch invoices"].
Proof.
  exact (proj2
           (@numbers_of_two_saves Sample.alice 1700000000000 1700000001000
              Sample.formValues Sample.formValues (Sample.online 0)
              Sample.invoicesPage "n1" "n2" [] eq_refl)).
Defined.

(* ================================================================= *)
(** ** Editing an invoice *)

Lemma toItem_toFormItem (item : F.InvoiceItem) :
  F.amount item = (F.quantity item * F.rate item)%Qc ->
  InvoicesPage.toItem (InvoicesForm.toFormItem item) = item.
Proof.
  intros H. destruct item as [d q r a]. cbn in *. now rewrite H.
Qed.

(** X7: the owner opens an invoice for editing and saves.  Opening makes no
    remote call and shows the form.  The save, when the store accepts,
    replaces the first document with the invoice's id and leaves the others
    where they are; the new document keeps the id, the owner, the invoice
    number and the creation time, and takes client, status and due date from
    the form.  When the form is saved as [handleEdit] filled it, client,
    status, due date and each item's description, quantity and rate are the
    invoice's own, and the items are unchanged if each amount was quantity
    times rate.  Afterwards the form is closed and nothing is being
    edited. *)
Theorem edit_then_save_keeps_identity (u : User)
    (invoice : InvoicesPage.Invoice) (now : Z) (e : Handler.Env)
    (s : InvoicesPage.State) (a : string) (rest : list Handler.Reply)
    (l1 : list F.InvoiceDoc) (d : F.InvoiceDoc) (l2 : list F.InvoiceDoc) :
  InvoicesPage.userId invoice = uid u ->
  Handler.script e = Handler.Accepts a :: rest ->
  Props.firstWithId (InvoicesPage.id invoice)
    (F.invoices (Handler.store e)) l1 d l2 ->
  let opened := InvoicesForm.handleEdit (Some u) invoice (e, s) in
  (fst (snd opened) = e /\
   InvoicesPage.isModalVisible (snd (snd opened)) = true /\
   InvoicesPage.editingInvoice (snd (snd opened)) = Some invoice) /\
  forall values,
    let r := InvoicesPage.handleSubmit (Some u) now values (snd opened) in
    exists d',
      F.invoices (Handler.store (fst (snd r))) = l1 ++ d' :: l2 /\
      (F.i_id d' = InvoicesPage.id invoice /\
       F.i_userId d' = uid u /\
       F.i_invoiceNumber d' = InvoicesPage.invoiceNumber invoice /\
       F.i_createdAt d' = InvoicesPage.createdAt invoice) /\
      (F.i_clientId d' = InvoicesPage.v_clientId values /\
       F.i_status d' = InvoicesPage.v_status values /\
       F.i_dueDate d' = InvoicesPage.v_dueDate values) /\
      (InvoicesPage.form (snd (snd opened)) = Some values ->
       F.i_clientId d' = InvoicesPage.clientId invoice /\
       F.i_status d' = InvoicesPage.status invoice /\
       F.i_dueDate d' = InvoicesPage.dueDate invoice /\
       map (fun it => (F.description it, F.quantity it, F.rate it))
         (F.i_items d')
       = map (fun it => (F.description it, F.quantity it, F.rate it))
           (InvoicesPage.items invoice) /\
       (Forall (fun it => F.amount it = (F.quantity it * F.rate it)%Qc)
          (InvoicesPage.items invoice) ->
        F.i_items d' = InvoicesPage.items invoice)) /\
      InvoicesPage.isModalVisible (snd (snd r)) = false /\
      InvoicesPage.editingInvoice (snd (snd r)) = None.
Proof.
  intros Hown H Hfirst opened.
  assert (Hopen : exists s1,
             opened = (Handler.Returned tt, (e, s1)) /\
             InvoicesPage.isModalVisible s1 = true /\
             InvoicesPage.editingInvoice s1 = Some invoice /\
             InvoicesPage.form s1
             = Some {| InvoicesPage.v_clientId :=
                         InvoicesPage.clientId invoice;
                       InvoicesPage.v_items :=
                         map InvoicesForm.toFormItem
                           (InvoicesPage.items invoice);
                       InvoicesPage.v_status := InvoicesPage.status invoice;
                       InvoicesPage.v_dueDate :=
                         InvoicesPage.dueDate invoice |}).
  { unfold opened, InvoicesForm.handleEdit.
    rewrite Hown, String.eqb_refl. cbn [negb]. run_handler.
    destruct e. eexists. split; [reflexivity|]. cbn. repeat split. }
  destruct Hopen as (s1 & Ho & Hvis & Hed & Hform).
  clearbody opened. subst opened.
  cbn [fst snd]. split; [repeat split; assumption|].
  intros values.
  set (r := InvoicesPage.handleSubmit (Some u) now values (e, s1)).
  set (d' := InvoicesPage.invoiceData u now
               (InvoicesPage.setIsLoading true s1) values
               (InvoicesPage.id invoice)).
  assert (Hr : F.invoices (Handler.store (fst (snd r))) = l1 ++ d' :: l2 /\
               InvoicesPage.isModalVisible (snd (snd r)) = false /\
               InvoicesPage.editingInvoice (snd (snd r)) = None).
  { unfold r, d'. accept_case e H.
    unfold InvoicesPage.handleSubmit. run_handler.
    cbn [InvoicesPage.editingInvoice InvoicesPage.setIsLoading].
    rewrite Hed, Hown, String.eqb_refl. cbn [negb]. run_handler.
    unfold InvoicesPage.updateDoc. cbn [Handler.store] in Hfirst.
    erewrite updateInvoice_first by exact Hfirst.
    run_handler. destruct rest as [|[|b] rest'];
      unfold InvoicesPage.fetchInvoices; run_handler; cbn; repeat split. }
  destruct Hr as (Hstore & Hv & Hn).
  exists d'. split; [exact Hstore|].
  split; [|split; [|split; [|split; assumption]]].
  - unfold d', InvoicesPage.invoiceData. cbn. rewrite Hed. repeat split.
  - unfold d'. cbn. repeat split.
  - intros Hvalues. rewrite Hform in Hvalues. injection Hvalues as <-.
    unfold d'. cbn. repeat split.
    + rewrite !map_map. reflexivity.
    + intros Hall. rewrite map_map.
      rewrite <- (map_id (InvoicesPage.items invoice)) at 2.
      apply map_ext_in. intros it Hit. apply toItem_toFormItem.
      rewrite Forall_forall in Hall. now apply Hall.
Qed.

(** X7 at an input: alice edits her invoice i1 and saves the form with the
    sample values. *)
Lemma edit_then_save_keeps_identity_witness :
  let invoice :=
    InvoicesPage.toInvoice
      (Sample.invoiceOf "i1" "alice" (Some (Q2Qc (100 # 1))) "unpaid") in
  let opened :=
    InvoicesForm.handleEdit (Some Sample.alice) invoice
      (Sample.busy 2, Sample.invoicesPage) in
  fst (snd opened) = Sample.busy 2 /\
  InvoicesPage.isModalVisible (snd (snd opened)) = true /\
  InvoicesPage.editingInvoice (snd (snd opened)) = Some invoice.
Proof.
  refine (proj1
            (@edit_then_save_keeps_identity Sample.alice
               (InvoicesPage.toInvoice
                  (Sample.invoiceOf "i1" "alice" (Some (Q2Qc (100 # 1)))
                     "unpaid"))
               1700000000000 (Sample.busy 2) Sample.invoicesPage "new1"
               [Handler.Accepts "new1"] []
               (Sample.invoiceOf "i1" "alice" (Some (Q2Qc (100 # 1)))
                  "unpaid")
               (tl (F.invoices Sample.busyDb)) eq_refl eq_refl _)).
  split; [reflexivity|]. split; [reflexivity|]. intros x [].
Defined.

(* ================================================================= *)
(** ** Handlers of the invoices page always come back *)

Lemma fetchInvoices_returns user e s :
  let r := InvoicesPage.fetchInvoices user (e, s) in
  fst r = Handler.Returned tt /\
  (InvoicesPage.isLoading s = false \/ user <> None ->
   InvoicesPage.isLoading (snd (snd r)) = false).
Proof.
  destruct user as [u|].
  - destruct e as [db sc ts cs]. destruct sc as [|[|newId] rest];
      unfold InvoicesPage.fetchInvoices; run_handler; cbn; auto.
  - cbn. split; [reflexivity|]. intros [H | H]; [exact H|congruence].
Qed.

Ltac after_fetch_returns :=
  match goal with
  | |- context [InvoicesPage.fetchInvoices ?u (?e, ?s)] =>
      let H := fresh "Hret" in
      pose proof (fetchInvoices_returns u e s) as H;
      destruct (InvoicesPage.fetchInvoices u (e, s)) as [[[]|] [? ?]];
      cbn in H |- *; destruct H as [? ?]
  end.

(** X8: whatever the store answers and whoever is signed in, no handler of
    the invoices page lets an exception escape, and none leaves the loading
    flag set that was clear before; [fetchInvoices] and [handleSubmit] of a
    signed-in user end with the loading flag cleared in every case. *)
Theorem invoices_handlers_return_and_clear_loading (op : Spec.Operation)
    (user : option User) (e : Handler.Env) (s : InvoicesPage.State) :
  let r := Spec.run op user (e, s) in
  fst r = Handler.Returned tt /\
  (InvoicesPage.isLoading s = false ->
   InvoicesPage.isLoading (snd (snd r)) = false) /\
  match op with
  | Spec.FetchInvoices | Spec.Submit _ _ =>
      user <> None -> InvoicesPage.isLoading (snd (snd r)) = false
  | _ => True
  end.
Proof.
  destruct op as [| |now values|invoice|invoice newStatus];
    cbn [Spec.run]; cbv zeta.
  - destruct (fetchInvoices_returns user e s) as [H1 H2]. auto.
  - destruct user as [u|]; [|cbn; auto].
    destruct e as [db sc ts cs]. destruct sc as [|[|newId] rest];
      unfold InvoicesPage.fetchClients; run_handler; cbn; auto.
  - destruct user as [u|]; [|cbn; intuition congruence].
    unfold InvoicesPage.handleSubmit. run_handler.
    cbn [InvoicesPage.editingInvoice InvoicesPage.setIsLoading].
    destruct (InvoicesPage.editingInvoice s) as [inv|].
    + destruct (negb (String.eqb (InvoicesPage.userId inv) (uid u)));
        [cbn; auto|].
      destruct e as [db sc ts cs]. destruct sc as [|[|newId] rest];
        run_handler; [cbn; auto | cbn; auto |].
      unfold InvoicesPage.updateDoc.
      destruct (F.updateInvoice _ _ _) as [l|]; run_handler; [|cbn; auto].
      after_fetch_returns; try discriminate; auto.
    + destruct e as [db sc ts cs]. destruct sc as [|[|newId] rest];
        run_handler; [cbn; auto | cbn; auto |].
      unfold InvoicesPage.addDoc. run_handler.
      after_fetch_returns; try discriminate; auto.
  - destruct user as [u|]; [|cbn; auto].
    unfold InvoicesPage.handleDelete.
    destruct (negb (String.eqb (InvoicesPage.userId invoice) (uid u)));
      [cbn; auto|].
    destruct e as [db sc ts cs]. destruct sc as [|[|newId] rest];
      run_handler; [cbn; auto | cbn; auto |].
    unfold InvoicesPage.deleteDoc. run_handler.
    after_fetch_returns; try discriminate.
    split; [reflexivity|]. split; [|exact I].
    intros Hl. apply H0. right. discriminate.
  - unfold InvoicesPage.handleStatusUpdate.
    destruct user as [u|]; [|cbn; auto].
    destruct (negb (String.eqb (InvoicesPage.userId invoice) (uid u)));
      [cbn; auto|].
    destruct e as [db sc ts cs]. destruct sc as [|[|newId] rest];
      run_handler; [cbn; auto | cbn; auto |].
    unfold InvoicesPage.updateDoc.
    destruct (F.updateInvoice _ _ _) as [l|]; run_handler; [|cbn; auto].
    after_fetch_returns; try discriminate.
    split; [reflexivity|]. split; [|exact I].
    intros Hl. apply H0. right. discriminate.
Qed.

(* ================================================================= *)
(** ** The time-tracking page: entries and the running timer *)

Lemma fetchTimeEntries_accepted u clock e s a rest :
  Handler.script e = Handler.Accepts a :: rest ->
  TimeTrackingPage.fetchTimeEntries (Some u) clock (e, s)
  = (Handler.Returned tt,
     ({| Handler.store := Handler.store e;
         Handler.script := rest;
         Handler.toasts := Handler.toasts e;
         Handler.calls :=
           Handler.calls e ++ [Handler.GetDocs "timeTracking"] |},
      Props.refreshed u clock (Handler.store e) s)).
Proof.
  intros H. accept_case e H.
  unfold TimeTrackingPage.fetchTimeEntries. run_handler. reflexivity.
Qed.

Lemma entriesQuery_matches u d :
  F.matches (TimeTrackingPage.entriesQuery u) d = Props.ownEntry u d.
Proof.
  unfold F.matches, Props.ownEntry. simpl. now rewrite andb_true_r.
Qed.

Lemma entriesQuery_perm u coll :
  Permutation (F.getDocs (TimeTrackingPage.entriesQuery u) coll)
    (filter (Props.ownEntry u) coll).
Proof.
  unfold F.getDocs. cbn [TimeTrackingPage.entriesQuery F.order F.limit].
  rewrite sortBy_perm.
  erewrite filter_ext; [reflexivity|]. apply entriesQuery_matches.
Qed.

Lemma optZgeb_total (x y : F.TimeDoc) :
  F.tt_createdAt x <> None -> F.tt_createdAt y <> None ->
  TimeTrackingPage.optZgeb (F.tt_createdAt x) (F.tt_createdAt y) = false ->
  TimeTrackingPage.optZgeb (F.tt_createdAt y) (F.tt_createdAt x) = true.
Proof.
  destruct (F.tt_createdAt x) as [a|]; [|congruence].
  destruct (F.tt_createdAt y) as [b|]; [|congruence].
  simpl. intros _ _ H. apply Z.leb_gt in H. apply Z.leb_le. lia.
Qed.

Lemma optZgeb_trans (x y z : F.TimeDoc) :
  F.tt_createdAt x <> None -> F.tt_createdAt y <> None ->
  F.tt_createdAt z <> None ->
  TimeTrackingPage.optZgeb (F.tt_createdAt x) (F.tt_createdAt y) = true ->
  TimeTrackingPage.optZgeb (F.tt_createdAt y) (F.tt_createdAt z) = true ->
  TimeTrackingPage.optZgeb (F.tt_createdAt x) (F.tt_createdAt z) = true.
Proof.
  destruct (F.tt_createdAt x) as [a|]; [|congruence].
  destruct (F.tt_createdAt y) as [b|]; [|congruence].
  destruct (F.tt_createdAt z) as [c|]; [|congruence].
  simpl. intros _ _ _ H1 H2. apply Z.leb_le in H1, H2. apply Z.leb_le. lia.
Qed.

Lemma entriesQuery_newest_first u coll :
  StronglySorted
    (fun a b =>
       match F.tt_createdAt a, F.tt_createdAt b with
       | Some x, Some y => (y <= x)%Z
       | _, _ => False
       end)
    (F.getDocs (TimeTrackingPage.entriesQuery u) coll).
Proof.
  unfold F.getDocs. cbn [TimeTrackingPage.entriesQuery F.order F.limit].
  set (le := fun a b => TimeTrackingPage.optZgeb (F.tt_createdAt a)
                          (F.tt_createdAt b)).
  set (hits := filter (F.matches (TimeTrackingPage.entriesQuery u)) coll).
  assert (HP : Forall (fun d => F.tt_createdAt d <> None) hits).
  { apply Forall_forall. intros d Hd. apply filter_In in Hd.
    destruct Hd as [_ Hm]. rewrite entriesQuery_matches in Hm.
    unfold Props.ownEntry in Hm. apply andb_true_iff in Hm.
    destruct Hm as [_ Hm]. now destruct (F.tt_createdAt d). }
  assert (Hall : Forall (fun d => F.tt_createdAt d <> None)
                   (F.sortBy le hits)).
  { apply Forall_forall. intros d Hd.
    apply (Permutation_in _ (sortBy_perm _ _)) in Hd.
    rewrite Forall_forall in HP. now apply HP. }
  assert (Hsorted := @sortBy_strongly_sorted _ le
                       (fun d => F.tt_createdAt d <> None)
                       optZgeb_total optZgeb_trans hits HP).
  revert Hall Hsorted. generalize (F.sortBy le hits).
  intros l Hall. induction 1 as [|a l Hs IH Hf]; constructor.
  - apply IH. now inversion Hall.
  - inversion Hall as [|? ? Ha Hl]; subst.
    rewrite Forall_forall in Hf, Hl |- *. intros b Hb.
    specialize (Hf b Hb). specialize (Hl b Hb). unfold le in Hf.
    destruct (F.tt_createdAt a) as [x|]; [|congruence].
    destruct (F.tt_createdAt b) as [y|]; [|congruence].
    simpl in Hf. now apply Z.leb_le.
Qed.

(** X9: when the store answers, [fetchTimeEntries] shows exactly the user's
    time-tracking documents that carry a creation time (documents of other
    users and documents without [createdAt] are left out), the latest first.
    The active timer is the first of these entries without an end time, and
    there is none exactly when every entry shown has an end time.  The
    filtered list is the same list and the loading flag is cleared. *)
Theorem fetchTimeEntries_own_entries_and_timer (u : User)
    (clock : TimeTrackingPage.Clock) (e : Handler.Env)
    (s : TimeTrackingPage.State) (a : string) (rest : list Handler.Reply) :
  Handler.script e = Handler.Accepts a :: rest ->
  let s' :=
    snd (snd (TimeTrackingPage.fetchTimeEntries (Some u) clock (e, s))) in
  Permutation (TimeTrackingPage.timeEntries s')
    (map TimeTrackingPage.toTimeEntry
       (filter (Props.ownEntry u) (F.timeTracking (Handler.store e)))) /\
  (forall entry,
      In entry (TimeTrackingPage.timeEntries s') ->
      TimeTrackingPage.userId entry = Some (uid u)) /\
  Props.newestEntryFirst (TimeTrackingPage.timeEntries s') /\
  TimeTrackingPage.filteredEntries s' = TimeTrackingPage.timeEntries s' /\
  match TimeTrackingPage.activeTimer s' with
  | Some t =>
      Spec.firstMatch Props.running (TimeTrackingPage.timeEntries s') t /\
      TimeTrackingPage.endTime t = None
  | None =>
      forall entry,
        In entry (TimeTrackingPage.timeEntries s') ->
        TimeTrackingPage.endTime entry <> None
  end /\
  TimeTrackingPage.loading s' = false.
Proof.
  intros H s'. unfold s'. rewrite (fetchTimeEntries_accepted u clock e s H).
  cbn [snd Props.refreshed TimeTrackingPage.setLoading
         TimeTrackingPage.setSummaryStats TimeTrackingPage.setActiveTimer
         TimeTrackingPage.setFilteredEntries TimeTrackingPage.setTimeEntries
         TimeTrackingPage.timeEntries TimeTrackingPage.filteredEntries
         TimeTrackingPage.activeTimer TimeTrackingPage.loading].
  split; [|split; [|split; [|split; [reflexivity|split; [|reflexivity]]]]].
  - apply Permutation_map, entriesQuery_perm.
  - intros entry Hin. apply in_map_iff in Hin. destruct Hin as (d & <- & Hd).
    apply getDocs_In in Hd; [|reflexivity]. destruct Hd as [_ Hm].
    rewrite entriesQuery_matches in Hm. apply andb_true_iff in Hm.
    destruct Hm as [Hm _]. cbn. unfold F.optStringEqb in Hm.
    destruct (F.tt_userId d) as [x|]; [|discriminate].
    apply String.eqb_eq in Hm. now subst.
  - apply StronglySorted_map. apply entriesQuery_newest_first.
  - destruct (find Props.running (Props.entriesOf u (Handler.store e)))
      as [t|] eqn:Hf.
    + split; [now apply find_Some_firstMatch|].
      apply find_some in Hf. destruct Hf as [_ Hr].
      unfold Props.running in Hr.
      now destruct (TimeTrackingPage.endTime t).
    + intros entry Hin He.
      apply (find_none _ _ Hf) in Hin. unfold Props.running in Hin.
      rewrite He in Hin. discriminate.
Qed.

(** X9 at an input: alice's page over a store with entries of alice and of
    bob. *)
Lemma fetchTimeEntries_own_entries_and_timer_witness :
  let s' :=
    snd (snd (TimeTrackingPage.fetchTimeEntries (Some Sample.alice)
                Sample.clock
                (Props.accepting Cases.timeDb ["x"%string],
                 Cases.trackingPage))) in
  Permutation (TimeTrackingPage.timeEntries s')
    (map TimeTrackingPage.toTimeEntry
       (filter (Props.ownEntry Sample.alice) (F.timeTracking Cases.timeDb))) /\
  (forall entry,
      In entry (TimeTrackingPage.timeEntries s') ->
      TimeTrackingPage.userId entry = Some "alice"%string) /\
  Props.newestEntryFirst (TimeTrackingPage.timeEntries s') /\
  TimeTrackingPage.filteredEntries s' = TimeTrackingPage.timeEntries s' /\
  (forall entry,
      In entry (TimeTrackingPage.timeEntries s') ->
      TimeTrackingPage.endTime entry <> None) /\
  TimeTrackingPage.loading s' = false.
Proof.
  exact (@fetchTimeEntries_own_entries_and_timer Sample.alice Sample.clock
           (Props.accepting Cases.timeDb ["x"%string]) Cases.trackingPage
           "x" [] eq_refl).
Defined.

Lemma find_only (A : Type) (p : A -> bool) (l : list A) (x : A) :
  In x l -> p x = true -> (forall y, In y l -> p y = true -> y = x) ->
  find p l = Some x.
Proof.
  induction l as [|a l IH]; simpl; [intros []|].
  intros Hin Hx Hu. destruct (p a) eqn:Ha.
  - f_equal. apply Hu; auto.
  - destruct Hin as [-> | Hin]; [congruence|].
    apply IH; auto.
Qed.

Lemma updateEntry_snoc docId f l d :
  (forall x, In x l -> F.tt_id x <> docId) -> F.tt_id d = docId ->
  Timer.updateEntry docId f (l ++ [d]) = Some (l ++ [f d]).
Proof.
  intros Hl Hd. induction l as [|x l IH]; simpl.
  - now rewrite (proj2 (String.eqb_eq _ _) Hd).
  - rewrite (proj2 (String.eqb_neq _ _) (Hl x (or_introl eq_refl))).
    rewrite IH; [reflexivity|]. intros y Hy. apply Hl. now right.
Qed.

Lemma updateEntry_missing docId f l :
  (forall x, In x l -> F.tt_id x <> docId) -> Timer.updateEntry docId f l = None.
Proof.
  induction l as [|x l IH]; simpl; intros H; [reflexivity|].
  rewrite (proj2 (String.eqb_neq _ _) (H x (or_introl eq_refl))).
  rewrite IH; [reflexivity|]. intros y Hy. apply H. now right.
Qed.

Lemma entriesOf_In u db entry :
  In entry (Props.entriesOf u db)
  <-> exists d, In d (F.timeTracking db) /\ Props.ownEntry u d = true /\
                TimeTrackingPage.toTimeEntry d = entry.
Proof.
  unfold Props.entriesOf. rewrite in_map_iff. split.
  - intros (d & <- & Hd). apply getDocs_In in Hd; [|reflexivity].
    rewrite entriesQuery_matches in Hd. exists d. tauto.
  - intros (d & Hd & Hm & <-). exists d. split; [reflexivity|].
    apply getDocs_In; [reflexivity|]. now rewrite entriesQuery_matches.
Qed.

Lemma find_running_none u db :
  Props.noneRunning u (F.timeTracking db) ->
  find Props.running (Props.entriesOf u db) = None.
Proof.
  intros H. apply find_dangling. intros entry Hin.
  apply entriesOf_In in Hin. destruct Hin as (d & Hd & Hm & <-).
  specialize (H d Hd Hm). unfold Props.running. cbn.
  now destruct (F.tt_endTime d).
Qed.

Lemma find_running_snoc u db d :
  Props.noneRunning u (F.timeTracking db) ->
  Props.ownEntry u d = true -> F.tt_endTime d = None ->
  find Props.running
    (Props.entriesOf u
       (F.setTimeTracking (F.timeTracking db ++ [d]) db))
  = Some (TimeTrackingPage.toTimeEntry d).
Proof.
  intros Hnone Hown Hend. apply find_only.
  - apply entriesOf_In. exists d. cbn. split; [|auto].
    apply in_or_app. right. now left.
  - unfold Props.running. cbn. now rewrite Hend.
  - intros y Hy Hr. apply entriesOf_In in Hy.
    destruct Hy as (d0 & Hd0 & Hm & <-). cbn in Hd0.
    apply in_app_or in Hd0. destruct Hd0 as [Hd0 | [<- | []]]; [|reflexivity].
    specialize (Hnone d0 Hd0 Hm). unfold Props.running in Hr. cbn in Hr.
    now destruct (F.tt_endTime d0).
Qed.

Lemma noneRunning_stopped u docs d endTime dur :
  Props.noneRunning u docs ->
  Props.noneRunning u (docs ++ [Timer.stop endTime dur d]).
Proof.
  intros H x Hx Hm. apply in_app_or in Hx.
  destruct Hx as [Hx | [<- | []]]; [now apply H|]. cbn. discriminate.
Qed.

(** X10: a timer from start to stop.  The page knows the selected task and
    its client, none of the user's entries is running, and the store accepts
    the four calls.  Starting at [t0] appends one running entry for the
    user, task and client, with start and creation time [t0], and the
    refresh makes it the active timer, so that a second start is refused
    with a warning.  Stopping at [t1] gives that entry the end time [t1] and
    the duration of the whole minutes from [t0] to [t1], leaves the other
    documents as they are, and the refresh shows no active timer. *)
Theorem timer_start_then_stop (u : User)
    (clock0 clock1 : TimeTrackingPage.Clock) (taskId clientId : string)
    (task : TimeTrackingPage.Task) (e : Handler.Env)
    (s : TimeTrackingPage.State) (newId a b c : string)
    (rest : list Handler.Reply) :
  taskId <> EmptyString ->
  find (fun t => String.eqb (TimeTrackingPage.task_id t) taskId)
    (TimeTrackingPage.tasks s) = Some task ->
  TimeTrackingPage.task_clientId task = Some clientId ->
  Props.noneRunning u (F.timeTracking (Handler.store e)) ->
  Props.freshId newId (F.timeTracking (Handler.store e)) ->
  Handler.script e
  = Handler.Accepts newId :: Handler.Accepts a :: Handler.Accepts b
    :: Handler.Accepts c :: rest ->
  let t0 := TimeTrackingPage.now clock0 in
  let t1 := TimeTrackingPage.now clock1 in
  let entry := Timer.runningEntry u clock0 taskId clientId newId in
  let started := Timer.showTimerModal_onOk (Some u) clock0 taskId (e, s) in
  let stopped := Timer.handleStopTimer (Some u) clock1 (snd started) in
  (F.timeTracking (Handler.store (fst (snd started)))
   = F.timeTracking (Handler.store e) ++ [entry] /\
   TimeTrackingPage.activeTimer (snd (snd started))
   = Some (TimeTrackingPage.toTimeEntry entry) /\
   Timer.handleStartTimer (snd started)
   = (Handler.Returned false,
      (Props.notify
         (Handler.ToastWarning
            "A timer is already running. Please stop it first.")
         (fst (snd started)), snd (snd started)))) /\
  (F.timeTracking (Handler.store (fst (snd stopped)))
   = F.timeTracking (Handler.store e)
     ++ [Timer.stop t1 (Some ((t1 - t0) / 60000)%Z) entry] /\
   TimeTrackingPage.activeTimer (snd (snd stopped)) = None /\
   Handler.toasts (fst (snd stopped))
   = Handler.toasts e
     ++ [Handler.ToastSuccess "Timer started successfully";
         Handler.ToastSuccess
           (String.append "Timer stopped. Duration: "
              (Timer.formatDuration (Some ((t1 - t0) / 60000)%Z)))] /\
   Handler.calls (fst (snd stopped))
   = Handler.calls e
     ++ [Handler.AddDoc "timeTracking"; Handler.GetDocs "timeTracking";
         Handler.UpdateDoc "timeTracking" newId;
         Handler.GetDocs "timeTracking"]).
Proof.
  intros Hne Htask Hclient Hnone Hfresh H t0 t1 entry started stopped.
  set (db1 := F.setTimeTracking
                (F.timeTracking (Handler.store e) ++ [entry])
                (Handler.store e)).
  assert (Hown : Props.ownEntry u entry = true).
  { unfold Props.ownEntry. cbn. now rewrite String.eqb_refl. }
  assert (Hstarted :
            started
            = (Handler.Returned tt,
               ({| Handler.store := db1;
                   Handler.script :=
                     Handler.Accepts b :: Handler.Accepts c :: rest;
                   Handler.toasts :=
                     Handler.toasts e
                     ++ [Handler.ToastSuccess "Timer started successfully"];
                   Handler.calls :=
                     (Handler.calls e ++ [Handler.AddDoc "timeTracking"])
                     ++ [Handler.GetDocs "timeTracking"] |},
                Props.refreshed u clock0 db1 s))).
  { unfold started, Timer.showTimerModal_onOk.
    destruct taskId as [|ch taskId']; [congruence|].
    run_handler. rewrite Htask, Hclient. accept_case e H. run_handler.
    unfold TimeTrackingPage.addDoc. run_handler.
    rewrite fetchTimeEntries_accepted with (a := a)
                                           (rest := Handler.Accepts b
                                                    :: Handler.Accepts c
                                                    :: rest)
      by reflexivity.
    reflexivity. }
  assert (Hactive : TimeTrackingPage.activeTimer (Props.refreshed u clock0 db1 s)
                    = Some (TimeTrackingPage.toTimeEntry entry)).
  { cbn. unfold db1. now apply find_running_snoc. }
  split.
  - rewrite Hstarted. cbn [fst snd Handler.store]. split; [reflexivity|].
    split; [exact Hactive|].
    unfold Timer.handleStartTimer. run_handler. rewrite Hactive. reflexivity.
  - set (db2 := F.setTimeTracking
                  (F.timeTracking (Handler.store e)
                   ++ [Timer.stop t1 (Some ((t1 - t0) / 60000)%Z) entry])
                  db1).
    assert (Hstopped :
              stopped
              = (Handler.Returned tt,
                 ({| Handler.store := db2;
                     Handler.script := rest;
                     Handler.toasts :=
                       (Handler.toasts e
                        ++ [Handler.ToastSuccess
                              "Timer started successfully"])
                       ++ [Handler.ToastSuccess
                             (String.append "Timer stopped. Duration: "
                                (Timer.formatDuration
                                   (Some ((t1 - t0) / 60000)%Z)))];
                     Handler.calls :=
                       (((Handler.calls e ++ [Handler.AddDoc "timeTracking"])
                         ++ [Handler.GetDocs "timeTracking"])
                        ++ [Handler.UpdateDoc "timeTracking" newId])
                       ++ [Handler.GetDocs "timeTracking"] |},
                  Props.refreshed u clock1 db2
                    (TimeTrackingPage.setActiveTimer None
                       (Props.refreshed u clock0 db1 s))))).
    { unfold stopped. rewrite Hstarted. cbn [snd].
      unfold Timer.handleStopTimer. run_handler. rewrite Hactive.
      cbn [TimeTrackingPage.id TimeTrackingPage.toTimeEntry
             TimeTrackingPage.startTime Timer.runningEntry entry
             F.tt_id F.tt_startTime].
      run_handler. unfold Timer.updateDoc.
      cbn [db1 F.timeTracking F.setTimeTracking].
      rewrite (@updateEntry_snoc newId _ _ entry Hfresh eq_refl).
      run_handler.
      rewrite fetchTimeEntries_accepted with (a := c) (rest := rest)
        by reflexivity.
      rewrite minutesBetween_div. reflexivity. }
    rewrite Hstopped. cbn [fst snd Handler.store Handler.toasts Handler.calls].
    split; [reflexivity|]. split; [|split].
    + assert (Hn2 : Props.noneRunning u (F.timeTracking db2))
        by (cbn; now apply noneRunning_stopped).
      exact (@find_running_none u db2 Hn2).
    + rewrite <- List.app_assoc. reflexivity.
    + rewrite <- !List.app_assoc. reflexivity.
Qed.

(** X10 at an input: alice starts a timer on her task and stops it ten
    minutes and a half later. *)
Lemma timer_start_then_stop_witness :
  let entry :=
    Timer.runningEntry Sample.alice Sample.clock "t7" "c1" "n1" in
  let started :=
    Timer.showTimerModal_onOk (Some Sample.alice) Sample.clock "t7"
      (Props.accepting Cases.timeDb ["n1"; "x"; "y"; "z"]%string,
       Cases.trackingPage) in
  let stopped :=
    Timer.handleStopTimer (Some Sample.alice) Cases.later (snd started) in
  F.timeTracking (Handler.store (fst (snd stopped)))
  = F.timeTracking Cases.timeDb
    ++ [Timer.stop 1700000630000 (Some 10%Z) entry] /\
  TimeTrackingPage.activeTimer (snd (snd stopped)) = None /\
  Handler.toasts (fst (snd stopped))
  = [Handler.ToastSuccess "Timer started successfully";
     Handler.ToastSuccess "Timer stopped. Duration: 0h 10m"] /\
  Handler.calls (fst (snd stopped))
  = [Handler.AddDoc "timeTracking"; Handler.GetDocs "timeTracking";
     Handler.UpdateDoc "timeTracking" "n1"; Handler.GetDocs "timeTracking"].
Proof.
  refine (proj2
            (@timer_start_then_stop Sample.alice Sample.clock Cases.later
               "t7" "c1" (TimeTrackingPage.toTask Cases.aliceTask)
               (Props.accepting Cases.timeDb ["n1"; "x"; "y"; "z"]%string)
               Cases.trackingPage "n1" "x" "y" "z" [] _ eq_refl eq_refl _ _
               eq_refl)).
  - discriminate.
  - intros d Hd Hm. simpl in Hd.
    destruct Hd as [<- | [<- | [<- | [<- | []]]]];
      try discriminate; vm_compute in Hm; discriminate.
  - intros d Hd. simpl in Hd.
    destruct Hd as [<- | [<- | [<- | [<- | []]]]]; discriminate.
Defined.

(** X11: deleting a time entry asks for no owner.  Whoever is signed in (or
    nobody), when the store accepts, [handleDeleteEntry] removes the
    documents with the given id from the time-tracking collection, whichever
    user they belong to, keeps every other document in order, and shows
    Entry deleted successfully. *)
Theorem handleDeleteEntry_asks_no_owner (user : option User)
    (clock : TimeTrackingPage.Clock) (entryId : string) (e : Handler.Env)
    (s : TimeTrackingPage.State) (a : string) (rest : list Handler.Reply) :
  Handler.script e = Handler.Accepts a :: rest ->
  let r := Timer.handleDeleteEntry user clock entryId (e, s) in
  let before := F.timeTracking (Handler.store e) in
  let after := F.timeTracking (Handler.store (fst (snd r))) in
  after = filter (fun d => negb (String.eqb (F.tt_id d) entryId)) before /\
  (forall d, In d after <-> In d before /\ F.tt_id d <> entryId) /\
  (exists more,
      Handler.toasts (fst (snd r))
      = Handler.toasts e
        ++ Handler.ToastSuccess "Entry deleted successfully" :: more) /\
  (exists more,
      Handler.calls (fst (snd r))
      = Handler.calls e ++ Handler.DeleteDoc "timeTracking" entryId :: more).
Proof.
  intros H r before after.
  assert (Hafter : after
                   = filter (fun d => negb (String.eqb (F.tt_id d) entryId))
                       before).
  { unfold after, before, r. accept_case e H.
    unfold Timer.handleDeleteEntry. run_handler.
    unfold Timer.deleteDoc. run_handler.
    after_fetch_entries; reflexivity. }
  split; [exact Hafter|]. split; [|split].
  - intros d. rewrite Hafter, filter_In, negb_true_iff, String.eqb_neq.
    reflexivity.
  - unfold r. accept_case e H.
    unfold Timer.handleDeleteEntry, TimeTrackingPage.fetchTimeEntries.
    run_handler. unfold Timer.deleteDoc. run_handler.
    destruct user as [u|]; [destruct rest as [|[|b] rest']|];
      run_handler; cbn; eexists; rewrite <- ?List.app_assoc; reflexivity.
  - unfold r. accept_case e H.
    unfold Timer.handleDeleteEntry, TimeTrackingPage.fetchTimeEntries.
    run_handler. unfold Timer.deleteDoc. run_handler.
    destruct user as [u|]; [destruct rest as [|[|b] rest']|];
      run_handler; cbn; eexists; rewrite <- ?List.app_assoc; reflexivity.
Qed.

(** X11 at an input: alice deletes bob's running entry. *)
Lemma handleDeleteEntry_asks_no_owner_witness :
  let r := Timer.handleDeleteEntry (Some Sample.alice) Sample.clock "e2"
             (Props.accepting Cases.timeDb ["x"; "y"]%string,
              Cases.trackingPage) in
  (forall d,
      In d (F.timeTracking (Handler.store (fst (snd r))))
      <-> In d (F.timeTracking Cases.timeDb) /\ F.tt_id d <> "e2"%string) /\
  F.tt_userId (Cases.entry "e2" "bob" (Some 1699995000000%Z)
                 (Some 1699995000000%Z) None None)
  = Some "bob"%string.
Proof.
  split; [|reflexivity].
  exact (proj1 (proj2
           (@handleDeleteEntry_asks_no_owner (Some Sample.alice) Sample.clock
              "e2" (Props.accepting Cases.timeDb ["x"; "y"]%string)
              Cases.trackingPage "x" [Handler.Accepts "y"] eq_refl))).
Defined.

(** X12: stopping a timer that cannot be stopped.  Without an active timer
    [handleStopTimer] does nothing at all.  With one, when the update is
    rejected, or accepted by a store that no longer holds the entry, the
    handler shows Failed to stop timer, writes nothing, and the page still
    shows the timer as active. *)
Theorem handleStopTimer_failure_keeps_timer (user : option User)
    (clock : TimeTrackingPage.Clock) (e : Handler.Env)
    (s : TimeTrackingPage.State) :
  (TimeTrackingPage.activeTimer s = None ->
   Timer.handleStopTimer user clock (e, s) = (Handler.Returned tt, (e, s))) /\
  (forall active,
      TimeTrackingPage.activeTimer s = Some active ->
      Spec.nextCallFails e \/
      Props.freshId (TimeTrackingPage.id active)
        (F.timeTracking (Handler.store e)) ->
      let r := Timer.handleStopTimer user clock (e, s) in
      fst r = Handler.Returned tt /\
      Handler.store (fst (snd r)) = Handler.store e /\
      Handler.toasts (fst (snd r))
      = Handler.toasts e ++ [Handler.ToastError "Failed to stop timer"] /\
      Handler.calls (fst (snd r))
      = Handler.calls e
        ++ [Handler.UpdateDoc "timeTracking" (TimeTrackingPage.id active)] /\
      snd (snd r) = s).
Proof.
  split.
  - intros H. unfold Timer.handleStopTimer. run_handler. rewrite H.
    reflexivity.
  - intros active H Hfail. unfold Timer.handleStopTimer. run_handler.
    rewrite H. destruct e as [db sc ts cs].
    destruct sc as [|[|newId] rest]; run_handler;
      [cbn; repeat split | cbn; repeat split |].
    destruct Hfail as [Hfail | Hfresh]; [destruct Hfail|].
    unfold Timer.updateDoc. cbn [Handler.store] in Hfresh.
    rewrite (@updateEntry_missing _ _ _ Hfresh). run_handler.
    cbn. repeat split.
Qed.

(* ================================================================= *)
(** ** The summary of the time-tracking page *)







(* ================================================================= *)
(** ** What the dashboard sees of the other pages' writes *)

Lemma dashboard_time_snoc u (docs : list F.TimeDoc) d :
  F.tt_date d = None ->
  filter (fun x => DashboardPage.onOrAfter u (F.tt_date x)) (docs ++ [d])
  = filter (fun x => DashboardPage.onOrAfter u (F.tt_date x)) docs.
Proof.
  intros H. rewrite filter_app. cbn [filter]. rewrite H. cbn.
  apply List.app_nil_r.
Qed.

Lemma sumHours_snoc clock u docs d :
  F.tt_date d = None ->
  DashboardPage.sumHours clock
    (F.getDocs (DashboardPage.timeTrackingQuery u) (docs ++ [d]))
  = DashboardPage.sumHours clock
      (F.getDocs (DashboardPage.timeTrackingQuery u) docs).
Proof.
  intros H. unfold DashboardPage.sumHours, F.getDocs.
  cbn [DashboardPage.timeTrackingQuery F.order F.limit].
  rewrite filter_app, filter_app. cbn [filter].
  destruct (F.matches _ d); cbn [filter]; rewrite ?H; cbn;
    now rewrite !List.app_nil_r.
Qed.

Lemma sumHours_update clock u docId f docs docs' :
  (forall d, F.tt_userId (f d) = F.tt_userId d /\
             F.tt_hours (f d) = F.tt_hours d /\
             F.tt_date (f d) = F.tt_date d) ->
  Timer.updateEntry docId f docs = Some docs' ->
  DashboardPage.sumHours clock
    (F.getDocs (DashboardPage.timeTrackingQuery u) docs')
  = DashboardPage.sumHours clock
      (F.getDocs (DashboardPage.timeTrackingQuery u) docs).
Proof.
  intros Hf. rewrite !sumHours_spec. intros H. do 2 f_equal.
  unfold Spec.loggedHours.
  revert docs' H. induction docs as [|d l IH]; intros docs' H;
    cbn [Timer.updateEntry] in H; [discriminate|].
  destruct (Hf d) as (Hu & Hh & Hd).
  assert (Hsame : Spec.loggedSince u (DashboardPage.startOfMonth clock) (f d)
                  = Spec.loggedSince u (DashboardPage.startOfMonth clock) d)
    by (unfold Spec.loggedSince; now rewrite Hu, Hd).
  destruct (String.eqb (F.tt_id d) docId).
  - injection H as <-. cbn [filter]. rewrite Hsame.
    destruct (Spec.loggedSince _ _ d); cbn [map]; now rewrite ?Hh.
  - destruct (Timer.updateEntry docId f l) as [r|]; [|discriminate].
    injection H as <-. cbn [filter]. specialize (IH r eq_refl).
    destruct (Spec.loggedSince _ _ d); cbn [map]; now rewrite IH.
Qed.

Lemma runTime_hours op user clock e s dclock u :
  let r := Props.runTime op user clock (e, s) in
  DashboardPage.sumHours dclock
    (F.getDocs (DashboardPage.timeTrackingQuery u)
       (F.timeTracking (Handler.store (fst (snd r)))))
  = DashboardPage.sumHours dclock
      (F.getDocs (DashboardPage.timeTrackingQuery u)
         (F.timeTracking (Handler.store e))).
Proof.
  destruct e as [db sc ts cs]. destruct op as [values|taskId|];
    cbn [Props.runTime]; cbv zeta.
  - unfold TimeTrackingPage.handleAddEntry. run_handler.
    destruct (_ <=? 0)%Z; [reflexivity|].
    destruct user as [u0|]; [destruct sc as [|[|newId] rest]|];
      run_handler; unfold TimeTrackingPage.addDoc; run_handler;
      try after_fetch_entries; cbn [fst snd Handler.store F.timeTracking
                                      F.setTimeTracking];
      try reflexivity; now apply sumHours_snoc.
  - unfold Timer.showTimerModal_onOk.
    destruct taskId as [|ch taskId']; [reflexivity|]. run_handler.
    destruct (find _ _) as [task|]; [|reflexivity].
    destruct user as [u0|];
      [destruct (TimeTrackingPage.task_clientId task) as [cl|];
       [destruct sc as [|[|newId] rest]|]|];
      run_handler; unfold TimeTrackingPage.addDoc; run_handler;
      try after_fetch_entries; cbn [fst snd Handler.store F.timeTracking
                                      F.setTimeTracking];
      try reflexivity; now apply sumHours_snoc.
  - unfold Timer.handleStopTimer. run_handler.
    destruct (TimeTrackingPage.activeTimer s) as [active|]; [|reflexivity].
    destruct sc as [|[|newId] rest]; run_handler; try reflexivity.
    unfold Timer.updateDoc.
    destruct (Timer.updateEntry _ _ _) as [l|] eqn:Hu; run_handler;
      [|reflexivity].
    after_fetch_entries; cbn [fst snd Handler.store F.timeTracking
                                F.setTimeTracking];
      (eapply sumHours_update; [|exact Hu]; intros d; cbn; auto).
Qed.

(** X14: the hours on the dashboard do not see the time-tracking page.
    Adding a manual entry, starting a timer and stopping it write [startTime],
    [endTime] and [duration] but neither [hours] nor [date], the fields the
    dashboard sums and filters by: whatever these handlers do, for whichever
    user, the hours tracked that a dashboard then shows, for any user and
    any month, are those it would have shown before. *)
Theorem dashboard_hours_ignore_tracked_time (op : Props.TimeOperation)
    (user : option User) (clock : TimeTrackingPage.Clock)
    (e : Handler.Env) (s : TimeTrackingPage.State)
    (u : User) (dclock : DashboardPage.Clock) (ds : DashboardPage.State) :
  let r := Props.runTime op user clock (e, s) in
  DashboardPage.hoursTracked
    (Props.dashboardOver u dclock ds (Handler.store (fst (snd r))))
  = DashboardPage.hoursTracked
      (Props.dashboardOver u dclock ds (Handler.store e)).
Proof.
  intros r. unfold Props.dashboardOver.
  rewrite !(fun db =>
              @fetchDashboardData_stats u dclock
                (Props.accepting db ["q1"; "q2"; "q3"; "q4"; "q5"; "q6"]%string)
                ds "q1" "q2" "q3" "q4"
                [Handler.Accepts "q5"; Handler.Accepts "q6"] eq_refl).
  cbn [DashboardPage.hoursTracked Handler.store Props.accepting].
  unfold r. now rewrite runTime_hours.
Qed.

Lemma formStatuses_not_pending status :
  In status Props.formStatuses -> String.eqb status "unpaid" = false.
Proof.
  intros [<- | [<- | [<- | []]]]; reflexivity.
Qed.

Lemma pending_snoc u docs d :
  String.eqb (F.i_status d) "unpaid" = false ->
  F.getDocs (DashboardPage.pendingInvoicesQuery u) (docs ++ [d])
  = F.getDocs (DashboardPage.pendingInvoicesQuery u) docs.
Proof.
  intros H.
  assert (Hm : F.matches (DashboardPage.pendingInvoicesQuery u) d = false).
  { unfold F.matches. cbn. rewrite H. apply andb_false_r. }
  unfold F.getDocs.
  cbn [DashboardPage.pendingInvoicesQuery F.order F.limit].
  fold (DashboardPage.pendingInvoicesQuery u).
  rewrite filter_app. cbn [filter]. rewrite Hm.
  apply List.app_nil_r.
Qed.

Lemma handleStatusUpdate_store user invoice newStatus e s d :
  let r := InvoicesPage.handleStatusUpdate user invoice newStatus (e, s) in
  In d (F.invoices (Handler.store (fst (snd r)))) ->
  In d (F.invoices (Handler.store e)) \/
  exists d0, d = InvoicesPage.setStatus newStatus d0.
Proof.
  unfold InvoicesPage.handleStatusUpdate.
  destruct user as [u|]; [|cbn; auto].
  destruct (negb (String.eqb (InvoicesPage.userId invoice) (uid u)));
    [cbn; auto|].
  destruct e as [db sc ts cs]. destruct sc as [|[|newId] rest]; run_handler;
    [cbn; auto | cbn; auto |].
  unfold InvoicesPage.updateDoc.
  destruct (F.updateInvoice _ _ _) as [l|] eqn:Hu; run_handler;
    [|cbn; auto].
  after_fetch; cbn; intros Hd;
    (destruct (@updateInvoice_In _ _ _ _ _ Hu Hd) as [Hin | (d0 & _ & ->)];
     [now left|right; now exists d0]).
Qed.

(** X15: the pending invoices on the dashboard do not see the invoices page.
    The dashboard counts the invoices whose status is unpaid, in small
    letters; the form and the status column of the invoices page write Paid,
    Unpaid or Overdue.  So no document that [handleSubmit] or
    [handleStatusUpdate] writes with one of these statuses is counted, and
    creating an invoice leaves the number and the amount of the pending
    invoices on any dashboard as they were. *)
Theorem dashboard_pending_ignores_page_invoices (status : string)
    (user : option User) (e : Handler.Env) (s : InvoicesPage.State) :
  In status Props.formStatuses ->
  (forall now values d,
      InvoicesPage.v_status values = status ->
      let r := InvoicesPage.handleSubmit user now values (e, s) in
      In d (F.invoices (Handler.store (fst (snd r)))) ->
      ~ In d (F.invoices (Handler.store e)) ->
      forall u, F.matches (DashboardPage.pendingInvoicesQuery u) d = false) /\
  (forall invoice d,
      let r := InvoicesPage.handleStatusUpdate user invoice status (e, s) in
      In d (F.invoices (Handler.store (fst (snd r)))) ->
      ~ In d (F.invoices (Handler.store e)) ->
      forall u, F.matches (DashboardPage.pendingInvoicesQuery u) d = false) /\
  (forall now values u dclock ds,
      InvoicesPage.v_status values = status ->
      InvoicesPage.editingInvoice s = None ->
      let r := InvoicesPage.handleSubmit user now values (e, s) in
      let before := Props.dashboardOver u dclock ds (Handler.store e) in
      let after :=
        Props.dashboardOver u dclock ds (Handler.store (fst (snd r))) in
      DashboardPage.pendingInvoices after
      = DashboardPage.pendingInvoices before /\
      DashboardPage.pendingInvoicesAmount after
      = DashboardPage.pendingInvoicesAmount before).
Proof.
  intros Hst. apply formStatuses_not_pending in Hst.
  split; [|split].
  - intros now values d Hv r Hd Hnew u.
    destruct (handleSubmit_store user now values e s d Hd)
      as [Hold | (u0 & docId & _ & ->)]; [contradiction|].
    unfold F.matches. cbn. rewrite Hv, Hst. apply andb_false_r.
  - intros invoice d r Hd Hnew u.
    destruct (handleStatusUpdate_store user invoice status e s d Hd)
      as [Hold | (d0 & ->)]; [contradiction|].
    unfold F.matches. cbn. rewrite Hst. apply andb_false_r.
  - intros now values u dclock ds Hv He r before after.
    assert (Hsame :
              F.getDocs (DashboardPage.pendingInvoicesQuery (uid u))
                (F.invoices (Handler.store (fst (snd r))))
              = F.getDocs (DashboardPage.pendingInvoicesQuery (uid u))
                  (F.invoices (Handler.store e))).
    { unfold r. destruct user as [u0|]; [|reflexivity].
      destruct e as [db sc ts cs]. destruct sc as [|[|newId] rest].
      - unfold InvoicesPage.handleSubmit. run_handler.
        cbn [InvoicesPage.editingInvoice InvoicesPage.setIsLoading].
        rewrite He. run_handler. reflexivity.
      - unfold InvoicesPage.handleSubmit. run_handler.
        cbn [InvoicesPage.editingInvoice InvoicesPage.setIsLoading].
        rewrite He. run_handler. reflexivity.
      - erewrite handleSubmit_adds by (exact He || reflexivity).
        cbn [Handler.store]. apply pending_snoc. cbn. now rewrite Hv. }
    unfold before, after, Props.dashboardOver.
    rewrite !(fun db =>
                @fetchDashboardData_stats u dclock
                  (Props.accepting db
                     ["q1"; "q2"; "q3"; "q4"; "q5"; "q6"]%string)
                  ds "q1" "q2" "q3" "q4"
                  [Handler.Accepts "q5"; Handler.Accepts "q6"] eq_refl).
    cbn [DashboardPage.pendingInvoices DashboardPage.pendingInvoicesAmount
           Handler.store Props.accepting].
    now rewrite Hsame.
Qed.

(** X15 at an input: alice creates an invoice with the status Unpaid over
    the sample store; her dashboard shows the same pending figures. *)
Lemma dashboard_pending_ignores_page_invoices_witness :
  let r := InvoicesPage.handleSubmit (Some Sample.alice) 1700000000000
             Sample.formValues (Sample.busy 2, Sample.invoicesPage) in
  let before :=
    Props.dashboardOver Sample.alice Sample.dashboardClock
      Sample.dashboardPage (Handler.store (Sample.busy 2)) in
  let after :=
    Props.dashboardOver Sample.alice Sample.dashboardClock
      Sample.dashboardPage (Handler.store (fst (snd r))) in
  DashboardPage.pendingInvoices after = DashboardPage.pendingInvoices before /\
  DashboardPage.pendingInvoicesAmount after
  = DashboardPage.pendingInvoicesAmount before.
Proof.
  refine (proj2 (proj2
            (@dashboard_pending_ignores_page_invoices "Unpaid"
               (Some Sample.alice) (Sample.busy 2) Sample.invoicesPage _))
            1700000000000%Z Sample.formValues Sample.alice
            Sample.dashboardClock Sample.dashboardPage eq_refl eq_refl).
  simpl. auto.
Defined.

(* ================================================================= *)
(** ** The dashboard: failures, projects and activities *)

(** X16: the dashboard fails silently and in part.  Whatever the store
    answers, [fetchDashboardData] returns normally, shows no notification,
    writes nothing and ends with the loading flag cleared.  When one of the
    first four queries fails, figures, projects and activities stay as they
    were; when the fifth fails, the figures are the new ones while projects
    and activities stay; when the sixth fails, figures and projects are new
    and the activities stay. *)
Theorem fetchDashboardData_silent_and_partial (u : User)
    (clock : DashboardPage.Clock) (e : Handler.Env)
    (s : DashboardPage.State) :
  let r := DashboardPage.fetchDashboardData u clock (e, s) in
  let s' := snd (snd r) in
  (fst r = Handler.Returned tt /\
   Handler.store (fst (snd r)) = Handler.store e /\
   Handler.toasts (fst (snd r)) = Handler.toasts e /\
   DashboardPage.loading s' = false) /\
  (forall n,
      n < 4 -> Props.failsAfter n (Handler.script e) ->
      DashboardPage.stats s' = DashboardPage.stats s /\
      DashboardPage.activeProjects s' = DashboardPage.activeProjects s /\
      DashboardPage.recentActivities s' = DashboardPage.recentActivities s) /\
  (Props.failsAfter 4 (Handler.script e) ->
   DashboardPage.stats s' = Props.dashboardOver u clock s (Handler.store e) /\
   DashboardPage.activeProjects s' = DashboardPage.activeProjects s /\
   DashboardPage.recentActivities s' = DashboardPage.recentActivities s) /\
  (Props.failsAfter 5 (Handler.script e) ->
   DashboardPage.stats s' = Props.dashboardOver u clock s (Handler.store e) /\
   DashboardPage.activeProjects s'
   = map (DashboardPage.toProject clock
            (DashboardPage.clientsMap
               (F.getDocs (DashboardPage.clientsQuery (uid u))
                  (F.clients (Handler.store e)))))
       (F.getDocs (DashboardPage.projectsQuery (uid u))
          (F.tasks (Handler.store e))) /\
   DashboardPage.recentActivities s' = DashboardPage.recentActivities s).
Proof.
  intros r s'. unfold s', r. clear r s'. destruct e as [db sc ts cs].
  cbn [Handler.store Handler.script Handler.toasts].
  split; [|split; [|split]].
  - destruct sc as [|[|i1] [|[|i2] [|[|i3] [|[|i4] [|[|i5] [|[|i6] sc]]]]]];
      unfold DashboardPage.fetchDashboardData; run_handler; cbn;
      repeat split.
  - intros n Hn (ids & tail & Hs & Hl & Ht).
    destruct ids as [|i1 [|i2 [|i3 [|i4 ids]]]]; cbn in Hl; try lia;
      cbn in Hs; subst sc; destruct tail as [|[|x] tail];
      try contradiction;
      unfold DashboardPage.fetchDashboardData; run_handler; cbn;
      repeat split.
  - intros (ids & tail & Hs & Hl & Ht).
    destruct ids as [|i1 [|i2 [|i3 [|i4 [|i5 ids]]]]]; cbn in Hl; try lia.
    cbn in Hs; subst sc; destruct tail as [|[|x] tail];
      try contradiction;
      unfold Props.dashboardOver, DashboardPage.fetchDashboardData;
      run_handler; cbn; repeat split.
  - intros (ids & tail & Hs & Hl & Ht).
    destruct ids as [|i1 [|i2 [|i3 [|i4 [|i5 [|i6 ids]]]]]]; cbn in Hl;
      try lia.
    cbn in Hs; subst sc; destruct tail as [|[|x] tail];
      try contradiction;
      unfold Props.dashboardOver, DashboardPage.fetchDashboardData;
      run_handler; cbn; repeat split.
Qed.

Lemma leb_trans (x y z : string) :
  String.leb x y = true -> String.leb y z = true -> String.leb x z = true.
Proof.
  unfold String.leb.
  assert (H : forall a b c,
             String.compare a b <> Gt -> String.compare b c <> Gt ->
             String.compare a c <> Gt).
  { induction a as [|ca a IH]; intros [|cb b] [|cc c]; simpl; try congruence.
    unfold Ascii.compare.
    destruct (N.compare_spec (N_of_ascii ca) (N_of_ascii cb)) as [E1|L1|G1];
      destruct (N.compare_spec (N_of_ascii cb) (N_of_ascii cc)) as [E2|L2|G2];
      try congruence; intros H1 H2.
    - rewrite E1, E2, N.compare_refl. now apply IH with b.
    - rewrite E1. now rewrite (proj2 (N.compare_lt_iff _ _) L2).
    - rewrite <- E2. now rewrite (proj2 (N.compare_lt_iff _ _) L1).
    - assert (L : (N_of_ascii ca < N_of_ascii cc)%N) by lia.
      now rewrite (proj2 (N.compare_lt_iff _ _) L). }
  intros H1 H2. specialize (H x y z).
  destruct (String.compare x y); [| |discriminate];
    destruct (String.compare y z); try discriminate;
    destruct (String.compare x z); try reflexivity;
    exfalso; apply H; congruence.
Qed.

Lemma clientsMap_from docs m k v :
  Dict.get k
    (fold_left
       (fun m d =>
          Dict.upsert (F.c_id d)
            (fun _ => JS.orString (F.c_name d) "Unknown") m) docs m)
  = Some v ->
  Dict.get k m = Some v \/
  exists d, In d docs /\ F.c_id d = k /\
            v = JS.orString (F.c_name d) "Unknown".
Proof.
  revert m. induction docs as [|d docs IH]; intros m; cbn [fold_left];
    [now left|].
  intros H. apply IH in H. destruct H as [H | (d0 & Hd0 & Hk & Hv)].
  - rewrite get_upsert in H. destruct (String.eqb k (F.c_id d)) eqn:E.
    + right. exists d. apply String.eqb_eq in E.
      injection H as <-. split; [now left|]. split; [now symmetry|reflexivity].
    + now left.
  - right. exists d0. split; [now right|]. now split.
Qed.

Lemma StronglySorted_app_inv (A : Type) (R : A -> A -> Prop) l1 l2 :
  StronglySorted R (l1 ++ l2) ->
  forall x y, In x l1 -> In y l2 -> R x y.
Proof.
  induction l1 as [|a l1 IH]; simpl; intros H x y Hx Hy; [contradiction|].
  apply StronglySorted_inv in H. destruct H as [Hs Hf].
  destruct Hx as [<- | Hx]; [|now apply IH].
  rewrite Forall_forall in Hf. apply Hf. apply in_or_app. now right.
Qed.

Lemma fetchDashboardData_lists u clock e s i1 i2 i3 i4 i5 i6 rest :
  Handler.script e
  = Handler.Accepts i1 :: Handler.Accepts i2 :: Handler.Accepts i3
    :: Handler.Accepts i4 :: Handler.Accepts i5 :: Handler.Accepts i6
    :: rest ->
  let s' := snd (snd (DashboardPage.fetchDashboardData u clock (e, s))) in
  DashboardPage.activeProjects s'
  = map (DashboardPage.toProject clock
           (DashboardPage.clientsMap
              (F.getDocs (DashboardPage.clientsQuery (uid u))
                 (F.clients (Handler.store e)))))
      (F.getDocs (DashboardPage.projectsQuery (uid u))
         (F.tasks (Handler.store e))) /\
  DashboardPage.recentActivities s'
  = map (DashboardPage.toActivity clock)
      (F.getDocs (DashboardPage.activitiesQuery (uid u))
         (F.activityLogs (Handler.store e))).
Proof.
  intros H. accept_case e H.
  unfold DashboardPage.fetchDashboardData. run_handler. cbn. split; reflexivity.
Qed.

Lemma getDocs_limit (D : Type) (q : F.Query D) coll n :
  F.limit q = Some n -> List.length (F.getDocs q coll) <= n.
Proof.
  intros H. unfold F.getDocs. rewrite H. rewrite length_firstn. lia.
Qed.

Lemma activitiesQuery_matches u d :
  F.matches (DashboardPage.activitiesQuery u) d = true
  <-> F.a_userId d = u /\ F.a_timestamp d <> None.
Proof.
  unfold F.matches. simpl. rewrite andb_true_r, andb_true_iff, String.eqb_eq.
  destruct (F.a_timestamp d); simpl; intuition congruence.
Qed.

Lemma projectsQuery_matches u d :
  F.matches (DashboardPage.projectsQuery (uid u)) d = true
  <-> Props.openTaskOf u d.
Proof.
  unfold F.matches, Props.openTaskOf. simpl.
  rewrite andb_true_r, !andb_true_iff, String.eqb_eq.
  destruct (F.t_status d) as [st|], (F.t_dueDate d) as [due|]; simpl.
  - rewrite negb_true_iff, String.eqb_neq. split.
    + intros (Hu & Hs & _). repeat split; [exact Hu|eauto|discriminate].
    + intros (Hu & (st' & [= <-] & Hs) & _). auto.
  - split; [intros (_ & _ & H); discriminate|].
    intros (_ & _ & H). congruence.
  - split; [intros (_ & H & _); discriminate|].
    intros (_ & (st' & H & _) & _). discriminate.
  - split; [intros (_ & H & _); discriminate|].
    intros (_ & (st' & H & _) & _). discriminate.
Qed.

Lemma activitiesQuery_sorted u coll :
  exists shown hidden,
    F.getDocs (DashboardPage.activitiesQuery u) coll = shown /\
    Permutation (shown ++ hidden)
      (filter (F.matches (DashboardPage.activitiesQuery u)) coll) /\
    forall a d, In a shown -> In d hidden -> Props.noLater d a.
Proof.
  unfold F.getDocs. cbn [DashboardPage.activitiesQuery F.order F.limit].
  fold (DashboardPage.activitiesQuery u).
  set (le := fun a b => F.optStringLeb (F.a_timestamp b) (F.a_timestamp a)).
  set (hits := filter (F.matches (DashboardPage.activitiesQuery u)) coll).
  exists (firstn 5 (F.sortBy le hits)), (skipn 5 (F.sortBy le hits)).
  split; [reflexivity|]. split.
  - rewrite firstn_skipn. apply sortBy_perm.
  - assert (HP : Forall (fun d => F.a_timestamp d <> None) hits).
    { apply Forall_forall. intros d Hd. apply filter_In in Hd.
      destruct Hd as [_ Hm]. now apply activitiesQuery_matches in Hm. }
    assert (Hsorted : StronglySorted (fun a b => le a b = true)
                        (F.sortBy le hits)).
    { apply (@sortBy_strongly_sorted _ le
               (fun d => F.a_timestamp d <> None)); [| |exact HP].
      - intros x y Hx Hy. unfold le.
        destruct (F.a_timestamp x) as [tx|]; [|congruence].
        destruct (F.a_timestamp y) as [ty|]; [|congruence].
        simpl. intros H. destruct (String.leb_total tx ty); congruence.
      - intros x y z Hx Hy Hz. unfold le.
        destruct (F.a_timestamp x) as [tx|]; [|congruence].
        destruct (F.a_timestamp y) as [ty|]; [|congruence].
        destruct (F.a_timestamp z) as [tz|]; [|congruence].
        simpl. intros H1 H2. now apply leb_trans with ty. }
    rewrite <- (firstn_skipn 5 (F.sortBy le hits)) in Hsorted.
    intros a d Ha Hd.
    assert (Hle := @StronglySorted_app_inv _ _ _ _ Hsorted a d Ha Hd).
    assert (Hin : forall x, In x (F.sortBy le hits) ->
                            F.a_timestamp x <> None).
    { intros x Hx. apply (Permutation_in _ (sortBy_perm _ _)) in Hx.
      rewrite Forall_forall in HP. now apply HP. }
    assert (Ha' : F.a_timestamp a <> None).
    { apply Hin. rewrite <- (firstn_skipn 5). apply in_or_app. now left. }
    assert (Hd' : F.a_timestamp d <> None).
    { apply Hin. rewrite <- (firstn_skipn 5). apply in_or_app. now right. }
    unfold Props.noLater. unfold le in Hle.
    destruct (F.a_timestamp a) as [ta|]; [|congruence].
    destruct (F.a_timestamp d) as [td|]; [|congruence].
    exact Hle.
Qed.

(** X17: what the dashboard lists once its six queries have come back.  At
    most four projects are shown; each comes from a task of the user whose
    status is present and not completed and that has a due date, and the
    client name shown with it is the name of one of the user's own clients
    with the task's client id, or a fallback.  At most five activities are
    shown, each from an activity of the user with a time stamp; these are the
    most recent ones: the user's activities with a time stamp are the shown
    ones and others that are no later than any shown one. *)
Theorem dashboard_lists_own_open_and_recent (u : User)
    (clock : DashboardPage.Clock) (e : Handler.Env)
    (s : DashboardPage.State) (i1 i2 i3 i4 i5 i6 : string)
    (rest : list Handler.Reply) :
  Handler.script e
  = Handler.Accepts i1 :: Handler.Accepts i2 :: Handler.Accepts i3
    :: Handler.Accepts i4 :: Handler.Accepts i5 :: Handler.Accepts i6
    :: rest ->
  let s' := snd (snd (DashboardPage.fetchDashboardData u clock (e, s))) in
  let db := Handler.store e in
  (List.length (DashboardPage.activeProjects s') <= 4 /\
   forall p,
     In p (DashboardPage.activeProjects s') ->
     DashboardPage.userId p = uid u /\
     DashboardPage.status p <> "completed"%string /\
     (exists d,
         In d (F.tasks db) /\ Props.openTaskOf u d /\
         DashboardPage.id p = F.t_id d) /\
     (DashboardPage.clientName p = "Unknown Client"%string \/
      DashboardPage.clientName p = "Unknown"%string \/
      exists c,
        In c (F.clients db) /\ F.c_userId c = uid u /\
        F.c_id c = DashboardPage.clientId p /\
        F.c_name c = Some (DashboardPage.clientName p))) /\
  (List.length (DashboardPage.recentActivities s') <= 5 /\
   exists shown hidden,
     DashboardPage.recentActivities s'
     = map (DashboardPage.toActivity clock) shown /\
     Permutation (shown ++ hidden)
       (filter (fun d => String.eqb (F.a_userId d) (uid u)
                         && DashboardPage.isSome (F.a_timestamp d))
          (F.activityLogs db)) /\
     forall a d, In a shown -> In d hidden -> Props.noLater d a).
Proof.
  intros H s' db.
  destruct (fetchDashboardData_lists u clock e s H) as [Hp Ha].
  fold s' in Hp, Ha. fold db in Hp, Ha. split.
  - rewrite Hp. split.
    + rewrite length_map. now apply getDocs_limit.
    + intros p Hin. apply in_map_iff in Hin. destruct Hin as (d & <- & Hd).
      apply getDocs_incl in Hd. destruct Hd as [Hd Hm].
      apply projectsQuery_matches in Hm.
      destruct Hm as (Hu & (st & Hst & Hne) & Hdue).
      split; [|split; [|split]].
      * cbn. rewrite Hu. now destruct (uid u).
      * cbn. rewrite Hst. destruct st; [discriminate|exact Hne].
      * exists d. split; [exact Hd|]. split; [|reflexivity].
        repeat split; eauto.
      * cbn [DashboardPage.clientName DashboardPage.clientId
               DashboardPage.toProject].
        destruct (F.t_clientId d) as [cid|]; [|now left].
        destruct (Dict.get cid _) as [name|] eqn:Hg; [|now left].
        unfold DashboardPage.clientsMap in Hg.
        apply clientsMap_from in Hg.
        destruct Hg as [Hg | (c & Hc & Hid & ->)]; [discriminate|].
        apply getDocs_In in Hc; [|reflexivity]. destruct Hc as [Hc Hm].
        unfold F.matches in Hm. simpl in Hm. rewrite andb_true_r in Hm.
        apply String.eqb_eq in Hm.
        assert (Hcid : JS.orString (Some cid) "" = cid) by now destruct cid.
        rewrite Hcid.
        destruct (F.c_name c) as [[|ch nm]|] eqn:Hn; cbn.
        -- right. now left.
        -- right. right. exists c. repeat split; assumption.
        -- right. now left.
  - rewrite Ha. split.
    + rewrite length_map. now apply getDocs_limit.
    + destruct (activitiesQuery_sorted (uid u) (F.activityLogs db))
        as (shown & hidden & Hshown & Hperm & Hlate).
      exists shown, hidden. rewrite Hshown. split; [reflexivity|].
      split; [|exact Hlate].
      rewrite Hperm. erewrite filter_ext; [reflexivity|].
      intros d. unfold F.matches. simpl. now rewrite andb_true_r.
Qed.

Lemma dashboard_lists_own_open_and_recent_witness :
  let s' :=
    snd (snd (DashboardPage.fetchDashboardData Sample.alice
                Sample.dashboardClock
                (Cases.portfolioOnline, Sample.dashboardPage))) in
  map DashboardPage.id (DashboardPage.activeProjects s')
  = ["t6"; "t1"]%string /\
  map DashboardPage.activity_id (DashboardPage.recentActivities s')
  = ["a2"; "a8"; "a6"; "a4"; "a7"]%string /\
  List.length (DashboardPage.activeProjects s') <= 4.
Proof.
  split; [vm_compute; reflexivity|]. split; [vm_compute; reflexivity|].
  exact (proj1 (proj1
    (@dashboard_lists_own_open_and_recent Sample.alice Sample.dashboardClock
       Cases.portfolioOnline Sample.dashboardPage "q" "q" "q" "q" "q" "q" []
       eq_refl))).
Defined.

(* ================================================================= *)
(** ** Durations as text *)

Lemma String_ofZ_digits n :
  (0 <= n)%Z ->
  Spec.allDigits (JS.String_ofZ n) = true /\ JS.String_ofZ n <> EmptyString.
Proof.
  intros H. destruct n as [|p|p]; [split; [reflexivity|discriminate]| |lia].
  rewrite String_ofZ_pos. split; [apply allDigits_uint|].
  apply string_of_uint_nonempty, DecimalPos.Unsigned.to_uint_nonnil.
Qed.

Lemma padStart_digits k n :
  (0 <= n)%Z -> Spec.allDigits (JS.padStart k "0" (JS.String_ofZ n)) = true.
Proof.
  intros H. unfold JS.padStart. rewrite allDigits_app, allDigits_zeros.
  now apply String_ofZ_digits.
Qed.

Lemma parseInt_padded_nonneg k n :
  (0 <= n)%Z -> JS.parseInt (JS.padStart k "0" (JS.String_ofZ n)) = Some n.
Proof.
  intros H. destruct n as [|p|p]; [|apply parseInt_padded|lia].
  rewrite parseInt_digits by now apply padStart_digits.
  unfold JS.padStart. rewrite parseDigits_padded; [reflexivity|discriminate|].
  reflexivity.
Qed.

Lemma allDigits_lacks c s :
  Spec.isDigit c = false -> Spec.allDigits s = true -> Spec.lacks c s = true.
Proof.
  intros Hc. induction s as [|a s IH]; simpl; [reflexivity|].
  intros H. apply andb_true_iff in H. destruct H as [Ha Hs].
  rewrite (IH Hs), andb_true_r. apply negb_true_iff.
  destruct (Ascii.eqb_spec a c) as [-> | Hne]; [congruence|reflexivity].
Qed.

Lemma short_numbers n :
  (0 <= n < 100)%Z -> String.length (JS.String_ofZ n) <= 2.
Proof.
  intros H.
  assert (Hall : forallb
                   (fun k => String.length (JS.String_ofZ (Z.of_nat k)) <=? 2)
                   (seq 0 100) = true)
    by (vm_compute; reflexivity).
  rewrite forallb_forall in Hall.
  specialize (Hall (Z.to_nat n)). rewrite Z2Nat.id in Hall by lia.
  apply Nat.leb_le, Hall, in_seq. lia.
Qed.

Lemma formatElapsedTime_parts seconds :
  (0 <= seconds)%Z ->
  let hh := JS.padStart 2 "0" (JS.String_ofZ (seconds / 3600)) in
  let mm := JS.padStart 2 "0" (JS.String_ofZ (seconds mod 3600 / 60)) in
  let ss := JS.padStart 2 "0" (JS.String_ofZ (seconds mod 60)) in
  Timer.formatElapsedTime seconds
  = String.append hh (String ":" (String.append mm (String ":" ss))) /\
  JS.split ":" (Timer.formatElapsedTime seconds) = [hh; mm; ss].
Proof.
  intros H hh mm ss.
  assert (E : Timer.formatElapsedTime seconds
              = String.append hh
                  (String ":" (String.append mm (String ":" ss)))).
  { unfold Timer.formatElapsedTime, hh, mm, ss.
    rewrite !Z.rem_mod_nonneg by lia. reflexivity. }
  split; [exact E|]. rewrite E.
  assert (Hh : Spec.lacks ":" hh = true).
  { apply allDigits_lacks; [reflexivity|]. apply padStart_digits.
    apply Z.div_pos; lia. }
  assert (Hm : Spec.lacks ":" mm = true).
  { apply allDigits_lacks; [reflexivity|]. apply padStart_digits.
    apply Z.div_pos; [|lia]. apply Z.mod_pos_bound. lia. }
  assert (Hs : Spec.lacks ":" ss = true).
  { apply allDigits_lacks; [reflexivity|]. apply padStart_digits.
    apply Z.mod_pos_bound. lia. }
  rewrite (split_app _ _ _ Hh), (split_app _ _ _ Hm), (split_lacks _ _ Hs).
  reflexivity.
Qed.

(** X18: the elapsed time shown for a running timer reads back.  For a
    number of seconds that is not negative, [formatElapsedTime] gives three
    runs of digits separated by colons; read as numbers they are the hours,
    the minutes below sixty and the seconds below sixty that add up to the
    input.  Below a hundred hours the text has exactly eight characters, and
    two different inputs never give the same text. *)
Theorem formatElapsedTime_reads_back (seconds : Z) :
  (0 <= seconds)%Z ->
  let h := (seconds / 3600)%Z in
  let m := (seconds mod 3600 / 60)%Z in
  let s := (seconds mod 60)%Z in
  map JS.parseInt (JS.split ":" (Timer.formatElapsedTime seconds))
  = [Some h; Some m; Some s] /\
  (seconds = 3600 * h + 60 * m + s)%Z /\
  (0 <= h)%Z /\ (0 <= m < 60)%Z /\ (0 <= s < 60)%Z /\
  ((seconds < 360000)%Z ->
   String.length (Timer.formatElapsedTime seconds) = 8) /\
  (forall other,
      (0 <= other)%Z ->
      Timer.formatElapsedTime other = Timer.formatElapsedTime seconds ->
      other = seconds).
Proof.
  intros H h m s.
  assert (Hh : (0 <= h)%Z) by (apply Z.div_pos; lia).
  assert (Hm : (0 <= m < 60)%Z).
  { unfold m. assert (0 <= seconds mod 3600 < 3600)%Z
      by (apply Z.mod_pos_bound; lia).
    split; [apply Z.div_pos; lia|]. apply Z.div_lt_upper_bound; lia. }
  assert (Hs : (0 <= s < 60)%Z) by (apply Z.mod_pos_bound; lia).
  assert (Hsum : (seconds = 3600 * h + 60 * m + s)%Z).
  { unfold h, m, s.
    assert (E1 := Z.div_mod seconds 3600).
    assert (E2 := Z.div_mod (seconds mod 3600) 60).
    assert (E3 : ((seconds mod 3600) mod 60 = seconds mod 60)%Z).
    { apply Z.mod_mod_divide. exists 60%Z. reflexivity. }
    lia. }
  assert (Hread : forall n,
             (0 <= n)%Z ->
             map JS.parseInt (JS.split ":" (Timer.formatElapsedTime n))
             = [Some (n / 3600)%Z; Some (n mod 3600 / 60)%Z;
                Some (n mod 60)%Z]).
  { intros n Hn. destruct (formatElapsedTime_parts Hn) as [_ ->].
    cbn [map].
    assert (0 <= n mod 3600 < 3600)%Z by (apply Z.mod_pos_bound; lia).
    rewrite !parseInt_padded_nonneg; [reflexivity| | |].
    - apply Z.mod_pos_bound. lia.
    - apply Z.div_pos; lia.
    - apply Z.div_pos; lia. }
  split; [now apply Hread|].
  split; [exact Hsum|]. split; [exact Hh|]. split; [exact Hm|].
  split; [exact Hs|]. split.
  - intros Hlt. destruct (formatElapsedTime_parts H) as [-> _].
    assert (Hh2 : (0 <= seconds / 3600 < 100)%Z).
    { split; [exact Hh|]. apply Z.div_lt_upper_bound; lia. }
    rewrite append_length. cbn [String.length]. rewrite append_length.
    cbn [String.length]. rewrite !padStart_length.
    assert (L1 := short_numbers Hh2).
    assert (L2 := @short_numbers (seconds mod 3600 / 60) ltac:(fold m; lia)).
    assert (L3 := @short_numbers (seconds mod 60) ltac:(fold s; lia)).
    lia.
  - intros other Ho Heq.
    assert (E := Hread other Ho). rewrite Heq, (Hread seconds H) in E.
    injection E as E1 E2 E3.
    assert (E4 := Z.div_mod other 3600).
    assert (E5 := Z.div_mod (other mod 3600) 60).
    assert (E6 : ((other mod 3600) mod 60 = other mod 60)%Z).
    { apply Z.mod_mod_divide. exists 60%Z. reflexivity. }
    fold h m s in E1, E2, E3. lia.
Qed.

(** X18 at an input: one hour, one minute and five seconds. *)
Lemma formatElapsedTime_reads_back_witness :
  Timer.formatElapsedTime 3665 = "01:01:05"%string /\
  map JS.parseInt (JS.split ":" (Timer.formatElapsedTime 3665))
  = [Some 1%Z; Some 1%Z; Some 5%Z].
Proof.
  split; [reflexivity|].
  refine (proj1 (@formatElapsedTime_reads_back 3665 _)). lia.
Defined.

Lemma parseDigits_stop s c t acc :
  Spec.allDigits s = true -> JS.digitValue 10 c = None ->
  JS.parseDigits 10 (String.append s (String c t)) acc
  = JS.parseDigits 10 s acc.
Proof.
  intros Hs Hc. revert acc. induction s as [|a s IH]; intros acc.
  - cbn [String.append JS.parseDigits]. now rewrite Hc.
  - simpl in Hs. apply andb_true_iff in Hs. destruct Hs as [Ha Hs].
    destruct (isDigit_cases a Ha) as (_ & _ & _ & _ & _ & v & Hv).
    cbn [String.append JS.parseDigits]. rewrite Hv. now apply IH.
Qed.

Lemma parseInt_number_then n c t :
  (0 <= n)%Z -> JS.digitValue 10 c = None ->
  Ascii.eqb c "x" = false -> Ascii.eqb c "X" = false ->
  JS.parseInt (String.append (JS.String_ofZ n) (String c t)) = Some n.
Proof.
  intros Hn Hc Hx HX.
  destruct (String_ofZ_digits Hn) as [Hd Hne].
  assert (Hval : JS.parseDigits 10 (JS.String_ofZ n) None = Some (Z.to_N n)).
  { destruct n as [|p|p]; [reflexivity| |lia].
    rewrite String_ofZ_pos in Hd, Hne |- *.
    change (JS.parseDigits 10 (NilEmpty.string_of_uint (Pos.to_uint p)) None)
      with (JS.parseDigits 10
              (String.append (JS.repeat "0" 0)
                 (NilEmpty.string_of_uint (Pos.to_uint p))) None).
    rewrite parseDigits_padded by assumption.
    rewrite parseDigits_uint, uintValue_of_uint.
    unfold N.of_uint. rewrite DecimalPos.Unsigned.of_to. reflexivity. }
  unfold JS.parseInt.
  destruct (JS.String_ofZ n) as [|a s] eqn:E; [congruence|].
  simpl in Hd. apply andb_true_iff in Hd. destruct Hd as [Ha Hs].
  destruct (isDigit_cases a Ha) as (Hw & Hm & Hp & _ & _ & _).
  cbn [String.append JS.trimStart]. rewrite Hw.
  unfold JS.stripSign. rewrite Hm, Hp.
  assert (JS.stripPrefix (String a (String.append s (String c t)))
          = (10%N, String a (String.append s (String c t)))) as ->.
  { unfold JS.stripPrefix. destruct s as [|a2 s].
    - cbn [String.append]. rewrite Hx, HX. now rewrite andb_false_r.
    - cbn [String.append]. simpl in Hs. apply andb_true_iff in Hs.
      destruct Hs as [Ha2 _].
      destruct (isDigit_cases a2 Ha2) as (_ & _ & _ & -> & -> & _).
      now rewrite andb_false_r. }
  change (String a (String.append s (String c t)))
    with (String.append (String a s) (String c t)).
  rewrite parseDigits_stop; [|simpl; now rewrite Ha, Hs|exact Hc].
  rewrite Hval. f_equal. rewrite Z2N.id by lia. lia.
Qed.

Lemma formatDuration_parts minutes :
  (0 <= minutes)%Z ->
  map JS.parseInt (JS.split " " (Timer.formatDuration (Some minutes)))
  = [Some (minutes / 60)%Z; Some (minutes mod 60)%Z].
Proof.
  intros H. unfold Timer.formatDuration.
  rewrite Z.rem_mod_nonneg by lia.
  assert (Hq : (0 <= minutes / 60)%Z) by (apply Z.div_pos; lia).
  assert (Hr : (0 <= minutes mod 60)%Z) by (apply Z.mod_pos_bound; lia).
  destruct (String_ofZ_digits Hq) as [Hdq _].
  destruct (String_ofZ_digits Hr) as [Hdr _].
  change (String.append (JS.String_ofZ (minutes / 60))
            (String.append "h "
               (String.append (JS.String_ofZ (minutes mod 60)) "m")))
    with (String.append (JS.String_ofZ (minutes / 60))
            (String "h"
               (String " "
                  (String.append (JS.String_ofZ (minutes mod 60)) "m")))).
  assert (E : forall a b,
             String.append a (String "h" (String " " b))
             = String.append (String.append a "h") (String " " b)).
  { induction a as [|x a IH]; intros b; simpl; [reflexivity|].
    now rewrite IH. }
  rewrite E. rewrite split_app.
  - rewrite split_lacks.
    + cbn [map]. rewrite !parseInt_number_then; auto.
    + rewrite lacks_app. rewrite (allDigits_lacks " "); auto.
  - rewrite lacks_app. rewrite (allDigits_lacks " "); auto.
Qed.

(** X19: a duration shown as hours and minutes reads back.  For a number of
    minutes that is not negative, [formatDuration] gives the hours followed
    by h, a blank, and the minutes below sixty followed by m; read as
    numbers the two parts are the quotient and the remainder by sixty, so
    that two different durations never read the same.  A duration that is
    not a number is shown as NaNh NaNm. *)
Theorem formatDuration_reads_back (minutes : Z) :
  (0 <= minutes)%Z ->
  let h := (minutes / 60)%Z in
  let m := (minutes mod 60)%Z in
  Timer.formatDuration (Some minutes)
  = String.append (JS.String_ofZ h)
      (String.append "h " (String.append (JS.String_ofZ m) "m")) /\
  map JS.parseInt (JS.split " " (Timer.formatDuration (Some minutes)))
  = [Some h; Some m] /\
  (minutes = 60 * h + m)%Z /\ (0 <= h)%Z /\ (0 <= m < 60)%Z /\
  (forall other,
      (0 <= other)%Z ->
      Timer.formatDuration (Some other) = Timer.formatDuration (Some minutes) ->
      other = minutes) /\
  Timer.formatDuration None = "NaNh NaNm"%string.
Proof.
  intros H h m.
  assert (Hm : (0 <= m < 60)%Z) by (apply Z.mod_pos_bound; lia).
  assert (Hsum := Z.div_mod minutes 60). fold h m in Hsum.
  split; [|split; [|split; [|split; [|split; [|split]]]]].
  - unfold Timer.formatDuration. now rewrite Z.rem_mod_nonneg by lia.
  - now apply formatDuration_parts.
  - lia.
  - apply Z.div_pos; lia.
  - exact Hm.
  - intros other Ho Heq.
    assert (E := formatDuration_parts Ho).
    rewrite Heq, (formatDuration_parts H) in E. injection E as E1 E2.
    assert (E3 := Z.div_mod other 60). fold h m in E1, E2. lia.
  - reflexivity.
Qed.

(** X19 at an input: a hundred and twenty-five minutes. *)
Lemma formatDuration_reads_back_witness :
  Timer.formatDuration (Some 125%Z) = "2h 5m"%string /\
  map JS.parseInt (JS.split " " (Timer.formatDuration (Some 125%Z)))
  = [Some 2%Z; Some 5%Z].
Proof.
  split; [reflexivity|].
  refine (proj1 (proj2 (@formatDuration_reads_back 125 _))). lia.
Defined.

(* ================================================================= *)
(** ** Reading an exported file back *)

Lemma append_empty_r s : String.append s EmptyString = s.
Proof.
  induction s as [|c s IH]; simpl; [reflexivity|]. now rewrite IH.
Qed.

Lemma append_assoc_string a b c :
  String.append (String.append a b) c = String.append a (String.append b c).
Proof.
  induction a as [|x a IH]; simpl; [reflexivity|]. now rewrite IH.
Qed.

(** The fields and records that follow the field under the cursor. *)
Lemma read_terminated m T :
  m <> Props.InQuoted -> Props.terminated T -> Props.read m T = Props.read Props.InBare T.
Proof.
  intros Hm [| rest | rest]; destruct m; try congruence; reflexivity.
Qed.

Lemma read_bare f m T :
  m = Props.AtStart \/ m = Props.InBare ->
  Spec.lacks ExportUtils.comma f = true ->
  Spec.lacks ExportUtils.dquote f = true ->
  Spec.lacks ExportUtils.newline f = true ->
  Props.terminated T ->
  exists r rs,
    Props.read Props.InBare T = (EmptyString :: r) :: rs /\
    Props.read m (String.append f T) = (f :: r) :: rs.
Proof.
  intros Hm Hc Hq Hn HT.
  assert (Hb : exists r rs,
             Props.read Props.InBare T = (EmptyString :: r) :: rs).
  { destruct HT as [| rest | rest]; cbn.
    - eauto.
    - unfold Props.pushField. destruct (Props.read _ rest); eauto.
    - eauto. }
  destruct Hb as (r & rs & Hb). exists r, rs. split; [exact Hb|].
  revert m Hm. induction f as [|c f IH]; intros m Hm.
  - cbn [String.append]. rewrite read_terminated; [exact Hb| |exact HT].
    destruct Hm as [-> | ->]; discriminate.
  - simpl in Hc, Hq, Hn.
    apply andb_true_iff in Hc, Hq, Hn.
    destruct Hc as [Hc Hc'], Hq as [Hq Hq'], Hn as [Hn Hn'].
    apply negb_true_iff in Hc, Hq, Hn.
    cbn [String.append Props.read]. rewrite Hc, Hq, Hn.
    rewrite (IH Hc' Hq' Hn' Props.InBare (or_intror eq_refl)).
    destruct Hm as [-> | ->]; reflexivity.
Qed.

Lemma read_quoted f T :
  Props.terminated T ->
  exists r rs,
    Props.read Props.InBare T = (EmptyString :: r) :: rs /\
    Props.read Props.InQuoted
      (String.append
         (JS.replaceAll ExportUtils.dquote
            (String ExportUtils.dquote (ExportUtils.str ExportUtils.dquote))
            f)
         (String ExportUtils.dquote T))
    = (f :: r) :: rs.
Proof.
  intros HT.
  assert (Hb : exists r rs,
             Props.read Props.InBare T = (EmptyString :: r) :: rs).
  { destruct HT as [| rest | rest]; cbn.
    - eauto.
    - unfold Props.pushField. destruct (Props.read _ rest); eauto.
    - eauto. }
  destruct Hb as (r & rs & Hb). exists r, rs. split; [exact Hb|].
  induction f as [|c f IH].
  - cbn [JS.replaceAll String.append Props.read].
    rewrite Ascii.eqb_refl. rewrite read_terminated; [exact Hb| |exact HT].
    discriminate.
  - cbn [JS.replaceAll]. destruct (Ascii.eqb c ExportUtils.dquote) eqn:E.
    + apply Ascii.eqb_eq in E. subst c.
      cbn [String.append ExportUtils.str Props.read].
      rewrite Ascii.eqb_refl. cbn [Props.read].
      rewrite IH. reflexivity.
    + cbn [String.append Props.read]. rewrite E, IH. reflexivity.
Qed.

Lemma read_field f T :
  Props.terminated T ->
  exists r rs,
    Props.read Props.InBare T = (EmptyString :: r) :: rs /\
    Props.read Props.AtStart (String.append (ExportUtils.escapeField f) T)
    = (f :: r) :: rs.
Proof.
  intros HT. unfold ExportUtils.escapeField.
  destruct (ExportUtils.needsQuotes f) eqn:E.
  - destruct (read_quoted f HT) as (r & rs & Hb & Hq).
    exists r, rs. split; [exact Hb|].
    cbn [String.append Props.read]. rewrite Ascii.eqb_refl.
    rewrite append_assoc_string. exact Hq.
  - rewrite needsQuotes_lacks in E.
    apply negb_false_iff in E. apply andb_true_iff in E.
    destruct E as [E Hn]. apply andb_true_iff in E. destruct E as [Hc Hq].
    apply (@read_bare f Props.AtStart T); auto.
Qed.

Lemma join_cons sep x y l :
  JS.join sep (x :: y :: l)
  = String.append x (String.append sep (JS.join sep (y :: l))).
Proof.
  reflexivity.
Qed.

Lemma read_row (l : list string) (T : string) :
  l <> [] ->
  T = EmptyString \/ (exists Y, T = String ExportUtils.newline Y) ->
  Props.read Props.AtStart
    (String.append
       (JS.join (ExportUtils.str ExportUtils.comma)
          (map ExportUtils.escapeField l)) T)
  = l :: match T with
         | EmptyString => []
         | String _ Y => Props.read Props.AtStart Y
         end.
Proof.
  intros Hl HT.
  assert (HT' : Props.terminated T).
  { destruct HT as [-> | (Y & ->)]; constructor. }
  induction l as [|f l IH]; [congruence|]. clear Hl.
  destruct l as [|g l].
  - cbn [map JS.join String.concat].
    destruct (read_field f HT') as (r & rs & Hb & ->).
    destruct HT as [-> | (Y & ->)]; cbn in Hb; now injection Hb as <- <-.
  - cbn [map]. rewrite join_cons, append_assoc_string.
    cbn [ExportUtils.str String.append].
    fold (ExportUtils.str ExportUtils.comma).
    destruct (read_field f
                (Props.terminated_comma
                   (String.append
                      (JS.join (ExportUtils.str ExportUtils.comma)
                         (ExportUtils.escapeField g
                          :: map ExportUtils.escapeField l)) T)))
      as (r & rs & Hb & ->).
    cbn [Props.read] in Hb. rewrite Ascii.eqb_refl in Hb.
    cbn [map] in IH. rewrite IH in Hb by discriminate.
    cbn in Hb. now injection Hb as <- <-.
Qed.

Lemma read_table (t : list (list string)) :
  t <> [] -> Forall (fun l => l <> []) t ->
  Props.readCsv
    (JS.join (ExportUtils.str ExportUtils.newline)
       (map (fun l => JS.join (ExportUtils.str ExportUtils.comma)
                        (map ExportUtils.escapeField l)) t))
  = t.
Proof.
  unfold Props.readCsv. intros Ht Hall.
  induction t as [|x t IH]; [congruence|]. clear Ht.
  inversion Hall as [|? ? Hx Hr]; subst.
  destruct t as [|y t].
  - cbn [map JS.join String.concat].
    rewrite <- (append_empty_r (JS.join _ _)).
    rewrite read_row; auto.
  - cbn [map]. rewrite join_cons. cbn [ExportUtils.str String.append].
    rewrite read_row; [|exact Hx|right; eauto].
    f_equal. apply IH; [discriminate|exact Hr].
Qed.

Lemma escapeField_plain s : Props.plain s -> ExportUtils.escapeField s = s.
Proof.
  intros H. now apply escapeField_cases.
Qed.

(** The reading procedure of this file (records end at line feeds outside
    double quotes, fields at commas outside double quotes, a doubled double
    quote inside quotes stands for one) gives the table back. *)
Lemma exportToCSV_read (numberToString : JS.number -> string)
    (first : ExportUtils.record) (rest : list ExportUtils.record)
    (filename today : string) :
  Dict.keys first <> [] ->
  Forall Props.plain (Dict.keys first) ->
  let headers := Dict.keys first in
  exists file,
    ExportUtils.exportToCSV numberToString (first :: rest) filename today
    = Some file /\
    Props.readCsv (ExportUtils.content file)
    = headers :: map (Spec.cells numberToString headers) (first :: rest) /\
    forall row,
      Props.readCsv (ExportUtils.csvRow numberToString headers row)
      = [Spec.cells numberToString headers row].
Proof.
  intros Hne Hplain headers.
  eexists. split; [reflexivity|]. cbn [ExportUtils.content]. fold headers.
  assert (Hcells : forall row, Spec.cells numberToString headers row <> []).
  { intros row. unfold Spec.cells, headers. destruct (Dict.keys first);
      [congruence|discriminate]. }
  split.
  - assert (Hh : JS.join (ExportUtils.str ExportUtils.comma) headers
                 = JS.join (ExportUtils.str ExportUtils.comma)
                     (map ExportUtils.escapeField headers)).
    { f_equal. rewrite <- (map_id headers) at 1. apply map_ext_in.
      intros h Hin. symmetry. apply escapeField_plain.
      unfold headers in Hin. rewrite Forall_forall in Hplain.
      now apply Hplain. }
    rewrite Hh.
    rewrite (map_ext _ _ (csvRow_cells numberToString headers)).
    rewrite <- (map_map (Spec.cells numberToString headers)
                  (fun l => JS.join (ExportUtils.str ExportUtils.comma)
                              (map ExportUtils.escapeField l))).
    change (JS.join (ExportUtils.str ExportUtils.comma)
              (map ExportUtils.escapeField headers)
            :: map (fun l => JS.join (ExportUtils.str ExportUtils.comma)
                               (map ExportUtils.escapeField l))
                 (map (Spec.cells numberToString headers) (first :: rest)))
      with (map (fun l => JS.join (ExportUtils.str ExportUtils.comma)
                            (map ExportUtils.escapeField l))
              (headers
               :: map (Spec.cells numberToString headers) (first :: rest))).
    apply read_table; [discriminate|].
    constructor; [exact Hne|].
    apply Forall_forall. intros l Hl. apply in_map_iff in Hl.
    destruct Hl as (row & <- & _). apply Hcells.
  - intros row. rewrite csvRow_cells.
    apply (@read_table [Spec.cells numberToString headers row]);
      [discriminate|]. constructor; [apply Hcells|constructor].
Qed.

(** X20: the content of an exported file determines the table.  Take a
    table whose first record has at least one key, no key holding a comma, a
    double quote or a line feed.  Splitting the content at line feeds and
    commas outside double quotes, and reading a doubled double quote inside
    quotes as one, gives the keys followed by the cell texts of each record,
    whatever commas, double quotes and line feeds the cells hold.  Hence a
    second such table with the same content has the same keys and the same
    cell texts.  A carriage return alone does not make [exportToCSV] quote a
    cell: a cell without comma, double quote and line feed is written as it
    is. *)
Theorem exported_csv_determines_table
    (numberToString : JS.number -> string)
    (first : ExportUtils.record) (rest : list ExportUtils.record)
    (filename today : string) :
  Dict.keys first <> [] ->
  Forall Props.plain (Dict.keys first) ->
  let headers := Dict.keys first in
  let table := headers :: map (Spec.cells numberToString headers) (first :: rest) in
  exists file,
    ExportUtils.exportToCSV numberToString (first :: rest) filename today
    = Some file /\
    Props.readCsv (ExportUtils.content file) = table /\
    (forall first' rest' filename' today' file',
        Dict.keys first' <> [] ->
        Forall Props.plain (Dict.keys first') ->
        ExportUtils.exportToCSV numberToString (first' :: rest') filename'
          today' = Some file' ->
        ExportUtils.content file' = ExportUtils.content file ->
        Dict.keys first' = headers /\
        map (Spec.cells numberToString headers) (first' :: rest')
        = map (Spec.cells numberToString headers) (first :: rest)) /\
    (forall cell,
        Spec.lacks ExportUtils.comma cell = true ->
        Spec.lacks ExportUtils.dquote cell = true ->
        Spec.lacks ExportUtils.newline cell = true ->
        ExportUtils.escapeField cell = cell) /\
    ExportUtils.escapeField (String "013" "x") = String "013" "x".
Proof.
  intros Hne Hplain headers table.
  destruct (@exportToCSV_read numberToString first rest filename today
              Hne Hplain) as (file & Hfile & Hread & _).
  exists file. split; [exact Hfile|]. split; [exact Hread|].
  split; [|split; [|reflexivity]].
  - intros first' rest' filename' today' file' Hne' Hplain' Hfile' Hsame.
    destruct (@exportToCSV_read numberToString first' rest' filename' today'
                Hne' Hplain') as (file2 & Hfile2 & Hread2 & _).
    assert (Hsamefile : Some file' = Some file2) by (rewrite <- Hfile', <- Hfile2; reflexivity).
    injection Hsamefile as ->.
    rewrite Hsame, Hread in Hread2. cbv zeta in Hread2.
    injection Hread2 as Hkeys Hrows.
    unfold headers. rewrite Hkeys in Hrows, H |- *.
    split; [reflexivity|]. cbn [map]. now rewrite Hrows, H.
  - intros cell H1 H2 H3. apply escapeField_cases.
    rewrite needsQuotes_lacks, H1, H2, H3. reflexivity.
Qed.

(** X20 at an input: the two sample records, whose second has a cell with a
    comma and double quotes and lacks a key of the first. *)
Lemma exported_csv_determines_table_witness :
  exists file,
    ExportUtils.exportToCSV (fun _ => EmptyString) Sample.exportRows
      "clients" "2023-11-14" = Some file /\
    Props.readCsv (ExportUtils.content file)
    = ["ID"; "Client"; "Paid"]%string
      :: map (Spec.cells (fun _ => EmptyString) ["ID"; "Client"; "Paid"]%string)
           Sample.exportRows.
Proof.
  destruct (@exported_csv_determines_table (fun _ => EmptyString)
              (hd [] Sample.exportRows) (tl Sample.exportRows)
              "clients" "2023-11-14")
    as (file & Hfile & Hread & _).
  - discriminate.
  - repeat constructor.
  - exists file. split; [exact Hfile|exact Hread].
Defined.

(* ================================================================= *)
(** ** The printed reports *)

Lemma sumNat_indicator (E : Type) (p : E -> bool) (l : list E) :
  fold_right Nat.add 0 (map (fun x => if p x then 1 else 0) l)
  = List.length (filter p l).
Proof.
  induction l as [|x l IH]; simpl; [reflexivity|].
  rewrite IH. now destruct (p x).
Qed.

Section TaskCounters.

Variable now : Z.

Lemma taskCounters_sum (pick : GenerateHTML.TaskCounts -> nat)
    (p : TasksReport.Task -> bool) tasks :
  (forall task c,
      pick (GenerateHTML.countTask now task c)
      = pick c + if p task then 1 else 0) ->
  pick {| GenerateHTML.completed := 0; GenerateHTML.pending := 0;
          GenerateHTML.Overdue := 0 |} = 0 ->
  Spec.sumNat
    (map (fun kv => pick (snd kv))
       (Dict.entries (GenerateHTML.clientTasks now tasks)))
  = List.length (filter p tasks).
Proof.
  intros Hstep Hzero.
  unfold GenerateHTML.clientTasks, Spec.sumNat, Dict.entries.
  rewrite (total_group Nat.add 0 Nat.add_assoc Nat.add_comm Nat.add_0_l
             pick TasksReport.clientId (fun t => if p t then 1 else 0)
             (Props.taskStep now)).
  - simpl. apply sumNat_indicator.
  - intros x old. unfold Props.taskStep. apply Hstep.
  - intros x. unfold Props.taskStep. rewrite Hstep, Hzero. reflexivity.
Qed.

Lemma taskCounters_under k (l : list TasksReport.Task) acc :
  option_map GenerateHTML.total
    (fold_left
       (fun acc task =>
          if String.eqb k (TasksReport.clientId task)
          then Some (Props.taskStep now task acc) else acc)
       l acc)
  = if Spec.count (Spec.ofClient k) l =? 0
    then option_map GenerateHTML.total acc
    else Some (match acc with
               | Some c => GenerateHTML.total c
               | None => 0
               end + Spec.count (Spec.ofClient k) l).
Proof.
  revert acc. induction l as [|t l IH]; intros acc; [reflexivity|].
  cbn [fold_left]. rewrite IH, count_cons.
  assert (Hk : Spec.ofClient k t = String.eqb k (TasksReport.clientId t))
    by reflexivity.
  rewrite Hk.
  destruct (String.eqb k (TasksReport.clientId t)); simpl; [|reflexivity].
  assert (Ht : GenerateHTML.total (Props.taskStep now t acc)
               = S match acc with
                   | Some c => GenerateHTML.total c
                   | None => 0
                   end).
  { unfold Props.taskStep, GenerateHTML.countTask, GenerateHTML.total.
    destruct acc as [c|],
      (String.eqb (TasksReport.status t) "completed"),
      (GenerateHTML.isOverdue now t); simpl; lia. }
  rewrite Ht.
  destruct (Spec.count (Spec.ofClient k) l =? 0) eqn:E.
  - apply Nat.eqb_eq in E. rewrite E. f_equal. lia.
  - f_equal. lia.
Qed.

Lemma clientTasks3_total k v tasks :
  In (k, v) (Dict.entries (GenerateHTML.clientTasks now tasks)) ->
  GenerateHTML.total v = Spec.count (Spec.ofClient k) tasks /\
  1 <= GenerateHTML.total v.
Proof.
  intros Hin. unfold Dict.entries in Hin.
  assert (Hnd : NoDup (Dict.keys (GenerateHTML.clientTasks now tasks))).
  { apply keys_group_NoDup. constructor. }
  apply (@get_In _ _ _ _ Hnd) in Hin.
  assert (Hg := taskCounters_under k tasks None).
  unfold GenerateHTML.clientTasks in Hin.
  rewrite (get_group TasksReport.clientId (Props.taskStep now)) in Hin.
  simpl Dict.get in Hin. rewrite Hin in Hg. simpl in Hg.
  destruct (Spec.count (Spec.ofClient k) tasks =? 0) eqn:E;
    [discriminate|].
  apply Nat.eqb_neq in E. injection Hg as Hg. lia.
Qed.

End TaskCounters.

Lemma filter_length_le (E : Type) (p q : E -> bool) (l : list E) :
  (forall x, p x = true -> q x = true) ->
  List.length (filter p l) <= List.length (filter q l).
Proof.
  intros H. induction l as [|x l IH]; simpl; [lia|].
  destruct (p x) eqn:Ep.
  - rewrite (H x Ep). simpl. lia.
  - destruct (q x); simpl; lia.
Qed.

(** The counts of the summary and of the table, status by status. *)
Lemma status_counts now (tasks : list TasksReport.Task) :
  let completed :=
    List.length (filter (GenerateHTML.hasStatus "completed") tasks) in
  let pending :=
    List.length (filter (GenerateHTML.hasStatus "pending") tasks) in
  let overdue := List.length (filter (GenerateHTML.isOverdue now) tasks) in
  let shownPending :=
    List.length
      (filter (fun t => negb (GenerateHTML.hasStatus "completed" t)
                        && negb (GenerateHTML.isOverdue now t)) tasks) in
  let others := Spec.count (fun t => negb (Spec.declaredStatus t)) tasks in
  List.length tasks = completed + pending + others /\
  overdue <= pending /\
  shownPending + overdue = pending + others.
Proof.
  induction tasks as [|t l IH]; [cbn; lia|].
  cbv zeta in *. rewrite count_cons. cbn [filter List.length].
  unfold GenerateHTML.hasStatus, GenerateHTML.isOverdue, Spec.declaredStatus
    in *.
  destruct (String.eqb (TasksReport.status t) "completed") eqn:Ec,
    (String.eqb (TasksReport.status t) "pending") eqn:Ep,
    (TasksReport.dueDate t <? now)%Z;
    cbn [andb orb negb List.length]; try lia.
  - apply String.eqb_eq in Ec, Ep. congruence.
  - apply String.eqb_eq in Ec, Ep. congruence.
Qed.

(** X21: the tasks page of the printed report, table against summary, for
    tasks of any status.  The summary counts the tasks, those whose status
    is completed, those whose status is pending, and among these the overdue
    ones; so its total is its completed count, its pending count and the
    tasks of any other status together.  The table has one row per client
    with a task, the largest total first; a row's total is its completed,
    pending and overdue counts together and is the number of the client's
    tasks, at least one.  Over the rows, the totals add up to the summary's
    total, the completed counts to its completed count and the overdue
    counts to its overdue count; but the pending column of the table leaves
    the overdue tasks out and takes the tasks of any other status in, so it
    adds up to the summary's pending count, less its overdue count, plus the
    tasks of another status.  The client ids name no property that every
    object inherits. *)
Theorem tasks_table_against_summary (now : Z)
    (tasks : list TasksReport.Task) (s : GenerateHTML.TaskSummary) :
  GenerateHTML.taskSummary now tasks = Some s ->
  Forall (fun t => JS.isInherited (TasksReport.clientId t) = false) tasks ->
  let rows := GenerateHTML.taskRows now tasks in
  let others := Spec.count (fun t => negb (Spec.declaredStatus t)) tasks in
  (GenerateHTML.totalTasks s
   = GenerateHTML.completedTasks s + GenerateHTML.pendingTasks s + others /\
   GenerateHTML.OverdueTasks s <= GenerateHTML.pendingTasks s) /\
  (Spec.sumNat (map GenerateHTML.task_total rows)
   = GenerateHTML.totalTasks s /\
   Spec.sumNat (map GenerateHTML.task_completed rows)
   = GenerateHTML.completedTasks s /\
   Spec.sumNat (map GenerateHTML.task_Overdue rows)
   = GenerateHTML.OverdueTasks s /\
   Spec.sumNat (map GenerateHTML.task_pending rows)
   + GenerateHTML.OverdueTasks s
   = GenerateHTML.pendingTasks s + others) /\
  (forall row,
      In row rows ->
      1 <= GenerateHTML.task_total row /\
      GenerateHTML.task_total row
      = GenerateHTML.task_completed row + GenerateHTML.task_pending row
        + GenerateHTML.task_Overdue row /\
      GenerateHTML.task_total row
      = Spec.count (Spec.ofClient (GenerateHTML.task_clientId row)) tasks) /\
  StronglySorted
    (fun a b => GenerateHTML.task_total b <= GenerateHTML.task_total a)
    rows /\
  NoDup (map GenerateHTML.task_clientId rows).
Proof.
  intros Hs _ rows others.
  assert (Hsum : s
                 = {| GenerateHTML.totalTasks := List.length tasks;
                      GenerateHTML.completedTasks :=
                        List.length
                          (filter (GenerateHTML.hasStatus "completed") tasks);
                      GenerateHTML.pendingTasks :=
                        List.length
                          (filter (GenerateHTML.hasStatus "pending") tasks);
                      GenerateHTML.OverdueTasks :=
                        List.length (filter (GenerateHTML.isOverdue now) tasks);
                      GenerateHTML.completionRate :=
                        GenerateHTML.completionRate s |}).
  { destruct tasks as [|t l]; [discriminate|].
    unfold GenerateHTML.taskSummary in Hs. injection Hs as <-. reflexivity. }
  set (sorted := F.sortBy
                   (fun a b => GenerateHTML.total (snd b)
                               <=? GenerateHTML.total (snd a))
                   (Dict.ownEntries (GenerateHTML.clientTasks now tasks))).
  assert (Hperm : Permutation sorted
                    (Dict.entries (GenerateHTML.clientTasks now tasks))).
  { unfold sorted. etransitivity; [apply sortBy_perm|].
    apply ownEntries_perm. }
  assert (Hrows : forall pick,
             Spec.sumNat (map (fun kv => pick (snd kv)) sorted)
             = Spec.sumNat
                 (map (fun kv => pick (snd kv))
                    (Dict.entries (GenerateHTML.clientTasks now tasks)))).
  { intros pick. apply sumNat_perm. now apply Permutation_map. }
  assert (Hc : Spec.sumNat (map GenerateHTML.task_completed rows)
               = List.length
                   (filter (GenerateHTML.hasStatus "completed") tasks)).
  { unfold rows, GenerateHTML.taskRows. fold sorted. rewrite map_map.
    cbn [GenerateHTML.task_completed].
    rewrite (Hrows GenerateHTML.completed).
    apply taskCounters_sum; [|reflexivity].
    intros task c. unfold GenerateHTML.countTask, GenerateHTML.hasStatus.
    destruct (String.eqb (TasksReport.status task) "completed"),
      (GenerateHTML.isOverdue now task); simpl; lia. }
  assert (Ho : Spec.sumNat (map GenerateHTML.task_Overdue rows)
               = List.length (filter (GenerateHTML.isOverdue now) tasks)).
  { unfold rows, GenerateHTML.taskRows. fold sorted. rewrite map_map.
    cbn [GenerateHTML.task_Overdue].
    rewrite (Hrows GenerateHTML.Overdue).
    apply taskCounters_sum; [|reflexivity].
    intros task c. unfold GenerateHTML.countTask.
    destruct (String.eqb (TasksReport.status task) "completed") eqn:E.
    - apply String.eqb_eq in E. unfold GenerateHTML.isOverdue.
      rewrite E. simpl. lia.
    - destruct (GenerateHTML.isOverdue now task); simpl; lia. }
  assert (Hp : Spec.sumNat (map GenerateHTML.task_pending rows)
               = List.length
                   (filter (fun t =>
                              negb (GenerateHTML.hasStatus "completed" t)
                              && negb (GenerateHTML.isOverdue now t))
                      tasks)).
  { unfold rows, GenerateHTML.taskRows. fold sorted. rewrite map_map.
    cbn [GenerateHTML.task_pending].
    rewrite (Hrows GenerateHTML.pending).
    apply taskCounters_sum; [|reflexivity].
    intros task c. unfold GenerateHTML.countTask, GenerateHTML.hasStatus.
    destruct (String.eqb (TasksReport.status task) "completed"),
      (GenerateHTML.isOverdue now task); simpl; lia. }
  assert (Ht : Spec.sumNat (map GenerateHTML.task_total rows)
               = List.length tasks).
  { unfold rows, GenerateHTML.taskRows. fold sorted. rewrite map_map.
    cbn [GenerateHTML.task_total].
    rewrite (Hrows GenerateHTML.total).
    rewrite (@taskCounters_sum now GenerateHTML.total (fun _ => true)).
    - now rewrite filter_true.
    - intros task c. unfold GenerateHTML.countTask, GenerateHTML.total.
      destruct (String.eqb (TasksReport.status task) "completed"),
        (GenerateHTML.isOverdue now task); simpl; lia.
    - reflexivity. }
  destruct (status_counts now tasks) as (Hsplit & Hle & Hpo).
  fold others in Hsplit, Hpo.
  rewrite Hsum. cbn [GenerateHTML.totalTasks GenerateHTML.completedTasks
                       GenerateHTML.pendingTasks GenerateHTML.OverdueTasks].
  split; [|split; [|split; [|split]]].
  - split; [exact Hsplit|exact Hle].
  - rewrite Ht, Hc, Ho, Hp. repeat split. exact Hpo.
  - intros row Hin. unfold rows, GenerateHTML.taskRows in Hin.
    apply in_map_iff in Hin. destruct Hin as ([k v] & <- & Hin).
    fold sorted in Hin. apply (Permutation_in _ Hperm) in Hin.
    destruct (clientTasks3_total now k v tasks Hin) as [Hcount Hone].
    cbn. repeat split; [exact Hone|exact Hcount].
  - unfold rows, GenerateHTML.taskRows. fold sorted.
    apply StronglySorted_map. cbn [GenerateHTML.task_total].
    eapply StronglySorted_weaken;
      [|apply (@sortBy_strongly_sorted _ _ (fun _ => True))].
    + intros a b H. cbv beta in H. now apply Nat.leb_le in H.
    + intros x y _ _ H. apply Nat.leb_gt in H. apply Nat.leb_le. lia.
    + intros x y z _ _ _ H1 H2. apply Nat.leb_le in H1, H2.
      apply Nat.leb_le. lia.
    + apply Forall_forall. auto.
  - unfold rows, GenerateHTML.taskRows. fold sorted. rewrite map_map.
    cbn [GenerateHTML.task_clientId].
    apply (Permutation_NoDup (l := Dict.keys
                                     (GenerateHTML.clientTasks now tasks))).
    + unfold Dict.keys. symmetry. now apply Permutation_map.
    + apply keys_group_NoDup. constructor.
Qed.

(** X21 at an input: tasks with the statuses the tasks page writes beside
    the two of the interface. *)
Lemma tasks_table_against_summary_witness :
  map (fun row => (GenerateHTML.task_clientId row,
                   GenerateHTML.task_total row,
                   GenerateHTML.task_pending row))
    (GenerateHTML.taskRows 1 Cases.pageTasks)
  = [("c1"%string, 3, 2); ("c2"%string, 2, 1)] /\
  exists s,
    GenerateHTML.taskSummary 1 Cases.pageTasks = Some s /\
    GenerateHTML.pendingTasks s = 1 /\
    Spec.sumNat (map GenerateHTML.task_pending
                   (GenerateHTML.taskRows 1 Cases.pageTasks))
    + GenerateHTML.OverdueTasks s
    = GenerateHTML.pendingTasks s + 3.
Proof.
  assert (Hplain : Forall
                     (fun t =>
                        JS.isInherited (TasksReport.clientId t) = false)
                     Cases.pageTasks) by (repeat constructor).
  split; [vm_compute; reflexivity|].
  eexists. split; [reflexivity|]. split; [reflexivity|].
  exact (proj2 (proj2 (proj2 (proj1 (proj2
    (@tasks_table_against_summary 1 Cases.pageTasks _ eq_refl Hplain)))))).
Defined.

Ltac number_ring := unfold JS.number in *; ring.

Lemma sum_filter_split (E : Type) (w : E -> JS.number) (p : E -> bool) l :
  Spec.sum (map w l)
  = (Spec.sum (map w (filter p l))
     + Spec.sum (map w (filter (fun x => negb (p x)) l)))%Qc.
Proof.
  induction l as [|x l IH]; simpl; [now rewrite Qcplus_0_l|].
  rewrite IH. destruct (p x); simpl; number_ring.
Qed.

Lemma sumAbs_filter_le (E : Type) (num : E -> Z) (p : E -> bool) l :
  (fold_right Z.add 0 (map (fun x => Z.abs (num x)) (filter p l))
   <= fold_right Z.add 0 (map (fun x => Z.abs (num x)) l))%Z.
Proof.
  induction l as [|x l IH]; cbn [filter map fold_right]; [lia|].
  destruct (p x); cbn [map fold_right]; lia.
Qed.

(** A part of numbers that add up exactly adds up exactly. *)
Lemma dyadic_filter (E : Type) (w : E -> option JS.number) (p : E -> bool)
    (k : nat) l :
  Forall (fun x => x <> None) (map w l) ->
  Spec.dyadic k 1 (map Spec.counted (map w l)) ->
  Forall (fun x => x <> None) (map w (filter p l)) /\
  Spec.dyadic k 1 (map Spec.counted (map w (filter p l))).
Proof.
  intros Hsome (Hk & Hall & Hb).
  rewrite !map_map in *. rewrite Forall_map in *.
  rewrite Forall_forall in Hsome, Hall. split.
  - apply Forall_forall. intros x Hx. apply filter_In in Hx. now apply Hsome.
  - split; [exact Hk|]. split.
    + rewrite Forall_map. apply Forall_forall. intros x Hx.
      apply filter_In in Hx. now apply Hall.
    + rewrite map_map in *.
      assert (Hle := sumAbs_filter_le
                       (fun x => Spec.scaledBy k (Spec.counted (w x))) p l).
      cbv beta in *. lia.
Qed.

Lemma amounts_exact (k : nat) invoices :
  Forall (fun x => x <> None) (map ExportUtils.amount invoices) ->
  Spec.dyadic k 1 (map Spec.counted (map ExportUtils.amount invoices)) ->
  GenerateHTML.amounts invoices
  = Double.Finite
      (Spec.sum (map Spec.counted (map ExportUtils.amount invoices))).
Proof.
  intros Hsome Hd. unfold GenerateHTML.amounts.
  now apply (@total_exact _ ExportUtils.amount k).
Qed.

Lemma exact_by_status invoices :
  let value i := Spec.counted (ExportUtils.amount i) in
  Spec.sum (map value invoices)
  = (Spec.sum (map value (GenerateHTML.withStatus "paid" invoices))
     + Spec.sum (map value (GenerateHTML.withStatus "unpaid" invoices))
     + Spec.sum (map value (GenerateHTML.withStatus "Overdue" invoices))
     + Spec.sum (map value (Props.otherInvoices invoices)))%Qc.
Proof.
  intros value. unfold GenerateHTML.withStatus, Props.otherInvoices.
  induction invoices as [|i l IH]; simpl; [number_ring|].
  rewrite IH. unfold Props.knownStatus. simpl.
  destruct (String.eqb (ExportUtils.status i) "paid") eqn:E1.
  - apply String.eqb_eq in E1. rewrite E1. simpl. number_ring.
  - destruct (String.eqb (ExportUtils.status i) "unpaid") eqn:E2.
    + apply String.eqb_eq in E2. rewrite E2. simpl. number_ring.
    + destruct (String.eqb (ExportUtils.status i) "Overdue") eqn:E3;
        simpl; number_ring.
Qed.

Lemma counts_by_status invoices :
  List.length invoices
  = List.length (GenerateHTML.withStatus "paid" invoices)
    + List.length (GenerateHTML.withStatus "unpaid" invoices)
    + List.length (GenerateHTML.withStatus "Overdue" invoices)
    + List.length (Props.otherInvoices invoices).
Proof.
  unfold GenerateHTML.withStatus, Props.otherInvoices.
  induction invoices as [|i l IH]; simpl; [reflexivity|].
  rewrite IH. unfold Props.knownStatus. simpl.
  destruct (String.eqb (ExportUtils.status i) "paid") eqn:E1.
  - apply String.eqb_eq in E1. rewrite E1. simpl. lia.
  - destruct (String.eqb (ExportUtils.status i) "unpaid") eqn:E2.
    + apply String.eqb_eq in E2. rewrite E2. simpl. lia.
    + destruct (String.eqb (ExportUtils.status i) "Overdue") eqn:E3;
        simpl; lia.
Qed.

Lemma withStatus_none st invoices :
  (forall i, In i invoices -> ExportUtils.status i <> st) ->
  GenerateHTML.withStatus st invoices = [].
Proof.
  intros H. unfold GenerateHTML.withStatus.
  induction invoices as [|i l IH]; simpl; [reflexivity|].
  rewrite (proj2 (String.eqb_neq _ _) (H i (or_introl eq_refl))).
  apply IH. intros x Hx. apply H. now right.
Qed.

(** X22: the invoice figures by status.  The report component and the
    printed report compute the same total, paid, unpaid and overdue amounts,
    and the number of invoices is the paid, unpaid and Overdue counts and the
    invoices of any other status together.  For invoices with the statuses
    the invoices page writes (Paid, Unpaid, Overdue) the paid and the unpaid
    figures are zero.  When every invoice carries an amount and the amounts
    are multiples of one power of two whose sizes add up to less than 2^53,
    the four amounts and the amount of the invoices of another status are
    the sums of the amounts, so the total is the other four together; one
    invoice without amount makes the total NaN. *)
Theorem invoice_figures_by_status (invoices : list ExportUtils.Invoice) :
  let r := InvoicesReport.calculateReport invoices in
  let others := Props.otherInvoices invoices in
  let exact l := Spec.sum (map Spec.counted (map ExportUtils.amount l)) in
  (forall s,
      GenerateHTML.invoiceSummary invoices = Some s ->
      GenerateHTML.totalAmount s = InvoicesReport.total r /\
      GenerateHTML.paidAmount s = InvoicesReport.paid r /\
      GenerateHTML.unpaidAmount s = InvoicesReport.unpaid r /\
      GenerateHTML.OverdueAmount s = InvoicesReport.Overdue r /\
      GenerateHTML.invoiceCount s
      = GenerateHTML.paidCount s + GenerateHTML.unpaidCount s
        + GenerateHTML.OverdueCount s + List.length others) /\
  ((forall i, In i invoices -> In (ExportUtils.status i) Props.formStatuses) ->
   InvoicesReport.paid r = Double.zero /\
   InvoicesReport.unpaid r = Double.zero /\
   forall s,
     GenerateHTML.invoiceSummary invoices = Some s ->
     GenerateHTML.paidCount s = 0 /\ GenerateHTML.unpaidCount s = 0) /\
  (forall k,
      Forall (fun x => x <> None) (map ExportUtils.amount invoices) ->
      Spec.dyadic k 1 (map Spec.counted (map ExportUtils.amount invoices)) ->
      InvoicesReport.total r = Double.Finite (exact invoices) /\
      InvoicesReport.paid r
      = Double.Finite (exact (GenerateHTML.withStatus "paid" invoices)) /\
      InvoicesReport.unpaid r
      = Double.Finite (exact (GenerateHTML.withStatus "unpaid" invoices)) /\
      InvoicesReport.Overdue r
      = Double.Finite (exact (GenerateHTML.withStatus "Overdue" invoices)) /\
      GenerateHTML.amounts others = Double.Finite (exact others) /\
      exact invoices
      = (exact (GenerateHTML.withStatus "paid" invoices)
         + exact (GenerateHTML.withStatus "unpaid" invoices)
         + exact (GenerateHTML.withStatus "Overdue" invoices)
         + exact others)%Qc) /\
  (Exists (fun i => ExportUtils.amount i = None) invoices ->
   InvoicesReport.total r = Double.NaN).
Proof.
  intros r others exact.
  split; [|split; [|split]].
  - intros s Hs. destruct invoices as [|i l]; [discriminate|].
    injection Hs as <-. cbn [GenerateHTML.totalAmount GenerateHTML.paidAmount
                               GenerateHTML.unpaidAmount
                               GenerateHTML.OverdueAmount
                               GenerateHTML.invoiceCount GenerateHTML.paidCount
                               GenerateHTML.unpaidCount
                               GenerateHTML.OverdueCount].
    repeat split. exact (counts_by_status (i :: l)).
  - intros Hform.
    assert (Hp : GenerateHTML.withStatus "paid" invoices = []).
    { apply withStatus_none. intros i Hi. specialize (Hform i Hi).
      destruct Hform as [<- | [<- | [<- | []]]]; discriminate. }
    assert (Hu : GenerateHTML.withStatus "unpaid" invoices = []).
    { apply withStatus_none. intros i Hi. specialize (Hform i Hi).
      destruct Hform as [<- | [<- | [<- | []]]]; discriminate. }
    split; [|split].
    + unfold r, InvoicesReport.calculateReport, InvoicesReport.amountOf.
      cbn [InvoicesReport.paid]. fold (GenerateHTML.withStatus "paid" invoices).
      now rewrite Hp.
    + unfold r, InvoicesReport.calculateReport, InvoicesReport.amountOf.
      cbn [InvoicesReport.unpaid].
      fold (GenerateHTML.withStatus "unpaid" invoices). now rewrite Hu.
    + intros s Hs. destruct invoices as [|i l]; [discriminate|].
      injection Hs as <-.
      change (List.length (GenerateHTML.withStatus "paid" (i :: l)) = 0 /\
              List.length (GenerateHTML.withStatus "unpaid" (i :: l)) = 0).
      now rewrite Hp, Hu.
  - intros k Hsome Hd.
    assert (Hpart : forall p,
               GenerateHTML.amounts (filter p invoices)
               = Double.Finite (exact (filter p invoices))).
    { intros p.
      destruct (@dyadic_filter _ ExportUtils.amount p k invoices Hsome Hd)
        as [Hs' Hd'].
      now apply (@amounts_exact k). }
    split; [exact (@amounts_exact k invoices Hsome Hd)|].
    split; [apply Hpart|]. split; [apply Hpart|]. split; [apply Hpart|].
    split; [apply Hpart|].
    unfold exact. rewrite !map_map. apply exact_by_status.
  - intros H. unfold r, InvoicesReport.calculateReport.
    cbn [InvoicesReport.total]. now apply fold_add_missing.
Qed.

(** X22 at an input: a paid invoice of 100, an unpaid one of 50.5, an
    overdue one of 20 and one with the status Paid of 7. *)
Lemma invoice_figures_by_status_witness :
  InvoicesReport.total (InvoicesReport.calculateReport Cases.statusInvoices)
  = Double.Finite (Q2Qc (355 # 2)) /\
  InvoicesReport.paid (InvoicesReport.calculateReport Cases.statusInvoices)
  = Double.Finite (JS.ofZ 100).
Proof.
  destruct (proj1 (proj2 (proj2
              (invoice_figures_by_status Cases.statusInvoices))) 1)
    as (Htotal & Hpaid & _).
  - repeat constructor; discriminate.
  - apply dyadic_check; vm_compute; reflexivity.
  - rewrite Htotal, Hpaid.
    split; f_equal; apply Qc_is_canon; vm_compute; reflexivity.
Defined.

(* ================================================================= *)
(** ** The hours of a period in the time report *)






(* ================================================================= *)
(** ** The filters of the time-tracking page *)











(* ================================================================= *)
(** ** The export of the time-tracking page *)

Lemma split_length c s :
  List.length (JS.split c s) = S (Props.occurrences c s).
Proof.
  induction s as [|a s IH]; [reflexivity|].
  cbn [JS.split Props.occurrences].
  destruct (Ascii.eqb a c); cbn [List.length]; [now rewrite IH|].
  destruct (JS.split c s) as [|w ws]; [discriminate|].
  cbn [List.length] in *. exact IH.
Qed.

Lemma occurrences_append c a b :
  Props.occurrences c (String.append a b)
  = Props.occurrences c a + Props.occurrences c b.
Proof.
  induction a as [|x a IH]; [reflexivity|].
  cbn [String.append Props.occurrences]. rewrite IH. lia.
Qed.

Lemma occurrences_join c sep l :
  Props.occurrences c (JS.join (ExportUtils.str sep) l)
  = Spec.sumNat (map (Props.occurrences c) l)
    + (if Ascii.eqb sep c then pred (List.length l) else 0).
Proof.
  unfold JS.join.
  induction l as [|x l IH]; [now destruct (Ascii.eqb sep c)|].
  destruct l as [|y l].
  - cbn. destruct (Ascii.eqb sep c); lia.
  - change (String.concat (ExportUtils.str sep) (x :: y :: l))
      with (String.append x
              (String.append (ExportUtils.str sep)
                 (String.concat (ExportUtils.str sep) (y :: l)))).
    rewrite !occurrences_append, IH.
    cbn [ExportUtils.str Props.occurrences map Spec.sumNat fold_right
           List.length pred].
    destruct (Ascii.eqb sep c); lia.
Qed.

Lemma lacks_occurrences c s :
  Spec.lacks c s = true <-> Props.occurrences c s = 0.
Proof.
  induction s as [|a s IH]; [simpl; tauto|].
  cbn [Spec.lacks Props.occurrences].
  destruct (Ascii.eqb a c); simpl; [split; [discriminate|lia]|exact IH].
Qed.

Lemma plain_cells l :
  Forall Props.plain l -> map ExportUtils.escapeField l = l.
Proof.
  induction 1 as [|x l Hx _ IH]; [reflexivity|].
  cbn [map]. now rewrite IH, (escapeField_plain Hx).
Qed.

Lemma header_plain : Forall Props.plain TimeTrackingView.header.
Proof.
  repeat constructor.
Qed.

(** X26: the file the time-tracking page exports.  The export shows one
    success message, asks nothing of the store and changes no state; the
    file holds a header line and one line per shown entry, the cells joined
    by commas as they are.  When no cell of a shown entry holds a comma, a
    double quote or a newline, a CSV reader gives back the header and the six
    cells of each entry.  A line has as many comma-separated parts as six
    plus the commas inside its cells, so notes with a comma shift the
    columns; and the file has as many lines as one plus the shown entries
    plus the newlines inside their cells. *)
Theorem time_export_columns (format : option Z -> string) (today : string)
    (e : Handler.Env) (s : TimeTrackingView.State) :
  let p := TimeTrackingView.page s in
  let shown := TimeTrackingPage.filteredEntries p in
  let cells := TimeTrackingView.exportCells format p in
  exists file,
    TimeTrackingView.handleExport format today (e, s)
    = (Handler.Returned file,
       (Props.notify (Handler.ToastSuccess "Exported successfully") e, s)) /\
    ExportUtils.download file
    = String.append "time-tracking-" (String.append today ".csv") /\
    ExportUtils.content file
    = JS.join (ExportUtils.str ExportUtils.newline)
        (JS.join (ExportUtils.str ExportUtils.comma) TimeTrackingView.header
         :: map (fun entry =>
                   JS.join (ExportUtils.str ExportUtils.comma) (cells entry))
              shown) /\
    (Forall (fun entry => Forall Props.plain (cells entry)) shown ->
     Props.readCsv (ExportUtils.content file)
     = TimeTrackingView.header :: map cells shown) /\
    (forall entry,
        List.length
          (JS.split ExportUtils.comma
             (TimeTrackingView.exportRow format p entry))
        = 6 + Spec.sumNat
                (map (Props.occurrences ExportUtils.comma) (cells entry))) /\
    (forall entry n,
        TimeTrackingPage.notes entry = Some n ->
        Spec.occurs ExportUtils.comma n ->
        6 < List.length
              (JS.split ExportUtils.comma
                 (TimeTrackingView.exportRow format p entry))) /\
    List.length (JS.split ExportUtils.newline (ExportUtils.content file))
    = 1 + List.length shown
      + Spec.sumNat
          (map (fun entry =>
                  Spec.sumNat
                    (map (Props.occurrences ExportUtils.newline)
                       (cells entry))) shown).
Proof.
  intros p shown cells.
  assert (Hrow : forall entry,
             List.length
               (JS.split ExportUtils.comma
                  (TimeTrackingView.exportRow format p entry))
             = 6 + Spec.sumNat
                     (map (Props.occurrences ExportUtils.comma)
                        (cells entry))).
  { intros entry. rewrite split_length.
    unfold TimeTrackingView.exportRow. rewrite occurrences_join.
    fold (cells entry). rewrite Ascii.eqb_refl.
    unfold cells, TimeTrackingView.exportCells. cbn [List.length pred map].
    lia. }
  exists {| ExportUtils.download :=
              String.append "time-tracking-" (String.append today ".csv");
            ExportUtils.content := TimeTrackingView.csvContent format p |}.
  split; [reflexivity|]. split; [reflexivity|]. split; [reflexivity|].
  cbn [ExportUtils.content]. fold p.
  split; [|split; [exact Hrow|split]].
  - intros Hplain. unfold TimeTrackingView.csvContent. fold shown.
    assert (Ht : map (fun l => JS.join (ExportUtils.str ExportUtils.comma)
                                 (map ExportUtils.escapeField l))
                   (TimeTrackingView.header :: map cells shown)
                 = JS.join (ExportUtils.str ExportUtils.comma)
                     TimeTrackingView.header
                   :: map (TimeTrackingView.exportRow format p) shown).
    { cbn [map]. rewrite (plain_cells header_plain). f_equal.
      rewrite map_map. apply map_ext_in. intros entry Hin.
      unfold TimeTrackingView.exportRow. fold (cells entry).
      rewrite plain_cells; [reflexivity|].
      rewrite Forall_forall in Hplain. now apply Hplain. }
    rewrite <- Ht. apply read_table; [discriminate|].
    constructor; [discriminate|].
    apply Forall_forall. intros l Hl. apply in_map_iff in Hl.
    destruct Hl as (entry & <- & _). discriminate.
  - intros entry n Hn Hocc. rewrite Hrow.
    unfold cells, TimeTrackingView.exportCells.
    cbn [map Spec.sumNat fold_right]. rewrite Hn.
    assert (Hpos : Props.occurrences ExportUtils.comma
                     (JS.orString (Some n) "") <> 0).
    { intros H0. apply lacks_occurrences in H0.
      unfold Spec.occurs in Hocc.
      destruct n as [|a n]; [discriminate|].
      cbn [JS.orString] in H0. congruence. }
    lia.
  - rewrite split_length. unfold TimeTrackingView.csvContent.
    rewrite occurrences_join. fold shown.
    replace (Ascii.eqb ExportUtils.newline ExportUtils.newline) with true
      by reflexivity.
    cbn [map Spec.sumNat fold_right List.length pred].
    rewrite length_map, map_map.
    replace (Props.occurrences ExportUtils.newline
               (JS.join (ExportUtils.str ExportUtils.comma)
                  TimeTrackingView.header)) with 0 by reflexivity.
    fold (Spec.sumNat
            (map (fun x => Props.occurrences ExportUtils.newline
                             (TimeTrackingView.exportRow format p x))
               shown)).
    rewrite (map_ext
               (fun x => Props.occurrences ExportUtils.newline
                           (TimeTrackingView.exportRow format p x))
               (fun entry =>
                  Spec.sumNat
                    (map (Props.occurrences ExportUtils.newline)
                       (cells entry)))).
    + lia.
    + intros entry. unfold TimeTrackingView.exportRow.
      rewrite occurrences_join. fold (cells entry).
      replace (Ascii.eqb ExportUtils.comma ExportUtils.newline) with false
        by reflexivity.
      lia.
Qed.

(* ================================================================= *)
(** ** Editing a time entry *)

Lemma updateEntry_first docId f before d after :
  (forall x, In x before -> F.tt_id x <> docId) -> F.tt_id d = docId ->
  Timer.updateEntry docId f (before ++ d :: after)
  = Some (before ++ f d :: after).
Proof.
  intros Hl Hd. induction before as [|x l IH]; simpl.
  - now rewrite (proj2 (String.eqb_eq _ _) Hd).
  - rewrite (proj2 (String.eqb_neq _ _) (Hl x (or_introl eq_refl))).
    rewrite IH; [reflexivity|]. intros y Hy. apply Hl. now right.
Qed.

(** X27: saving the entry that is open for editing.  With a positive
    duration and a store that answers, the first stored document with the
    entry's id gets the task, client, times and notes of the form and the
    duration in whole minutes between the two times; its id, owner and
    creation time stay, its place in the collection stays, and no other
    document or collection changes.  Whose document it is plays no part.
    The page closes the modal, forgets the edited entry, keeps its filters
    and shows the freshly fetched entries of the user.  With a duration of
    zero or less the handler only shows an error; when the update is
    refused or the document is gone, the handler shows an error and the
    entry stays open for editing. *)
Theorem edit_entry_keeps_owner_and_place (u : User)
    (clock : TimeTrackingPage.Clock)
    (values : TimeTrackingPage.TimeEntryFormValues)
    (e : Handler.Env) (s : TimeTrackingView.State)
    (editing : TimeTrackingPage.TimeEntry) :
  TimeTrackingView.editingEntry (TimeTrackingView.view s) = Some editing ->
  let dur :=
    TimeTrackingPage.minutesBetween (TimeTrackingPage.v_startTime values)
      (TimeTrackingPage.v_endTime values) in
  let out := TimeTrackingView.handleModalSubmit (Some u) clock values (e, s) in
  let e' := fst (snd out) in
  let s' := snd (snd out) in
  let update :=
    Handler.UpdateDoc "timeTracking" (TimeTrackingPage.id editing) in
  fst out = Handler.Returned tt /\
  ((dur <= 0)%Z ->
   snd out
   = (Props.notify (Handler.ToastError "End time must be after start time")
        e, s)) /\
  ((0 < dur)%Z ->
   forall before d after i1 i2 rest,
     F.timeTracking (Handler.store e) = before ++ d :: after ->
     F.tt_id d = TimeTrackingPage.id editing ->
     (forall x, In x before -> F.tt_id x <> TimeTrackingPage.id editing) ->
     Handler.script e = Handler.Accepts i1 :: Handler.Accepts i2 :: rest ->
     (exists d',
         Handler.store e'
         = F.setTimeTracking (before ++ d' :: after) (Handler.store e) /\
         F.tt_id d' = F.tt_id d /\ F.tt_userId d' = F.tt_userId d /\
         F.tt_createdAt d' = F.tt_createdAt d /\
         F.tt_taskId d' = TimeTrackingPage.v_taskId values /\
         F.tt_clientId d' = TimeTrackingPage.v_clientId values /\
         F.tt_startTime d' = Some (TimeTrackingPage.v_startTime values) /\
         F.tt_endTime d' = Some (TimeTrackingPage.v_endTime values) /\
         F.tt_duration d' = Some dur /\
         F.tt_notes d'
         = Some (JS.orString (TimeTrackingPage.v_notes values) "")) /\
     Handler.calls e'
     = Handler.calls e ++ [update; Handler.GetDocs "timeTracking"] /\
     Handler.toasts e'
     = Handler.toasts e
       ++ [Handler.ToastSuccess "Entry updated successfully"] /\
     TimeTrackingView.view s'
     = TimeTrackingView.view (TimeTrackingView.setEditingEntry None s) /\
     TimeTrackingView.page s'
     = Props.refreshed u clock (Handler.store e')
         (TimeTrackingPage.setForm None
            (TimeTrackingPage.setModalVisible false
               (TimeTrackingView.page s)))) /\
  ((0 < dur)%Z ->
   Spec.nextCallFails e \/
   (forall x, In x (F.timeTracking (Handler.store e)) ->
              F.tt_id x <> TimeTrackingPage.id editing) ->
   Handler.store e' = Handler.store e /\
   Handler.calls e' = Handler.calls e ++ [update] /\
   Handler.toasts e'
   = Handler.toasts e ++ [Handler.ToastError "Failed to update entry"] /\
   s' = s).
Proof.
  intros Hediting dur out e' s' update.
  unfold e', s', out, TimeTrackingView.handleModalSubmit,
    TimeTrackingView.handleEditEntry. clear e' s' out.
  destruct e as [db sc ts cs]. fold dur.
  cbv [Handler.bind Handler.getState]. cbn [fst snd]. rewrite Hediting.
  cbv [Handler.bind Handler.getState]. cbn [fst snd]. rewrite Hediting.
  destruct (dur <=? 0)%Z eqn:Hdur.
  - apply Z.leb_le in Hdur. run_handler.
    split; [reflexivity|]. split; [reflexivity|]. split; intros; lia.
  - apply Z.leb_gt in Hdur.
    cbn [Handler.store Handler.script Handler.toasts Handler.calls].
    assert (Hret :
              fst (Handler.tryCatch
                     (Handler.await update
                        (Timer.updateDoc (TimeTrackingPage.id editing)
                           (TimeTrackingView.edited values dur)) ;;;
                      Handler.message
                        (Handler.ToastSuccess "Entry updated successfully") ;;;
                      Handler.setState
                        (TimeTrackingView.setPage
                           (TimeTrackingPage.setModalVisible false)) ;;;
                      Handler.setState
                        (TimeTrackingView.setEditingEntry None) ;;;
                      Handler.setState
                        (TimeTrackingView.setPage
                           (TimeTrackingPage.setForm None)) ;;;
                      TimeTrackingView.onPage
                        (TimeTrackingPage.fetchTimeEntries (Some u) clock))
                     (Handler.message
                        (Handler.ToastError "Failed to update entry"))
                     ({| Handler.store := db; Handler.script := sc;
                         Handler.toasts := ts; Handler.calls := cs |}, s))
              = Handler.Returned tt).
    { run_handler. unfold Timer.updateDoc, TimeTrackingView.onPage.
      cbn [fst snd].
      destruct sc as [|[|i1] sc]; try reflexivity.
      destruct (Timer.updateEntry _ _ _); [|reflexivity].
      cbn [fst snd].
      match goal with
      | |- context [TimeTrackingPage.fetchTimeEntries ?a ?c (?x, ?y)] =>
          destruct (TimeTrackingPage.fetchTimeEntries a c (x, y))
            as [[[]|] [? ?]]
      end; reflexivity. }
    split; [exact Hret|]. clear Hret.
    split; [intros; lia|]. split.
    + intros _ before d after i1 i2 rest Hdocs Hid Hfirst Hscript.
      cbn [Handler.store Handler.script] in Hdocs, Hscript. subst sc.
      run_handler. unfold Timer.updateDoc. rewrite Hdocs.
      rewrite (@updateEntry_first _ (TimeTrackingView.edited values dur)
                 before d after Hfirst Hid).
      cbn [fst snd]. unfold TimeTrackingView.onPage. cbn [fst snd].
      cbn [TimeTrackingView.page TimeTrackingView.setPage
             TimeTrackingView.setEditingEntry TimeTrackingView.view].
      erewrite fetchTimeEntries_accepted by reflexivity.
      cbn [fst snd Handler.store Handler.calls Handler.toasts
             TimeTrackingView.page TimeTrackingView.view].
      split; [|split; [|split; [|split]]].
      * exists (TimeTrackingView.edited values dur d).
        repeat split; reflexivity.
      * rewrite <- List.app_assoc. reflexivity.
      * reflexivity.
      * reflexivity.
      * reflexivity.
    + intros _ Hfail.
      cbn [Handler.store] in Hfail.
      destruct Hfail as [Hfail|Hgone].
      * unfold Spec.nextCallFails in Hfail. cbn [Handler.script] in Hfail.
        destruct sc as [|[|i1] sc]; [| |destruct Hfail];
          run_handler; repeat split; reflexivity.
      * run_handler. unfold Timer.updateDoc.
        rewrite (@updateEntry_missing _ (TimeTrackingView.edited values dur) _ Hgone).
        destruct sc as [|[|i1] sc]; cbn [fst snd];
          repeat split; reflexivity.
Qed.

Lemma edit_entry_keeps_owner_and_place_witness :
  let e := Props.accepting Cases.timeDb ["u"; "q"]%string in
  let editing :=
    TimeTrackingPage.toTimeEntry
      (Cases.entry "e2" "bob" (Some 1699995000000%Z)
         (Some 1699995000000%Z) None None) in
  let out :=
    TimeTrackingView.handleModalSubmit (Some Sample.alice) Sample.clock
      Sample.entryValues (e, Cases.editingPage editing) in
  fst out = Handler.Returned tt /\
  map (fun d => (F.tt_id d, F.tt_userId d, F.tt_duration d))
    (F.timeTracking (Handler.store (fst (snd out))))
  = [("e1", Some "alice", Some 60%Z); ("e2", Some "bob", Some 90%Z);
     ("e3", Some "alice", Some 30%Z); ("e4", Some "alice", Some 45%Z)]%string.
Proof.
  intros e editing out. split.
  - exact (proj1 (@edit_entry_keeps_owner_and_place Sample.alice Sample.clock
                    Sample.entryValues e (Cases.editingPage editing) editing
                    eq_refl)).
  - vm_compute. reflexivity.
Defined.
